(* ===== verification/_CoqProject ===== *)
-Q . S2P
Prelude.v
Binary64.v
PyRuntime.v
Numerals.v
Models.v
Store.v
Planner.v
PlannerScenarios.v
Gamification.v
GamificationScenarios.v
Auth.v
Instances.v
AuthScenarios.v
Subjects.v
SubjectsScenarios.v
Sessions.v
Analytics.v
HeatmapMap.v
AnalyticsScenarios.v
Moods.v
MoodsScenarios.v
OtherRoutes.v
SessionsScenarios.v
Server.v
Width.v
RateLimit.v
Http.v
ServerScenarios.v
HttpScenarios.v
