(* ===== verification/Prelude.v ===== *)
(** * Smart Study Planner: a verification development of [src/app.py]

    The repository is one Flask application, [src/app.py].  Its parts:
    - the SQLAlchemy models [User], [Subject], [Gamification],
      [StudySession], [Reflection], [StudyMood] (lines 36-204), with their
      [to_dict] serialisers and the badge list of [Gamification];
    - the application object (lines 13-32): Flask with CORS, the
      flask-limiter [Limiter] keyed by remote address, and the JWT manager
      with tokens that expire after 30 days; the [@app.route] table and
      the JSON 404 handler;
    - [register] and [login], which create users (with their gamification
      row) and hand out JWT access tokens carrying the e-mail;
    - the JWT-protected request handlers, which read one user row by the
      e-mail carried in the token, touch one or two rows and commit, or
      roll back and answer 500 when anything raises;
    - the weekly plan generator [generate_weekly_plan] (lines 917-980), the
      one algorithm of the program: score every active subject, sort them
      by descending score (stable), and deal them out over Monday to
      Saturday, leaving Sunday empty.

    Files, in dependency order (see [_CoqProject]):
    - [Prelude]: this header, the [study_scope] notations, the [Monad]
      class with its [x <- c ;; k] notation, the Python exception type and
      the exception monad [pyres], the tactics and the [study] hint
      databases, and generic lemmas on lists, filters and [find].
    - [Binary64]: Python's [float] as the rational value it holds:
      [round64] rounds to the nearest binary64 number, ties to even
      (precision 53, subnormals down to [2^-1074]), as Flocq's [round]
      with [FLT_exp]; [py_truediv] is [int / int], [fmul_int] is [float *
      int], [py_round1] is [round(x, 1)] (the decimal rounding of the
      nearest float, then the float of the result), with the monotonicity
      and exactness lemmas the theorems use.
    - [PyRuntime]: what the handlers use of Python itself: JSON values as
      decoded by [request.json], truthiness, [dict.get] and [all()] over
      it, [int()] on JSON values (with the decimal parser of [int(str)]),
      Python's [==] on JSON values ([py_eq], where [1 == True] and dicts
      are equal whatever their key order), [in],
      [type(v).__name__], [str(n)] and [timedelta.days].
      This is the language, not repository code.
    - [Numerals]: the digit loop of [str(n)] again, by well-founded
      recursion with Equations; the fuel of [str_of_Z] is enough, and
      [int(str(n)) = n].
    - [Models]: one Module per ORM class, its row as a Record [t], the
      [to_dict] methods and [Gamification.get_badges]/[add_badge].
    - [Store]: the database as a record of tables (lists of rows in rowid
      order, which is the order SQLite returns them in), the queries the
      handlers issue, [next_id] (SQLite's rowid for [INTEGER PRIMARY
      KEY]), and the handler monad [M]: the [k]-th call of
      [datetime.utcnow()] in a request returns [clock k], the tables are
      threaded as state, and Python exceptions propagate; [run_handler] is
      the [try/except: rollback; return 500] around every handler;
      [reads_only] and its lemmas characterise handlers that write nothing.
      The commit of a gamification row is [commit_gamification]: as
      SQLAlchemy's flush, it issues no [UPDATE] when no column changed
      ([row_unchanged], the badges compared as their [json.dumps] text),
      and otherwise reads the clock for the [onupdate] of [updated_at].
      Every statement binds the integers that come from the request as
      64-bit INTEGERs: [bind_ints] raises [sqlite3]'s [OverflowError]
      for one outside [int64_min, int64_max], and [commit_ok] says when
      the flush of a row binds.  The columns that store a request's JSON
      value as it came go through the typeclass [SqliteDriver]
      ([integer_column], [string_column]): what [sqlite3] binds for the
      Python value and the column's affinity (INTEGER or TEXT) makes of
      it, with the laws the theorems use ([None], [bool], [int] and
      [str] values, and no integer out of range ever stored).
    - [Planner]: the plan generator.  [subject_score] is the key
      function; Section [StableSort] is [sorted(..., reverse=True)] as an
      insertion sort over any total preorder of keys; [distribute] is the
      [enumerate] loop over the seven-day dictionary [empty_plan];
      [generate_weekly_plan] is the whole handler.
    - [Gamification]: [get_gamification], [add_xp], [update_streak],
      [award_badge], [set_mode]; the row invariant [gamif_inv] and the
      relation [reachable] of databases produced by creating rows and
      running those handlers.
    - [Subjects]: [get_subjects], [add_subject] (required fields, [int()]
      of [chapters], [fromisoformat] of the deadline, the new row at
      [next_id]), [update_subject] (the optional fields as a record
      [subject_update] applied to the row) and [delete_subject] (a hard
      [DELETE]), each with an outcome lemma listing every way it can end.
    - [Sessions]: [get_sessions], [record_session] (the row and the
      [total_minutes_studied] update in one commit), [get_reflections],
      [record_reflection]; the minutes law [minutes_ok]; the integers
      each [INSERT] binds ([session_ints], [reflection_ints]).
    - [Analytics]: [get_analytics_summary] (sums, the priority breakdown
      and its division, [round(x, 1)]) and [get_study_heatmap] (the
      dictionary of dictionaries built by its loop, as association lists
      with Python's [d[k] = v]).
    - [HeatmapMap]: the heatmap against a flat stdpp [gmap] from (date,
      hour) to minutes.
    - [Moods]: [record_mood] and [get_moods], with [datetime] arithmetic
      kept at its bounds ([timedelta] up to 999 999 999 days, [datetime]
      within the years 1 to 9999) and werkzeug's [args.get(type=int)].
    - [OtherRoutes]: [get_failure_analytics] up to the attribute lookup
      that makes it fail, [get_sync_status], [api_info].
    - [Auth]: [register], [login], [get_user] and the [@jwt_required()]
      guard [with_token]; werkzeug hashing and flask_jwt_extended tokens
      are the typeclasses [PasswordHasher] and [TokenIssuer], with the laws
      the routes rely on (a hash checks against its password; a token
      decodes to its e-mail from its issue until [JWT_ACCESS_TOKEN_EXPIRES]
      has passed, then gets 401 "Token has expired"), and the client
      theorems are proved against them.
    - [Instances]: one implementation of each interface (tokens carry
      their issue time in clear; the driver converts an integral float
      in an INTEGER column and refuses a list or a dict with
      [InterfaceError]), for the scenario files.
    - [Server]: every route of the file behind one dispatcher [handle], the
      relation [reachable] of databases any sequence of requests produces
      from an empty one, and the invariant [server_inv] they all satisfy,
      one preservation lemma per route; [eventually], what some sequence of
      requests can bring about.
    - [Width]: the invariant [db_ints] (every integer column a request
      fills is a 64-bit integer), one preservation lemma per route, and
      its closure under [Server.reachable].
    - [RateLimit]: flask-limiter's fixed-window counters in a stdpp [gmap]
      (the library's in-memory storage), the check of a route's limits in
      order, and the window invariant behind the bound.
    - [Http]: the request as Flask sees it (method, path, remote address,
      headers, body, query string), werkzeug's URL matching over the
      [@app.route] table with the [<int:...>] converter, the 404 handler
      and the HTML 405/429 pages, flask-cors' headers, the [Bearer] header
      of [@jwt_required()], and [app_step]: route, limiter, token, then
      [Server.handle], over a state of database and limiter storage.
    - [PlannerScenarios], [GamificationScenarios], [SubjectsScenarios],
      [SessionsScenarios], [AnalyticsScenarios], [MoodsScenarios],
      [AuthScenarios], [ServerScenarios], [HttpScenarios]: concrete
      databases and requests, the spec's Scenarios A to E, the runs behind
      the findings, and the witnesses of the theorems with hypotheses.

    Theorems, by group:
    - Ranking (refinement): every list that is a stable sort of the scored
      subjects by descending score equals [rank] of them, so the
      insertion sort computes what CPython's Timsort computes.
    - Distribution (functional, type, safety, bounds): the plan has the
      seven day keys in order; day [i] holds the eligible subjects of rank
      [k] with [k mod 6 = i], in rank order, exhausted subjects still
      taking a rank; Sunday is always empty; the entries are a permutation
      of those of the eligible subjects, so with distinct ids each has
      exactly one and exhausted ones none; every entry has between 1 and
      [chapters_left] chapters and [recommended_duration_mins = 30 *
      chapters].
    - Score (in float arithmetic): an overdue subject outscores the same
      subject due two or more days later, and of two subjects differing
      only in their deadline the one due first never scores lower.
    - Planner handler: read only; 500 for an identity with no user;
      [{'plan': []}] with 200 for a user without active subjects (the spec
      asks for seven empty days); otherwise 201 with the plan of the
      subjects ranked by the scores of one clock reading each.
    - Gamification: the row invariant holds in every reachable database
      (rule induction over [reachable]); [add_xp] sets [level = xp // 100
      + 1] and reports [leveled_up], or answers 500 when [int()] refuses
      the xp or when the new xp leaves the 64-bit range (the
      [OverflowError] of the commit); the flush refreshes [updated_at]
      only when a column changed; the streak is unchanged on the same day, grows after a study
      the day before and restarts at 1 otherwise; awarding a badge twice
      is awarding it once, the second commit writing nothing; the level is at least 1 exactly when the xp is
      not negative.
    - Subjects: [update_subject] and [delete_subject] never touch another
      user's row; subject ids stay distinct through all three writing
      routes; a request missing a required field answers 400 and writes
      nothing; deleting removes exactly the rows of that id; an identity
      with no user makes update and delete answer 500, not 404.
    - Sessions: [record_session] keeps the minutes law; an accepted
      request appends exactly the new row and raises the total by its
      duration; a body [int()] refuses answers 500 and writes nothing;
      [get_sessions] lists the user's sessions and [get_reflections] the
      user's reflections, newest first;
      [record_reflection] with fields the driver binds answers 201 and
      appends exactly its row, under a fresh id, to the user's
      reflections.
    - Analytics: every heatmap cell is the sum of the durations of the
      user's sessions at that date and hour, absent when there is none;
      the nested dictionary is equivalent to the flat [gmap] of cells and
      has no repeated key (equivalence); the cells sum to the user's
      minutes; the summary answers 500 with [ZeroDivisionError] exactly
      when a priority group is non-empty with chapters summing to 0, and
      otherwise 200 with the sums and counts and one breakdown entry per
      priority holding the group's completion percentage; the failure
      analytics route answers 500 whatever the request; the completion
      percentage of a subject whose completed chapters lie between 0 and
      its chapters lies in [0, 100], as every group's [avg_completion].
    - Moods (bounds): [get_moods] answers the user's moods since
      [utcnow() - days], newest first, exactly when [days] and the cutoff
      are within [timedelta]'s and [datetime]'s ranges, and 500 with an
      [OverflowError] otherwise.
    - Auth: register then login with the same credentials succeeds; the
      token [register] returns authenticates the new user on [get_user]
      for 30 days and is refused with 401 after; a taken e-mail answers
      409; [login] never writes and refuses unknown e-mails and wrong
      passwords with 401.
    - Server: every reachable database satisfies [server_inv] (distinct
      e-mails and ids, one well-formed gamification row per user, the
      minutes law, sessions owned by users, distinct subject ids); every
      registered user has its row, and its [total_minutes_studied], the
      sum of its heatmap's cells and the summary's [total_study_minutes]
      are one number (composition of three routes); the e-mail query of
      every protected route finds the user owning the e-mail; from every reachable
      database every registered user can reach any level whose xp
      threshold is a 64-bit integer (liveness, by one [add_xp] request).
    - Width (bounds): in every reachable database every integer column a
      request fills is a 64-bit integer, and no level exceeds
      [int64_max / 100 + 1], so the levels users can reach are exactly
      those up to that bound (with the liveness theorem).
    - HTTP (refinement, safety, roundtrip, bounds, liveness): every
      database the whole application reaches is one [Server.handle]
      reaches; only a request the limiter admits and that is a
      registration or carries a token that decodes writes; the URL and header a client builds for a request reach the
      view with exactly that request; of an address's moods within an hour
      from a quiet moment all but 10 are answered 429, but across a window
      boundary 19 get through in two seconds; every request is served
      again once its counters have expired.
    - Numerals (termination): the fuel [1 + log2 |n|] of [str(n)]'s digit
      loop is enough: [str_of_Z] is the well-founded loop on every integer.

    Modelling choices and bounds:
    - integers are Python's unbounded [int], so [Z] with [Z.div]/[Z.modulo]
      (both floor, as Python's [//] and [%]); the width appears where the
      program meets SQLite: an integer parameter outside [-2^63, 2^63)
      makes the binding raise.  The parameters checked are the values that
      come from requests; row ids and the [user_id] keys copied from rows
      are values SQLite itself produced, in range in every database it can
      hold (a rowid past [2^63 - 1] would take 2^63 inserts);
    - the flush of [record_session] inserts the session before it updates
      the gamification row: SQLAlchemy orders the two tables of one flush
      by their dependencies, neither depends on the other, and the order
      only decides which clock reading each default gets;
    - timestamps are [Z] microseconds since the epoch; [timedelta.days] is
      floor division by 86 400 000 000 microseconds;
    - the score and the percentages are Python floats; each operation is
      modelled as the exact result rounded by [round64].  The exponent is
      unbounded: overflow to [inf] would need a value above [2^1024], and
      every operand is a 64-bit column value or a day count.  Rounding can
      break an exact tie: 1 chapter, hard, low scores [0.30000000000000004]
      and outranks 3 chapters, easy, low at [0.3] ([PlannerScenarios]);
    - the key function calls [datetime.utcnow()] once per subject, and
      every column default reads the clock at the flush: each reading is
      the next value of the request's clock;
    - [ORDER BY date DESC] leaves equal dates unordered; the model puts
      them in rowid order, and the listing theorems hold for any order;
    - every loop of the program is over a finite list; the one fuel of
      the model is the digit loop of [str(n)], given [1 + log2 |n|] steps
      (a number has fewer decimal digits than bits), shown enough in
      [Numerals];
    - the limiter's time is the request's arrival [now], in microseconds;
      the JWT check reads the same [now]; the view reads its own clock;
    - [isoformat()] and [str()] of a JSON value only produce text; they
      are section variables ([isoformat], [py_str]), as are
      [datetime.fromisoformat] ([fromisoformat], [None] for text it
      refuses) and the coercion of a JSON value into a [String] column
      ([text_column]) and [strftime] of a session date ([date_key],
      [hour_key]); the random salt of [generate_password_hash] is an
      input of the request.

    Not modelled: JSON encoding, HEAD and OPTIONS requests (answered by
    Flask itself), the JWT decoding errors other than expiry (left to
    [TokenIssuer]), the 500 error handler (never reached: the views catch
    their own exceptions), the deployment settings (database URI, secret
    key) and the shell context, the conversions of the affinity beyond
    the laws of [SqliteDriver] (a numeric string in an INTEGER column, a
    float in a TEXT column: the theorems hold for every driver, and the
    scenarios' driver leaves those values as they came), concurrent
    requests (each
    request is one transaction run alone), and the aggregate queries of
    the failure analytics route, which are never reached.  The header
    parsing of flask_jwt_extended 4 is modelled for one [Authorization]
    value: its split at commas ([Basic x, Bearer t]) and the
    [IndexError] of an empty field are not.  PyJWT writes [exp] in whole
    seconds; the model's expiry instant is the exact microsecond.
    [args.get(type=int)] accepts ASCII digits only in the model; Python's
    [int()] also accepts other Unicode decimal digits.

    Plan for the next parts: Flask's automatic OPTIONS and HEAD answers
    in [Http], and the JWT decoding errors behind [TokenIssuer]. *)

From Stdlib Require Import String ZArith Lia Bool Sorted Permutation List.
Import ListNotations.

Declare Scope study_scope.
Delimit Scope study_scope with study.

(** ** Python exceptions and the exception monad *)

(** The exception classes the handlers can raise; the payload is the
    message [str(e)] would print. *)
Inductive py_exc : Type :=
| AttributeError (msg : string)
| TypeError (msg : string)
| ValueError (msg : string)
| ZeroDivisionError (msg : string)
| KeyError (msg : string)
| OverflowError (msg : string)
| InterfaceError (msg : string).

(** A computation that returns a value or raises. *)
Inductive pyres (A : Type) : Type :=
| Ok (a : A)
| Raise (e : py_exc).
Arguments Ok {A} a.
Arguments Raise {A} e.

(** The monads of the development: [pyres] here, the handler monad of
    [Store].  One notation serves both. *)
Class Monad (m : Type -> Type) : Type := {
  ret : forall {A}, A -> m A;
  bind : forall {A B}, m A -> (A -> m B) -> m B
}.

Notation "x <- c ;; k" := (bind c (fun x => k))
  (at level 61, c at next level, right associativity) : study_scope.
Notation "' p <- c ;; k" := (bind c (fun x => match x with p => k end))
  (at level 61, p pattern, c at next level, right associativity) : study_scope.

Definition pyres_bind {A B} (r : pyres A) (k : A -> pyres B) : pyres B :=
  match r with
  | Ok a => k a
  | Raise e => Raise e
  end.

#[export] Instance pyres_monad : Monad pyres := {
  ret _ a := Ok a;
  bind _ _ := pyres_bind
}.

(** [x.attr] on a value that may be [None]: Python raises
    [AttributeError] when the object is [None]. *)
Definition attr {A B} (o : option A) (f : A -> B) (what : string) : pyres B :=
  match o with
  | Some a => Ok (f a)
  | None => Raise (AttributeError ("'NoneType' object has no attribute '" ++ what ++ "'"))
  end.

(** The value of an option, or [d]. *)
Definition value_or {A} (d : A) (o : option A) : A :=
  match o with Some a => a | None => d end.

(** ** Tactics and hints *)

Create HintDb study.
Create Rewrite HintDb study_rw.

Ltac inv H := inversion H; subst; clear H.

(** Case on the innermost [match] or [if] of the goal, keeping the equation. *)
Ltac case_match_goal :=
  match goal with
  | |- context [match ?x with _ => _ end] =>
      let E := fresh "E" in destruct x eqn:E
  end.

(** ** Generic lemmas *)

(** A [pyres] computation that returned: the value it returned. *)
Lemma pyres_bind_Ok_inv {A B} (r : pyres A) (k : A -> pyres B) (b : B) :
  bind r k = Ok b -> exists a, r = Ok a /\ k a = Ok b.
Proof. destruct r as [a|e]; simpl; [eauto | discriminate]. Qed.

(** Floor division by a positive constant is monotone. *)
Lemma Z_div_le_mono_pos (a b c : Z) : (0 < c -> a <= b -> a / c <= b / c)%Z.
Proof. intros Hc Hab. apply Z.div_le_mono; lia. Qed.


(** Filtering commutes with permuting. *)
Lemma Permutation_filter_ {A} (f : A -> bool) (l l' : list A) :
  Permutation l l' -> Permutation (filter f l) (filter f l').
Proof.
  induction 1; simpl; try constructor; auto.
  - destruct (f x); auto.
  - destruct (f x), (f y); auto using perm_swap, Permutation_refl.
  - econstructor; eassumption.
Qed.

(** In a list whose keys are distinct, the key of [x] selects [x] alone. *)
Lemma filter_unique_key {A} (f : A -> Z) (P : A -> bool) (l : list A) (x : A) :
  NoDup (map f l) -> In x l -> P x = true ->
  length (filter (fun y => P y && Z.eqb (f y) (f x)) l) = 1%nat.
Proof.
  induction l as [|y l IH]; simpl; intros Hnd Hin HP; [destruct Hin|].
  inversion Hnd as [|? ? Hny Hnd']; subst.
  destruct Hin as [->|Hin].
  - rewrite HP, Z.eqb_refl. simpl. f_equal.
    rewrite (filter_ext_in _ (fun _ => false)), filter_false; [reflexivity|].
    intros z Hz. destruct (Z.eqb_spec (f z) (f x)) as [Heq|]; [|apply andb_false_r].
    exfalso. apply Hny. rewrite <- Heq. now apply in_map.
  - destruct (Z.eqb_spec (f y) (f x)) as [Heq|]; [|rewrite andb_false_r; auto].
    exfalso. apply Hny. rewrite Heq. now apply in_map.
Qed.

(** No element passes the test: nothing is kept. *)
Lemma filter_none {A} (p : A -> bool) (l : list A) :
  (forall z, In z l -> p z = false) -> filter p l = [].
Proof. intros H. rewrite (filter_ext_in _ (fun _ => false)) by exact H. apply filter_false. Qed.

(** Two filters in a row are one filter with both tests. *)
Lemma filter_filter_andb {A} (f g : A -> bool) (l : list A) :
  filter f (filter g l) = filter (fun x => g x && f x) l.
Proof. induction l as [|x l IH]; simpl; [reflexivity|]. destruct (g x); simpl; [destruct (f x); simpl; congruence | exact IH]. Qed.

(** Distinct keys: two members with the same key are the same member. *)
Lemma NoDup_map_same_key {A B} (f : A -> B) (l : list A) (x y : A) :
  NoDup (map f l) -> In x l -> In y l -> f x = f y -> x = y.
Proof.
  induction l as [|z l IH]; simpl; intros Hnd Hx Hy Hf; [destruct Hx|].
  inversion Hnd as [|? ? Hnz Hnd']; subst.
  destruct Hx as [->|Hx], Hy as [->|Hy]; auto.
  - exfalso. apply Hnz. rewrite Hf. now apply in_map.
  - exfalso. apply Hnz. rewrite <- Hf. now apply in_map.
Qed.

(** A list sorted by a relation is sorted by any weaker one. *)
Lemma Sorted_impl {A} (R R' : A -> A -> Prop) (l : list A) :
  (forall a b, R a b -> R' a b) -> Sorted R l -> Sorted R' l.
Proof.
  intros HR. induction 1 as [|x l Hs IH Hhd]; constructor; [exact IH|].
  destruct Hhd; constructor. auto.
Qed.

Lemma find_app {A} (f : A -> bool) (l l' : list A) :
  find f (l ++ l') = match find f l with Some x => Some x | None => find f l' end.
Proof. induction l as [|x l IH]; simpl; [reflexivity|]. destruct (f x); auto. Qed.

Lemma find_none_intro {A} (f : A -> bool) (l : list A) :
  (forall x, In x l -> f x = false) -> find f l = None.
Proof.
  induction l as [|x l IH]; simpl; intros H; [reflexivity|].
  rewrite (H x (or_introl eq_refl)). auto.
Qed.

Lemma NoDup_snoc {A} (l : list A) (x : A) : NoDup l -> ~ In x l -> NoDup (l ++ [x]).
Proof.
  intros Hnd Hx. apply NoDup_app; [exact Hnd | repeat constructor; simpl; tauto |].
  intros y Hy [<-|[]]. contradiction.
Qed.

Lemma find_In_Some {A} (f : A -> bool) (l : list A) (x : A) :
  In x l -> f x = true -> exists y, find f l = Some y.
Proof.
  induction l as [|z l IH]; simpl; [tauto|]. intros [->|Hx] Hf; [rewrite Hf; eauto|].
  destruct (f z); eauto.
Qed.
