(* ===== verification/Binary64.v ===== *)
(** Python floats.  CPython's [float] is an IEEE 754 binary64 number, and
    its arithmetic rounds every result to nearest, ties to even.  A float
    is modelled by its exact value, a rational; an operation computes the
    exact rational result and rounds it with [round64], which follows
    Flocq's [round radix2 (FLT_exp emin prec) ZnearestE]: the exponent of
    the last digit of [x] is [fexp (mag x)] with [mag x] the binade of
    [x] ([2 ^ (mag x - 1) <= |x| < 2 ^ mag x]), 53 digits of precision
    and subnormal spacing [2 ^ -1074].

    The exponent is not bounded above: a result of [2 ^ 1024] or more,
    which CPython turns into [inf] (or an [OverflowError] for [int / int]),
    does not arise in the program: its floats are built from 64-bit
    column values ([Width]) and small constants, and stay far below.

    The Python operations used by [src/app.py]: [a / b] on two ints
    ([py_truediv], correctly rounded as CPython's [long_true_divide]),
    [x * n] of a float by a small int ([fmul_int]), and [round(x, 1)]
    ([py_round1], CPython's [float.__round__]: the exact value of [x]
    rounded half-even to one decimal, then read back as the nearest
    float).  The lemmas are the ones the theorems use: rounding is
    monotone on non-negative values, commutes with halving above 1, keeps
    1, and is compatible with [Qeq]. *)

From Stdlib Require Import ZArith QArith Qround Qabs Qpower Lia Lqa.
Local Open Scope Z_scope.

(** ** Definitions *)

Definition b64_prec : Z := 53.
Definition b64_emin : Z := -1074.

(** The binade of [x <> 0]: [2 ^ (mag x - 1) <= |x| < 2 ^ mag x]. *)
Definition mag (x : Q) : Z :=
  let k := Z.log2 (Z.abs (Qnum x)) - Z.log2 (Zpos (Qden x)) in
  if Qlt_le_dec (Qabs x) (2 ^ k)%Q then k else k + 1.

(** The exponent of the last digit kept in binade [e]. *)
Definition fexp (e : Z) : Z := Z.max (e - b64_prec) b64_emin.

(** The integer nearest to [q], ties to the even one. *)
Definition Znearest_even (q : Q) : Z :=
  let f := Qfloor q in
  match Qcompare (q - inject_Z f) (1 # 2) with
  | Lt => f
  | Gt => f + 1
  | Eq => if Z.even f then f else f + 1
  end.

(** Rounding to binary64, to nearest, ties to even; the result in lowest
    terms. *)
Definition round64 (x : Q) : Q :=
  if Qeq_bool x 0 then 0
  else let e := fexp (mag x) in
       Qred (inject_Z (Znearest_even (x * 2 ^ (- e))) * 2 ^ e)%Q.

(** Python's [a / b] on two ints, [b <> 0]. *)
Definition py_truediv (a b : Z) : Q := round64 (inject_Z a / inject_Z b)%Q.

(** Python's [x * n], a float by an int that converts exactly. *)
Definition fmul_int (x : Q) (n : Z) : Q := round64 (x * inject_Z n)%Q.

(** Python's [round(x, 1)] on a float. *)
Definition py_round1 (x : Q) : Q := round64 (inject_Z (Znearest_even (x * 10)) / 10)%Q.

(** ** Rounding to an integer *)

Lemma Znearest_even_close q :
  (inject_Z (Znearest_even q) - (1 # 2) <= q <= inject_Z (Znearest_even q) + (1 # 2))%Q.
Proof.
  unfold Znearest_even. pose proof (Qfloor_le q) as Hl. pose proof (Qlt_floor q) as Hu.
  set (f := Qfloor q) in *. rewrite inject_Z_plus in Hu. change (inject_Z 1) with 1%Q in Hu.
  destruct (Qcompare_spec (q - inject_Z f) (1 # 2)) as [E|E|E].
  - destruct (Z.even f); rewrite ?inject_Z_plus; change (inject_Z 1) with 1%Q; lra.
  - lra.
  - rewrite inject_Z_plus. change (inject_Z 1) with 1%Q. lra.
Qed.

#[export] Instance Znearest_even_comp : Proper (Qeq ==> eq) Znearest_even.
Proof.
  intros q r E. unfold Znearest_even. rewrite (Qfloor_comp q r E).
  assert (Hc : Qcompare (q - inject_Z (Qfloor r)) (1 # 2) = Qcompare (r - inject_Z (Qfloor r)) (1 # 2))
    by (apply Qcompare_comp; [rewrite E|]; reflexivity).
  now rewrite Hc.
Qed.

Lemma Znearest_even_Z n : Znearest_even (inject_Z n) = n.
Proof.
  unfold Znearest_even. rewrite Qfloor_Z.
  destruct (Qcompare_spec (inject_Z n - inject_Z n) (1 # 2)); [lra | reflexivity | lra].
Qed.

(** Monotone: a larger value never rounds to a smaller integer. *)
Lemma Znearest_even_le q r : (q <= r)%Q -> Znearest_even q <= Znearest_even r.
Proof.
  intros Hqr. destruct (Z.le_gt_cases (Znearest_even q) (Znearest_even r)) as [|Hgt]; [assumption|].
  exfalso. pose proof (Znearest_even_close q) as [Hq _]. pose proof (Znearest_even_close r) as [_ Hr].
  assert (Hz : (inject_Z (Znearest_even r) + 1 <= inject_Z (Znearest_even q))%Q)
    by (change 1%Q with (inject_Z 1); rewrite <- inject_Z_plus, <- Zle_Qle; lia).
  assert (Heq : (q == r)%Q) by lra.
  rewrite Heq in Hgt. lia.
Qed.

Lemma Znearest_even_ge_Z q n : (inject_Z n <= q)%Q -> n <= Znearest_even q.
Proof. intros H. rewrite <- (Znearest_even_Z n) at 1. now apply Znearest_even_le. Qed.

Lemma Znearest_even_le_Z q n : (q <= inject_Z n)%Q -> Znearest_even q <= n.
Proof. intros H. rewrite <- (Znearest_even_Z n). now apply Znearest_even_le. Qed.

(** ** Powers of two *)

Lemma two_neq_0 : ~ (2 == 0)%Q.
Proof. discriminate. Qed.

Lemma pow2_pos e : (0 < 2 ^ e)%Q.
Proof. apply Qpower_0_lt. reflexivity. Qed.

Lemma pow2_plus a b : (2 ^ (a + b) == 2 ^ a * 2 ^ b)%Q.
Proof. apply Qpower_plus, two_neq_0. Qed.

Lemma pow2_Z p : 0 <= p -> (inject_Z (2 ^ p) == 2 ^ p)%Q.
Proof. intros Hp. apply (Zpower_Qpower 2 p Hp). Qed.

Lemma pow2_le a b : a <= b -> (2 ^ a <= 2 ^ b)%Q.
Proof. intros H. apply Qpower_le_compat_l; [exact H | discriminate]. Qed.

Lemma pow2_lt a b : a < b -> (2 ^ a < 2 ^ b)%Q.
Proof. intros H. apply Qpower_lt_compat_l; [exact H | reflexivity]. Qed.

Lemma pow2_le_inv a b : (2 ^ a <= 2 ^ b)%Q -> a <= b.
Proof. intros H. apply (Qpower_le_compat_l_inv 2); [exact H | reflexivity]. Qed.

(** [2 ^ (p - q)] as the quotient of two integer powers. *)
Lemma pow2_diff p q : 0 <= p -> 0 <= q -> (2 ^ (p - q) == inject_Z (2 ^ p) / inject_Z (2 ^ q))%Q.
Proof.
  intros Hp Hq. rewrite (Qpower_minus 2 p q two_neq_0), (pow2_Z p Hp), (pow2_Z q Hq). reflexivity.
Qed.

Lemma frac_le a b c e : 0 < b -> 0 < e -> a * e <= c * b -> (inject_Z a / inject_Z b <= inject_Z c / inject_Z e)%Q.
Proof.
  intros Hb He H. destruct b as [|b|b]; try lia. destruct e as [|e|e]; try lia.
  rewrite <- !Qmake_Qdiv. unfold Qle. simpl. exact H.
Qed.

Lemma frac_lt a b c e : 0 < b -> 0 < e -> a * e < c * b -> (inject_Z a / inject_Z b < inject_Z c / inject_Z e)%Q.
Proof.
  intros Hb He H. destruct b as [|b|b]; try lia. destruct e as [|e|e]; try lia.
  rewrite <- !Qmake_Qdiv. unfold Qlt. simpl. exact H.
Qed.

(** ** The binade *)

Lemma mag_spec x : ~ (x == 0)%Q -> (2 ^ (mag x - 1) <= Qabs x < 2 ^ mag x)%Q.
Proof.
  destruct x as [a d]. intros Hx. unfold mag. cbn [Qnum Qden].
  assert (Ha : a <> 0) by (intros ->; apply Hx; reflexivity).
  assert (Habs : (Qabs (a # d) == inject_Z (Z.abs a) / inject_Z (Zpos d))%Q)
    by (rewrite <- Qmake_Qdiv; reflexivity).
  set (n := Z.abs a) in *. assert (Hn : 0 < n) by lia.
  set (ln := Z.log2 n). set (ld := Z.log2 (Zpos d)).
  destruct (Z.log2_spec n Hn) as [Hn1 Hn2]. destruct (Z.log2_spec (Zpos d) eq_refl) as [Hd1 Hd2].
  fold ln in Hn1, Hn2. fold ld in Hd1, Hd2. rewrite Z.pow_succ_r in Hn2, Hd2 by (apply Z.log2_nonneg).
  pose proof (Z.log2_nonneg n) as Hln. pose proof (Z.log2_nonneg (Zpos d)) as Hld. fold ln ld in Hln, Hld.
  assert (HA : 0 < 2 ^ ln) by (apply Z.pow_pos_nonneg; lia).
  assert (HB : 0 < 2 ^ ld) by (apply Z.pow_pos_nonneg; lia).
  destruct (Qlt_le_dec (Qabs (a # d)) (2 ^ (ln - ld))) as [Hlt|Hge].
  - split; [|exact Hlt]. rewrite Habs.
    replace (ln - ld - 1) with (ln - (ld + 1)) by lia. rewrite pow2_diff by lia.
    apply frac_le; [apply Z.pow_pos_nonneg; lia | lia |].
    rewrite Z.pow_add_r by lia. nia.
  - replace (ln - ld + 1 - 1) with (ln - ld) by lia. split; [exact Hge|]. rewrite Habs.
    replace (ln - ld + 1) with ((ln + 1) - ld) by lia. rewrite pow2_diff by lia.
    apply frac_lt; [lia | apply Z.pow_pos_nonneg; lia |].
    rewrite Z.pow_add_r by lia. nia.
Qed.

Lemma mag_unique x e : (2 ^ (e - 1) <= Qabs x < 2 ^ e)%Q -> mag x = e.
Proof.
  intros [H1 H2].
  assert (Hx : ~ (x == 0)%Q).
  { intros E. rewrite E in H1. pose proof (pow2_pos (e - 1)). simpl in H1. lra. }
  destruct (mag_spec x Hx) as [M1 M2].
  destruct (Z.lt_trichotomy (mag x) e) as [Hlt|[Heq|Hgt]]; [exfalso| exact Heq |exfalso].
  - pose proof (pow2_le (mag x) (e - 1) ltac:(lia)). lra.
  - pose proof (pow2_le e (mag x - 1) ltac:(lia)). lra.
Qed.

Lemma mag_comp x y : ~ (x == 0)%Q -> (x == y)%Q -> mag x = mag y.
Proof. intros Z0 E. symmetry. apply mag_unique. rewrite <- E. apply mag_spec, Z0. Qed.

Lemma mag_le x y : (0 < x)%Q -> (x <= y)%Q -> mag x <= mag y.
Proof.
  intros Hx Hxy.
  destruct (mag_spec x ltac:(intros E; rewrite E in Hx; discriminate)) as [X1 _].
  destruct (mag_spec y ltac:(intros E; rewrite E in Hxy; lra)) as [_ Y2].
  rewrite Qabs_pos in X1 by lra. rewrite Qabs_pos in Y2 by lra.
  destruct (Z.le_gt_cases (mag x) (mag y)) as [|Hgt]; [assumption|].
  pose proof (pow2_le (mag y) (mag x - 1) ltac:(lia)). lra.
Qed.

(** ** Rounding *)

Lemma round64_nz x : ~ (x == 0)%Q ->
  (round64 x == inject_Z (Znearest_even (x * 2 ^ (- fexp (mag x)))) * 2 ^ fexp (mag x))%Q.
Proof.
  intros Hx. unfold round64. destruct (Qeq_bool x 0) eqn:E; [|apply Qred_correct].
  apply Qeq_bool_eq in E. contradiction.
Qed.

#[export] Instance round64_comp : Proper (Qeq ==> Qeq) round64.
Proof.
  intros x y E. destruct (Qeq_dec x 0) as [Z0|Z0].
  - unfold round64. rewrite (Qeq_eq_bool _ _ Z0), (Qeq_eq_bool y 0) by (rewrite <- E; exact Z0).
    reflexivity.
  - assert (Zy : ~ (y == 0)%Q) by (rewrite <- E; exact Z0).
    rewrite (round64_nz x Z0), (round64_nz y Zy), <- (mag_comp x y Z0 E).
    set (e := fexp (mag x)).
    assert (Hs : Znearest_even (x * 2 ^ (- e)) = Znearest_even (y * 2 ^ (- e)))
      by (apply Znearest_even_comp, Qmult_comp; [exact E | reflexivity]).
    rewrite Hs. reflexivity.
Qed.

Lemma round64_nonneg x : (0 <= x)%Q -> (0 <= round64 x)%Q.
Proof.
  intros Hx. destruct (Qeq_dec x 0) as [Z0|Z0]; [unfold round64; now rewrite (Qeq_eq_bool _ _ Z0)|].
  rewrite (round64_nz x Z0). apply Qmult_le_0_compat; [|apply Qlt_le_weak, pow2_pos].
  change 0%Q with (inject_Z 0). rewrite <- Zle_Qle. apply Znearest_even_ge_Z.
  apply Qmult_le_0_compat; [exact Hx | apply Qlt_le_weak, pow2_pos].
Qed.

(** A positive value below [2 ^ m] rounds to at most [2 ^ max m (fexp (mag x))]. *)
Lemma round64_le_pow2 x m : (0 < x)%Q -> (x <= 2 ^ m)%Q -> (round64 x <= 2 ^ Z.max m (fexp (mag x)))%Q.
Proof.
  intros Hx Hm. assert (Z0 : ~ (x == 0)%Q) by (intros E; rewrite E in Hx; discriminate).
  rewrite (round64_nz x Z0). set (e := fexp (mag x)). set (M := Z.max m e).
  assert (HM : (x * 2 ^ (- e) <= inject_Z (2 ^ (M - e)))%Q).
  { rewrite pow2_Z by lia. replace (M - e) with (M + - e) by lia. rewrite pow2_plus.
    apply Qmult_le_compat_r; [|apply Qlt_le_weak, pow2_pos].
    apply (Qle_trans _ _ _ Hm), pow2_le. lia. }
  apply Znearest_even_le_Z in HM. apply (Qle_trans _ (inject_Z (2 ^ (M - e)) * 2 ^ e)).
  - apply Qmult_le_compat_r; [rewrite <- Zle_Qle; exact HM | apply Qlt_le_weak, pow2_pos].
  - rewrite pow2_Z by lia. rewrite <- pow2_plus. replace (M - e + e) with M by lia. apply Qle_refl.
Qed.

(** A value of at least [2 ^ (mag x - 1)] rounds to at least that, when
    the binade keeps all 53 digits. *)
Lemma round64_ge_binade x : (0 < x)%Q -> b64_emin < fexp (mag x) -> (2 ^ (mag x - 1) <= round64 x)%Q.
Proof.
  intros Hx Hn. assert (Z0 : ~ (x == 0)%Q) by (intros E; rewrite E in Hx; discriminate).
  destruct (mag_spec x Z0) as [X1 _]. rewrite Qabs_pos in X1 by lra.
  rewrite (round64_nz x Z0). set (e := fexp (mag x)) in *.
  assert (He : e = mag x - 53) by (unfold e, fexp, b64_prec, b64_emin in *; lia).
  assert (H52 : (inject_Z (2 ^ 52) <= x * 2 ^ (- e))%Q).
  { rewrite pow2_Z by lia. replace 52 with (mag x - 1 + - e) by lia. rewrite pow2_plus.
    apply Qmult_le_compat_r; [exact X1 | apply Qlt_le_weak, pow2_pos]. }
  apply Znearest_even_ge_Z in H52. apply (Qle_trans _ (inject_Z (2 ^ 52) * 2 ^ e)).
  - rewrite pow2_Z by lia. rewrite <- pow2_plus. replace (52 + e) with (mag x - 1) by lia. apply Qle_refl.
  - apply Qmult_le_compat_r; [rewrite <- Zle_Qle; exact H52 | apply Qlt_le_weak, pow2_pos].
Qed.

(** Rounding is monotone on non-negative values. *)
Lemma round64_le x y : (0 <= x)%Q -> (x <= y)%Q -> (round64 x <= round64 y)%Q.
Proof.
  intros Hx Hxy. destruct (Qeq_dec x 0) as [Z0|Z0].
  - unfold round64 at 1. rewrite (Qeq_eq_bool _ _ Z0). apply round64_nonneg. lra.
  - assert (Px : (0 < x)%Q) by (apply Qle_lteq in Hx as [|E]; [assumption | symmetry in E; contradiction]).
    assert (Py : (0 < y)%Q) by lra. assert (Zy : ~ (y == 0)%Q) by (intros E; rewrite E in Py; discriminate).
    pose proof (mag_le x y Px Hxy) as Hm.
    destruct (Z.eq_dec (fexp (mag x)) (fexp (mag y))) as [Ee|Ne].
    + rewrite (round64_nz x Z0), (round64_nz y Zy), Ee.
      apply Qmult_le_compat_r; [|apply Qlt_le_weak, pow2_pos]. rewrite <- Zle_Qle.
      apply Znearest_even_le, Qmult_le_compat_r; [exact Hxy | apply Qlt_le_weak, pow2_pos].
    + assert (Hlt : fexp (mag x) < fexp (mag y)) by (unfold fexp in *; lia).
      assert (Hy : b64_emin < fexp (mag y)) by (unfold fexp, b64_emin in *; lia).
      destruct (mag_spec x Z0) as [_ X2]. rewrite Qabs_pos in X2 by lra.
      apply (Qle_trans _ _ _ (round64_le_pow2 x (mag x) Px (Qlt_le_weak _ _ X2))).
      apply (Qle_trans _ (2 ^ (mag y - 1))); [apply pow2_le; unfold fexp, b64_prec, b64_emin in *; lia|].
      now apply round64_ge_binade.
Qed.

(** Halving commutes with rounding, away from the subnormals. *)
Lemma round64_half x : ~ (x == 0)%Q -> -1020 <= mag x -> (round64 (x * (1 # 2)) == round64 x * (1 # 2))%Q.
Proof.
  intros Z0 Hm. assert (Zh : ~ (x * (1 # 2) == 0)%Q) by (intros E; apply Z0; lra).
  assert (Hmag : mag (x * (1 # 2)) = mag x - 1).
  { apply mag_unique. destruct (mag_spec x Z0) as [X1 X2].
    rewrite Qabs_Qmult. change (Qabs (1 # 2)) with (1 # 2).
    pose proof (pow2_plus (mag x - 1 - 1) 1) as P1. replace (mag x - 1 - 1 + 1) with (mag x - 1) in P1 by lia.
    pose proof (pow2_plus (mag x - 1) 1) as P2. replace (mag x - 1 + 1) with (mag x) in P2 by lia.
    change (2 ^ 1)%Q with 2%Q in P1, P2. lra. }
  rewrite (round64_nz _ Zh), (round64_nz x Z0), Hmag.
  assert (Hf : fexp (mag x - 1) = fexp (mag x) - 1) by (unfold fexp, b64_prec, b64_emin; lia).
  rewrite Hf. set (e := fexp (mag x)).
  assert (Hs : (x * (1 # 2) * 2 ^ (- (e - 1)) == x * 2 ^ (- e))%Q).
  { replace (- (e - 1)) with (- e + 1) by lia. rewrite pow2_plus. change (2 ^ 1)%Q with 2%Q. ring. }
  rewrite Hs. replace (e - 1) with (e + - 1) by lia. rewrite pow2_plus. change (2 ^ (-1))%Q with (1 # 2). ring.
Qed.

Lemma round64_one : (round64 1 == 1)%Q.
Proof. vm_compute. reflexivity. Qed.

Lemma round64_ge_1 x : (1 <= x)%Q -> (1 <= round64 x)%Q.
Proof. intros H. rewrite <- round64_one at 1. apply round64_le; [discriminate | exact H]. Qed.

Lemma round64_half_ge_1 x : (1 <= x)%Q -> (round64 (x * (1 # 2)) == round64 x * (1 # 2))%Q.
Proof.
  intros H. assert (Z0 : ~ (x == 0)%Q) by (intros E; lra).
  apply round64_half; [exact Z0|]. destruct (mag_spec x Z0) as [_ X2].
  rewrite Qabs_pos in X2 by lra. change 1%Q with (2 ^ 0)%Q in H.
  pose proof (pow2_le_inv 0 (mag x) (Qlt_le_weak _ _ (Qle_lt_trans _ _ _ H X2))). lia.
Qed.

Lemma fmul_int_le x y n : (0 <= x)%Q -> (x <= y)%Q -> 0 <= n -> (fmul_int x n <= fmul_int y n)%Q.
Proof.
  intros Hx Hxy Hn. unfold fmul_int. assert (Hn' : (0 <= inject_Z n)%Q) by (change 0%Q with (inject_Z 0); rewrite <- Zle_Qle; lia).
  apply round64_le; [now apply Qmult_le_0_compat | now apply Qmult_le_compat_r].
Qed.

Lemma fmul_int_nonneg x n : (0 <= x)%Q -> 0 <= n -> (0 <= fmul_int x n)%Q.
Proof.
  intros Hx Hn. apply round64_nonneg, Qmult_le_0_compat; [exact Hx | change 0%Q with (inject_Z 0); rewrite <- Zle_Qle; lia].
Qed.

Lemma fmul_int_ge_1 x n : (1 <= x)%Q -> 1 <= n -> (1 <= fmul_int x n)%Q.
Proof.
  intros Hx Hn. apply round64_ge_1. assert (Hn' : (1 <= inject_Z n)%Q) by (change 1%Q with (inject_Z 1); rewrite <- Zle_Qle; lia).
  apply (Qle_trans _ (1 * 1)); [discriminate|]. apply Qmult_le_compat_nonneg; lra.
Qed.

(** Multiplying half a float by [n] gives half the product. *)
Lemma fmul_int_half x n : (1 <= x)%Q -> 1 <= n -> (fmul_int (x * (1 # 2)) n == fmul_int x n * (1 # 2))%Q.
Proof.
  intros Hx Hn. unfold fmul_int. assert (Hn' : (1 <= inject_Z n)%Q) by (change 1%Q with (inject_Z 1); rewrite <- Zle_Qle; lia).
  rewrite <- round64_half_ge_1 by (apply (Qle_trans _ (1 * 1)); [discriminate | apply Qmult_le_compat_nonneg; lra]).
  apply round64_comp. ring.
Qed.

Lemma frac_nonneg a b : 0 <= a -> 0 < b -> (0 <= inject_Z a / inject_Z b)%Q.
Proof. intros Ha Hb. destruct b as [|b|b]; try lia. rewrite <- Qmake_Qdiv. unfold Qle. simpl. lia. Qed.

Lemma py_truediv_nonneg a b : 0 <= a -> 0 < b -> (0 <= py_truediv a b)%Q.
Proof. intros Ha Hb. now apply round64_nonneg, frac_nonneg. Qed.

(** [a / b] with [0 <= a <= b]: a float between 0 and 1. *)
Lemma py_truediv_le_1 a b : 0 <= a -> a <= b -> 0 < b -> (py_truediv a b <= 1)%Q.
Proof.
  intros Ha Hab Hb. unfold py_truediv. rewrite <- round64_one. apply round64_le.
  - destruct b as [|b|b]; try lia. rewrite <- Qmake_Qdiv. unfold Qle. simpl. lia.
  - destruct b as [|b|b]; try lia. rewrite <- Qmake_Qdiv. unfold Qle. simpl. lia.
Qed.

Lemma py_round1_le x y : (0 <= x)%Q -> (x <= y)%Q -> (py_round1 x <= py_round1 y)%Q.
Proof.
  intros Hx Hxy. unfold py_round1. apply round64_le.
  - apply Qle_shift_div_l; [reflexivity|]. rewrite Qmult_0_l.
    change 0%Q with (inject_Z 0). rewrite <- Zle_Qle. apply Znearest_even_ge_Z.
    change (inject_Z 0) with 0%Q. apply Qmult_le_0_compat; [exact Hx | discriminate].
  - apply Qmult_le_compat_r; [|discriminate]. rewrite <- Zle_Qle.
    apply Znearest_even_le, Qmult_le_compat_r; [exact Hxy | discriminate].
Qed.

Lemma py_round1_nonneg x : (0 <= x)%Q -> (0 <= py_round1 x)%Q.
Proof.
  intros Hx. apply (Qle_trans _ (py_round1 0)); [vm_compute; discriminate | now apply py_round1_le].
Qed.
