(* ===== verification/PyRuntime.v ===== *)
(** The part of Python the handlers of [src/app.py] rely on: JSON values as
    [request.json] decodes them, truthiness ([if not data.get(k)]),
    [dict.get] with and without a default, [int()] applied to a JSON value
    (including the decimal parser CPython uses for [int(str)] on ASCII
    input), and the [datetime] arithmetic on microsecond timestamps.  It
    models the language, not repository code. *)

From Stdlib Require Import List ZArith QArith Qround Lia String Ascii Bool.
From S2P Require Import Prelude Binary64.
Import ListNotations.
Local Open Scope Z_scope.
Local Open Scope study_scope.
Local Set Warnings "-register-all".


(** ** JSON values *)

(** A value of [json.loads]: objects keep their key/value pairs in
    document order. *)
Inductive json : Type :=
| JNull
| JBool (b : bool)
| JInt (z : Z)
| JFloat (q : Q)
| JStr (s : string)
| JList (l : list json)
| JObj (kvs : list (string * json)).

(** Python truthiness of a JSON value. *)
Definition truthy (v : json) : bool :=
  match v with
  | JNull => false
  | JBool b => b
  | JInt z => negb (z =? 0)
  | JFloat q => negb (Qeq_bool q 0)
  | JStr s => negb (String.eqb s "")
  | JList l => negb (List.length l =? 0)%nat
  | JObj kvs => negb (List.length kvs =? 0)%nat
  end.

(** [truthy] lifted to the result of [dict.get]: a missing key is [None]. *)
Definition truthy_opt (o : option json) : bool :=
  match o with Some v => truthy v | None => false end.

(** [dict[k]] of a dictionary built by [json.loads]: a duplicated key keeps
    its last value. *)
Fixpoint dict_lookup (kvs : list (string * json)) (k : string) : option json :=
  match kvs with
  | [] => None
  | (k', v) :: rest =>
      match dict_lookup rest k with
      | Some v' => Some v'
      | None => if String.eqb k k' then Some v else None
      end
  end.

(** [data.get(k)]: [data] is whatever [request.json] returned; anything
    but an object has no [get] method. *)
Definition py_get (data : json) (k : string) : pyres (option json) :=
  match data with
  | JObj kvs => Ok (dict_lookup kvs k)
  | _ => Raise (AttributeError "object has no attribute 'get'")
  end.

(** [all(data.get(field) for field in fields)], which stops at the
    first falsy value. *)
Fixpoint all_present (data : json) (fields : list string) : pyres bool :=
  match fields with
  | [] => Ok true
  | f :: fs => v <- py_get data f ;; if truthy_opt v then all_present data fs else Ok false
  end.

(** [data.get(k, default)]. *)
Definition py_get_default (data : json) (k : string) (d : json) : pyres json :=
  o <- py_get data k ;;
  Ok (match o with Some v => v | None => d end).

(** ** [==], [in] and [round] *)

(** The numeric value of a JSON number ([True == 1] in Python). *)
Definition num_of (v : json) : option Q :=
  match v with
  | JBool b => Some (if b then 1%Q else 0%Q)
  | JInt z => Some (inject_Z z)
  | JFloat q => Some q
  | _ => None
  end.

(** The keys of a dictionary [json.loads] built, each once. *)
Definition dict_keys (kvs : list (string * json)) : list string := nodup string_dec (map fst kvs).

(** Every key of the dictionary [l], with its last value, is a key of [m]
    whose value [eqv] accepts. *)
Fixpoint dict_within (eqv : json -> json -> bool) (m l : list (string * json)) : bool :=
  match l with
  | [] => true
  | (k, x) :: rest =>
      match dict_lookup rest k with
      | Some _ => dict_within eqv m rest
      | None => match dict_lookup m k with Some y => eqv x y | None => false end && dict_within eqv m rest
      end
  end.

(** [a == b] on JSON values.  Two dictionaries are equal when they have
    as many keys and each key of the first, with its last value, is a key
    of the second with an equal value: key order does not matter. *)
Fixpoint py_eq (a b : json) : bool :=
  match a, b with
  | JNull, JNull => true
  | JStr s, JStr t => String.eqb s t
  | JList l, JList m =>
      (fix eql (l m : list json) : bool :=
         match l, m with
         | [], [] => true
         | x :: l', y :: m' => py_eq x y && eql l' m'
         | _, _ => false
         end) l m
  | JObj l, JObj m =>
      dict_within py_eq m l && Nat.eqb (List.length (dict_keys l)) (List.length (dict_keys m))
  | _, _ =>
      match num_of a, num_of b with
      | Some p, Some q => Qeq_bool p q
      | _, _ => false
      end
  end.

(** [x in l]. *)
Definition py_in (x : json) (l : list json) : bool := existsb (py_eq x) l.

(** Whether [json.dumps] writes the same text for two values: the same
    constructors, numbers of the same kind and value ([1], [1.0] and
    [true] are three texts), object keys in the same order. *)
Fixpoint json_same (a b : json) : bool :=
  match a, b with
  | JNull, JNull => true
  | JBool b1, JBool b2 => Bool.eqb b1 b2
  | JInt i, JInt j => Z.eqb i j
  | JFloat p, JFloat q => Qeq_bool p q
  | JStr s, JStr t => String.eqb s t
  | JList l, JList m =>
      (fix eql (l m : list json) : bool :=
         match l, m with
         | [], [] => true
         | x :: l', y :: m' => json_same x y && eql l' m'
         | _, _ => false
         end) l m
  | JObj l, JObj m =>
      (fix eqo (l m : list (string * json)) : bool :=
         match l, m with
         | [], [] => true
         | (k, x) :: l', (k', y) :: m' => String.eqb k k' && json_same x y && eqo l' m'
         | _, _ => false
         end) l m
  | _, _ => false
  end.

(** [json.dumps(l) == json.dumps(m)] for two lists. *)
Fixpoint json_list_same (l m : list json) : bool :=
  match l, m with
  | [], [] => true
  | x :: l', y :: m' => json_same x y && json_list_same l' m'
  | _, _ => false
  end.

(** [k in data] for the body of a request: a key of an object, a member of
    a list, a substring of a string; any other value is not iterable. *)
Definition py_contains (data : json) (k : string) : pyres bool :=
  match data with
  | JObj kvs => Ok (match dict_lookup kvs k with Some _ => true | None => false end)
  | JList l => Ok (existsb (py_eq (JStr k)) l)
  | JStr s => Ok (match String.index 0 k s with Some _ => true | None => false end)
  | _ => Raise (TypeError "argument of type is not iterable")
  end.

(** [data[k]]: only an object has string keys; [str()] of a [KeyError]
    is the [repr] of the key. *)
Definition py_index (data : json) (k : string) : pyres json :=
  match data with
  | JObj kvs =>
      match dict_lookup kvs k with Some v => Ok v | None => Raise (KeyError ("'" ++ k ++ "'")%string) end
  | _ => Raise (TypeError "indices must be integers")
  end.

(** ** [int()] *)

(** Characters [str.strip] and [int()] skip: ASCII whitespace and the
    separators [\x1c]..[\x1f]. *)
Definition is_space (c : ascii) : bool :=
  let n := nat_of_ascii c in
  ((9 <=? n) && (n <=? 13) || (28 <=? n) && (n <=? 32))%nat.

Definition is_digit (c : ascii) : bool :=
  let n := nat_of_ascii c in ((48 <=? n) && (n <=? 57))%nat.

Definition digit_value (c : ascii) : Z := Z.of_nat (nat_of_ascii c) - 48.

Fixpoint drop_spaces (l : list ascii) : list ascii :=
  match l with
  | c :: l' => if is_space c then drop_spaces l' else l
  | [] => []
  end.

(** Digits with single underscores between them; [after_digit] says the
    previous character was a digit. *)
Fixpoint parse_digits (l : list ascii) (acc : Z) (after_digit : bool) : option Z :=
  match l with
  | [] => if after_digit then Some acc else None
  | c :: l' =>
      if is_digit c then parse_digits l' (acc * 10 + digit_value c) true
      else if (Ascii.eqb c "_" && after_digit)%bool then parse_digits l' acc false
      else None
  end.

(** [int(s)] for an ASCII string [s], in base 10. *)
Definition parse_int (s : string) : option Z :=
  let l := rev (drop_spaces (rev (drop_spaces (list_ascii_of_string s)))) in
  match l with
  | "-"%char :: l' => option_map Z.opp (parse_digits l' 0 false)
  | "+"%char :: l' => parse_digits l' 0 false
  | _ => parse_digits l 0 false
  end.

(** The decimal digits of [n >= 0] in front of [acc]; [fuel] bounds the
    number of digits. *)
Fixpoint digits_of (fuel : nat) (n : Z) (acc : string) : string :=
  match fuel with
  | O => acc
  | S f =>
      let acc' := String (ascii_of_nat (48 + Z.to_nat (n mod 10))) acc in
      if n <? 10 then acc' else digits_of f (n / 10) acc'
  end.

(** [str(n)] for a Python int: a number has fewer decimal digits than
    bits, so [1 + log2 n] steps are enough. *)
Definition str_of_Z (n : Z) : string :=
  if n <? 0 then "-" ++ digits_of (S (Z.to_nat (Z.log2 (- n)))) (- n) ""
  else digits_of (S (Z.to_nat (Z.log2 n))) n "".

(** [int(v)] for a JSON value: floats truncate toward zero, booleans are
    0 and 1, strings are parsed, anything else is a [TypeError]. *)
Definition py_int (v : json) : pyres Z :=
  match v with
  | JInt z => Ok z
  | JBool b => Ok (if b then 1 else 0)
  | JFloat q => Ok (Z.quot (Qnum q) (Zpos (Qden q)))
  | JStr s =>
      match parse_int s with
      | Some z => Ok z
      | None => Raise (ValueError ("invalid literal for int() with base 10: '" ++ s ++ "'"))
      end
  | _ => Raise (TypeError "int() argument must be a string, a bytes-like object or a real number")
  end.

(** [type(v).__name__] of a JSON value. *)
Definition py_type_name (v : json) : string :=
  match v with
  | JNull => "NoneType" | JBool _ => "bool" | JInt _ => "int" | JFloat _ => "float"
  | JStr _ => "str" | JList _ => "list" | JObj _ => "dict"
  end.

(** ** [datetime] *)

(** Timestamps are microseconds since the epoch. *)
Definition usec_per_day : Z := 86400000000.

(** [(t1 - t2).days]: [timedelta] normalises to [0 <= seconds < 86400],
    so [.days] is the floor of the difference in days. *)
Definition timedelta_days (t1 t2 : Z) : Z := (t1 - t2) / usec_per_day.

(** [t.date()], as a day number. *)
Definition date_of (t : Z) : Z := t / usec_per_day.
