(* ===== verification/Numerals.v ===== *)
(** Decimal numerals: Python's [str(n)] and [int(s)] on integers.

    [PyRuntime.str_of_Z] runs the digit loop with fuel [1 + log2 n].  Here
    the same loop is defined by well-founded recursion on [n] with
    Equations ([digits_wf], which needs no fuel), and the fuel is shown to
    be enough: [str_of_Z] is the well-founded loop on every integer.  The
    numeral is then shown to parse back, [int(str(n)) = n], which the URL
    converter [<int:subject_id>] and the JWT scenarios rely on. *)

From Stdlib Require Import String Ascii ZArith Lia Bool List.
From Equations Require Import Equations.
From S2P Require Import Prelude PyRuntime.
Import ListNotations.
Local Open Scope Z_scope.

(** [inspect a] packs [a] with the equation that names it, so a [with]
    clause keeps the test it branches on. *)
Definition inspect {A} (a : A) : {b | a = b} := exist _ a eq_refl.

(** The character of the last digit of [n >= 0]. *)
Definition digit_char (n : Z) : ascii := ascii_of_nat (48 + Z.to_nat (n mod 10)).

(** The digit loop of [str(n)] for [n >= 0], without fuel: the recursive
    call is on [n / 10 < n]. *)
Equations? digits_wf (n : Z) (acc : string) : string by wf (Z.to_nat n) lt :=
  digits_wf n acc with inspect (n <? 10) := {
    | exist _ true _ := String (digit_char n) acc;
    | exist _ false E := digits_wf (n / 10) (String (digit_char n) acc) }.
Proof.
  apply Z.ltb_ge in E. apply Z2Nat.inj_lt; [apply Z.div_pos; lia | lia |].
  apply Z.div_lt; lia.
Qed.

(** [str(n)] for every integer, through the well-founded loop. *)
Definition str_wf (n : Z) : string :=
  if n <? 0 then ("-" ++ digits_wf (- n) "")%string else digits_wf n "".

(** The digits [digits_wf] puts in front of its accumulator. *)
Equations? digit_list (n : Z) : list ascii by wf (Z.to_nat n) lt :=
  digit_list n with inspect (n <? 10) := {
    | exist _ true _ := [digit_char n];
    | exist _ false E := digit_list (n / 10) ++ [digit_char n] }.
Proof.
  apply Z.ltb_ge in E. apply Z2Nat.inj_lt; [apply Z.div_pos; lia | lia |].
  apply Z.div_lt; lia.
Qed.

(** ** The fuel of [str_of_Z] is enough *)

(** The loop's equations without [inspect]. *)
Lemma digits_wf_step n acc :
  digits_wf n acc =
  if n <? 10 then String (digit_char n) acc else digits_wf (n / 10) (String (digit_char n) acc).
Proof. rewrite digits_wf_equation_1. destruct (inspect (n <? 10)) as [[|] Eb]; simpl; now rewrite Eb. Qed.

Lemma digit_list_step n :
  digit_list n = if n <? 10 then [digit_char n] else digit_list (n / 10) ++ [digit_char n].
Proof. rewrite digit_list_equation_1. destruct (inspect (n <? 10)) as [[|] Eb]; simpl; now rewrite Eb. Qed.

Lemma digits_of_wf fuel n acc :
  0 <= n < 2 ^ Z.of_nat (S fuel) -> digits_of (S fuel) n acc = digits_wf n acc.
Proof.
  revert n acc. induction fuel as [|f IH]; intros n acc Hn;
    cbn [digits_of]; rewrite digits_wf_step; fold (digit_char n).
  - replace (n <? 10) with true; [reflexivity|]. simpl in Hn. symmetry. apply Z.ltb_lt. lia.
  - destruct (n <? 10) eqn:E; [reflexivity|].
    apply Z.ltb_ge in E. apply IH. split; [apply Z.div_pos; lia|].
    rewrite Nat2Z.inj_succ, Z.pow_succ_r in Hn by lia.
    assert (n / 10 <= n / 2) by (apply Z.div_le_compat_l; lia).
    assert (n / 2 < 2 ^ Z.of_nat (S f)) by (apply Z.div_lt_upper_bound; lia). lia.
Qed.

Lemma log2_fuel n : 0 <= n -> n < 2 ^ Z.of_nat (S (Z.to_nat (Z.log2 n))).
Proof.
  intros Hn. rewrite Nat2Z.inj_succ, Z2Nat.id by apply Z.log2_nonneg.
  destruct (Z.eq_dec n 0) as [->|Hne]; [reflexivity|].
  apply Z.log2_spec. lia.
Qed.

(** ** Digits *)

Lemma digit_char_digit n : is_digit (digit_char n) = true.
Proof.
  unfold digit_char, is_digit.
  assert (0 <= n mod 10 < 10) by (apply Z.mod_pos_bound; lia).
  rewrite nat_ascii_embedding by lia. apply andb_true_intro. split; apply Nat.leb_le; lia.
Qed.

Lemma digit_value_char n : digit_value (digit_char n) = n mod 10.
Proof.
  unfold digit_value, digit_char.
  assert (0 <= n mod 10 < 10) by (apply Z.mod_pos_bound; lia).
  rewrite nat_ascii_embedding by lia. lia.
Qed.

Lemma digits_wf_list n acc :
  0 <= n -> list_ascii_of_string (digits_wf n acc) = digit_list n ++ list_ascii_of_string acc.
Proof.
  funelim (digits_wf n acc); intros Hn.
  - rewrite digit_list_step, e. reflexivity.
  - rewrite digit_list_step, E. simpl.
    rewrite H by (apply Z.div_pos; lia).
    now rewrite <- app_assoc.
Qed.

Lemma digit_list_digits n : Forall (fun c => is_digit c = true) (digit_list n).
Proof.
  funelim (digit_list n).
  - repeat constructor. apply digit_char_digit.
  - apply Forall_app. split; [assumption|]. repeat constructor. apply digit_char_digit.
Qed.

Lemma digit_list_cons n : exists c l, digit_list n = c :: l.
Proof.
  funelim (digit_list n); [now do 2 eexists|].
  destruct H as (c & l & ->). now do 2 eexists.
Qed.

Lemma parse_digits_app l l' acc b :
  l <> [] -> Forall (fun c => is_digit c = true) l ->
  parse_digits (l ++ l') acc b =
  parse_digits l' (fold_left (fun a c => a * 10 + digit_value c) l acc) true.
Proof.
  revert acc b. induction l as [|c l IH]; intros acc b Hne Hd; [contradiction|].
  inversion Hd as [|? ? Hc Hl]; subst. simpl. rewrite Hc.
  destruct l as [|c' l'']; [reflexivity|]. apply IH; [discriminate|assumption].
Qed.

Lemma digit_list_value n :
  0 <= n -> fold_left (fun a c => a * 10 + digit_value c) (digit_list n) 0 = n.
Proof.
  funelim (digit_list n); intros Hn.
  - simpl. rewrite digit_value_char. pose proof (proj1 (Z.ltb_lt _ _) e). rewrite Z.mod_small; lia.
  - rewrite fold_left_app, H by (apply Z.div_pos; lia). simpl.
    rewrite digit_value_char. pose proof (Z.div_mod n 10). lia.
Qed.

Lemma digits_no_space l :
  Forall (fun c => is_digit c = true) l -> drop_spaces l = l.
Proof.
  intros Hd. destruct Hd as [|c l Hc _]; [reflexivity|]. simpl.
  replace (is_space c) with false; [reflexivity|]. unfold is_digit, is_space in *.
  apply andb_prop in Hc as [H1 H2]. apply Nat.leb_le in H1, H2.
  symmetry. apply orb_false_intro; apply andb_false_intro2 + apply andb_false_intro1;
    apply Nat.leb_gt; lia.
Qed.

Lemma parse_digit_list n : 0 <= n -> parse_digits (digit_list n) 0 false = Some n.
Proof.
  intros Hn. destruct (digit_list_cons n) as (c & l & E).
  rewrite <- (app_nil_r (digit_list n)), parse_digits_app.
  - simpl. now rewrite digit_list_value.
  - now rewrite E.
  - apply digit_list_digits.
Qed.

Lemma digit_not_space c : is_digit c = true -> is_space c = false.
Proof.
  unfold is_digit, is_space. intros Hc.
  apply andb_prop in Hc as [H1 H2]. apply Nat.leb_le in H1, H2.
  apply orb_false_intro; apply andb_false_intro2 + apply andb_false_intro1; apply Nat.leb_gt; lia.
Qed.

Lemma drop_spaces_head c l : is_space c = false -> drop_spaces (c :: l) = c :: l.
Proof. intros Hc. simpl. now rewrite Hc. Qed.

(** A numeral has no surrounding white space to strip. *)
Lemma strip_numeral L x :
  L <> [] -> (forall c l, L = c :: l -> is_space c = false) -> is_space x = false ->
  (exists l, L = l ++ [x]) -> rev (drop_spaces (rev (drop_spaces L))) = L.
Proof.
  intros Hne Hhd Hx (l & El). destruct L as [|c l0]; [contradiction|].
  rewrite drop_spaces_head by (now apply (Hhd c l0)). rewrite El, rev_app_distr. cbn [rev app].
  rewrite drop_spaces_head by assumption. simpl. now rewrite rev_involutive.
Qed.

(** [int()] of a string whose first character is a digit. *)
Lemma parse_int_unsigned s c l :
  is_digit c = true -> list_ascii_of_string s = c :: l ->
  rev (drop_spaces (rev (drop_spaces (c :: l)))) = c :: l ->
  parse_int s = parse_digits (c :: l) 0 false.
Proof.
  intros Hc Es Hs. unfold parse_int. rewrite Es, Hs.
  destruct c as [[] [] [] [] [] [] [] []]; try discriminate; reflexivity.
Qed.

Lemma digit_list_last n : exists l, digit_list n = l ++ [digit_char n].
Proof. rewrite digit_list_step. destruct (n <? 10); [now exists []|now eexists]. Qed.

Lemma digit_char_not_space n : is_space (digit_char n) = false.
Proof. apply digit_not_space, digit_char_digit. Qed.

Lemma numeral_chars n :
  0 <= n -> list_ascii_of_string (digits_wf n "") = digit_list n.
Proof. intros Hn. now rewrite digits_wf_list, app_nil_r. Qed.

(** The fuel of [str_of_Z] is enough on every integer. *)
Lemma str_of_Z_wf n : str_of_Z n = str_wf n.
Proof.
  unfold str_of_Z, str_wf. destruct (n <? 0) eqn:E.
  - apply Z.ltb_lt in E. now rewrite digits_of_wf by (split; [lia | apply log2_fuel; lia]).
  - apply Z.ltb_ge in E. now rewrite digits_of_wf by (split; [lia | apply log2_fuel; lia]).
Qed.

(** [int(str(n)) = n]: the numeral [str] prints (with a [-] for
    negatives) parses back to [n]. *)
Lemma parse_int_str_of_Z n : parse_int (str_of_Z n) = Some n.
Proof.
  rewrite str_of_Z_wf. unfold str_wf. destruct (n <? 0) eqn:E.
  - apply Z.ltb_lt in E. unfold parse_int.
    change (list_ascii_of_string ("-" ++ digits_wf (- n) "")%string)
      with ("-"%char :: list_ascii_of_string (digits_wf (- n) "")).
    rewrite numeral_chars by lia. destruct (digit_list_last (- n)) as (l & El).
    rewrite strip_numeral with (x := digit_char (- n)).
    + rewrite parse_digit_list by lia. simpl. f_equal. lia.
    + discriminate.
    + now intros c l' [= <- _].
    + apply digit_char_not_space.
    + exists ("-"%char :: l). now rewrite El.
  - apply Z.ltb_ge in E. destruct (digit_list_cons n) as (c & l & Ec).
    destruct (digit_list_last n) as (l' & El).
    assert (Hc : is_digit c = true)
      by (pose proof (digit_list_digits n) as Hd; rewrite Ec in Hd; now inversion Hd).
    rewrite (parse_int_unsigned _ c l Hc); [now rewrite <- Ec, parse_digit_list | now rewrite numeral_chars |].
    rewrite <- Ec. apply strip_numeral with (x := digit_char n).
    + now rewrite Ec.
    + intros c' l'' E'. rewrite Ec in E'. injection E' as <- _. now apply digit_not_space.
    + apply digit_char_not_space.
    + now exists l'.
Qed.

(** A numeral is digits, after a [-] for a negative number. *)
Lemma str_of_Z_chars n :
  Forall (fun c => is_digit c = true \/ c = "-"%char) (list_ascii_of_string (str_of_Z n)).
Proof.
  assert (Hd : forall m, 0 <= m ->
    Forall (fun c => is_digit c = true \/ c = "-"%char) (list_ascii_of_string (digits_wf m ""))).
  { intros m Hm. rewrite numeral_chars by exact Hm.
    eapply Forall_impl; [|apply digit_list_digits]. intros c Hc. now left. }
  rewrite str_of_Z_wf. unfold str_wf. destruct (n <? 0) eqn:E.
  - apply Z.ltb_lt in E. constructor; [now right | apply Hd; lia].
  - apply Z.ltb_ge in E. now apply Hd.
Qed.

(** ** Claims *)

(** [str(n)]'s digit loop ends within the fuel [str_of_Z] gives it:
    on every integer, [str_of_Z] (fuel [1 + log2 |n|]) computes the same
    numeral as the loop defined by well-founded recursion, which always
    terminates. *)
Lemma str_of_Z_fuel_enough n : str_of_Z n = str_wf n.
Proof. apply str_of_Z_wf. Qed.
