(* ===== verification/Models.v ===== *)
(** The SQLAlchemy models of [src/app.py] (lines 36-204): one Module per
    class, its row as a Record [t] with the columns as fields, and the
    methods the handlers call ([to_dict], [get_badges], [add_badge]).
    Timestamps are microseconds since the epoch (see [PyRuntime]); the
    text [isoformat()] makes of them is a section variable, since
    [datetime] formatting is a library the source only calls.  The
    [badges_earned] column holds [json.dumps] of a list; the model keeps
    the list itself, which [json.loads] gives back.  The completion
    percentage is the float [round(completed / chapters * 100, 1)] of
    [Binary64], and it lies in [0, 100] for a subject whose completed
    chapters do not exceed its chapters. *)

From Stdlib Require Import List ZArith QArith Lia String Bool.
From S2P Require Import Prelude Binary64 PyRuntime.
Import ListNotations.
Local Open Scope Z_scope.
Local Open Scope string_scope.

(** ** Rows *)

Module User.
Record t := mk {
  id : Z; name : string; email : string; password : string; created_at : Z
}.
End User.

Module Subject.
Record t := mk {
  id : Z; user_id : Z; name : string; chapters : Z; completed_chapters : Z;
  difficulty : string; priority : string; deadline : Z;
  sessions_completed : Z; total_time_minutes : Z;
  created_at : Z; updated_at : Z; is_deleted : bool; deleted_at : option Z
}.
End Subject.

Module Gamification.
Record t := mk {
  id : Z; user_id : Z; xp : Z; level : Z; streak : Z;
  total_minutes_studied : Z; last_study_date : option Z;
  badges_earned : list json; current_mode : string; updated_at : Z
}.
End Gamification.

(** [subject_id], [reason_text], [duration_minutes], [effectiveness] and
    [session_id] are stored as the request sent them ([data.get(...)]
    without a conversion), so they are JSON values. *)
Module StudySession.
Record t := mk {
  id : Z; user_id : Z; subject_id : json; duration_minutes : Z; date : Z;
  pomodoro_count : Z
}.
End StudySession.

Module Reflection.
Record t := mk {
  id : Z; user_id : Z; subject_id : json; reason_idx : Z; reason_text : json; date : Z
}.
End Reflection.

Module StudyMood.
Record t := mk {
  id : Z; user_id : Z; mood : string; time : Z; duration_minutes : json;
  effectiveness : json; session_id : json
}.
End StudyMood.

Section WithIsoformat.
(** [datetime.isoformat()]. *)
Context (isoformat : Z -> string).

(** [User.to_dict]. *)
Definition user_to_dict (u : User.t) : json :=
  JObj [("id", JInt (User.id u)); ("name", JStr (User.name u));
        ("email", JStr (User.email u));
        ("created_at", JStr (isoformat (User.created_at u)))].

(** [a / b * 100] on two Python ints, [b <> 0]: a float. *)
Definition percent (a b : Z) : Q := fmul_int (py_truediv a b) 100.

(** [Subject.to_dict]; [now] is the [datetime.utcnow()] it reads. *)
Definition subject_to_dict (now : Z) (s : Subject.t) : json :=
  let days_left := timedelta_days (Subject.deadline s) now in
  JObj [("id", JInt (Subject.id s)); ("name", JStr (Subject.name s));
        ("chapters", JInt (Subject.chapters s));
        ("completed_chapters", JInt (Subject.completed_chapters s));
        ("difficulty", JStr (Subject.difficulty s));
        ("priority", JStr (Subject.priority s));
        ("deadline", JStr (isoformat (Subject.deadline s)));
        ("days_left", JInt (Z.max 0 days_left));
        ("sessions_completed", JInt (Subject.sessions_completed s));
        ("total_time_minutes", JInt (Subject.total_time_minutes s));
        ("completion_percentage",
          if Z.ltb 0 (Subject.chapters s)
          then JFloat (py_round1 (percent (Subject.completed_chapters s) (Subject.chapters s)))
          else JInt 0)].

(** [Gamification.get_badges]. *)
Definition get_badges (g : Gamification.t) : list json := Gamification.badges_earned g.

(** [Gamification.add_badge]: append the badge unless an equal one is
    already there. *)
Definition add_badge (badge_id : json) (g : Gamification.t) : Gamification.t :=
  let badges := get_badges g in
  if negb (py_in badge_id badges) then
    {| Gamification.id := Gamification.id g; Gamification.user_id := Gamification.user_id g;
       Gamification.xp := Gamification.xp g; Gamification.level := Gamification.level g;
       Gamification.streak := Gamification.streak g;
       Gamification.total_minutes_studied := Gamification.total_minutes_studied g;
       Gamification.last_study_date := Gamification.last_study_date g;
       Gamification.badges_earned := (badges ++ [badge_id])%list;
       Gamification.current_mode := Gamification.current_mode g;
       Gamification.updated_at := Gamification.updated_at g |}
  else g.

(** [Gamification.to_dict]. *)
Definition gamification_to_dict (g : Gamification.t) : json :=
  JObj [("xp", JInt (Gamification.xp g)); ("level", JInt (Gamification.level g));
        ("streak", JInt (Gamification.streak g));
        ("total_minutes_studied", JInt (Gamification.total_minutes_studied g));
        ("last_study_date",
          match Gamification.last_study_date g with
          | Some d => JStr (isoformat d) | None => JNull end);
        ("badges_earned", JList (get_badges g));
        ("current_mode", JStr (Gamification.current_mode g))].

(** [StudySession.to_dict]. *)
Definition session_to_dict (x : StudySession.t) : json :=
  JObj [("id", JInt (StudySession.id x)); ("subject_id", StudySession.subject_id x);
        ("duration_minutes", JInt (StudySession.duration_minutes x));
        ("date", JStr (isoformat (StudySession.date x)));
        ("pomodoro_count", JInt (StudySession.pomodoro_count x))].

(** [Reflection.to_dict]. *)
Definition reflection_to_dict (x : Reflection.t) : json :=
  JObj [("id", JInt (Reflection.id x)); ("subject_id", Reflection.subject_id x);
        ("reason_idx", JInt (Reflection.reason_idx x));
        ("reason_text", Reflection.reason_text x);
        ("date", JStr (isoformat (Reflection.date x)))].

(** [StudyMood.to_dict]. *)
Definition mood_to_dict (x : StudyMood.t) : json :=
  JObj [("id", JInt (StudyMood.id x)); ("mood", JStr (StudyMood.mood x));
        ("time", JStr (isoformat (StudyMood.time x)));
        ("duration_minutes", StudyMood.duration_minutes x);
        ("effectiveness", StudyMood.effectiveness x)].
End WithIsoformat.

(** ** Lemmas *)

(** A share of completed chapters is a percentage between 0 and 100:
    rounding is monotone and keeps 100. *)
Lemma percent_bounds a b : 0 <= a <= b -> 0 < b -> (0 <= percent a b <= 100)%Q.
Proof.
  intros Hab Hb. unfold percent. split.
  - apply fmul_int_nonneg; [apply py_truediv_nonneg|]; lia.
  - apply (Qle_trans _ (fmul_int 1 100)).
    + apply fmul_int_le; [apply py_truediv_nonneg; lia | apply py_truediv_le_1; lia | lia].
    + vm_compute. discriminate.
Qed.

(** C21: [Subject.to_dict] reports a [completion_percentage] between 0
    and 100 for a subject whose completed chapters lie between 0 and its
    chapters: the float [round(completed / chapters * 100, 1)], or [0]
    when it has no chapter.  Each of the three roundings is monotone and
    keeps 100. *)
Theorem completion_percentage_bounds isoformat now s :
  0 <= Subject.completed_chapters s <= Subject.chapters s ->
  exists kvs v, subject_to_dict isoformat now s = JObj kvs /\
    dict_lookup kvs "completion_percentage" = Some v /\
    (v = JInt 0 \/ exists q, v = JFloat q /\ (0 <= q <= 100)%Q).
Proof.
  intros Hc. eexists _, _. split; [reflexivity|]. split; [reflexivity|].
  destruct (Z.ltb_spec 0 (Subject.chapters s)) as [Hp|]; [right|now left].
  eexists. split; [reflexivity|].
  destruct (percent_bounds (Subject.completed_chapters s) (Subject.chapters s) Hc Hp) as [P0 P1]. split.
  - now apply py_round1_nonneg.
  - apply (Qle_trans _ (py_round1 100)); [now apply py_round1_le | vm_compute; discriminate].
Qed.
