(* ===== verification/Store.v ===== *)
(** The database of [src/app.py] and the shape every handler shares.

    [db] holds one list per table, rows in rowid order: the order SQLite
    returns them in for a query without [ORDER BY], so [.first()] is the
    first matching row and [.all()] the matching rows in that order.  A
    new row gets [1 + max rowid] ([INTEGER PRIMARY KEY] without
    [AUTOINCREMENT]).

    A handler is a computation of the monad [M]: it reads the clock (the
    [i]-th call of [datetime.utcnow()] in the request returns [clock i]),
    reads and writes the tables, and may raise.  [run_handler] is the
    [try: ... except Exception as e: db.session.rollback(); return
    jsonify({'error': str(e)}), 500] that wraps every handler: a handler
    that raises leaves the committed tables as they were.

    The commit of a gamification row follows SQLAlchemy's flush: no
    [UPDATE] when no column changed, else one whose [updated_at] takes
    its [onupdate] clock reading and whose changed integers are bound as
    64-bit INTEGERs, [sqlite3] raising [OverflowError] for one out of
    range ([commit_gamification], [commit_ok], [bind_ints]). *)

From Stdlib Require Import List ZArith Lia String Bool.
From S2P Require Import Prelude PyRuntime Models.
Import ListNotations.
Local Open Scope Z_scope.
Local Open Scope string_scope.
Local Open Scope study_scope.

Record db := mkdb {
  users : list User.t;
  subjects : list Subject.t;
  gamifications : list Gamification.t;
  study_sessions : list StudySession.t;
  reflections : list Reflection.t;
  study_moods : list StudyMood.t
}.

Definition empty_db : db := mkdb [] [] [] [] [] [].

(** ** Queries *)

(** [User.query.filter_by(email=email).first()]. *)
Definition user_by_email (d : db) (email : string) : option User.t :=
  find (fun u => String.eqb (User.email u) email) (users d).

(** [user.gamification]: the [uselist=False] back reference. *)
Definition gamification_of (d : db) (u : User.t) : option Gamification.t :=
  find (fun g => Z.eqb (Gamification.user_id g) (User.id u)) (gamifications d).

(** [Subject.query.filter_by(user_id=uid).all()]. *)
Definition subjects_of (d : db) (uid : Z) : list Subject.t :=
  filter (fun s => Z.eqb (Subject.user_id s) uid) (subjects d).

(** [Subject.query.filter(Subject.user_id == uid, Subject.is_deleted == False).all()]. *)
Definition active_subjects_of (d : db) (uid : Z) : list Subject.t :=
  filter (fun s => Z.eqb (Subject.user_id s) uid && negb (Subject.is_deleted s)) (subjects d).

(** The rowid SQLite gives the next row of a table. *)
Definition next_id (ids : list Z) : Z := 1 + fold_right Z.max 0 ids.

(** Write back a modified gamification row (the commit of an ORM object). *)
Definition save_gamification (g : Gamification.t) (d : db) : db :=
  {| users := users d; subjects := subjects d;
     gamifications := map (fun g' => if Z.eqb (Gamification.id g') (Gamification.id g) then g else g')
                          (gamifications d);
     study_sessions := study_sessions d; reflections := reflections d;
     study_moods := study_moods d |}.

(** [g] with its [updated_at] column set. *)
Definition with_updated_at (t : Z) (g : Gamification.t) : Gamification.t :=
  Gamification.mk (Gamification.id g) (Gamification.user_id g) (Gamification.xp g)
    (Gamification.level g) (Gamification.streak g) (Gamification.total_minutes_studied g)
    (Gamification.last_study_date g) (Gamification.badges_earned g) (Gamification.current_mode g) t.

Definition option_Z_eqb (a b : option Z) : bool :=
  match a, b with
  | Some x, Some y => Z.eqb x y
  | None, None => true
  | _, _ => false
  end.

(** SQLAlchemy's attribute history at the flush: no column of the loaded
    row [g] differs in [g'] (the [badges_earned] column holds the text of
    [json.dumps]; [updated_at] is never set by a handler). *)
Definition row_unchanged (g g' : Gamification.t) : bool :=
  Z.eqb (Gamification.id g) (Gamification.id g') &&
  Z.eqb (Gamification.user_id g) (Gamification.user_id g') &&
  Z.eqb (Gamification.xp g) (Gamification.xp g') &&
  Z.eqb (Gamification.level g) (Gamification.level g') &&
  Z.eqb (Gamification.streak g) (Gamification.streak g') &&
  Z.eqb (Gamification.total_minutes_studied g) (Gamification.total_minutes_studied g') &&
  option_Z_eqb (Gamification.last_study_date g) (Gamification.last_study_date g') &&
  json_list_same (Gamification.badges_earned g) (Gamification.badges_earned g') &&
  String.eqb (Gamification.current_mode g) (Gamification.current_mode g').

(** The row the table holds after the flush: the loaded one when nothing
    changed, else the new values with [updated_at] refreshed at [now]. *)
Definition committed_row (g g' : Gamification.t) (now : Z) : Gamification.t :=
  if row_unchanged g g' then g else with_updated_at now g'.

(** The tables after the flush: no [UPDATE] is emitted for an unchanged
    row. *)
Definition commit_row (g g' : Gamification.t) (now : Z) (d : db) : db :=
  if row_unchanged g g' then d else save_gamification (with_updated_at now g') d.

(** ** Binding integer parameters

    [sqlite3] binds a Python [int] as a 64-bit INTEGER; a value outside
    that range makes the binding raise [OverflowError], which SQLAlchemy
    lets through unwrapped, so the handler answers 500 with its message
    and rolls back.  The parameters checked are those whose value comes
    from the request: row ids and the [user_id] keys copied from rows are
    values SQLite produced, in range in every database it can hold. *)

Definition int64_min : Z := - 2 ^ 63.
Definition int64_max : Z := 2 ^ 63 - 1.

Definition in_int64 (z : Z) : bool := Z.leb int64_min z && Z.leb z int64_max.

Definition int_overflow : py_exc := OverflowError "Python int too large to convert to SQLite INTEGER".

(** The integer parameters of a statement, bound in order. *)
Definition bind_ints (zs : list Z) : pyres unit :=
  if forallb in_int64 zs then Ok tt else Raise int_overflow.

(** The integer a JSON value binds as, if it is an [int]. *)
Definition json_ints (v : json) : list Z :=
  match v with JInt z => [z] | _ => [] end.

(** ** The driver and column affinity

    A few columns store the value a request sent as it came: the
    [subject_id] of a session or a reflection, a reflection's
    [reason_text], a mood's integers.  What the table then holds, as the
    handler reads it back after the commit, is what [sqlite3] binds for
    the Python value, converted by the column's affinity (INTEGER or
    TEXT); the binding raises for a value it cannot bind.  The laws are
    the cases the theorems use: [None] and [int] values (an [int] out of
    range raises the [OverflowError] above), [bool] bound as [0]/[1], a
    [str] in a TEXT column, and an INTEGER column never holding an
    integer out of range.  Numeric strings in an INTEGER column, floats
    in a TEXT column and the error for a list or a dict, whose message
    depends on the Python version, are left to the instance
    ([Instances.clear_driver] is one). *)
Class SqliteDriver : Type := {
  integer_column : json -> pyres json;
  string_column : json -> pyres json;
  integer_column_null : integer_column JNull = Ok JNull;
  integer_column_int z : integer_column (JInt z) = if in_int64 z then Ok (JInt z) else Raise int_overflow;
  integer_column_bool b : integer_column (JBool b) = Ok (JInt (if b then 1 else 0));
  integer_column_ints v w : integer_column v = Ok w -> forallb in_int64 (json_ints w) = true;
  string_column_null : string_column JNull = Ok JNull;
  string_column_str t : string_column (JStr t) = Ok (JStr t);
  string_column_int z :
    string_column (JInt z) = if in_int64 z then Ok (JStr (str_of_Z z)) else Raise int_overflow;
  string_column_ints v w : string_column v = Ok w -> forallb in_int64 (json_ints w) = true
}.

(** The integer columns of the [SET] clause of a gamification row's
    [UPDATE]: those that changed. *)
Definition changed_ints (g g' : Gamification.t) : list Z :=
  (if Z.eqb (Gamification.xp g) (Gamification.xp g') then [] else [Gamification.xp g']) ++
  (if Z.eqb (Gamification.level g) (Gamification.level g') then [] else [Gamification.level g']) ++
  (if Z.eqb (Gamification.streak g) (Gamification.streak g') then [] else [Gamification.streak g']) ++
  (if Z.eqb (Gamification.total_minutes_studied g) (Gamification.total_minutes_studied g') then []
   else [Gamification.total_minutes_studied g']).

(** The flush of the row succeeds: no [UPDATE], or one whose integers
    bind. *)
Definition commit_ok (g g' : Gamification.t) : bool :=
  row_unchanged g g' || forallb in_int64 (changed_ints g g').

(** [Subject.query.filter_by(id=sid, user_id=uid).first()]. *)
Definition subject_of (d : db) (sid uid : Z) : option Subject.t :=
  find (fun s => Z.eqb (Subject.id s) sid && Z.eqb (Subject.user_id s) uid) (subjects d).

Definition with_subjects (ss : list Subject.t) (d : db) : db :=
  mkdb (users d) ss (gamifications d) (study_sessions d) (reflections d) (study_moods d).

(** [db.session.add(subject)] and the commit. *)
Definition insert_subject (s : Subject.t) (d : db) : db := with_subjects (subjects d ++ [s]) d.

(** The commit of a modified subject row. *)
Definition save_subject (s : Subject.t) (d : db) : db :=
  with_subjects (map (fun r => if Z.eqb (Subject.id r) (Subject.id s) then s else r) (subjects d)) d.

(** [db.session.delete(subject)] and the commit: the row with its key goes. *)
Definition delete_subject_row (s : Subject.t) (d : db) : db :=
  with_subjects (filter (fun r => negb (Z.eqb (Subject.id r) (Subject.id s))) (subjects d)) d.

(** ** The handler monad *)

Definition M (A : Type) : Type := (nat -> Z) -> nat -> db -> pyres (A * nat * db).

#[export] Instance M_monad : Monad M := {
  ret _ a := fun _ n d => Ok (a, n, d);
  bind _ _ m k := fun c n d =>
    match m c n d with
    | Ok (a, n', d') => k a c n' d'
    | Raise e => Raise e
    end
}.

(** [datetime.utcnow()]. *)
Definition utcnow : M Z := fun c n d => Ok (c n, S n, d).

Definition get_db : M db := fun _ n d => Ok (d, n, d).
Definition put_db (d' : db) : M unit := fun _ n _ => Ok (tt, n, d').

(** A pure step that may raise. *)
Definition lift {A} (r : pyres A) : M A :=
  fun _ n d => match r with Ok a => Ok (a, n, d) | Raise e => Raise e end.

(** [jsonify(body), status]. *)
Record response := mkresp { body : json; status : Z }.

Definition not_found (msg : string) : response := mkresp (JObj [("error", JStr msg)]) 404.

(** [[f(x) for x in l]] with an effectful [f]. *)
Fixpoint map_m {A B} (f : A -> M B) (l : list A) : M (list B) :=
  match l with
  | [] => ret []
  | x :: l' => y <- f x ;; ys <- map_m f l' ;; ret (y :: ys)
  end.

Definition error_response (e : py_exc) : response :=
  let msg := match e with
             | AttributeError m | TypeError m | ValueError m
             | ZeroDivisionError m | KeyError m | OverflowError m | InterfaceError m => m end in
  mkresp (JObj [("error", JStr msg)]) 500.

(** The [try/except] wrapper: on an exception, roll back and answer 500. *)
Definition run_handler (h : M response) (clock : nat -> Z) (d : db) : response * db :=
  match h clock O d with
  | Ok (r, _, d') => (r, d')
  | Raise e => (error_response e, d)
  end.

(** [db.session.commit()] of a gamification row loaded as [g] and now
    [g']: the [UPDATE] is emitted only when a column changed, and then
    [updated_at] takes its [onupdate=datetime.utcnow] (line 122), one
    reading of the clock, before the parameters are bound. *)
Definition commit_gamification (g g' : Gamification.t) (d : db) : M db :=
  if row_unchanged g g' then ret d
  else
    now <- utcnow ;;
    _ <- lift (bind_ints (changed_ints g g')) ;;
    ret (save_gamification (with_updated_at now g') d).

(** [email = get_jwt_identity(); user = User.query.filter_by(email=email).first()]. *)
Definition current_user (identity : string) : M (option User.t) :=
  d <- get_db ;; ret (user_by_email d identity).

(** ** Lemmas *)

Lemma run_handler_raise (h : M response) clock d e :
  h clock O d = Raise e -> run_handler h clock d = (error_response e, d).
Proof. intros H. unfold run_handler. now rewrite H. Qed.

Lemma run_handler_ok (h : M response) clock d r n d' :
  h clock O d = Ok (r, n, d') -> run_handler h clock d = (r, d').
Proof. intros H. unfold run_handler. now rewrite H. Qed.

(** A computation that never writes: [get_db], [utcnow], [lift] and
    [ret], composed. *)
Definition reads_only {A} (m : M A) : Prop :=
  forall c n d a n' d', m c n d = Ok (a, n', d') -> d' = d.

Lemma reads_only_bind {A B} (m : M A) (k : A -> M B) :
  reads_only m -> (forall a, reads_only (k a)) -> reads_only (bind m k).
Proof.
  intros Hm Hk c n d b n' d' H. simpl in H.
  destruct (m c n d) as [[[a n1] d1]|e] eqn:E; [|discriminate].
  apply Hm in E. subst. eapply Hk; eauto.
Qed.

Lemma reads_only_ret {A} (a : A) : reads_only (ret a).
Proof. intros c n d a' n' d' H. now inv H. Qed.

Lemma reads_only_get_db : reads_only get_db.
Proof. intros c n d a' n' d' H. now inv H. Qed.

Lemma reads_only_utcnow : reads_only utcnow.
Proof. intros c n d a' n' d' H. now inv H. Qed.

Lemma reads_only_lift {A} (r : pyres A) : reads_only (lift r).
Proof. intros c n d a' n' d' H. unfold lift in H. destruct r; now inv H. Qed.

#[export] Hint Resolve reads_only_bind reads_only_ret reads_only_get_db
  reads_only_utcnow reads_only_lift : study.

Lemma reads_only_map_m {A B} (f : A -> M B) (l : list A) :
  (forall x, reads_only (f x)) -> reads_only (map_m f l).
Proof.
  intros Hf. induction l as [|x l IH]; simpl; [apply reads_only_ret|].
  apply reads_only_bind; [exact (Hf x)|]. intros b. apply reads_only_bind; [exact IH|]. intros. apply reads_only_ret.
Qed.

#[export] Hint Resolve reads_only_map_m : study.

(** Discharge [reads_only h] for a handler built from reads, clock
    readings, pure steps and [match]es on their results. *)
Ltac reads_only_tac :=
  repeat (apply reads_only_bind; [auto with study | intros]);
  repeat (case_match_goal; repeat (apply reads_only_bind; [auto with study | intros]));
  auto with study.

(** A handler that only reads leaves the tables unchanged, whatever it
    answers. *)
Lemma run_handler_reads_only (h : M response) clock d :
  reads_only h -> snd (run_handler h clock d) = d.
Proof.
  intros Hh. unfold run_handler.
  destruct (h clock O d) as [[[r n] d']|e] eqn:E; simpl; [eapply Hh; eauto | reflexivity].
Qed.

(** Writing back a row keeps the row ids of the table. *)
Lemma save_gamification_ids g' d :
  map Gamification.id (gamifications (save_gamification g' d)) = map Gamification.id (gamifications d).
Proof.
  unfold save_gamification. simpl. rewrite map_map. apply map_ext. intros r.
  destruct (Z.eqb_spec (Gamification.id r) (Gamification.id g')); congruence.
Qed.

(** [next_id] is above every id of the table. *)
Lemma next_id_gt (ids : list Z) x : In x ids -> x < next_id ids.
Proof.
  unfold next_id. intros Hin. enough (x <= fold_right Z.max 0 ids) by lia.
  induction ids as [|y ids IH]; [destruct Hin|]. cbn [fold_right].
  destruct Hin as [<-|Hx]; [apply Z.le_max_l|]. specialize (IH Hx). lia.
Qed.

Lemma next_id_fresh ids : ~ In (next_id ids) ids.
Proof. intros Hin. apply next_id_gt in Hin. lia. Qed.

(** ** The flush of a gamification row *)

Fixpoint json_same_refl (v : json) : json_same v v = true.
Proof.
  destruct v as [| b | z | q | str | l | kvs]; simpl.
  - reflexivity.
  - now destruct b.
  - apply Z.eqb_refl.
  - apply QArith_base.Qeq_bool_refl.
  - apply String.eqb_refl.
  - induction l as [|x l IH]; [reflexivity|]. now rewrite json_same_refl, IH.
  - induction kvs as [|[k x] kvs IH]; [reflexivity|]. now rewrite String.eqb_refl, json_same_refl, IH.
Qed.

Lemma json_list_same_refl l : json_list_same l l = true.
Proof. induction l as [|x l IH]; simpl; [reflexivity|]. now rewrite json_same_refl, IH. Qed.

Lemma json_list_same_length l l' : json_list_same l l' = true -> List.length l = List.length l'.
Proof.
  revert l'. induction l as [|x l IH]; intros [|x' l'] H; simpl in *; try discriminate; [reflexivity|].
  apply andb_prop in H as [_ H]. now rewrite (IH l' H).
Qed.

Lemma option_Z_eqb_refl a : option_Z_eqb a a = true.
Proof. destruct a; simpl; [apply Z.eqb_refl|reflexivity]. Qed.

(** A row written back as it was loaded is not updated. *)
Lemma row_unchanged_refl g : row_unchanged g g = true.
Proof.
  unfold row_unchanged. now rewrite !Z.eqb_refl, option_Z_eqb_refl, json_list_same_refl, String.eqb_refl.
Qed.

Lemma row_unchanged_total g g' :
  row_unchanged g g' = true ->
  Gamification.total_minutes_studied g = Gamification.total_minutes_studied g'.
Proof. unfold row_unchanged. rewrite !andb_true_iff, !Z.eqb_eq. tauto. Qed.

Lemma row_unchanged_level g g' :
  row_unchanged g g' = true -> Gamification.level g = Gamification.level g'.
Proof. unfold row_unchanged. rewrite !andb_true_iff, !Z.eqb_eq. tauto. Qed.

(** The level a flush leaves is the new one, written or not. *)
Lemma committed_row_level g g' now :
  Gamification.level (committed_row g g' now) = Gamification.level g'.
Proof.
  unfold committed_row. destruct (row_unchanged g g') eqn:E; [now apply row_unchanged_level|].
  now destruct g'.
Qed.

Lemma row_unchanged_badges g g' :
  row_unchanged g g' = true ->
  List.length (Gamification.badges_earned g) = List.length (Gamification.badges_earned g').
Proof. unfold row_unchanged. rewrite !andb_true_iff. intros H. apply json_list_same_length. tauto. Qed.

Lemma commit_gamification_run g g' d c n d0 :
  commit_gamification g g' d c n d0 =
  if commit_ok g g' then Ok (commit_row g g' (c n) d, if row_unchanged g g' then n else S n, d0)
  else Raise int_overflow.
Proof.
  unfold commit_gamification, commit_row, commit_ok, bind_ints.
  destruct (row_unchanged g g'); [reflexivity|]. simpl. now destruct (forallb _ _).
Qed.

Lemma bind_ints_ok zs : bind_ints zs = Ok tt -> forallb in_int64 zs = true.
Proof. unfold bind_ints. now destruct (forallb in_int64 zs). Qed.

Lemma commit_ok_refl g : commit_ok g g = true.
Proof. unfold commit_ok. now rewrite row_unchanged_refl. Qed.

Lemma in_int64_spec z : in_int64 z = true <-> int64_min <= z <= int64_max.
Proof. unfold in_int64. rewrite andb_true_iff, !Z.leb_le. reflexivity. Qed.

Lemma forallb_changed a b :
  a = b \/ in_int64 b = true -> forallb in_int64 (if Z.eqb a b then [] else [b]) = true.
Proof. intros [<-|H]; [now rewrite Z.eqb_refl|]. destruct (Z.eqb a b); simpl; [reflexivity|now rewrite H]. Qed.

(** The flush binds when every integer column that changed is in range. *)
Lemma commit_ok_changed g g' :
  (Gamification.xp g = Gamification.xp g' \/ in_int64 (Gamification.xp g') = true) ->
  (Gamification.level g = Gamification.level g' \/ in_int64 (Gamification.level g') = true) ->
  (Gamification.streak g = Gamification.streak g' \/ in_int64 (Gamification.streak g') = true) ->
  (Gamification.total_minutes_studied g = Gamification.total_minutes_studied g' \/
   in_int64 (Gamification.total_minutes_studied g') = true) ->
  commit_ok g g' = true.
Proof.
  intros Hx Hl Hs Ht. unfold commit_ok, changed_ints. apply orb_true_iff. right.
  rewrite !forallb_app, !forallb_changed by assumption. reflexivity.
Qed.

(** The flush raises when a changed integer column is out of range. *)
Lemma commit_ok_overflow g g' (f : Gamification.t -> Z) :
  In f [Gamification.xp; Gamification.level; Gamification.streak; Gamification.total_minutes_studied] ->
  f g <> f g' -> in_int64 (f g') = false -> commit_ok g g' = false.
Proof.
  intros Hf Hne Hr. unfold commit_ok, row_unchanged, changed_ints. rewrite !forallb_app.
  simpl in Hf; destruct Hf as [<-|[<-|[<-|[<-|[]]]]]; apply Z.eqb_neq in Hne; rewrite Hne; simpl;
    rewrite Hr; rewrite ?andb_false_r; reflexivity.
Qed.

Lemma commit_row_ids g g' now d :
  map Gamification.id (gamifications (commit_row g g' now d)) = map Gamification.id (gamifications d).
Proof. unfold commit_row. destruct (row_unchanged g g'); [reflexivity|apply save_gamification_ids]. Qed.

Lemma commit_row_same g now d : commit_row g g now d = d.
Proof. unfold commit_row. now rewrite row_unchanged_refl. Qed.

Lemma commit_row_users g g' now d : users (commit_row g g' now d) = users d.
Proof. unfold commit_row. now destruct (row_unchanged g g'). Qed.

Lemma commit_row_subjects g g' now d : subjects (commit_row g g' now d) = subjects d.
Proof. unfold commit_row. now destruct (row_unchanged g g'). Qed.

Lemma commit_row_sessions g g' now d : study_sessions (commit_row g g' now d) = study_sessions d.
Proof. unfold commit_row. now destruct (row_unchanged g g'). Qed.

Lemma Zeqb_add_r a x : Z.eqb a (a + x) = Z.eqb x 0.
Proof. destruct (Z.eqb_spec a (a + x)), (Z.eqb_spec x 0); lia. Qed.

