(* ===== verification/Planner.v ===== *)
(** The weekly plan generator: [generate_weekly_plan], lines 917-980 of
    [src/app.py].

    - [difficulty_weight], [priority_weight] and [subject_score] are the
      nested [subject_score] key function (lines 936-945), computed in
      floats as CPython does: [chapters_left / days_left] is rounded to
      binary64 and so is each product with a weight ([Binary64]);
    - Section [StableSort] is Python's [sorted(..., key=..., reverse=True)]:
      a stable sort by descending key, written as an insertion sort over
      any total preorder of keys, with its specification (sorted,
      permutation, stable) and the theorem that the specification has a
      single solution, so that the insertion sort computes what CPython's
      Timsort computes;
    - [empty_plan], [plan_append] and [distribute] are the dictionary of
      seven days and the [for idx, subject in enumerate(...)] loop
      (lines 950-969);
    - [generate_weekly_plan] is the whole handler. *)

From Stdlib Require Import String ZArith QArith Lia Lqa Bool Sorted Permutation List.
From S2P Require Import Prelude Binary64 PyRuntime Models Store.
Import ListNotations.
Local Open Scope Z_scope.
Local Open Scope string_scope.
Local Open Scope study_scope.

(** ** Scoring *)

(** [{'easy': 1, 'medium': 2, 'hard': 3}.get(subj.difficulty, 2)]. *)
Definition difficulty_weight (d : string) : Z :=
  if String.eqb d "easy" then 1
  else if String.eqb d "medium" then 2
  else if String.eqb d "hard" then 3
  else 2.

(** [{'low': 1, 'medium': 2, 'high': 3}.get(subj.priority, 2)]. *)
Definition priority_weight (p : string) : Z :=
  if String.eqb p "low" then 1
  else if String.eqb p "medium" then 2
  else if String.eqb p "high" then 3
  else 2.

(** [subj.chapters - subj.completed_chapters]. *)
Definition chapters_left (s : Subject.t) : Z :=
  Subject.chapters s - Subject.completed_chapters s.

(** [max(1, (subj.deadline - datetime.utcnow()).days)]. *)
Definition days_left (now : Z) (s : Subject.t) : Z :=
  Z.max 1 (timedelta_days (Subject.deadline s) now).

(** The key function; [now] is what its [datetime.utcnow()] returned.
    [chapters_left / days_left] is a float, and so are the two products
    by the weights: each operation rounds ([Binary64]). *)
Definition subject_score (now : Z) (s : Subject.t) : Q :=
  let urgency := py_truediv (chapters_left s) (days_left now s) in
  fmul_int (fmul_int urgency (difficulty_weight (Subject.difficulty s)))
    (priority_weight (Subject.priority s)).

(** ** Stable sort by descending key *)

Section StableSort.
Context {A K : Type} (key : A -> K) (le : K -> K -> bool).
Hypothesis le_total : forall a b, le a b = true \/ le b a = true.
Hypothesis le_trans : forall a b c, le a b = true -> le b c = true -> le a c = true.

(** Keys that compare equal both ways. *)
Definition equiv (a b : K) : bool := le a b && le b a.

(** Put [x] after the elements of strictly greater key and before the
    rest: the elements of [l] come later in the input, so [x] goes
    before those of equal key. *)
Fixpoint insert_desc (x : A) (l : list A) : list A :=
  match l with
  | [] => [x]
  | y :: l' => if negb (le (key y) (key x)) then y :: insert_desc x l' else x :: l
  end.

Definition sort_desc (l : list A) : list A := fold_right insert_desc [] l.

(** The ordering [sort_desc] establishes: keys never increase. *)
Definition desc (x y : A) : Prop := le (key y) (key x) = true.

(** The specification of a stable sort by descending key. *)
Definition stable_sort_spec (input output : list A) : Prop :=
  Sorted desc output /\
  forall k, filter (fun x => equiv k (key x)) output = filter (fun x => equiv k (key x)) input.

Lemma le_refl a : le a a = true.
Proof. destruct (le_total a a); assumption. Qed.

Lemma equiv_trans a b c : equiv a b = true -> equiv b c = true -> equiv a c = true.
Proof.
  unfold equiv. rewrite !andb_true_iff. intros [H1 H2] [H3 H4]. eauto.
Qed.

Lemma equiv_sym a b : equiv a b = equiv b a.
Proof. unfold equiv. apply andb_comm. Qed.

Lemma insert_desc_perm x l : Permutation (insert_desc x l) (x :: l).
Proof.
  induction l as [|y l IH]; simpl; [reflexivity|].
  destruct (negb (le (key y) (key x))); [|reflexivity].
  rewrite IH. apply perm_swap.
Qed.

Lemma sort_desc_perm l : Permutation (sort_desc l) l.
Proof.
  induction l as [|x l IH]; simpl; [reflexivity|].
  rewrite insert_desc_perm. now apply perm_skip.
Qed.

Lemma not_le_le a b : le a b = false -> le b a = true.
Proof. intros H. destruct (le_total a b); congruence. Qed.

Lemma insert_desc_sorted x l : Sorted desc l -> Sorted desc (insert_desc x l).
Proof.
  induction 1 as [|y l Hs IH Hhd]; simpl; [repeat constructor|].
  destruct (le (key y) (key x)) eqn:E; simpl.
  - repeat constructor; assumption.
  - constructor; [assumption|].
    destruct l as [|z l]; simpl in *; [constructor; now apply not_le_le|].
    inv Hhd. destruct (negb (le (key z) (key x))); constructor; unfold desc in *;
      auto using not_le_le.
Qed.

Lemma sort_desc_sorted l : Sorted desc (sort_desc l).
Proof. induction l; simpl; auto using insert_desc_sorted. Qed.

(** Inserting [x] does not reorder the elements of any key class. *)
Lemma insert_desc_filter k x l :
  Sorted desc l ->
  filter (fun y => equiv k (key y)) (insert_desc x l) =
  filter (fun y => equiv k (key y)) (x :: l).
Proof.
  induction 1 as [|y l Hs IH Hhd]; simpl; [reflexivity|].
  destruct (le (key y) (key x)) eqn:Eyx; simpl; [reflexivity|].
  rewrite IH. simpl.
  destruct (equiv k (key x)) eqn:Ekx, (equiv k (key y)) eqn:Eky; try reflexivity.
  exfalso. assert (Hxy : equiv (key x) (key y) = true)
    by (eapply equiv_trans; [rewrite equiv_sym; exact Ekx | exact Eky]).
  unfold equiv in Hxy. apply andb_true_iff in Hxy. destruct Hxy as [_ H]. congruence.
Qed.

Lemma sort_desc_stable l : stable_sort_spec l (sort_desc l).
Proof.
  split; [apply sort_desc_sorted|].
  intros k. induction l as [|x l IH]; simpl; [reflexivity|].
  rewrite insert_desc_filter by apply sort_desc_sorted. simpl. now rewrite IH.
Qed.

Lemma equiv_refl a : equiv a a = true.
Proof. unfold equiv. now rewrite le_refl. Qed.

(** In a list sorted by descending key, the head has the greatest key. *)
Lemma sorted_head_max x l y : Sorted desc (x :: l) -> In y (x :: l) -> le (key y) (key x) = true.
Proof.
  intros Hs Hin. apply Sorted_StronglySorted in Hs.
  - inv Hs. destruct Hin as [<-|Hin]; [apply le_refl|].
    rewrite Forall_forall in *. now apply H2.
  - intros a b c Hab Hbc. unfold desc in *. eauto.
Qed.

Lemma in_own_class x l : In x l -> In x (filter (fun y => equiv (key x) (key y)) l).
Proof. intros H. apply filter_In. split; [assumption | apply equiv_refl]. Qed.

(** Two lists sorted by descending key whose key classes are the same
    sequences are the same list: the stable sort is unique. *)
Lemma sorted_classes_unique l1 l2 :
  Sorted desc l1 -> Sorted desc l2 ->
  (forall k, filter (fun x => equiv k (key x)) l1 = filter (fun x => equiv k (key x)) l2) ->
  l1 = l2.
Proof.
  revert l2. induction l1 as [|x r1 IH]; intros l2 Hs1 Hs2 Hf.
  - destruct l2 as [|y r2]; [reflexivity|]. exfalso.
    pose proof (in_own_class y (y :: r2) (or_introl eq_refl)) as Hy.
    rewrite <- Hf in Hy. destruct Hy.
  - destruct l2 as [|y r2].
    { exfalso. pose proof (in_own_class x (x :: r1) (or_introl eq_refl)) as Hx.
      rewrite Hf in Hx. destruct Hx. }
    assert (Hxy : equiv (key x) (key y) = true).
    { pose proof (in_own_class x (x :: r1) (or_introl eq_refl)) as Hx.
      pose proof (in_own_class y (y :: r2) (or_introl eq_refl)) as Hy.
      rewrite Hf in Hx. rewrite <- Hf in Hy.
      apply filter_In in Hx as [Hx _]. apply filter_In in Hy as [Hy _].
      unfold equiv. rewrite (sorted_head_max _ _ _ Hs2 Hx), (sorted_head_max _ _ _ Hs1 Hy).
      reflexivity. }
    pose proof (Hf (key x)) as Hx. simpl in Hx. rewrite equiv_refl, Hxy in Hx. inv Hx.
    f_equal. apply IH; [now inv Hs1 | now inv Hs2 |].
    intros k. specialize (Hf k). simpl in Hf.
    destruct (equiv k (key y)); [now injection Hf | exact Hf].
Qed.

(** Any stable sort by descending key computes [sort_desc]. *)
Theorem stable_sort_spec_unique l out : stable_sort_spec l out -> out = sort_desc l.
Proof.
  intros [Hs Hf]. destruct (sort_desc_stable l) as [Hs' Hf'].
  apply sorted_classes_unique; [assumption | assumption |].
  intros k. now rewrite Hf, Hf'.
Qed.
End StableSort.

(** ** Distribution over the week *)

(** The dictionary appended to a day's list (lines 962-969). *)
Module PlanEntry.
Record t := mk {
  subject_name : string; subject_id : Z; chapters : Z;
  difficulty : string; priority : string; recommended_duration_mins : Z
}.
End PlanEntry.

(** The plan: a dictionary from day name to entries, in insertion order. *)
Definition plan := list (string * list PlanEntry.t).

Definition week_days : list string :=
  ["Monday"; "Tuesday"; "Wednesday"; "Thursday"; "Friday"; "Saturday"; "Sunday"].

(** [{day: [] for day in [...]}]. *)
Definition empty_plan : plan := map (fun d => (d, [])) week_days.

(** [plan[day]]. *)
Fixpoint plan_lookup (day : string) (p : plan) : option (list PlanEntry.t) :=
  match p with
  | [] => None
  | (d, es) :: p' => if String.eqb d day then Some es else plan_lookup day p'
  end.

(** [plan[day].append(e)]. *)
Definition plan_append (day : string) (e : PlanEntry.t) (p : plan) : plan :=
  map (fun '(d, es) => if String.eqb d day then (d, (es ++ [e])%list) else (d, es)) p.

(** [max(1, chapters_left // 2)]. *)
Definition daily_chapters (s : Subject.t) : Z := Z.max 1 (chapters_left s / 2).

Definition plan_entry_of (s : Subject.t) : PlanEntry.t :=
  {| PlanEntry.subject_name := Subject.name s; PlanEntry.subject_id := Subject.id s;
     PlanEntry.chapters := daily_chapters s;
     PlanEntry.difficulty := Subject.difficulty s; PlanEntry.priority := Subject.priority s;
     PlanEntry.recommended_duration_mins := daily_chapters s * 30 |}.

(** [for idx, subject in enumerate(sorted_subjects)], from rank [idx] on;
    [days_list] is [list(plan.keys())], taken before the loop. *)
Fixpoint distribute (days_list : list string) (idx : nat) (ss : list Subject.t) (p : plan) : plan :=
  match ss with
  | [] => p
  | s :: rest =>
      if Z.leb (chapters_left s) 0 then distribute days_list (S idx) rest p
      else
        let day_idx := Nat.modulo idx 6 in
        distribute days_list (S idx) rest
          (plan_append (nth day_idx days_list "") (plan_entry_of s) p)
  end.

(** The plan the loop builds from the ranked subjects. *)
Definition build_plan (ranked : list Subject.t) : plan :=
  distribute (map fst empty_plan) 0 ranked empty_plan.

(** A subject the loop does not skip. *)
Definition eligible (s : Subject.t) : bool := Z.ltb 0 (chapters_left s).

(** [enumerate(ss, idx)]. *)
Definition enumerate {A} (idx : nat) (l : list A) : list (nat * A) :=
  combine (seq idx (List.length l)) l.

(** What the loop appends to [day]: the eligible subjects whose rank
    selects [day], in rank order. *)
Definition assigned (days_list : list string) (day : string) (idx : nat) (ss : list Subject.t)
  : list PlanEntry.t :=
  map (fun ks => plan_entry_of (snd ks))
      (filter (fun ks => eligible (snd ks) && String.eqb (nth (Nat.modulo (fst ks) 6) days_list "") day)
              (enumerate idx ss)).

(** All entries of a plan, day after day. *)
Definition plan_entries (p : plan) : list PlanEntry.t := concat (map snd p).

(** ** The loop, lemma by lemma *)

#[local] Arguments Nat.modulo : simpl never.

Lemma plan_lookup_append d d' e p :
  plan_lookup d (plan_append d' e p) =
  if String.eqb d' d then option_map (fun es => (es ++ [e])%list) (plan_lookup d p)
  else plan_lookup d p.
Proof.
  unfold plan_append.
  induction p as [|[k es] p IH]; cbn -[String.eqb]; [now destruct (String.eqb d' d)|].
  rewrite IH.
  destruct (String.eqb_spec k d') as [->|Hk']; cbn -[String.eqb].
  - destruct (String.eqb d' d); reflexivity.
  - destruct (String.eqb_spec k d) as [->|Hkd]; [|reflexivity].
    apply String.eqb_neq in Hk'. rewrite String.eqb_sym in Hk'. now rewrite Hk'.
Qed.

Lemma plan_append_keys d e p : map fst (plan_append d e p) = map fst p.
Proof.
  induction p as [|[k es] p IH]; simpl; [reflexivity|].
  destruct (String.eqb k d); simpl; now rewrite IH.
Qed.

Lemma plan_append_absent d e p : ~ In d (map fst p) -> plan_append d e p = p.
Proof.
  induction p as [|[k es] p IH]; simpl; intros Hn; [reflexivity|].
  destruct (String.eqb_spec k d); [tauto|]. f_equal. auto.
Qed.

Lemma plan_entries_append d e p :
  NoDup (map fst p) -> In d (map fst p) ->
  Permutation (plan_entries (plan_append d e p)) (e :: plan_entries p).
Proof.
  unfold plan_entries.
  induction p as [|[k es] p IH]; simpl; intros Hnd Hin; [destruct Hin|].
  inv Hnd. destruct (String.eqb_spec k d) as [->|Hk]; simpl.
  - rewrite plan_append_absent by assumption.
    rewrite <- app_assoc. simpl. now rewrite <- Permutation_middle.
  - destruct Hin as [->|Hin]; [congruence|].
    rewrite IH by assumption. now rewrite <- Permutation_middle.
Qed.

Lemma assigned_cons days d idx s ss :
  assigned days d idx (s :: ss) =
  ((if eligible s && String.eqb (nth (Nat.modulo idx 6) days "") d then [plan_entry_of s] else [])
   ++ assigned days d (S idx) ss)%list.
Proof. unfold assigned, enumerate. simpl. now destruct (_ && _). Qed.

Lemma distribute_keys days idx ss p : map fst (distribute days idx ss p) = map fst p.
Proof.
  revert idx p. induction ss as [|s ss IH]; intros idx p; simpl; [reflexivity|].
  destruct (Z.leb (chapters_left s) 0); rewrite IH; [reflexivity|apply plan_append_keys].
Qed.

(** Each day's list grows by exactly the entries [assigned] to it. *)
Lemma distribute_lookup days d idx ss p :
  plan_lookup d (distribute days idx ss p) =
  option_map (fun es => (es ++ assigned days d idx ss)%list) (plan_lookup d p).
Proof.
  revert idx p. induction ss as [|s ss IH]; intros idx p; simpl.
  { destruct (plan_lookup d p); simpl; now rewrite ?app_nil_r. }
  rewrite assigned_cons. unfold eligible.
  destruct (Z.leb_spec (chapters_left s) 0) as [Hle|Hgt].
  - replace (Z.ltb 0 (chapters_left s)) with false by lia. simpl. apply IH.
  - replace (Z.ltb 0 (chapters_left s)) with true by lia. cbn -[Nat.modulo String.eqb].
    rewrite IH, plan_lookup_append.
    destruct (String.eqb (nth (Nat.modulo idx 6) days "") d); destruct (plan_lookup d p);
      cbn -[Nat.modulo String.eqb]; now rewrite <- ?app_assoc.
Qed.

(** Every eligible subject adds one entry, the others none. *)
Lemma distribute_entries days idx ss p :
  NoDup (map fst p) -> (forall k, In (nth (Nat.modulo k 6) days "") (map fst p)) ->
  Permutation (plan_entries (distribute days idx ss p))
              (map plan_entry_of (filter eligible ss) ++ plan_entries p).
Proof.
  revert idx p. induction ss as [|s ss IH]; intros idx p Hnd Hdays; simpl; [reflexivity|].
  unfold eligible at 1. destruct (Z.leb_spec (chapters_left s) 0) as [Hle|Hgt].
  - replace (Z.ltb 0 (chapters_left s)) with false by lia. now apply IH.
  - replace (Z.ltb 0 (chapters_left s)) with true by lia. simpl.
    rewrite IH by (rewrite ?plan_append_keys; auto).
    rewrite plan_entries_append by auto. now rewrite Permutation_middle.
Qed.

(** ** The week *)

Lemma week_days_NoDup : NoDup week_days.
Proof. repeat constructor; simpl; intuition discriminate. Qed.

(** Day names are equal exactly when their indices are. *)
Lemma week_day_eqb i j :
  (i < 7)%nat -> (j < 7)%nat -> String.eqb (nth j week_days "") (nth i week_days "") = Nat.eqb j i.
Proof.
  intros Hi Hj.
  do 7 (destruct i as [|i]; [do 7 (destruct j as [|j]; [reflexivity|]); lia|]). lia.
Qed.

Lemma empty_plan_lookup i : (i < 7)%nat -> plan_lookup (nth i week_days "") empty_plan = Some [].
Proof. intros Hi. do 7 (destruct i as [|i]; [reflexivity|]). lia. Qed.

Lemma rank_day_lt k : (Nat.modulo k 6 < 7)%nat.
Proof. pose proof (Nat.mod_upper_bound k 6). lia. Qed.

#[export] Hint Resolve week_days_NoDup rank_day_lt : study.


(** C3: The list of day [i] holds the eligible subjects of rank [k] with
    [k mod 6 = i], in rank order; exhausted subjects still take a rank. *)
Theorem build_plan_day i ranked :
  (i < 7)%nat ->
  plan_lookup (nth i week_days "") (build_plan ranked) =
  Some (map (fun ks => plan_entry_of (snd ks))
            (filter (fun ks => eligible (snd ks) && Nat.eqb (Nat.modulo (fst ks) 6) i)
                    (enumerate 0 ranked))).
Proof.
  intros Hi. unfold build_plan. change (map fst empty_plan) with week_days.
  rewrite distribute_lookup, empty_plan_lookup by assumption.
  cbn [option_map app]. unfold assigned. do 2 f_equal. apply filter_ext. intros [k s].
  cbn [fst snd]. now rewrite week_day_eqb by auto with study.
Qed.

(** P4: Sunday is never given an entry. *)
Theorem build_plan_sunday ranked : plan_lookup "Sunday" (build_plan ranked) = Some [].
Proof.
  change "Sunday" with (nth 6 week_days ""). rewrite build_plan_day by lia.
  rewrite filter_none; [reflexivity|]. intros [k s] _. simpl.
  pose proof (Nat.mod_upper_bound k 6). destruct (Nat.eqb_spec (Nat.modulo k 6) 6); [lia|].
  apply andb_false_r.
Qed.

(** C5: The entries of the plan are those of the eligible subjects, one each. *)
Theorem build_plan_entries ranked :
  Permutation (plan_entries (build_plan ranked)) (map plan_entry_of (filter eligible ranked)).
Proof.
  unfold build_plan. rewrite distribute_entries.
  - simpl. now rewrite app_nil_r.
  - apply week_days_NoDup.
  - intros k. apply nth_In. simpl. auto with study.
Qed.

(** The entries of the plan that name subject [s]. *)
Definition entries_for (s : Subject.t) (p : plan) : list PlanEntry.t :=
  filter (fun e => Z.eqb (PlanEntry.subject_id e) (Subject.id s)) (plan_entries p).

Lemma entries_for_length ranked s :
  length (entries_for s (build_plan ranked)) =
  length (filter (fun x => eligible x && Z.eqb (Subject.id x) (Subject.id s)) ranked).
Proof.
  unfold entries_for. rewrite (Permutation_length (Permutation_filter_ _ _ _ (build_plan_entries ranked))).
  rewrite filter_map_swap, length_map, filter_filter_andb. reflexivity.
Qed.

(** C6: P2: with distinct subject ids, an eligible subject has exactly one
    entry in the whole plan. *)
Theorem build_plan_once ranked s :
  NoDup (map Subject.id ranked) -> In s ranked -> eligible s = true ->
  length (entries_for s (build_plan ranked)) = 1%nat.
Proof. intros Hnd Hin He. rewrite entries_for_length. now apply filter_unique_key. Qed.

(** C7: P3: with distinct subject ids, a subject with no chapter left
    ([completed_chapters >= chapters]) has no entry. *)
Theorem build_plan_exhausted ranked s :
  NoDup (map Subject.id ranked) -> In s ranked -> chapters_left s <= 0 ->
  entries_for s (build_plan ranked) = [].
Proof.
  intros Hnd Hin Hle. apply length_zero_iff_nil. rewrite entries_for_length.
  rewrite filter_none; [reflexivity|]. intros x Hx.
  destruct (Z.eqb_spec (Subject.id x) (Subject.id s)) as [Heq|]; [|apply andb_false_r].
  rewrite (NoDup_map_same_key _ _ _ _ Hnd Hx Hin Heq). unfold eligible. simpl. lia.
Qed.

Lemma daily_chapters_bounds s : 0 < chapters_left s -> 1 <= daily_chapters s <= chapters_left s.
Proof.
  intros H. unfold daily_chapters. split; [lia|].
  apply Z.max_lub; [lia|]. apply Z.div_le_upper_bound; lia.
Qed.

(** C8: P6: every entry comes from an eligible subject, assigns between one
    chapter and the chapters left, and recommends 30 minutes a chapter. *)
Theorem build_plan_entry_law ranked e :
  In e (plan_entries (build_plan ranked)) ->
  exists s, In s ranked /\ eligible s = true /\ e = plan_entry_of s /\
    1 <= PlanEntry.chapters e <= chapters_left s /\
    PlanEntry.recommended_duration_mins e = PlanEntry.chapters e * 30.
Proof.
  intros Hin. eapply Permutation_in in Hin; [|apply build_plan_entries].
  apply in_map_iff in Hin as [s [<- Hs]]. apply filter_In in Hs as [Hs He].
  exists s. repeat split; auto; simpl; try apply daily_chapters_bounds;
    unfold eligible in He; lia.
Qed.

(** ** The score *)

Lemma days_left_pos now s : 1 <= days_left now s.
Proof. unfold days_left. lia. Qed.

Lemma weights_pos d p : 1 <= difficulty_weight d /\ 1 <= priority_weight p.
Proof.
  unfold difficulty_weight, priority_weight.
  split; repeat match goal with |- context [if ?b then _ else _] => destruct b end; lia.
Qed.

Instance fmul_int_comp : Proper (Qeq ==> eq ==> Qeq) fmul_int.
Proof. intros x y E n m <-. unfold fmul_int. apply round64_comp. now rewrite E. Qed.

(** The two products by the weights, on an urgency [u]. *)
Definition weighted (u : Q) (s : Subject.t) : Q :=
  fmul_int (fmul_int u (difficulty_weight (Subject.difficulty s))) (priority_weight (Subject.priority s)).

Lemma subject_score_weighted now s :
  subject_score now s = weighted (py_truediv (chapters_left s) (days_left now s)) s.
Proof. reflexivity. Qed.

Lemma weighted_le u v s : (0 <= u)%Q -> (u <= v)%Q -> (weighted u s <= weighted v s)%Q.
Proof.
  intros Hu Huv. pose proof (weights_pos (Subject.difficulty s) (Subject.priority s)) as [H1 H2].
  unfold weighted. apply fmul_int_le; [apply fmul_int_nonneg; [exact Hu | lia] | | lia].
  apply fmul_int_le; [exact Hu | exact Huv | lia].
Qed.

Lemma weighted_ge_1 v s : (1 <= v)%Q -> (1 <= weighted v s)%Q.
Proof.
  intros Hv. pose proof (weights_pos (Subject.difficulty s) (Subject.priority s)) as [H1 H2].
  unfold weighted. apply fmul_int_ge_1; [apply fmul_int_ge_1|]; assumption.
Qed.

(** Halving the urgency halves the score: the products are exact scalings. *)
Lemma weighted_half v s : (1 <= v)%Q -> (weighted (v * (1 # 2)) s == weighted v s * (1 # 2))%Q.
Proof.
  intros Hv. pose proof (weights_pos (Subject.difficulty s) (Subject.priority s)) as [H1 H2].
  unfold weighted. rewrite fmul_int_half by assumption.
  apply fmul_int_half; [apply fmul_int_ge_1|]; assumption.
Qed.

(** [c / d2 <= c / d1] for [c >= 0] and [1 <= d1 <= d2]. *)
Lemma div_antitone c d1 d2 : 0 <= c -> 1 <= d1 <= d2 ->
  (inject_Z c / inject_Z d2 <= inject_Z c / inject_Z d1)%Q.
Proof. intros Hc Hd. apply frac_le; nia. Qed.

(** C10: An earlier deadline never lowers the score of a subject with
    work left, in the float arithmetic of the key function: of two
    subjects with the same chapters left, difficulty and priority, the
    one due first scores at least as much (rounding is monotone). *)
Theorem subject_score_deadline_antitone now s1 s2 :
  chapters_left s1 = chapters_left s2 ->
  Subject.difficulty s1 = Subject.difficulty s2 -> Subject.priority s1 = Subject.priority s2 ->
  Subject.deadline s1 <= Subject.deadline s2 -> 0 <= chapters_left s1 ->
  (subject_score now s2 <= subject_score now s1)%Q.
Proof.
  intros Hc Hd Hp Hdl Hpos. rewrite !subject_score_weighted, <- Hc.
  unfold weighted at 1. rewrite <- Hd, <- Hp. fold (weighted (py_truediv (chapters_left s1) (days_left now s2)) s1).
  assert (Hdays : days_left now s1 <= days_left now s2)
    by (unfold days_left, timedelta_days; apply Z.max_le_compat_l, Z_div_le_mono_pos;
        unfold usec_per_day; lia).
  pose proof (days_left_pos now s1).
  apply weighted_le; [apply py_truediv_nonneg; lia|].
  apply round64_le; [apply frac_nonneg; lia | apply div_antitone; lia].
Qed.

(** C9: Scenario B: a subject past its deadline outscores the same subject due
    in two days or more, in the float arithmetic of the key function: the
    urgency due in two days or more is at most half the overdue one, and
    the weights scale both exactly. *)
Theorem overdue_outscores now s1 s2 :
  chapters_left s1 = chapters_left s2 ->
  Subject.difficulty s1 = Subject.difficulty s2 -> Subject.priority s1 = Subject.priority s2 ->
  Subject.deadline s1 <= now -> now + 2 * usec_per_day <= Subject.deadline s2 ->
  0 < chapters_left s1 ->
  (subject_score now s2 < subject_score now s1)%Q.
Proof.
  intros Hc Hd Hp Hover Hfut Hpos. rewrite !subject_score_weighted, <- Hc.
  unfold weighted at 1. rewrite <- Hd, <- Hp. fold (weighted (py_truediv (chapters_left s1) (days_left now s2)) s1).
  assert (H1 : days_left now s1 = 1).
  { unfold days_left, timedelta_days.
    assert ((Subject.deadline s1 - now) / usec_per_day <= 0)
      by (apply Z.div_le_upper_bound; unfold usec_per_day; lia). lia. }
  assert (H2 : 2 <= days_left now s2).
  { unfold days_left, timedelta_days.
    assert (2 <= (Subject.deadline s2 - now) / usec_per_day)
      by (apply Z.div_le_lower_bound; unfold usec_per_day in *; lia). lia. }
  rewrite H1. set (c := chapters_left s1) in *.
  assert (Hc1 : (1 <= inject_Z c)%Q) by (change 1%Q with (inject_Z 1); rewrite <- Zle_Qle; lia).
  assert (Hu1 : (py_truediv c 1 == round64 (inject_Z c))%Q)
    by (unfold py_truediv; apply round64_comp; field).
  assert (Hu2 : (py_truediv c (days_left now s2) <= py_truediv c 1 * (1 # 2))%Q).
  { rewrite Hu1, <- round64_half_ge_1 by exact Hc1. unfold py_truediv. apply round64_le.
    - apply frac_nonneg; lia.
    - apply (Qle_trans _ (inject_Z c / inject_Z 2)); [apply div_antitone; lia|].
      apply Qle_lteq. right. field. }
  assert (Hw1 : (1 <= weighted (py_truediv c 1) s1)%Q) by (apply weighted_ge_1; rewrite Hu1; now apply round64_ge_1).
  apply (Qle_lt_trans _ (weighted (py_truediv c 1 * (1 # 2)) s1)).
  - apply weighted_le; [apply py_truediv_nonneg; lia | exact Hu2].
  - rewrite weighted_half by (rewrite Hu1; now apply round64_ge_1). lra.
Qed.

(** ** Ranking and the handler *)

(** [sorted(subjects, key=subject_score, reverse=True)]: the keys are
    computed first, in list order, then the pairs are sorted on them. *)
Definition rank (scored : list (Q * Subject.t)) : list Subject.t :=
  map snd (sort_desc fst Qle_bool scored).

(** The keys, one [datetime.utcnow()] per subject. *)
Fixpoint score_subjects (ss : list Subject.t) : M (list (Q * Subject.t)) :=
  match ss with
  | [] => ret []
  | s :: rest =>
      now <- utcnow ;;
      scored <- score_subjects rest ;;
      ret ((subject_score now s, s) :: scored)
  end.

(** The pairs [score_subjects] computes when the [k]-th clock reading is
    [clock k]. *)
Definition scored_with (clock : nat -> Z) (n : nat) (ss : list Subject.t) : list (Q * Subject.t) :=
  map (fun ks => (subject_score (clock (fst ks)) (snd ks), snd ks)) (enumerate n ss).

Lemma score_subjects_run ss clock n d :
  score_subjects ss clock n d = Ok (scored_with clock n ss, (n + length ss)%nat, d).
Proof.
  revert n. induction ss as [|s ss IH]; intros n; simpl; [now rewrite Nat.add_0_r|].
  rewrite IH. unfold scored_with, enumerate. simpl. now rewrite Nat.add_succ_r.
Qed.

Definition entry_to_json (e : PlanEntry.t) : json :=
  JObj [("subject_name", JStr (PlanEntry.subject_name e));
        ("subject_id", JInt (PlanEntry.subject_id e));
        ("chapters", JInt (PlanEntry.chapters e));
        ("difficulty", JStr (PlanEntry.difficulty e));
        ("priority", JStr (PlanEntry.priority e));
        ("recommended_duration_mins", JInt (PlanEntry.recommended_duration_mins e))].

Definition plan_to_json (p : plan) : json :=
  JObj (map (fun '(d, es) => (d, JList (map entry_to_json es))) p).

Definition optimization_notes : string :=
  "Plan prioritizes urgent deadlines and high-difficulty subjects. Recommend studying Sunday for overflow.".

Section Handler.
Context (isoformat : Z -> string).

(** [generate_weekly_plan], lines 920-976. *)
Definition generate_weekly_plan (identity : string) : M response :=
  user <- current_user identity ;;
  uid <- lift (attr user User.id "id") ;;
  d <- get_db ;;
  match active_subjects_of d uid with
  | [] => ret (mkresp (JObj [("plan", JList [])]) 200)
  | subjects =>
      scored <- score_subjects subjects ;;
      let sorted_subjects := rank scored in
      let p := build_plan sorted_subjects in
      now <- utcnow ;;
      ret (mkresp (JObj [("plan", plan_to_json p);
                         ("generated_at", JStr (isoformat now));
                         ("subject_count", JInt (Z.of_nat (length sorted_subjects)));
                         ("optimization_notes", JStr optimization_notes)]) 201)
  end.
End Handler.

(** C2: P1 and the Sunday rule, on the reply: the [plan] object the
    handler returns has the keys ['Monday'] to ['Sunday'], in this order,
    and the list under ['Sunday'] is always empty ([idx % 6] never picks
    it). *)
Theorem build_plan_keys ranked :
  exists mon tue wed thu fri sat,
    plan_to_json (build_plan ranked) =
    JObj [("Monday", JList mon); ("Tuesday", JList tue); ("Wednesday", JList wed);
          ("Thursday", JList thu); ("Friday", JList fri); ("Saturday", JList sat);
          ("Sunday", JList [])].
Proof.
  pose proof (distribute_keys (map fst empty_plan) 0 ranked empty_plan) as Hk.
  change (distribute (map fst empty_plan) 0 ranked empty_plan) with (build_plan ranked) in Hk.
  pose proof (build_plan_sunday ranked) as Hs.
  destruct (build_plan ranked) as [|[k1 e1] [|[k2 e2] [|[k3 e3] [|[k4 e4] [|[k5 e5] [|[k6 e6] [|[k7 e7] [|]]]]]]]];
    try discriminate.
  cbn in Hk. injection Hk as -> -> -> -> -> -> ->. cbn in Hs. injection Hs as ->.
  eexists _, _, _, _, _, _. reflexivity.
Qed.

(** ** Theorems on the handler *)

Lemma Qle_bool_total a b : Qle_bool a b = true \/ Qle_bool b a = true.
Proof. rewrite !Qle_bool_iff. destruct (Qlt_le_dec a b); [left; now apply Qlt_le_weak | now right]. Qed.

Lemma Qle_bool_trans a b c : Qle_bool a b = true -> Qle_bool b c = true -> Qle_bool a c = true.
Proof. rewrite !Qle_bool_iff. apply Qle_trans. Qed.

(** C1: The ranking is the one every stable sort by descending score gives:
    CPython's Timsort, whose result the documentation pins down as stable,
    yields this list. *)
Theorem rank_refines_stable_sort scored out :
  stable_sort_spec fst Qle_bool scored out -> map snd out = rank scored.
Proof.
  intros H. unfold rank. f_equal.
  apply (stable_sort_spec_unique _ _ Qle_bool_total Qle_bool_trans). exact H.
Qed.

Lemma enumerate_snd {A} n (l : list A) : map snd (enumerate n l) = l.
Proof.
  revert n. induction l as [|x l IH]; intros n; [reflexivity|].
  unfold enumerate in *. simpl. now rewrite IH.
Qed.

Lemma rank_perm clock n ss : Permutation (rank (scored_with clock n ss)) ss.
Proof.
  unfold rank, scored_with. rewrite (sort_desc_perm fst Qle_bool).
  rewrite map_map. simpl. apply Permutation_refl' , enumerate_snd.
Qed.

Lemma score_subjects_reads_only ss : reads_only (score_subjects ss).
Proof. induction ss as [|s ss IH]; cbn [score_subjects]; auto 6 with study. Qed.

#[export] Hint Resolve score_subjects_reads_only : study.

Lemma generate_weekly_plan_reads_only isoformat identity :
  reads_only (generate_weekly_plan isoformat identity).
Proof.
  unfold generate_weekly_plan, current_user.
  repeat (apply reads_only_bind; [auto with study | intros]).
  destruct (active_subjects_of _ _); auto 8 with study.
Qed.

Section HandlerTheorems.
Context (isoformat : Z -> string) (clock : nat -> Z) (d : db) (identity : string).

(** The handler never writes to the database. *)
Theorem generate_weekly_plan_read_only :
  snd (run_handler (generate_weekly_plan isoformat identity) clock d) = d.
Proof. apply run_handler_reads_only, generate_weekly_plan_reads_only. Qed.

(** A token whose e-mail matches no user: [user.id] raises on [None]
    and the handler answers 500, where the other handlers answer 404. *)
Theorem generate_weekly_plan_unknown_user :
  user_by_email d identity = None ->
  run_handler (generate_weekly_plan isoformat identity) clock d =
  (error_response (AttributeError "'NoneType' object has no attribute 'id'"), d).
Proof. intros H. unfold run_handler. cbn -[user_by_email]. now rewrite H. Qed.

(** A user without active subjects gets [{'plan': []}] with status 200,
    not the seven empty days the spec describes. *)
Theorem generate_weekly_plan_no_subjects u :
  user_by_email d identity = Some u -> active_subjects_of d (User.id u) = [] ->
  run_handler (generate_weekly_plan isoformat identity) clock d =
  (mkresp (JObj [("plan", JList [])]) 200, d).
Proof.
  intros Hu Hs. unfold run_handler. cbn -[user_by_email active_subjects_of].
  rewrite Hu. cbn -[active_subjects_of]. now rewrite Hs.
Qed.

(** C13: Otherwise the answer is 201 with the plan built from the subjects
    ranked by the scores of the first [n] clock readings; the
    [generated_at] stamp is the next reading. *)
Theorem generate_weekly_plan_ok u :
  user_by_email d identity = Some u -> active_subjects_of d (User.id u) <> [] ->
  let ss := active_subjects_of d (User.id u) in
  run_handler (generate_weekly_plan isoformat identity) clock d =
  (mkresp (JObj [("plan", plan_to_json (build_plan (rank (scored_with clock 0 ss))));
                 ("generated_at", JStr (isoformat (clock (length ss))));
                 ("subject_count", JInt (Z.of_nat (length ss)));
                 ("optimization_notes", JStr optimization_notes)]) 201, d).
Proof.
  intros Hu Hne. cbv zeta. unfold run_handler.
  cbn -[user_by_email active_subjects_of score_subjects]. rewrite Hu.
  cbn -[active_subjects_of score_subjects].
  destruct (active_subjects_of d (User.id u)) as [|s rest]; [congruence|].
  rewrite score_subjects_run. cbn -[rank scored_with build_plan].
  now rewrite (Permutation_length (rank_perm clock 0 (s :: rest))).
Qed.
End HandlerTheorems.

(** C14: End to end: the entries of the generated plan are those of the
    user's active subjects with chapters left, one entry each. *)
Theorem generated_plan_entries clock ss :
  Permutation (plan_entries (build_plan (rank (scored_with clock 0 ss))))
              (map plan_entry_of (filter eligible ss)).
Proof.
  rewrite build_plan_entries. apply Permutation_map, Permutation_filter_, rank_perm.
Qed.
