(* ===== verification/PlannerScenarios.v ===== *)
(** The scenarios of the plan generator on concrete data: the spec's
    Scenarios A to E, evaluated, and the theorems of [Planner] applied to
    subjects and databases where their hypotheses hold.  The clock stands
    at day 20000 (2024-10-04) at midnight; [iso] renders nothing, the text
    of [isoformat()] being outside the model. *)

From Stdlib Require Import String ZArith QArith Lia Bool Sorted Permutation List.
From S2P Require Import Prelude PyRuntime Models Store Planner.
Import ListNotations.
Local Open Scope Z_scope.
Local Open Scope string_scope.

Definition day0 : Z := 20000 * usec_per_day.

Definition iso : Z -> string := fun _ => "".

Definition fixed_clock : nat -> Z := fun _ => day0.

(** A subject of user 1 with the columns the planner reads. *)
Definition sample (id : Z) (name : string) (chapters completed : Z) (difficulty priority : string)
  (deadline : Z) : Subject.t :=
  Subject.mk id 1 name chapters completed difficulty priority deadline 0 0 0 0 false None.

(** Scenario A: ten chapters, hard, high priority, due in five days. *)
Definition subjA : Subject.t := sample 1 "Algebra" 10 0 "hard" "high" (day0 + 5 * usec_per_day).

(** Scenario C: every chapter done. *)
Definition subjDone : Subject.t := sample 2 "Biology" 8 8 "easy" "low" (day0 + 3 * usec_per_day).

(** Scenario B: the same subject, overdue and due in five days. *)
Definition subjLate : Subject.t := sample 3 "Chemistry" 6 2 "medium" "medium" (day0 - usec_per_day).
Definition subjLater : Subject.t := sample 4 "Chemistry" 6 2 "medium" "medium" (day0 + 5 * usec_per_day).

(** Scenario E: seven subjects of equal score. *)
Definition equal_seven : list Subject.t :=
  map (fun k => sample k "Same" 4 0 "medium" "medium" (day0 + 2 * usec_per_day)) [11; 12; 13; 14; 15; 16; 17].

Definition alice : User.t := User.mk 1 "Alice" "alice@example.com" "hash" 0.

Definition db_alice (ss : list Subject.t) : db :=
  {| users := [alice]; subjects := ss; gamifications := []; study_sessions := [];
     reflections := []; study_moods := [] |}.

(** ** Scenarios *)

(** Scenario A: five chapters on Monday, 150 minutes. *)
Example scenario_A :
  plan_lookup "Monday" (build_plan [subjA]) =
  Some [{| PlanEntry.subject_name := "Algebra"; PlanEntry.subject_id := 1; PlanEntry.chapters := 5;
           PlanEntry.difficulty := "hard"; PlanEntry.priority := "high";
           PlanEntry.recommended_duration_mins := 150 |}].
Proof. vm_compute. reflexivity. Qed.

(** Scenario B: the overdue subject is ranked first. *)
Example scenario_B :
  rank (scored_with fixed_clock 0 [subjLater; subjLate]) = [subjLate; subjLater].
Proof. vm_compute. reflexivity. Qed.

(** Float keys: three chapters, easy, low priority, due in ten days,
    scores [3 / 10 = 0.3]; one chapter, hard, low, due in ten days,
    scores [1 / 10 * 3 = 0.30000000000000004].  The exact scores tie,
    but the floats do not, and [sorted] puts the second subject first
    although it comes second in the query. *)
Definition subjEasy : Subject.t := sample 5 "Drawing" 3 0 "easy" "low" (day0 + 10 * usec_per_day).
Definition subjHard : Subject.t := sample 6 "Physics" 1 0 "hard" "low" (day0 + 10 * usec_per_day).

Example float_scores_split_tie :
  rank (scored_with fixed_clock 0 [subjEasy; subjHard]) = [subjHard; subjEasy].
Proof. vm_compute. reflexivity. Qed.

(** Scenario C: the exhausted subject at rank 0 leaves Monday empty and
    pushes the next subject to Tuesday. *)
Example scenario_C :
  plan_lookup "Monday" (build_plan [subjDone; subjA]) = Some [] /\
  plan_lookup "Tuesday" (build_plan [subjDone; subjA]) = Some [plan_entry_of subjA].
Proof. vm_compute. split; reflexivity. Qed.

(** Scenario D, as the code has it: no subject gives [{'plan': []}]. *)
Example scenario_D :
  fst (run_handler (generate_weekly_plan iso "alice@example.com") fixed_clock (db_alice [])) =
  mkresp (JObj [("plan", JList [])]) 200.
Proof. vm_compute. reflexivity. Qed.

(** Scenario E: equal scores keep the input order; rank 6 goes back to
    Monday, after rank 0. *)
Example scenario_E :
  rank (scored_with fixed_clock 0 equal_seven) = equal_seven /\
  plan_lookup "Monday" (build_plan equal_seven) =
  Some (map plan_entry_of [nth 0 equal_seven subjA; nth 6 equal_seven subjA]).
Proof. vm_compute. split; reflexivity. Qed.

(** ** Witnesses *)

Lemma rank_refines_stable_sort_witness :
  let scored := scored_with fixed_clock 0 [subjDone; subjA; subjLate] in
  let out := [(subject_score day0 subjA, subjA); (subject_score day0 subjLate, subjLate);
              (subject_score day0 subjDone, subjDone)] in
  stable_sort_spec fst Qle_bool scored out /\ map snd out = rank scored.
Proof.
  intros scored out.
  assert (Hspec : stable_sort_spec fst Qle_bool scored out).
  { replace out with (sort_desc fst Qle_bool scored) by (vm_compute; reflexivity).
    exact (sort_desc_stable fst Qle_bool Qle_bool_total Qle_bool_trans scored). }
  split; [exact Hspec | apply (rank_refines_stable_sort scored out Hspec)].
Defined.

Lemma build_plan_day_witness :
  (1 < 7)%nat /\
  plan_lookup (nth 1 week_days "") (build_plan [subjDone; subjA]) =
  Some (map (fun ks => plan_entry_of (snd ks))
            (filter (fun ks => eligible (snd ks) && Nat.eqb (Nat.modulo (fst ks) 6) 1)
                    (enumerate 0 [subjDone; subjA]))).
Proof. split; [lia | apply build_plan_day; lia]. Defined.

Lemma build_plan_once_witness :
  NoDup (map Subject.id [subjDone; subjA]) /\ In subjA [subjDone; subjA] /\
  eligible subjA = true /\ length (entries_for subjA (build_plan [subjDone; subjA])) = 1%nat.
Proof.
  assert (Hnd : NoDup (map Subject.id [subjDone; subjA])) by (simpl; repeat constructor; simpl; lia).
  assert (Hin : In subjA [subjDone; subjA]) by (simpl; auto).
  assert (He : eligible subjA = true) by reflexivity.
  exact (conj Hnd (conj Hin (conj He (build_plan_once _ _ Hnd Hin He)))).
Defined.

Lemma build_plan_exhausted_witness :
  NoDup (map Subject.id [subjDone; subjA]) /\ In subjDone [subjDone; subjA] /\
  chapters_left subjDone <= 0 /\ entries_for subjDone (build_plan [subjDone; subjA]) = [].
Proof.
  assert (Hnd : NoDup (map Subject.id [subjDone; subjA])) by (simpl; repeat constructor; simpl; lia).
  assert (Hin : In subjDone [subjDone; subjA]) by (simpl; auto).
  assert (Hle : chapters_left subjDone <= 0) by (vm_compute; discriminate).
  exact (conj Hnd (conj Hin (conj Hle (build_plan_exhausted _ _ Hnd Hin Hle)))).
Defined.

Lemma build_plan_entry_law_witness :
  In (plan_entry_of subjA) (plan_entries (build_plan [subjDone; subjA])) /\
  exists s, In s [subjDone; subjA] /\ eligible s = true /\ plan_entry_of subjA = plan_entry_of s /\
    1 <= PlanEntry.chapters (plan_entry_of subjA) <= chapters_left s /\
    PlanEntry.recommended_duration_mins (plan_entry_of subjA) =
      PlanEntry.chapters (plan_entry_of subjA) * 30.
Proof.
  assert (Hin : In (plan_entry_of subjA) (plan_entries (build_plan [subjDone; subjA])))
    by (vm_compute; auto).
  split; [exact Hin | exact (build_plan_entry_law _ _ Hin)].
Defined.

Lemma overdue_outscores_witness :
  chapters_left subjLate = chapters_left subjLater /\
  Subject.difficulty subjLate = Subject.difficulty subjLater /\
  Subject.priority subjLate = Subject.priority subjLater /\
  Subject.deadline subjLate <= day0 /\ day0 + 2 * usec_per_day <= Subject.deadline subjLater /\
  0 < chapters_left subjLate /\
  (subject_score day0 subjLater < subject_score day0 subjLate)%Q.
Proof.
  assert (H1 : chapters_left subjLate = chapters_left subjLater) by reflexivity.
  assert (H2 : Subject.difficulty subjLate = Subject.difficulty subjLater) by reflexivity.
  assert (H3 : Subject.priority subjLate = Subject.priority subjLater) by reflexivity.
  assert (H4 : Subject.deadline subjLate <= day0) by (vm_compute; discriminate).
  assert (H5 : day0 + 2 * usec_per_day <= Subject.deadline subjLater) by (vm_compute; discriminate).
  assert (H6 : 0 < chapters_left subjLate) by reflexivity.
  exact (conj H1 (conj H2 (conj H3 (conj H4 (conj H5 (conj H6
    (overdue_outscores _ _ _ H1 H2 H3 H4 H5 H6))))))).
Defined.

Lemma generate_weekly_plan_unknown_user_witness :
  user_by_email (db_alice []) "bob@example.com" = None /\
  run_handler (generate_weekly_plan iso "bob@example.com") fixed_clock (db_alice []) =
  (error_response (AttributeError "'NoneType' object has no attribute 'id'"), db_alice []).
Proof.
  assert (H : user_by_email (db_alice []) "bob@example.com" = None) by reflexivity.
  split; [exact H | exact (generate_weekly_plan_unknown_user _ _ _ _ H)].
Defined.

Lemma generate_weekly_plan_no_subjects_witness :
  user_by_email (db_alice []) "alice@example.com" = Some alice /\
  active_subjects_of (db_alice []) (User.id alice) = [] /\
  run_handler (generate_weekly_plan iso "alice@example.com") fixed_clock (db_alice []) =
  (mkresp (JObj [("plan", JList [])]) 200, db_alice []).
Proof.
  assert (Hu : user_by_email (db_alice []) "alice@example.com" = Some alice) by reflexivity.
  assert (Hs : active_subjects_of (db_alice []) (User.id alice) = []) by reflexivity.
  exact (conj Hu (conj Hs (generate_weekly_plan_no_subjects _ _ _ _ _ Hu Hs))).
Defined.

Lemma generate_weekly_plan_ok_witness :
  user_by_email (db_alice [subjA]) "alice@example.com" = Some alice /\
  active_subjects_of (db_alice [subjA]) (User.id alice) <> [] /\
  run_handler (generate_weekly_plan iso "alice@example.com") fixed_clock (db_alice [subjA]) =
  (mkresp (JObj [("plan", plan_to_json (build_plan (rank (scored_with fixed_clock 0 [subjA]))));
                 ("generated_at", JStr (iso (fixed_clock 1%nat)));
                 ("subject_count", JInt 1);
                 ("optimization_notes", JStr optimization_notes)]) 201, db_alice [subjA]).
Proof.
  assert (Hu : user_by_email (db_alice [subjA]) "alice@example.com" = Some alice) by reflexivity.
  assert (Hs : active_subjects_of (db_alice [subjA]) (User.id alice) <> []) by discriminate.
  exact (conj Hu (conj Hs (generate_weekly_plan_ok _ _ _ _ _ Hu Hs))).
Defined.

Lemma subject_score_deadline_antitone_witness :
  chapters_left subjLate = chapters_left subjLater /\
  Subject.difficulty subjLate = Subject.difficulty subjLater /\
  Subject.priority subjLate = Subject.priority subjLater /\
  Subject.deadline subjLate <= Subject.deadline subjLater /\ 0 <= chapters_left subjLate /\
  (subject_score day0 subjLater <= subject_score day0 subjLate)%Q.
Proof.
  assert (Hc : chapters_left subjLate = chapters_left subjLater) by reflexivity.
  assert (Hd : Subject.difficulty subjLate = Subject.difficulty subjLater) by reflexivity.
  assert (Hp : Subject.priority subjLate = Subject.priority subjLater) by reflexivity.
  assert (Hdl : Subject.deadline subjLate <= Subject.deadline subjLater) by (vm_compute; discriminate).
  assert (Hpos : 0 <= chapters_left subjLate) by (vm_compute; discriminate).
  exact (conj Hc (conj Hd (conj Hp (conj Hdl (conj Hpos
    (subject_score_deadline_antitone day0 subjLate subjLater Hc Hd Hp Hdl Hpos)))))).
Defined.
