(* ===== verification/Gamification.v ===== *)
(** The gamification routes of [src/app.py] (lines 423-583): reading the
    row, [add_xp], [update_streak], [award_badge] and [set_mode], each
    the whole handler as the source writes it (user lookup, the 404 and
    400 answers, the update of the ORM row, the commit, the reply).  The
    commit is [Store.commit_gamification]: nothing is written for an
    unchanged row, [updated_at] is refreshed otherwise, and a changed
    integer outside the 64-bit range makes the commit raise, so
    [add_xp] past [2^63 - 1] answers 500.

    The row invariant [gamif_inv] (level matches xp, the streak agrees
    with the last study date, the mode is [normal] or [exam], no badge
    twice) holds for the row [register] creates and every handler keeps
    it; [reachable] closes it under any sequence of requests.  [str()] of
    a JSON value, which only feeds message texts, is the section variable
    [py_str]. *)

From Stdlib Require Import String ZArith QArith Lia Bool List.
From S2P Require Import Prelude PyRuntime Models Store.
Import ListNotations.
Local Open Scope Z_scope.
Local Open Scope string_scope.
Local Open Scope study_scope.

(** ** Row updates *)

Definition with_xp_level (xp level : Z) (g : Gamification.t) : Gamification.t :=
  Gamification.mk (Gamification.id g) (Gamification.user_id g) xp level (Gamification.streak g)
    (Gamification.total_minutes_studied g) (Gamification.last_study_date g)
    (Gamification.badges_earned g) (Gamification.current_mode g) (Gamification.updated_at g).

Definition with_streak (streak : Z) (last : option Z) (g : Gamification.t) : Gamification.t :=
  Gamification.mk (Gamification.id g) (Gamification.user_id g) (Gamification.xp g)
    (Gamification.level g) streak (Gamification.total_minutes_studied g) last
    (Gamification.badges_earned g) (Gamification.current_mode g) (Gamification.updated_at g).

Definition with_mode (mode : string) (g : Gamification.t) : Gamification.t :=
  Gamification.mk (Gamification.id g) (Gamification.user_id g) (Gamification.xp g)
    (Gamification.level g) (Gamification.streak g) (Gamification.total_minutes_studied g)
    (Gamification.last_study_date g) (Gamification.badges_earned g) mode
    (Gamification.updated_at g).

(** ** Pure steps *)

(** Lines 457-462: add the xp, recompute the level, report a level up. *)
Definition xp_step (xp_earned : Z) (g : Gamification.t) : Gamification.t * bool :=
  let xp := Gamification.xp g + xp_earned in
  let new_level := xp / 100 + 1 in
  (with_xp_level xp new_level g, Z.gtb new_level (Gamification.level g)).

(** Lines 491-509: the new streak on day [today], or [None] when the
    user already studied today and nothing changes. *)
Definition streak_next (today : Z) (g : Gamification.t) : option Z :=
  match Gamification.last_study_date g with
  | Some last =>
      let last_date := date_of last in
      if Z.eqb last_date today then None
      else if Z.eqb (today - last_date) 1 then Some (Gamification.streak g + 1)
      else Some 1
  | None => Some 1
  end.

Section Handlers.
Context (isoformat : Z -> string) (py_str : json -> string).

(** [user] and [user.gamification], or the 404 of [if not user or not
    user.gamification]. *)
Definition with_gamification (identity : string) (msg : string)
  (k : db -> Gamification.t -> M response) : M response :=
  user <- current_user identity ;;
  d <- get_db ;;
  match user with
  | None => ret (not_found msg)
  | Some u =>
      match gamification_of d u with
      | None => ret (not_found msg)
      | Some g => k d g
      end
  end.

(** [get_gamification], lines 427-439. *)
Definition get_gamification (identity : string) : M response :=
  with_gamification identity "Gamification data not found" (fun _ g =>
    ret (mkresp (gamification_to_dict isoformat g) 200)).

(** [add_xp], lines 444-476. *)
Definition add_xp (identity : string) (data : json) : M response :=
  with_gamification identity "User not found" (fun d g =>
    raw <- lift (py_get_default data "xp" (JInt 0)) ;;
    xp_earned <- lift (py_int raw) ;;
    let '(g', leveled_up) := xp_step xp_earned g in
    d' <- commit_gamification g g' d ;;
    _ <- put_db d' ;;
    ret (mkresp (JObj [("status", JStr "success"); ("xp_earned", JInt xp_earned);
                       ("total_xp", JInt (Gamification.xp g'));
                       ("level", JInt (Gamification.level g'));
                       ("leveled_up", JBool leveled_up)]) 200)).

(** [update_streak], lines 481-522. *)
Definition update_streak (identity : string) : M response :=
  with_gamification identity "User not found" (fun d g =>
    now1 <- utcnow ;;
    match streak_next (date_of now1) g with
    | None =>
        ret (mkresp (JObj [("status", JStr "success"); ("message", JStr "Already studied today");
                           ("streak", JInt (Gamification.streak g))]) 200)
    | Some streak =>
        now2 <- utcnow ;;
        let g' := with_streak streak (Some now2) g in
        d' <- commit_gamification g g' d ;;
        _ <- put_db d' ;;
        ret (mkresp (JObj [("status", JStr "success"); ("streak", JInt streak);
                           ("message", JStr ("Streak: " ++ py_str (JInt streak) ++ " days!"))]) 200)
    end).

(** [award_badge], lines 527-553. *)
Definition award_badge (identity : string) (data : json) : M response :=
  with_gamification identity "User not found" (fun d g =>
    badge_id <- lift (py_get data "badge_id") ;;
    match badge_id with
    | Some b =>
        if truthy b then
          let g' := add_badge b g in
          d' <- commit_gamification g g' d ;;
          _ <- put_db d' ;;
          ret (mkresp (JObj [("status", JStr "success");
                             ("message", JStr ("Badge " ++ py_str b ++ " awarded"));
                             ("badges", JList (get_badges g'))]) 200)
        else ret (mkresp (JObj [("error", JStr "Badge ID required")]) 400)
    | None => ret (mkresp (JObj [("error", JStr "Badge ID required")]) 400)
    end).

(** [mode in ['normal', 'exam']]. *)
Definition valid_mode (mode : json) : option string :=
  match mode with
  | JStr s => if String.eqb s "normal" || String.eqb s "exam" then Some s else None
  | _ => None
  end.

(** [set_mode], lines 558-583. *)
Definition set_mode (identity : string) (data : json) : M response :=
  with_gamification identity "User not found" (fun d g =>
    mode <- lift (py_get_default data "mode" (JStr "normal")) ;;
    match valid_mode mode with
    | None => ret (mkresp (JObj [("error", JStr "Invalid mode")]) 400)
    | Some m =>
        d' <- commit_gamification g (with_mode m g) d ;;
        _ <- put_db d' ;;
        ret (mkresp (JObj [("status", JStr "success"); ("mode", mode)]) 200)
    end).
End Handlers.

(** ** The row invariant *)

Definition level_ok (g : Gamification.t) : Prop :=
  Gamification.level g = Gamification.xp g / 100 + 1.

Definition streak_ok (g : Gamification.t) : Prop :=
  match Gamification.last_study_date g with
  | None => Gamification.streak g = 0
  | Some _ => 1 <= Gamification.streak g
  end.

Definition mode_ok (g : Gamification.t) : Prop :=
  Gamification.current_mode g = "normal" \/ Gamification.current_mode g = "exam".

(** No badge equals ([==]) one awarded before it. *)
Fixpoint badges_distinct (l : list json) : Prop :=
  match l with
  | [] => True
  | x :: l' => (forall y, In y l' -> py_eq y x = false) /\ badges_distinct l'
  end.

Definition gamif_inv (g : Gamification.t) : Prop :=
  level_ok g /\ streak_ok g /\ mode_ok g /\ badges_distinct (Gamification.badges_earned g).

Definition db_inv (d : db) : Prop := Forall gamif_inv (gamifications d).

(** The row [Gamification(user=user)] gets from the column defaults. *)
Definition new_gamification (id uid now : Z) : Gamification.t :=
  Gamification.mk id uid 0 1 0 0 None [] "normal" now.

(** ** Run lemmas: what each handler answers and leaves behind *)

Section Runs.
Context (isoformat : Z -> string) (py_str : json -> string) (clock : nat -> Z) (d : db)
  (identity : string).

Ltac run_tac :=
  unfold run_handler, with_gamification, current_user;
  cbn -[user_by_email gamification_of commit_gamification xp_step streak_next add_badge
        valid_mode py_get py_get_default py_int truthy date_of]; rewrite ?commit_gamification_run.

Lemma add_xp_run data :
  run_handler (add_xp identity data) clock d =
  match user_by_email d identity with
  | None => (not_found "User not found", d)
  | Some u =>
      match gamification_of d u with
      | None => (not_found "User not found", d)
      | Some g =>
          match bind (py_get_default data "xp" (JInt 0)) py_int with
          | Raise e => (error_response e, d)
          | Ok x =>
              let '(g', up) := xp_step x g in
              if commit_ok g g' then
                (mkresp (JObj [("status", JStr "success"); ("xp_earned", JInt x);
                               ("total_xp", JInt (Gamification.xp g'));
                               ("level", JInt (Gamification.level g'));
                               ("leveled_up", JBool up)]) 200,
                 commit_row g g' (clock 0%nat) d)
              else (error_response int_overflow, d)
          end
      end
  end.
Proof.
  unfold add_xp. run_tac.
  destruct (user_by_email d identity); [|reflexivity]. cbn -[gamification_of].
  destruct (gamification_of d t) as [g|]; [|reflexivity]. simpl.
  destruct (py_get data "xp") as [o|e]; simpl; [|reflexivity].
  destruct (py_int _) as [x|]; [|reflexivity]. simpl.
  destruct (xp_step x g) as [g' up]. rewrite commit_gamification_run. now destruct (commit_ok _ _).
Qed.

Lemma update_streak_run :
  run_handler (update_streak py_str identity) clock d =
  match user_by_email d identity with
  | None => (not_found "User not found", d)
  | Some u =>
      match gamification_of d u with
      | None => (not_found "User not found", d)
      | Some g =>
          match streak_next (date_of (clock 0%nat)) g with
          | None =>
              (mkresp (JObj [("status", JStr "success"); ("message", JStr "Already studied today");
                             ("streak", JInt (Gamification.streak g))]) 200, d)
          | Some s =>
              if commit_ok g (with_streak s (Some (clock 1%nat)) g) then
                (mkresp (JObj [("status", JStr "success"); ("streak", JInt s);
                               ("message", JStr ("Streak: " ++ py_str (JInt s) ++ " days!"))]) 200,
                 commit_row g (with_streak s (Some (clock 1%nat)) g) (clock 2%nat) d)
              else (error_response int_overflow, d)
          end
      end
  end.
Proof.
  unfold update_streak. run_tac.
  destruct (user_by_email d identity); [|reflexivity]. cbn -[gamification_of streak_next date_of].
  destruct (gamification_of d t) as [g|]; [|reflexivity]. simpl.
  destruct (streak_next _ _); [|reflexivity]. simpl. rewrite commit_gamification_run.
  now destruct (commit_ok _ _).
Qed.

Lemma award_badge_run data :
  run_handler (award_badge py_str identity data) clock d =
  match user_by_email d identity with
  | None => (not_found "User not found", d)
  | Some u =>
      match gamification_of d u with
      | None => (not_found "User not found", d)
      | Some g =>
          match py_get data "badge_id" with
          | Raise e => (error_response e, d)
          | Ok (Some b) =>
              if truthy b then
                if commit_ok g (add_badge b g) then
                  (mkresp (JObj [("status", JStr "success");
                                 ("message", JStr ("Badge " ++ py_str b ++ " awarded"));
                                 ("badges", JList (get_badges (add_badge b g)))]) 200,
                   commit_row g (add_badge b g) (clock 0%nat) d)
                else (error_response int_overflow, d)
              else (mkresp (JObj [("error", JStr "Badge ID required")]) 400, d)
          | Ok None => (mkresp (JObj [("error", JStr "Badge ID required")]) 400, d)
          end
      end
  end.
Proof.
  unfold award_badge. run_tac.
  destruct (user_by_email d identity); [|reflexivity]. cbn -[gamification_of].
  destruct (gamification_of d t) as [g|]; [|reflexivity]. simpl.
  destruct (py_get data "badge_id") as [[b|]|e]; simpl; try reflexivity.
  destruct (truthy b); [|reflexivity]. simpl. rewrite commit_gamification_run.
  now destruct (commit_ok _ _).
Qed.

Lemma set_mode_run data :
  run_handler (set_mode identity data) clock d =
  match user_by_email d identity with
  | None => (not_found "User not found", d)
  | Some u =>
      match gamification_of d u with
      | None => (not_found "User not found", d)
      | Some g =>
          match py_get_default data "mode" (JStr "normal") with
          | Raise e => (error_response e, d)
          | Ok mode =>
              match valid_mode mode with
              | None => (mkresp (JObj [("error", JStr "Invalid mode")]) 400, d)
              | Some m =>
                  if commit_ok g (with_mode m g) then
                    (mkresp (JObj [("status", JStr "success"); ("mode", mode)]) 200,
                     commit_row g (with_mode m g) (clock 0%nat) d)
                  else (error_response int_overflow, d)
              end
          end
      end
  end.
Proof.
  unfold set_mode. run_tac.
  destruct (user_by_email d identity); [|reflexivity]. cbn -[gamification_of].
  destruct (gamification_of d t) as [g|]; [|reflexivity]. simpl.
  unfold py_get_default. destruct (py_get data "mode") as [o|e]; simpl; [|reflexivity].
  destruct (valid_mode _); [|reflexivity]. simpl. rewrite commit_gamification_run.
  now destruct (commit_ok _ _).
Qed.
End Runs.

(** ** Preservation *)

Lemma gamification_of_In d u g : gamification_of d u = Some g -> In g (gamifications d).
Proof. unfold gamification_of. intros H. now apply find_some in H. Qed.

(** Writing back a row that keeps the invariant keeps it for the table. *)
Lemma save_gamification_inv g' d : db_inv d -> gamif_inv g' -> db_inv (save_gamification g' d).
Proof.
  unfold db_inv, save_gamification. simpl. intros Hd Hg.
  apply Forall_map. eapply Forall_impl; [|exact Hd]. intros r Hr. simpl.
  now destruct (Z.eqb _ _).
Qed.

(** The [onupdate] stamp touches no field of the invariant. *)
Lemma with_updated_at_inv t g : gamif_inv g -> gamif_inv (with_updated_at t g).
Proof. destruct g. exact (fun H => H). Qed.

(** Flushing a row that keeps the invariant keeps it for the table,
    whether the flush writes or not. *)
Lemma commit_row_inv g g' now d : db_inv d -> gamif_inv g' -> db_inv (commit_row g g' now d).
Proof.
  intros Hd Hg. unfold commit_row. destruct (row_unchanged g g'); [exact Hd|].
  apply save_gamification_inv; [exact Hd|]. now apply with_updated_at_inv.
Qed.

Lemma xp_step_inv x g : gamif_inv g -> gamif_inv (fst (xp_step x g)).
Proof. intros (_ & Hs & Hm & Hb). repeat split; assumption. Qed.

Lemma streak_next_inv today now g s :
  gamif_inv g -> streak_next today g = Some s -> gamif_inv (with_streak s (Some now) g).
Proof.
  intros (Hl & Hs & Hm & Hb) Hn. repeat split; try assumption. unfold streak_ok in *. simpl.
  unfold streak_next in Hn. destruct (Gamification.last_study_date g); [|now inv Hn].
  destruct (Z.eqb _ _); [discriminate|]. destruct (Z.eqb _ _); inv Hn; lia.
Qed.

Lemma badges_distinct_snoc l b :
  badges_distinct l -> py_in b l = false -> badges_distinct (l ++ [b]).
Proof.
  induction l as [|x l IH]; simpl; intros Hd Hin; [repeat constructor; intros y []|].
  destruct Hd as [Hx Hl]. apply orb_false_iff in Hin as [Hbx Hin]. split; [|auto].
  intros y Hy. apply in_app_or in Hy as [Hy|[<-|[]]]; auto.
Qed.

Lemma add_badge_inv b g : gamif_inv g -> gamif_inv (add_badge b g).
Proof.
  intros (Hl & Hs & Hm & Hb). unfold add_badge, get_badges.
  destruct (py_in b (Gamification.badges_earned g)) eqn:E; simpl; [repeat split; assumption|].
  repeat split; try assumption. now apply badges_distinct_snoc.
Qed.

Lemma valid_mode_inv mode m g : valid_mode mode = Some m -> gamif_inv g -> gamif_inv (with_mode m g).
Proof.
  intros Hv (Hl & Hs & Hm & Hb). repeat split; try assumption. unfold mode_ok. simpl.
  destruct mode; try discriminate. simpl in Hv.
  destruct (String.eqb_spec s "normal"), (String.eqb_spec s "exam"); simpl in Hv; inv Hv; auto.
Qed.

Lemma new_gamification_inv id uid now : gamif_inv (new_gamification id uid now).
Proof. unfold gamif_inv, level_ok, streak_ok, mode_ok. simpl. repeat split; auto. Qed.

#[export] Hint Resolve save_gamification_inv commit_row_inv xp_step_inv add_badge_inv new_gamification_inv : study.

(** Each handler keeps the invariant of every row. *)
Section Preservation.
Context (py_str : json -> string) (clock : nat -> Z) (d : db) (identity : string) (data : json).
Hypothesis Hd : db_inv d.

Ltac found_row :=
  match goal with
  | H : gamification_of _ _ = Some ?g |- _ =>
      let Hin := fresh in pose proof (gamification_of_In _ _ _ H) as Hin;
      unfold db_inv in Hd; rewrite Forall_forall in Hd; specialize (Hd _ Hin)
  end.

Lemma add_xp_preserves : db_inv (snd (run_handler (add_xp identity data) clock d)).
Proof.
  rewrite add_xp_run. destruct (user_by_email d identity) as [u|]; [|exact Hd].
  destruct (gamification_of d u) as [g|] eqn:Eg; [|exact Hd].
  destruct (bind _ _) as [x|e]; [|exact Hd]. simpl.
  destruct (commit_ok _ _); simpl; [|exact Hd].
  apply commit_row_inv; [exact Hd|]. found_row. now apply (xp_step_inv x).
Qed.

Lemma update_streak_preserves : db_inv (snd (run_handler (update_streak py_str identity) clock d)).
Proof.
  rewrite update_streak_run. destruct (user_by_email d identity) as [u|]; [|exact Hd].
  destruct (gamification_of d u) as [g|] eqn:Eg; [|exact Hd].
  destruct (streak_next _ g) as [s|] eqn:En; [|exact Hd]. simpl.
  destruct (commit_ok _ _); simpl; [|exact Hd].
  apply commit_row_inv; [exact Hd|]. found_row. eapply streak_next_inv; eassumption.
Qed.

Lemma award_badge_preserves : db_inv (snd (run_handler (award_badge py_str identity data) clock d)).
Proof.
  rewrite award_badge_run. destruct (user_by_email d identity) as [u|]; [|exact Hd].
  destruct (gamification_of d u) as [g|] eqn:Eg; [|exact Hd].
  destruct (py_get data "badge_id") as [[b|]|e]; try exact Hd. destruct (truthy b); [|exact Hd].
  simpl. destruct (commit_ok _ _); simpl; [|exact Hd].
  apply commit_row_inv; [exact Hd|]. found_row. now apply add_badge_inv.
Qed.

Lemma set_mode_preserves : db_inv (snd (run_handler (set_mode identity data) clock d)).
Proof.
  rewrite set_mode_run. destruct (user_by_email d identity) as [u|]; [|exact Hd].
  destruct (gamification_of d u) as [g|] eqn:Eg; [|exact Hd].
  destruct (py_get_default _ _ _) as [mode|e]; [|exact Hd].
  destruct (valid_mode mode) as [m|] eqn:Ev; [|exact Hd]. simpl.
  destruct (commit_ok _ _); simpl; [|exact Hd].
  apply commit_row_inv; [exact Hd|]. found_row. eapply valid_mode_inv; eassumption.
Qed.
End Preservation.

(** ** Reachable databases *)

(** [Gamification(user=user)] added by [register] (line 227). *)
Definition add_gamification_row (g : Gamification.t) (d : db) : db :=
  mkdb (users d) (subjects d) (gamifications d ++ [g]) (study_sessions d) (reflections d)
    (study_moods d).

(** The databases the gamification routes can produce from an empty one. *)
Inductive reachable : db -> Prop :=
| reach_empty : reachable empty_db
| reach_new_row d id uid now :
    reachable d -> reachable (add_gamification_row (new_gamification id uid now) d)
| reach_add_xp d identity data clock :
    reachable d -> reachable (snd (run_handler (add_xp identity data) clock d))
| reach_update_streak d py_str identity clock :
    reachable d -> reachable (snd (run_handler (update_streak py_str identity) clock d))
| reach_award_badge d py_str identity data clock :
    reachable d -> reachable (snd (run_handler (award_badge py_str identity data) clock d))
| reach_set_mode d identity data clock :
    reachable d -> reachable (snd (run_handler (set_mode identity data) clock d)).

(** Every gamification row of a reachable database has a level that
    matches its xp, a streak that agrees with its last study date, the
    mode [normal] or [exam], and no badge twice. *)
Theorem reachable_db_inv d : reachable d -> db_inv d.
Proof.
  induction 1.
  - constructor.
  - unfold db_inv, add_gamification_row in *. simpl. apply Forall_app. auto with study.
  - now apply add_xp_preserves.
  - now apply update_streak_preserves.
  - now apply award_badge_preserves.
  - now apply set_mode_preserves.
Qed.

(** ** Lookups after a write *)

Lemma gamification_of_save d u g g' :
  gamification_of d u = Some g -> Gamification.id g' = Gamification.id g ->
  Gamification.user_id g' = Gamification.user_id g ->
  gamification_of (save_gamification g' d) u = Some g'.
Proof.
  unfold gamification_of, save_gamification. simpl. intros Hf Hid Huid.
  induction (gamifications d) as [|r rows IH]; simpl in *; [discriminate|].
  destruct (Z.eqb (Gamification.user_id r) (User.id u)) eqn:Er.
  - inv Hf. rewrite Hid, Z.eqb_refl. simpl. now rewrite Huid, Er.
  - destruct (Z.eqb (Gamification.id r) (Gamification.id g')); simpl.
    + apply find_some in Hf as [_ Hf]. now rewrite Huid, Hf.
    + rewrite Er. auto.
Qed.

(** After a flush the user's row is the row the flush left: the loaded
    row when nothing changed, the new values stamped otherwise. *)
Lemma gamification_of_commit d u g g' now :
  gamification_of d u = Some g -> Gamification.id g' = Gamification.id g ->
  Gamification.user_id g' = Gamification.user_id g ->
  gamification_of (commit_row g g' now d) u = Some (committed_row g g' now).
Proof.
  intros Hf Hid Huid. unfold commit_row, committed_row.
  destruct (row_unchanged g g'); [exact Hf|]. apply (gamification_of_save _ _ g); assumption.
Qed.

Lemma user_by_email_commit g g' now d e : user_by_email (commit_row g g' now d) e = user_by_email d e.
Proof. unfold user_by_email. now rewrite commit_row_users. Qed.

(** The flush of [add_xp] writes exactly when the xp or the level moved. *)
Lemma row_unchanged_xp_level x l g :
  row_unchanged g (with_xp_level x l g) = Z.eqb (Gamification.xp g) x && Z.eqb (Gamification.level g) l.
Proof.
  unfold row_unchanged. simpl.
  rewrite !Z.eqb_refl, option_Z_eqb_refl, json_list_same_refl, String.eqb_refl.
  now destruct (Z.eqb _ x), (Z.eqb _ l).
Qed.

(** The value of a key in a dictionary is the one of its last pair. *)
Lemma dict_lookup_last pre k x rest :
  dict_lookup rest k = None -> dict_lookup (pre ++ (k, x) :: rest) k = Some x.
Proof.
  intros H. induction pre as [|[k' v] pre IH]; simpl; [now rewrite H, String.eqb_refl|].
  now rewrite IH.
Qed.

(** Python's [==] on JSON values is reflexive. *)
Fixpoint py_eq_refl (v : json) : py_eq v v = true.
Proof.
  destruct v as [| b | z | q | s | l | kvs]; simpl.
  - reflexivity.
  - now destruct b.
  - apply Qeq_bool_iff. reflexivity.
  - apply Qeq_bool_iff. reflexivity.
  - apply String.eqb_refl.
  - induction l as [|x l IH]; [reflexivity|]. now rewrite py_eq_refl, IH.
  - rewrite Nat.eqb_refl, andb_true_r. rewrite <- (app_nil_l kvs) at 1. generalize (@nil (string * json)).
    induction kvs as [|[k x] kvs IH]; intros pre; [reflexivity|]. simpl.
    specialize (IH (pre ++ [(k, x)])%list). rewrite <- app_assoc in IH.
    destruct (dict_lookup kvs k) eqn:E; [exact IH|].
    now rewrite dict_lookup_last, py_eq_refl by exact E.
Qed.

Lemma add_badge_present b g : py_in b (Gamification.badges_earned (add_badge b g)) = true.
Proof.
  unfold add_badge, get_badges. destruct (py_in b (Gamification.badges_earned g)) eqn:E; simpl; [exact E|].
  unfold py_in. rewrite existsb_app. simpl. now rewrite py_eq_refl, orb_true_r.
Qed.

Lemma add_badge_keys b g :
  Gamification.id (add_badge b g) = Gamification.id g /\
  Gamification.user_id (add_badge b g) = Gamification.user_id g.
Proof. unfold add_badge. now destruct (negb _). Qed.

Lemma add_badge_again b g : py_in b (Gamification.badges_earned g) = true -> add_badge b g = g.
Proof. intros H. unfold add_badge, get_badges. now rewrite H. Qed.

(** A level computed from a 64-bit xp is a 64-bit integer. *)
Lemma in_int64_level x : in_int64 x = true -> in_int64 (x / 100 + 1) = true.
Proof.
  rewrite !in_int64_spec. unfold int64_min, int64_max. intros H.
  pose proof (Z.div_mod x 100). pose proof (Z.mod_pos_bound x 100). lia.
Qed.

(** The flush of [add_xp] binds when the new xp is a 64-bit integer. *)
Lemma commit_ok_xp_level x g :
  in_int64 x = true -> commit_ok g (with_xp_level x (x / 100 + 1) g) = true.
Proof.
  intros H. apply commit_ok_changed; simpl; auto using in_int64_level.
Qed.

(** The flush of [update_streak] binds when the new streak is a 64-bit
    integer. *)
Lemma commit_ok_streak s t g : in_int64 s = true -> commit_ok g (with_streak s t g) = true.
Proof. intros H. apply commit_ok_changed; simpl; auto. Qed.

(** A badge changes no integer column: its flush always binds. *)
Lemma commit_ok_add_badge b g : commit_ok g (add_badge b g) = true.
Proof.
  unfold add_badge. destruct (negb _); [|apply commit_ok_refl]. apply commit_ok_changed; simpl; auto.
Qed.

(** Whatever the flush of [award_badge] left, the badge is in the row. *)
Lemma add_badge_committed b g now :
  py_in b (Gamification.badges_earned (committed_row g (add_badge b g) now)) = true.
Proof.
  unfold committed_row. destruct (row_unchanged g (add_badge b g)) eqn:E; [|apply add_badge_present].
  destruct (py_in b (Gamification.badges_earned g)) eqn:Eb; [reflexivity|].
  apply row_unchanged_badges in E. unfold add_badge, get_badges in E. rewrite Eb in E. simpl in E.
  rewrite length_app in E. simpl in E. lia.
Qed.

(** ** Claims *)

Section Claims.
Context (py_str : json -> string) (clock : nat -> Z) (d : db) (identity : string) (data : json)
  (u : User.t) (g : Gamification.t).
Hypothesis Hu : user_by_email d identity = Some u.
Hypothesis Hg : gamification_of d u = Some g.

(** C16: [add_xp] with an [xp] that [int()] accepts and a total that is
    a 64-bit integer: the row's xp grows by it, the level becomes
    [xp // 100 + 1], and [leveled_up] says whether the level went up; the
    flush stamps [updated_at] with the clock exactly when the xp or the
    level changed, and leaves the row as it was otherwise. *)
Theorem add_xp_levels x :
  bind (py_get_default data "xp" (JInt 0)) py_int = Ok x ->
  in_int64 (Gamification.xp g + x) = true ->
  let xp := Gamification.xp g + x in
  let g' := with_xp_level xp (xp / 100 + 1) g in
  run_handler (add_xp identity data) clock d =
  (mkresp (JObj [("status", JStr "success"); ("xp_earned", JInt x); ("total_xp", JInt xp);
                 ("level", JInt (xp / 100 + 1));
                 ("leveled_up", JBool (Z.gtb (xp / 100 + 1) (Gamification.level g)))]) 200,
   commit_row g g' (clock 0%nat) d) /\
  gamification_of (commit_row g g' (clock 0%nat) d) u =
  Some (if Z.eqb x 0 && Z.eqb (Gamification.level g) (xp / 100 + 1) then g
        else with_updated_at (clock 0%nat) g').
Proof.
  intros Hx Hr xp g'. rewrite add_xp_run, Hu, Hg, Hx. cbv beta iota zeta delta [xp_step].
  rewrite commit_ok_xp_level by exact Hr. split; [reflexivity|].
  rewrite (gamification_of_commit _ _ g) by (assumption || reflexivity). unfold committed_row, g'.
  rewrite row_unchanged_xp_level. subst xp. now rewrite Zeqb_add_r.
Qed.

(** C4: [add_xp] that takes a stored xp past the 64-bit range: the
    flush cannot bind the new value, the handler answers 500 with the
    [OverflowError] of [sqlite3], and nothing is written. *)
Theorem add_xp_overflow x :
  bind (py_get_default data "xp" (JInt 0)) py_int = Ok x ->
  in_int64 (Gamification.xp g) = true -> in_int64 (Gamification.xp g + x) = false ->
  run_handler (add_xp identity data) clock d =
  (mkresp (JObj [("error", JStr "Python int too large to convert to SQLite INTEGER")]) 500, d).
Proof using Hu Hg.
  intros Hx Hin Hout. rewrite add_xp_run, Hu, Hg, Hx. cbv beta iota zeta delta [xp_step].
  rewrite (commit_ok_overflow _ _ Gamification.xp); [reflexivity | now left | simpl | exact Hout].
  intros E. rewrite <- E, Hin in Hout. discriminate.
Qed.

(** [add_xp] with an [xp] that [int()] refuses: 500 and nothing written. *)
Theorem add_xp_bad_xp e :
  bind (py_get_default data "xp" (JInt 0)) py_int = Raise e ->
  run_handler (add_xp identity data) clock d = (error_response e, d).
Proof. intros He. now rewrite add_xp_run, Hu, Hg, He. Qed.

(** Already studied today: 200, nothing written. *)
Theorem update_streak_same_day last :
  Gamification.last_study_date g = Some last -> date_of last = date_of (clock 0%nat) ->
  run_handler (update_streak py_str identity) clock d =
  (mkresp (JObj [("status", JStr "success"); ("message", JStr "Already studied today");
                 ("streak", JInt (Gamification.streak g))]) 200, d).
Proof.
  intros Hl Hday. rewrite update_streak_run, Hu, Hg. unfold streak_next. cbv zeta.
  rewrite Hl, Hday, Z.eqb_refl.
  reflexivity.
Qed.

(** C19: Another day: the streak grows by one after a study the day before,
    restarts at 1 otherwise, the second clock reading becomes the last
    study date, and the flush takes the third for [updated_at] (a streak
    one past the 64-bit range would make the flush raise). *)
Theorem update_streak_next_day :
  match Gamification.last_study_date g with
  | Some last => date_of last <> date_of (clock 0%nat)
  | None => True
  end ->
  in_int64 (Gamification.streak g + 1) = true ->
  let s := match Gamification.last_study_date g with
           | Some last =>
               if Z.eqb (date_of (clock 0%nat) - date_of last) 1 then Gamification.streak g + 1 else 1
           | None => 1
           end in
  snd (run_handler (update_streak py_str identity) clock d) =
  commit_row g (with_streak s (Some (clock 1%nat)) g) (clock 2%nat) d.
Proof.
  intros Hne Hr s. rewrite update_streak_run, Hu, Hg. unfold streak_next, s. cbv zeta.
  destruct (Gamification.last_study_date g) as [last|]; [|now rewrite commit_ok_streak].
  destruct (Z.eqb_spec (date_of last) (date_of (clock 0%nat))); [contradiction|].
  now destruct (Z.eqb (date_of (clock 0%nat) - date_of last) 1); rewrite commit_ok_streak.
Qed.

(** C20: Awarding the same badge twice leaves the database as awarding it
    once: the second request finds the badge in the row, changes nothing,
    and its flush writes nothing, [updated_at] included. *)
Theorem award_badge_idempotent clock' :
  let d1 := snd (run_handler (award_badge py_str identity data) clock d) in
  snd (run_handler (award_badge py_str identity data) clock' d1) = d1.
Proof.
  intros d1. subst d1. rewrite !award_badge_run, Hu, Hg.
  destruct (py_get data "badge_id") as [[b|]|e]; simpl; rewrite ?Hu, ?Hg; try reflexivity.
  destruct (truthy b) eqn:Eb; simpl; rewrite ?Hu, ?Hg, ?Eb; [|reflexivity].
  rewrite commit_ok_add_badge. simpl.
  pose proof (add_badge_keys b g) as [Hk1 Hk2].
  rewrite user_by_email_commit, Hu, (gamification_of_commit _ _ g) by assumption. simpl.
  rewrite (add_badge_again b (committed_row g (add_badge b g) (clock 0%nat))) by apply add_badge_committed.
  rewrite commit_ok_refl. apply commit_row_same.
Qed.

End Claims.

(** C22: The level is at least 1 exactly when the total xp is not negative:
    the client-supplied [xp] may be negative, and then the level drops to
    0 or below. *)
Theorem xp_step_level_bounds x g :
  1 <= Gamification.level (fst (xp_step x g)) <-> 0 <= Gamification.xp (fst (xp_step x g)).
Proof.
  simpl. split; intros H.
  - destruct (Z.neg_nonneg_cases (Gamification.xp g + x)) as [Hn|]; [|assumption].
    assert ((Gamification.xp g + x) / 100 < 0) by (apply Z.div_lt_upper_bound; lia). lia.
  - pose proof (Z.div_pos (Gamification.xp g + x) 100 H). lia.
Qed.
