(* ===== verification/GamificationScenarios.v ===== *)
(** The gamification routes on concrete data: a database with one user
    and the row [register] gives her, the theorems of [Gamification]
    applied where their hypotheses hold, and the negative-xp run that
    drives the level below 1. *)

From Stdlib Require Import String ZArith QArith Lia Bool List.
From S2P Require Import Prelude PyRuntime Models Store Gamification.
Import ListNotations.
Local Open Scope Z_scope.
Local Open Scope string_scope.

Definition alice : User.t := User.mk 1 "Alice" "alice@example.com" "hash" 0.

Definition day (n : Z) : Z := n * usec_per_day.

(** Alice's row after she last studied at [last]. *)
Definition row_at (last : option Z) (streak : Z) : Gamification.t :=
  Gamification.mk 1 1 0 1 streak 0 last [] "normal" 0.

Definition db_with (g : Gamification.t) : db := mkdb [alice] [] [g] [] [] [].

Definition clock_at (t : Z) : nat -> Z := fun _ => t.

Definition show : json -> string := fun _ => "".

(** ** Findings *)

(** A negative [xp] is accepted and the level falls to -1. *)
Example add_xp_negative_level :
  fst (run_handler (add_xp "alice@example.com" (JObj [("xp", JInt (-150))]))
         (clock_at (day 20000)) (db_with (new_gamification 1 1 0))) =
  mkresp (JObj [("status", JStr "success"); ("xp_earned", JInt (-150)); ("total_xp", JInt (-150));
                ("level", JInt (-1)); ("leveled_up", JBool false)]) 200.
Proof. vm_compute. reflexivity. Qed.

(** The badge [1] and the badge [true] are the same badge: Python's [==]. *)
Example award_badge_true_after_one :
  Gamification.badges_earned
    (add_badge (JBool true) (add_badge (JInt 1) (new_gamification 1 1 0))) = [JInt 1].
Proof. vm_compute. reflexivity. Qed.

(** Two dictionaries with the same pairs in another order are the same
    badge, and a dictionary with a repeated key is the one its last value
    gives: Python's [==] on dicts. *)
Example award_badge_dict_order :
  Gamification.badges_earned
    (add_badge (JObj [("b", JInt 2); ("a", JInt 1)])
       (add_badge (JObj [("a", JInt 1); ("b", JInt 2)]) (new_gamification 1 1 0))) =
  [JObj [("a", JInt 1); ("b", JInt 2)]] /\
  py_eq (JObj [("a", JInt 0); ("a", JInt 1)]) (JObj [("a", JBool true)]) = true.
Proof. split; vm_compute; reflexivity. Qed.

(** ** Witnesses *)

Lemma reachable_db_inv_witness :
  let d := snd (run_handler (add_xp "alice@example.com" (JObj [("xp", JInt 250)])) (clock_at 0)
                  (add_gamification_row (new_gamification 1 1 0) empty_db)) in
  reachable d /\ db_inv d.
Proof.
  intros d.
  assert (Hr : reachable d) by (apply reach_add_xp, reach_new_row, reach_empty).
  exact (conj Hr (reachable_db_inv d Hr)).
Defined.

Lemma add_xp_levels_witness :
  let d := db_with (new_gamification 1 1 0) in
  let data := JObj [("xp", JInt 150)] in
  let g' := with_xp_level (0 + 150) ((0 + 150) / 100 + 1) (new_gamification 1 1 0) in
  user_by_email d "alice@example.com" = Some alice /\
  gamification_of d alice = Some (new_gamification 1 1 0) /\
  bind (py_get_default data "xp" (JInt 0)) py_int = Ok 150 /\
  in_int64 (0 + 150) = true /\
  run_handler (add_xp "alice@example.com" data) (clock_at 7) d =
  (mkresp (JObj [("status", JStr "success"); ("xp_earned", JInt 150); ("total_xp", JInt (0 + 150));
                 ("level", JInt ((0 + 150) / 100 + 1));
                 ("leveled_up", JBool (Z.gtb ((0 + 150) / 100 + 1) 1))]) 200,
   commit_row (new_gamification 1 1 0) g' (clock_at 7 0%nat) d) /\
  gamification_of (commit_row (new_gamification 1 1 0) g' (clock_at 7 0%nat) d) alice =
  Some (if Z.eqb 150 0 && Z.eqb 1 ((0 + 150) / 100 + 1) then new_gamification 1 1 0
        else with_updated_at (clock_at 7 0%nat) g').
Proof.
  intros d data g'.
  assert (Hu : user_by_email d "alice@example.com" = Some alice) by reflexivity.
  assert (Hg : gamification_of d alice = Some (new_gamification 1 1 0)) by reflexivity.
  assert (Hx : bind (py_get_default data "xp" (JInt 0)) py_int = Ok 150) by reflexivity.
  assert (Hr : in_int64 (0 + 150) = true) by reflexivity.
  exact (conj Hu (conj Hg (conj Hx (conj Hr (add_xp_levels _ _ _ _ _ _ Hu Hg 150 Hx Hr))))).
Defined.

(** Alice's row at the top of the 64-bit range. *)
Definition rich_row : Gamification.t := Gamification.mk 1 1 int64_max 1 0 0 None [] "normal" 0.

Lemma add_xp_overflow_witness :
  let d := db_with rich_row in
  let data := JObj [("xp", JInt 1)] in
  user_by_email d "alice@example.com" = Some alice /\
  gamification_of d alice = Some rich_row /\
  bind (py_get_default data "xp" (JInt 0)) py_int = Ok 1 /\
  in_int64 (Gamification.xp rich_row) = true /\ in_int64 (Gamification.xp rich_row + 1) = false /\
  run_handler (add_xp "alice@example.com" data) (clock_at 7) d =
  (mkresp (JObj [("error", JStr "Python int too large to convert to SQLite INTEGER")]) 500, d).
Proof.
  intros d data.
  assert (Hu : user_by_email d "alice@example.com" = Some alice) by reflexivity.
  assert (Hg : gamification_of d alice = Some rich_row) by reflexivity.
  assert (Hx : bind (py_get_default data "xp" (JInt 0)) py_int = Ok 1) by reflexivity.
  assert (Hin : in_int64 (Gamification.xp rich_row) = true) by reflexivity.
  assert (Hout : in_int64 (Gamification.xp rich_row + 1) = false) by reflexivity.
  exact (conj Hu (conj Hg (conj Hx (conj Hin (conj Hout
    (add_xp_overflow _ _ _ _ _ _ Hu Hg 1 Hx Hin Hout)))))).
Defined.

(** An [xp] of 0 changes no column: the flush issues no [UPDATE] and
    [updated_at] keeps its value; 150 xp stamp it with the clock. *)
Example add_xp_onupdate :
  snd (run_handler (add_xp "alice@example.com" (JObj [("xp", JInt 0)])) (clock_at 7)
         (db_with (new_gamification 1 1 0))) = db_with (new_gamification 1 1 0) /\
  snd (run_handler (add_xp "alice@example.com" (JObj [("xp", JInt 150)])) (clock_at 7)
         (db_with (new_gamification 1 1 0))) = db_with (Gamification.mk 1 1 150 2 0 0 None [] "normal" 7).
Proof. split; vm_compute; reflexivity. Qed.

Lemma add_xp_bad_xp_witness :
  let d := db_with (new_gamification 1 1 0) in
  let data := JObj [("xp", JStr "ten")] in
  let e := ValueError "invalid literal for int() with base 10: 'ten'" in
  user_by_email d "alice@example.com" = Some alice /\
  gamification_of d alice = Some (new_gamification 1 1 0) /\
  bind (py_get_default data "xp" (JInt 0)) py_int = Raise e /\
  run_handler (add_xp "alice@example.com" data) (clock_at 0) d = (error_response e, d).
Proof.
  intros d data e.
  assert (Hu : user_by_email d "alice@example.com" = Some alice) by reflexivity.
  assert (Hg : gamification_of d alice = Some (new_gamification 1 1 0)) by reflexivity.
  assert (Hx : bind (py_get_default data "xp" (JInt 0)) py_int = Raise e) by reflexivity.
  exact (conj Hu (conj Hg (conj Hx (add_xp_bad_xp _ _ _ _ _ _ Hu Hg e Hx)))).
Defined.

Lemma update_streak_same_day_witness :
  let g := row_at (Some (day 20000 + 3600000000)) 4 in
  let d := db_with g in
  let clock := clock_at (day 20000 + 7200000000) in
  user_by_email d "alice@example.com" = Some alice /\ gamification_of d alice = Some g /\
  Gamification.last_study_date g = Some (day 20000 + 3600000000) /\
  date_of (day 20000 + 3600000000) = date_of (clock 0%nat) /\
  run_handler (update_streak show "alice@example.com") clock d =
  (mkresp (JObj [("status", JStr "success"); ("message", JStr "Already studied today");
                 ("streak", JInt (Gamification.streak g))]) 200, d).
Proof.
  intros g d clock.
  assert (Hu : user_by_email d "alice@example.com" = Some alice) by reflexivity.
  assert (Hg : gamification_of d alice = Some g) by reflexivity.
  assert (Hl : Gamification.last_study_date g = Some (day 20000 + 3600000000)) by reflexivity.
  assert (Hday : date_of (day 20000 + 3600000000) = date_of (clock 0%nat)) by reflexivity.
  exact (conj Hu (conj Hg (conj Hl (conj Hday
    (update_streak_same_day _ _ _ _ _ _ Hu Hg _ Hl Hday))))).
Defined.

Lemma update_streak_next_day_witness :
  let g := row_at (Some (day 19999)) 4 in
  let d := db_with g in
  let clock := clock_at (day 20000) in
  user_by_email d "alice@example.com" = Some alice /\ gamification_of d alice = Some g /\
  date_of (day 19999) <> date_of (clock 0%nat) /\ in_int64 (Gamification.streak g + 1) = true /\
  snd (run_handler (update_streak show "alice@example.com") clock d) =
  commit_row g (with_streak 5 (Some (clock 1%nat)) g) (clock 2%nat) d.
Proof.
  intros g d clock.
  assert (Hu : user_by_email d "alice@example.com" = Some alice) by reflexivity.
  assert (Hg : gamification_of d alice = Some g) by reflexivity.
  assert (Hne : date_of (day 19999) <> date_of (clock 0%nat)) by (vm_compute; discriminate).
  assert (Hr : in_int64 (Gamification.streak g + 1) = true) by reflexivity.
  exact (conj Hu (conj Hg (conj Hne (conj Hr (update_streak_next_day _ _ _ _ _ _ Hu Hg Hne Hr))))).
Defined.

Lemma award_badge_idempotent_witness :
  let d := db_with (new_gamification 1 1 0) in
  let data := JObj [("badge_id", JStr "first_week")] in
  user_by_email d "alice@example.com" = Some alice /\
  gamification_of d alice = Some (new_gamification 1 1 0) /\
  let d1 := snd (run_handler (award_badge show "alice@example.com" data) (clock_at 0) d) in
  snd (run_handler (award_badge show "alice@example.com" data) (clock_at 1) d1) = d1.
Proof.
  intros d data.
  assert (Hu : user_by_email d "alice@example.com" = Some alice) by reflexivity.
  assert (Hg : gamification_of d alice = Some (new_gamification 1 1 0)) by reflexivity.
  exact (conj Hu (conj Hg (award_badge_idempotent _ _ _ _ _ _ _ Hu Hg _))).
Defined.

(** A mode other than [normal] and [exam]: 400, nothing written. *)
Example set_mode_holiday :
  run_handler (set_mode "alice@example.com" (JObj [("mode", JStr "holiday")])) (clock_at 0)
    (db_with (new_gamification 1 1 0)) =
  (mkresp (JObj [("error", JStr "Invalid mode")]) 400, db_with (new_gamification 1 1 0)).
Proof. vm_compute. reflexivity. Qed.
