(* ===== verification/Auth.v ===== *)
(** The authentication routes of [src/app.py] (lines 206-292): [register],
    [login], [get_user], and the [@jwt_required()] guard in front of every
    other route.

    Two libraries stand behind interfaces.  [PasswordHasher] is werkzeug's
    [generate_password_hash]/[check_password_hash]: the hash of a password
    under a salt checks against that password.  The salt is the random
    input of [generate_password_hash]; the model takes it as an input of
    the request, as it takes the clock.  [TokenIssuer] is
    flask_jwt_extended: [create_access_token(identity=email)] gives a token
    that [@jwt_required()] decodes back to [email]; any other token gets
    the library's own error reply.  The client theorems below are proved
    against the interfaces alone.

    The e-mail and name the client sends are bound as SQL parameters
    through the driver's coercion [text_column] (as in [Subjects]); the
    password must be a [str], as werkzeug calls [password.encode()]. *)

From Stdlib Require Import String ZArith Lia Bool List.
From S2P Require Import Prelude PyRuntime Models Store Gamification.
Import ListNotations.
Local Open Scope Z_scope.
Local Open Scope string_scope.
Local Open Scope study_scope.

(** ** Interfaces *)

Class PasswordHasher : Type := {
  generate_password_hash : string -> string -> string;
  check_password_hash : string -> string -> bool;
  check_password_hash_generated :
    forall salt password, check_password_hash (generate_password_hash salt password) password = true
}.

(** [app.config['JWT_ACCESS_TOKEN_EXPIRES'] = timedelta(days=30)], in
    microseconds as every timestamp of the model. *)
Definition jwt_access_token_expires : Z := 30 * usec_per_day.

(** flask_jwt_extended's default reply to an expired token. *)
Definition token_expired : response := mkresp (JObj [("msg", JStr "Token has expired")]) 401.

(** flask_jwt_extended: [create_access_token(identity=email)] at time
    [iat] signs a token for [email] that expires at
    [iat + JWT_ACCESS_TOKEN_EXPIRES]; [@jwt_required()] at time [now]
    decodes it back to [email] from [iat] on until it expires, and answers
    [token_expired] after. *)
Class TokenIssuer : Type := {
  create_access_token : string -> Z -> string;
  decode_token : string -> Z -> response + string;
  decode_token_create : forall email iat now,
    iat <= now < iat + jwt_access_token_expires ->
    decode_token (create_access_token email iat) now = inr email;
  decode_token_expired : forall email iat now,
    iat + jwt_access_token_expires <= now ->
    decode_token (create_access_token email iat) now = inl token_expired
}.

(** [password.encode()] inside werkzeug's hashing. *)
Definition password_text (v : json) : pyres string :=
  match v with
  | JStr s => Ok s
  | _ => Raise (AttributeError ("'" ++ py_type_name v ++ "' object has no attribute 'encode'"))
  end.

(** [db.session.add(user); db.session.add(gamification); db.session.commit()]. *)
Definition add_user_rows (u : User.t) (g : Gamification.t) (d : db) : db :=
  mkdb (users d ++ [u]) (subjects d) (gamifications d ++ [g]) (study_sessions d) (reflections d)
    (study_moods d).

Definition bad_request (msg : string) : response := mkresp (JObj [("error", JStr msg)]) 400.

Section Routes.
Context `{PasswordHasher} `{TokenIssuer} (isoformat : Z -> string)
  (text_column : json -> pyres string).

(** [register], lines 208-245.  The three [data.get] tests short-circuit
    as [or] does; the commit flushes the user first, then its
    gamification row, each reading the clock for its default timestamp. *)
Definition register (salt : string) (data : json) : M response :=
  name <- lift (py_get data "name") ;;
  if negb (truthy_opt name) then ret (bad_request "Missing required fields") else
  email <- lift (py_get data "email") ;;
  if negb (truthy_opt email) then ret (bad_request "Missing required fields") else
  password <- lift (py_get data "password") ;;
  if negb (truthy_opt password) then ret (bad_request "Missing required fields") else
  email_v <- lift (py_index data "email") ;;
  email_s <- lift (text_column email_v) ;;
  d <- get_db ;;
  match user_by_email d email_s with
  | Some _ => ret (mkresp (JObj [("error", JStr "Email already registered")]) 409)
  | None =>
      name_v <- lift (py_index data "name") ;;
      password_v <- lift (py_index data "password") ;;
      pw <- lift (password_text password_v) ;;
      name_s <- lift (text_column name_v) ;;
      created <- utcnow ;;
      updated <- utcnow ;;
      let u := User.mk (next_id (map User.id (users d))) name_s email_s
                 (generate_password_hash salt pw) created in
      let g := new_gamification (next_id (map Gamification.id (gamifications d))) (User.id u) updated in
      _ <- put_db (add_user_rows u g d) ;;
      issued <- utcnow ;;
      ret (mkresp (JObj [("status", JStr "success"); ("message", JStr "User registered successfully");
                         ("access_token", JStr (create_access_token (User.email u) issued));
                         ("user", user_to_dict isoformat u)]) 201)
  end.

(** [login], lines 248-272. *)
Definition login (data : json) : M response :=
  email <- lift (py_get data "email") ;;
  if negb (truthy_opt email) then ret (bad_request "Missing email or password") else
  password <- lift (py_get data "password") ;;
  if negb (truthy_opt password) then ret (bad_request "Missing email or password") else
  email_v <- lift (py_index data "email") ;;
  email_s <- lift (text_column email_v) ;;
  d <- get_db ;;
  match user_by_email d email_s with
  | None => ret (mkresp (JObj [("error", JStr "Invalid credentials")]) 401)
  | Some u =>
      password_v <- lift (py_index data "password") ;;
      pw <- lift (password_text password_v) ;;
      if check_password_hash (User.password u) pw then
        issued <- utcnow ;;
        ret (mkresp (JObj [("status", JStr "success"); ("message", JStr "Login successful");
                           ("access_token", JStr (create_access_token (User.email u) issued));
                           ("user", user_to_dict isoformat u)]) 200)
      else ret (mkresp (JObj [("error", JStr "Invalid credentials")]) 401)
  end.

(** [get_user], lines 275-292. *)
Definition get_user (identity : string) : M response :=
  user <- current_user identity ;;
  match user with
  | None => ret (not_found "User not found")
  | Some u =>
      d <- get_db ;;
      ret (mkresp (JObj [("user", user_to_dict isoformat u);
                         ("gamification", match gamification_of d u with
                                          | Some g => gamification_to_dict isoformat g
                                          | None => JNull
                                          end)]) 200)
  end.

(** [@jwt_required()] and [get_jwt_identity()] for a request that arrives
    at [now]: the handler runs with the identity the token carries. *)
Definition with_token (now : Z) (token : string) (handler : string -> M response) : M response :=
  match decode_token token now with
  | inl reply => ret reply
  | inr identity => handler identity
  end.
End Routes.

(** ** What the routes answer and leave behind *)

(** The user row [register] inserts. *)
Definition new_user (d : db) (name email pwhash : string) (now : Z) : User.t :=
  User.mk (next_id (map User.id (users d))) name email pwhash now.

(** The two values of the new row [register] converts after the e-mail
    check: the password for hashing, then the name at the flush. *)
Definition register_row (text_column : json -> pyres string) (data : json) : pyres (string * string) :=
  pyres_bind (py_index data "name") (fun name_v =>
  pyres_bind (py_index data "password") (fun password_v =>
  pyres_bind (password_text password_v) (fun pw =>
  pyres_bind (text_column name_v) (fun name => Ok (name, pw))))).

Definition registered (isoformat : Z -> string) `{TokenIssuer} (u : User.t) (issued : Z) : response :=
  mkresp (JObj [("status", JStr "success"); ("message", JStr "User registered successfully");
                ("access_token", JStr (create_access_token (User.email u) issued));
                ("user", user_to_dict isoformat u)]) 201.

Definition logged_in (isoformat : Z -> string) `{TokenIssuer} (u : User.t) (issued : Z) : response :=
  mkresp (JObj [("status", JStr "success"); ("message", JStr "Login successful");
                ("access_token", JStr (create_access_token (User.email u) issued));
                ("user", user_to_dict isoformat u)]) 200.

Definition invalid_credentials : response := mkresp (JObj [("error", JStr "Invalid credentials")]) 401.

Section Runs.
Context `{PasswordHasher} `{TokenIssuer} (isoformat : Z -> string)
  (text_column : json -> pyres string) (clock : nat -> Z) (d : db).

Lemma register_run salt data :
  run_handler (register isoformat text_column salt data) clock d =
  match all_present data ["name"; "email"; "password"] with
  | Raise e => (error_response e, d)
  | Ok false => (bad_request "Missing required fields", d)
  | Ok true =>
      match pyres_bind (py_index data "email") text_column with
      | Raise e => (error_response e, d)
      | Ok email =>
          match user_by_email d email with
          | Some _ => (mkresp (JObj [("error", JStr "Email already registered")]) 409, d)
          | None =>
              match register_row text_column data with
              | Raise e => (error_response e, d)
              | Ok (name, pw) =>
                  let u := new_user d name email (generate_password_hash salt pw) (clock 0%nat) in
                  (registered isoformat u (clock 2%nat),
                   add_user_rows u (new_gamification (next_id (map Gamification.id (gamifications d)))
                                      (User.id u) (clock 1%nat)) d)
              end
          end
      end
  end.
Proof.
  unfold run_handler, register, register_row.
  cbn -[user_by_email py_get py_index truthy_opt password_text].
  destruct (py_get data "name") as [n|e]; [|reflexivity]. simpl.
  destruct (truthy_opt n); [|reflexivity]. simpl.
  destruct (py_get data "email") as [m|e]; [|reflexivity]. simpl.
  destruct (truthy_opt m); [|reflexivity]. simpl.
  destruct (py_get data "password") as [p|e]; [|reflexivity]. simpl.
  destruct (truthy_opt p); [|reflexivity]. simpl.
  destruct (py_index data "email") as [ev|e]; [|reflexivity]. simpl.
  destruct (text_column ev) as [email|e]; [|reflexivity]. cbn -[user_by_email].
  destruct (user_by_email d email); [reflexivity|]. simpl.
  destruct (py_index data "name") as [nv|e]; [|reflexivity]. simpl.
  destruct (py_index data "password") as [pv|e]; [|reflexivity]. simpl.
  destruct (password_text pv) as [pw|e]; [|reflexivity]. simpl.
  destruct (text_column nv); reflexivity.
Qed.

Lemma login_run data :
  run_handler (login isoformat text_column data) clock d =
  match all_present data ["email"; "password"] with
  | Raise e => (error_response e, d)
  | Ok false => (bad_request "Missing email or password", d)
  | Ok true =>
      match pyres_bind (py_index data "email") text_column with
      | Raise e => (error_response e, d)
      | Ok email =>
          match user_by_email d email with
          | None => (invalid_credentials, d)
          | Some u =>
              match pyres_bind (py_index data "password") password_text with
              | Raise e => (error_response e, d)
              | Ok pw =>
                  if check_password_hash (User.password u) pw then (logged_in isoformat u (clock 0%nat), d)
                  else (invalid_credentials, d)
              end
          end
      end
  end.
Proof.
  unfold run_handler, login.
  cbn -[user_by_email py_get py_index truthy_opt password_text].
  destruct (py_get data "email") as [m|e]; [|reflexivity]. simpl.
  destruct (truthy_opt m); [|reflexivity]. simpl.
  destruct (py_get data "password") as [p|e]; [|reflexivity]. simpl.
  destruct (truthy_opt p); [|reflexivity]. simpl.
  destruct (py_index data "email") as [ev|e]; [|reflexivity]. simpl.
  destruct (text_column ev) as [email|e]; [|reflexivity]. cbn -[user_by_email].
  destruct (user_by_email d email); [|reflexivity]. simpl.
  destruct (py_index data "password") as [pv|e]; [|reflexivity]. simpl.
  destruct (password_text pv) as [pw|e]; [|reflexivity]. simpl.
  destruct (check_password_hash _ pw); reflexivity.
Qed.
End Runs.

Lemma user_by_email_add_user d u g email :
  user_by_email d email = None -> User.email u = email ->
  user_by_email (add_user_rows u g d) email = Some u.
Proof.
  unfold user_by_email, add_user_rows. simpl. intros Hn He. rewrite find_app, Hn. simpl.
  now rewrite He, String.eqb_refl.
Qed.

Lemma truthy_str s : s <> "" -> truthy (JStr s) = true.
Proof. intros H. simpl. now destruct (String.eqb_spec s ""). Qed.

(** Each gamification row belongs to the user in the same position: the
    two tables grow together, one row each per registration. *)
Definition user_rows (d : db) : Prop :=
  map Gamification.user_id (gamifications d) = map User.id (users d).

Lemma gamification_of_add_user d u g :
  user_rows d -> User.id u = next_id (map User.id (users d)) ->
  Gamification.user_id g = User.id u ->
  gamification_of (add_user_rows u g d) u = Some g.
Proof.
  intros Hr Hu Hg. unfold user_rows, gamification_of, add_user_rows in *. simpl.
  rewrite find_app. replace (find _ (gamifications d)) with (@None Gamification.t).
  - simpl. now rewrite Hg, Z.eqb_refl.
  - symmetry. apply find_none_intro. intros r Hin. apply Z.eqb_neq. intros E.
    assert (Hx : In (Gamification.user_id r) (map User.id (users d)))
      by (rewrite <- Hr; now apply in_map).
    apply next_id_gt in Hx. lia.
Qed.

Lemma all_present_strs kvs fields :
  (forall f, In f fields -> exists s, dict_lookup kvs f = Some (JStr s) /\ s <> "") ->
  all_present (JObj kvs) fields = Ok true.
Proof.
  induction fields as [|f fs IH]; intros H; [reflexivity|]. simpl.
  destruct (H f (or_introl eq_refl)) as (s & Hs & Hne). rewrite Hs. simpl.
  destruct (String.eqb_spec s ""); [contradiction|]. apply IH. intros f' Hf'. apply H. now right.
Qed.

Section ReadsOnly.
Context `{PasswordHasher} `{TokenIssuer} (isoformat : Z -> string)
  (text_column : json -> pyres string).

Lemma login_reads_only data : reads_only (login isoformat text_column data).
Proof. unfold login. reads_only_tac. Qed.

Lemma get_user_reads_only identity : reads_only (get_user isoformat identity).
Proof. unfold get_user, current_user. reads_only_tac. Qed.
End ReadsOnly.

(** ** Claims *)

Section Claims.
Context `{PasswordHasher} `{TokenIssuer} (isoformat : Z -> string)
  (text_column : json -> pyres string) (d : db).
Hypothesis text_column_str : forall s, text_column (JStr s) = Ok s.

Definition registration (name email password : string) : json :=
  JObj [("name", JStr name); ("email", JStr email); ("password", JStr password)].

Definition credentials (email password : string) : json :=
  JObj [("email", JStr email); ("password", JStr password)].

(** The outcome of a registration with a fresh e-mail. *)
Lemma register_fresh salt clock name email password :
  name <> "" -> email <> "" -> password <> "" -> user_by_email d email = None ->
  run_handler (register isoformat text_column salt (registration name email password)) clock d =
  let u := new_user d name email (generate_password_hash salt password) (clock 0%nat) in
  (registered isoformat u (clock 2%nat),
   add_user_rows u (new_gamification (next_id (map Gamification.id (gamifications d)))
                      (User.id u) (clock 1%nat)) d).
Proof.
  intros Hn He Hp Hu. rewrite register_run. unfold registration.
  rewrite all_present_strs
    by (intros f [<-|[<-|[<-|[]]]]; (eexists; split; [reflexivity|assumption])).
  simpl. rewrite text_column_str, Hu. unfold register_row. simpl. rewrite text_column_str. reflexivity.
Qed.

(** C32: Registering with a name, a fresh e-mail and a password, then logging
    in with the same e-mail and password, succeeds: 201 with the new
    user, then 200 with the same user and a token for its e-mail, and the
    login writes nothing. *)
Theorem register_then_login salt clock clock' name email password :
  name <> "" -> email <> "" -> password <> "" -> user_by_email d email = None ->
  let u := new_user d name email (generate_password_hash salt password) (clock 0%nat) in
  let '(r, d1) := run_handler (register isoformat text_column salt (registration name email password)) clock d in
  r = registered isoformat u (clock 2%nat) /\
  run_handler (login isoformat text_column (credentials email password)) clock' d1 =
  (logged_in isoformat u (clock' 0%nat), d1).
Proof.
  intros Hn He Hp Hu u. rewrite (register_fresh salt clock name email password Hn He Hp Hu).
  split; [reflexivity|]. rewrite login_run. unfold credentials.
  rewrite all_present_strs
    by (intros f [<-|[<-|[]]]; (eexists; split; [reflexivity|assumption])).
  simpl. rewrite text_column_str, (user_by_email_add_user _ u _ email Hu eq_refl). simpl.
  now rewrite check_password_hash_generated.
Qed.

(** C33: The token [register] hands out authenticates the new user for
    [JWT_ACCESS_TOKEN_EXPIRES] (30 days) from its issue: until then
    [get_user] behind [@jwt_required()] answers 200 with the user and the
    fresh gamification row (level 1, no xp), when every earlier user has
    its own row; from then on the token is refused with 401 "Token has
    expired" and nothing is written. *)
Theorem register_token_authenticates salt clock clock' now name email password :
  name <> "" -> email <> "" -> password <> "" -> user_by_email d email = None -> user_rows d ->
  let u := new_user d name email (generate_password_hash salt password) (clock 0%nat) in
  let g := new_gamification (next_id (map Gamification.id (gamifications d))) (User.id u) (clock 1%nat) in
  let '(r, d1) := run_handler (register isoformat text_column salt (registration name email password)) clock d in
  r = registered isoformat u (clock 2%nat) /\
  (clock 2%nat <= now < clock 2%nat + jwt_access_token_expires ->
   run_handler (with_token now (create_access_token email (clock 2%nat)) (get_user isoformat)) clock' d1 =
   (mkresp (JObj [("user", user_to_dict isoformat u); ("gamification", gamification_to_dict isoformat g)]) 200, d1)) /\
  (clock 2%nat + jwt_access_token_expires <= now ->
   run_handler (with_token now (create_access_token email (clock 2%nat)) (get_user isoformat)) clock' d1 =
   (token_expired, d1)).
Proof.
  intros Hn He Hp Hu Hrows u g. rewrite (register_fresh salt clock name email password Hn He Hp Hu).
  split; [reflexivity|]. split; intros Hnow; unfold run_handler, with_token.
  - rewrite decode_token_create by exact Hnow.
    unfold get_user, current_user. cbn -[user_by_email gamification_of add_user_rows].
    rewrite (user_by_email_add_user _ u _ email Hu eq_refl). cbn -[gamification_of add_user_rows].
    erewrite gamification_of_add_user; [reflexivity | exact Hrows | reflexivity | reflexivity].
  - now rewrite decode_token_expired by exact Hnow.
Qed.

(** Registering an e-mail that is already taken: 409, nothing written. *)
Theorem register_duplicate_email salt clock data email u :
  all_present data ["name"; "email"; "password"] = Ok true ->
  pyres_bind (py_index data "email") text_column = Ok email ->
  user_by_email d email = Some u ->
  run_handler (register isoformat text_column salt data) clock d =
  (mkresp (JObj [("error", JStr "Email already registered")]) 409, d).
Proof. intros Ha He Hu. now rewrite register_run, Ha, He, Hu. Qed.

(** C35: [login] never writes, and refuses with 401 an e-mail that matches
    no user or a password that does not check against the stored hash. *)
Theorem login_refuses clock data email pw :
  snd (run_handler (login isoformat text_column data) clock d) = d /\
  (all_present data ["email"; "password"] = Ok true ->
   pyres_bind (py_index data "email") text_column = Ok email ->
   pyres_bind (py_index data "password") password_text = Ok pw ->
   (forall u, user_by_email d email = Some u -> check_password_hash (User.password u) pw = false) ->
   run_handler (login isoformat text_column data) clock d = (invalid_credentials, d)).
Proof.
  split.
  - apply run_handler_reads_only, login_reads_only.
  - intros Ha He Hp Hc. rewrite login_run, Ha, He.
    destruct (user_by_email d email) as [u|] eqn:Eu; [|reflexivity].
    now rewrite Hp, (Hc u eq_refl).
Qed.
End Claims.
