(* ===== verification/Instances.v ===== *)
(** Concrete implementations of the library interfaces, for the scenario
    files: a hasher that keeps the password as its own hash, tokens that
    carry their issue time and e-mail in clear, ["<iat>.<email>"], and a
    [sqlite3] driver ([Store.SqliteDriver]).  They show the interfaces
    can be met, and let the scenarios run the routes end to end; the
    theorems of [Auth], [Sessions], [Moods], [Server] and [Http] never
    depend on them. *)

From Stdlib Require Import String Ascii ZArith QArith Lia Bool List.
From S2P Require Import Prelude PyRuntime Numerals Models Store Auth.
Import ListNotations.
Local Open Scope Z_scope.
Local Open Scope string_scope.

#[export] Instance plain_hasher : PasswordHasher := {
  generate_password_hash _ password := password;
  check_password_hash pwhash password := String.eqb pwhash password;
  check_password_hash_generated _ password := String.eqb_refl password
}.

(** The text before the first dot, and the text after it. *)
Fixpoint split_dot (s : string) : option (string * string) :=
  match s with
  | EmptyString => None
  | String c s' =>
      if Ascii.eqb c "." then Some (EmptyString, s')
      else option_map (fun '(a, b) => (String c a, b)) (split_dot s')
  end.

Definition token_not_yet_valid : response :=
  mkresp (JObj [("msg", JStr "The token is not yet valid (iat)")]) 422.

Definition token_invalid : response := mkresp (JObj [("msg", JStr "Invalid token")]) 422.

Definition clear_token (email : string) (iat : Z) : string := str_of_Z iat ++ "." ++ email.

Definition decode_clear_token (token : string) (now : Z) : response + string :=
  match split_dot token with
  | Some (p, email) =>
      match parse_int p with
      | Some iat =>
          if Z.ltb now iat then inl token_not_yet_valid
          else if Z.leb (iat + jwt_access_token_expires) now then inl token_expired
          else inr email
      | None => inl token_invalid
      end
  | None => inl token_invalid
  end.

Lemma split_dot_app p e :
  Forall (fun c => Ascii.eqb c "." = false) (list_ascii_of_string p) ->
  split_dot (p ++ String "." e) = Some (p, e).
Proof.
  induction p as [|c p IH]; intros Hp; [reflexivity|]. inversion Hp as [|? ? Hc Hr]; subst.
  simpl. rewrite IH by exact Hr. simpl.
  now rewrite Hc.
Qed.

Lemma decode_clear_token_create email iat :
  decode_clear_token (clear_token email iat) =
  fun now => if Z.ltb now iat then inl token_not_yet_valid
             else if Z.leb (iat + jwt_access_token_expires) now then inl token_expired else inr email.
Proof.
  unfold decode_clear_token, clear_token. cbn [append].
  rewrite split_dot_app, parse_int_str_of_Z; [reflexivity|].
  eapply Forall_impl; [|apply str_of_Z_chars]. intros c [Hc| ->]; [|reflexivity].
  apply Ascii.eqb_neq. intros ->. discriminate.
Qed.

#[export, refine] Instance clear_tokens : TokenIssuer := {
  create_access_token := clear_token;
  decode_token := decode_clear_token
}.
Proof.
  - intros email iat now Hnow. rewrite decode_clear_token_create.
    replace (Z.ltb now iat) with false by (symmetry; apply Z.ltb_ge; lia).
    now replace (Z.leb (iat + jwt_access_token_expires) now) with false by (symmetry; apply Z.leb_gt; lia).
  - intros email iat now Hnow. rewrite decode_clear_token_create.
    replace (Z.ltb now iat) with false
      by (symmetry; apply Z.ltb_ge; unfold jwt_access_token_expires, usec_per_day in Hnow; lia).
    now replace (Z.leb (iat + jwt_access_token_expires) now) with true by (symmetry; apply Z.leb_le; lia).
Defined.

(** The driver for the values the routes store as they came: [None],
    [bool] and [int] as SQLite stores them, and an integral [float] in
    an INTEGER column as that integer.  This driver keeps a string as
    text in an INTEGER column and a float as a number in a TEXT column
    (SQLite would convert a numeric string, and print the float), and
    refuses a list or a dict. *)
Definition unsupported : py_exc := InterfaceError "Error binding parameter - probably unsupported type.".

Definition float_integer (q : Q) : option Z :=
  if Z.eqb (Z.modulo (Qnum q) (Zpos (Qden q))) 0 then Some (Qnum q / Zpos (Qden q)) else None.

Definition clear_integer_column (v : json) : pyres json :=
  match v with
  | JNull => Ok JNull
  | JBool b => Ok (JInt (if b then 1 else 0))
  | JInt z => if in_int64 z then Ok (JInt z) else Raise int_overflow
  | JFloat q =>
      match float_integer q with
      | Some z => if in_int64 z then Ok (JInt z) else Ok (JFloat q)
      | None => Ok (JFloat q)
      end
  | JStr s => Ok (JStr s)
  | JList _ | JObj _ => Raise unsupported
  end.

Definition clear_string_column (v : json) : pyres json :=
  match v with
  | JNull => Ok JNull
  | JBool b => Ok (JStr (if b then "1" else "0"))
  | JInt z => if in_int64 z then Ok (JStr (str_of_Z z)) else Raise int_overflow
  | JFloat q => Ok (JFloat q)
  | JStr s => Ok (JStr s)
  | JList _ | JObj _ => Raise unsupported
  end.

#[export, refine] Instance clear_driver : SqliteDriver := {
  integer_column := clear_integer_column;
  string_column := clear_string_column
}.
Proof.
  all: try reflexivity.
  - intros v w. destruct v as [|b|z|q|t|l|kvs]; simpl; try discriminate; try (intros [= <-]; reflexivity).
    + intros [= <-]. now destruct b.
    + destruct (in_int64 z) eqn:E; intros [= <-]. simpl. now rewrite E.
    + destruct (float_integer q) as [z|]; [|intros [= <-]; reflexivity].
      destruct (in_int64 z) eqn:E; intros [= <-]; simpl; [now rewrite E | reflexivity].
  - intros v w. destruct v as [|b|z|q|t|l|kvs]; simpl; try discriminate; try (intros [= <-]; reflexivity).
    destruct (in_int64 z); [intros [= <-]; reflexivity | discriminate].
Defined.
