(* ===== verification/AuthScenarios.v ===== *)
(** The authentication routes on concrete data, with the instances of
    [Instances] (a hasher that keeps the password as its own hash, tokens
    that carry their issue time and e-mail): any implementation of the
    two interfaces would do, the theorems of [Auth] being proved against
    the interfaces. *)

From Stdlib Require Import String ZArith Lia Bool List.
From S2P Require Import Prelude PyRuntime Models Store Gamification Auth Instances.
Import ListNotations.
Local Open Scope Z_scope.
Local Open Scope string_scope.

Definition iso : Z -> string := fun _ => "".
Definition text : json -> pyres string :=
  fun v => match v with JStr s => Ok s | _ => Raise (TypeError "unsupported type") end.
Lemma text_str s : text (JStr s) = Ok s.
Proof. reflexivity. Qed.
Definition clock_at (t : Z) : nat -> Z := fun _ => t.

Definition alice : User.t := User.mk 1 "Alice" "alice@example.com" "pw-a" 0.
Definition d1 : db := mkdb [alice] [] [new_gamification 1 1 0] [] [] [].

Lemma d1_rows : user_rows d1.
Proof. reflexivity. Qed.

(** Registering Bob gives him user id 2 and gamification row 2. *)
Example register_bob :
  snd (run_handler (register iso text "salt" (registration "Bob" "bob@example.com" "pw-b")) (clock_at 5) d1) =
  mkdb [alice; User.mk 2 "Bob" "bob@example.com" "pw-b" 5] []
       [new_gamification 1 1 0; new_gamification 2 2 5] [] [] [].
Proof. vm_compute. reflexivity. Qed.

(** A password that is a number is refused by werkzeug's [encode]. *)
Example register_numeric_password :
  fst (run_handler (register iso text "salt"
         (JObj [("name", JStr "Bob"); ("email", JStr "bob@example.com"); ("password", JInt 1234)]))
         (clock_at 5) d1) =
  error_response (AttributeError "'int' object has no attribute 'encode'").
Proof. vm_compute. reflexivity. Qed.

Lemma register_then_login_witness :
  "Bob" <> "" /\ "bob@example.com" <> "" /\ "pw-b" <> "" /\ user_by_email d1 "bob@example.com" = None /\
  let u := new_user d1 "Bob" "bob@example.com" (generate_password_hash "salt" "pw-b") (clock_at 5 0%nat) in
  let '(r, d2) := run_handler (register iso text "salt" (registration "Bob" "bob@example.com" "pw-b"))
                    (clock_at 5) d1 in
  r = registered iso u (clock_at 5 2%nat) /\
  run_handler (login iso text (credentials "bob@example.com" "pw-b")) (clock_at 9) d2 =
  (logged_in iso u (clock_at 9 0%nat), d2).
Proof.
  assert (Hn : "Bob" <> "") by discriminate.
  assert (He : "bob@example.com" <> "") by discriminate.
  assert (Hp : "pw-b" <> "") by discriminate.
  assert (Hu : user_by_email d1 "bob@example.com" = None) by reflexivity.
  exact (conj Hn (conj He (conj Hp (conj Hu
    (register_then_login iso text d1 text_str "salt" (clock_at 5) (clock_at 9) _ _ _ Hn He Hp Hu))))).
Defined.

Lemma register_token_authenticates_witness :
  "Bob" <> "" /\ "bob@example.com" <> "" /\ "pw-b" <> "" /\ user_by_email d1 "bob@example.com" = None /\
  user_rows d1 /\
  let u := new_user d1 "Bob" "bob@example.com" (generate_password_hash "salt" "pw-b") (clock_at 5 0%nat) in
  let g := new_gamification (next_id (map Gamification.id (gamifications d1))) (User.id u) (clock_at 5 1%nat) in
  let '(r, d2) := run_handler (register iso text "salt" (registration "Bob" "bob@example.com" "pw-b"))
                    (clock_at 5) d1 in
  r = registered iso u (clock_at 5 2%nat) /\
  (clock_at 5 2%nat <= 9 < clock_at 5 2%nat + jwt_access_token_expires ->
   run_handler (with_token 9 (create_access_token "bob@example.com" (clock_at 5 2%nat)) (get_user iso)) (clock_at 9) d2 =
   (mkresp (JObj [("user", user_to_dict iso u); ("gamification", gamification_to_dict iso g)]) 200, d2)) /\
  (clock_at 5 2%nat + jwt_access_token_expires <= 9 ->
   run_handler (with_token 9 (create_access_token "bob@example.com" (clock_at 5 2%nat)) (get_user iso)) (clock_at 9) d2 =
   (token_expired, d2)).
Proof.
  assert (Hn : "Bob" <> "") by discriminate.
  assert (He : "bob@example.com" <> "") by discriminate.
  assert (Hp : "pw-b" <> "") by discriminate.
  assert (Hu : user_by_email d1 "bob@example.com" = None) by reflexivity.
  exact (conj Hn (conj He (conj Hp (conj Hu (conj d1_rows
    (register_token_authenticates iso text d1 text_str "salt" (clock_at 5) (clock_at 9) 9 _ _ _
       Hn He Hp Hu d1_rows)))))).
Defined.

Lemma register_duplicate_email_witness :
  let data := registration "Alice again" "alice@example.com" "pw" in
  all_present data ["name"; "email"; "password"] = Ok true /\
  pyres_bind (py_index data "email") text = Ok "alice@example.com" /\
  user_by_email d1 "alice@example.com" = Some alice /\
  run_handler (register iso text "salt" data) (clock_at 5) d1 =
  (mkresp (JObj [("error", JStr "Email already registered")]) 409, d1).
Proof.
  intros data.
  assert (Ha : all_present data ["name"; "email"; "password"] = Ok true) by reflexivity.
  assert (He : pyres_bind (py_index data "email") text = Ok "alice@example.com") by reflexivity.
  assert (Hu : user_by_email d1 "alice@example.com" = Some alice) by reflexivity.
  exact (conj Ha (conj He (conj Hu (register_duplicate_email iso text d1 "salt" _ _ _ _ Ha He Hu)))).
Defined.

Lemma login_refuses_witness :
  let data := credentials "alice@example.com" "wrong" in
  snd (run_handler (login iso text data) (clock_at 0) d1) = d1 /\
  (all_present data ["email"; "password"] = Ok true ->
   pyres_bind (py_index data "email") text = Ok "alice@example.com" ->
   pyres_bind (py_index data "password") password_text = Ok "wrong" ->
   (forall u, user_by_email d1 "alice@example.com" = Some u ->
              check_password_hash (User.password u) "wrong" = false) ->
   run_handler (login iso text data) (clock_at 0) d1 = (invalid_credentials, d1)) /\
  all_present data ["email"; "password"] = Ok true /\
  pyres_bind (py_index data "email") text = Ok "alice@example.com" /\
  pyres_bind (py_index data "password") password_text = Ok "wrong" /\
  (forall u, user_by_email d1 "alice@example.com" = Some u ->
             check_password_hash (User.password u) "wrong" = false).
Proof.
  intros data.
  assert (Ha : all_present data ["email"; "password"] = Ok true) by reflexivity.
  assert (He : pyres_bind (py_index data "email") text = Ok "alice@example.com") by reflexivity.
  assert (Hp : pyres_bind (py_index data "password") password_text = Ok "wrong") by reflexivity.
  assert (Hc : forall u, user_by_email d1 "alice@example.com" = Some u ->
                         check_password_hash (User.password u) "wrong" = false)
    by (intros u Hu; vm_compute in Hu; injection Hu as <-; reflexivity).
  destruct (login_refuses iso text d1 (clock_at 0) data "alice@example.com" "wrong") as [Hro Href].
  exact (conj Hro (conj Href (conj Ha (conj He (conj Hp Hc))))).
Defined.
