(* ===== verification/Subjects.v ===== *)
(** The subject routes of [src/app.py] (lines 295-420): [get_subjects],
    [add_subject], [update_subject] and [delete_subject], each the whole
    handler.  Two library behaviours are section variables:
    [fromisoformat] ([datetime.fromisoformat] on a string, [None] when
    the text is not an ISO date) and [text_column] (what the SQLite driver
    stores in a [String] column for a JSON value, or the error it raises
    at the commit).  The integer columns are bound at the commit as
    64-bit INTEGERs ([Store.bind_ints]); an [UPDATE] binds only the
    columns whose value changed ([set_ints]).

    The theorems: a request never touches a subject of another user; a
    request without all required fields writes nothing; a new subject gets
    a fresh id, so ids stay distinct in every database the routes produce,
    and there the plan generator gives each eligible subject exactly one
    entry; an unknown identity makes [update_subject] and
    [delete_subject] answer 500. *)

From Stdlib Require Import String ZArith Lia Bool List.
From S2P Require Import Prelude PyRuntime Models Store.
Import ListNotations.
Local Open Scope Z_scope.
Local Open Scope string_scope.
Local Open Scope study_scope.

(** ** Row updates *)

(** The columns [update_subject] may assign, in the order it assigns them;
    [None] leaves a column as it is. *)
Record subject_update := mkupdate {
  upd_completed_chapters : option Z;
  upd_difficulty : option string;
  upd_priority : option string;
  upd_sessions_completed : option Z;
  upd_total_time_minutes : option Z
}.

Definition apply_update (u : subject_update) (now : Z) (s : Subject.t) : Subject.t :=
  Subject.mk (Subject.id s) (Subject.user_id s) (Subject.name s) (Subject.chapters s)
    (value_or (Subject.completed_chapters s) (upd_completed_chapters u))
    (value_or (Subject.difficulty s) (upd_difficulty u))
    (value_or (Subject.priority s) (upd_priority u))
    (Subject.deadline s)
    (value_or (Subject.sessions_completed s) (upd_sessions_completed u))
    (value_or (Subject.total_time_minutes s) (upd_total_time_minutes u))
    (Subject.created_at s) now (Subject.is_deleted s) (Subject.deleted_at s).

Definition required_fields : list string := ["name"; "chapters"; "difficulty"; "deadline"; "priority"].

(** [if k in data: ... = conv(data[k])]. *)
Definition opt_field {B} (data : json) (k : string) (conv : json -> pyres B) : pyres (option B) :=
  pyres_bind (py_contains data k) (fun has =>
    if has then pyres_bind (py_index data k) (fun v => pyres_bind (conv v) (fun b => Ok (Some b)))
    else Ok None).

Definition opt_lift {A B} (f : A -> pyres B) (o : option A) : pyres (option B) :=
  match o with Some a => pyres_bind (f a) (fun b => Ok (Some b)) | None => Ok None end.

(** The integer a column assignment puts in the [SET] clause: the new
    value, when there is one and it differs from the loaded [old]. *)
Definition set_ints (old : Z) (o : option Z) : list Z :=
  match o with Some z => if Z.eqb old z then [] else [z] | None => [] end.

(** The integer columns of a subject row whose values come from
    requests. *)
Definition subject_ints (s : Subject.t) : list Z :=
  [Subject.chapters s; Subject.completed_chapters s; Subject.sessions_completed s;
   Subject.total_time_minutes s].

Section Routes.
Context (isoformat : Z -> string) (fromisoformat : string -> option Z)
  (text_column : json -> pyres string).

(** [datetime.fromisoformat(v)]. *)
Definition parse_deadline (v : json) : pyres Z :=
  match v with
  | JStr s =>
      match fromisoformat s with
      | Some t => Ok t
      | None => Raise (ValueError ("Invalid isoformat string: '" ++ s ++ "'"))
      end
  | _ => Raise (TypeError "fromisoformat: argument must be str")
  end.

(** [get_subjects], lines 299-315: [to_dict] reads the clock once per row. *)
Definition get_subjects (identity : string) : M response :=
  user <- current_user identity ;;
  match user with
  | None => ret (not_found "User not found")
  | Some u =>
      d <- get_db ;;
      let ss := subjects_of d (User.id u) in
      dicts <- map_m (fun s => now <- utcnow ;; ret (subject_to_dict isoformat now s)) ss ;;
      ret (mkresp (JObj [("subjects", JList dicts); ("count", JInt (Z.of_nat (length ss)))]) 200)
  end.

(** [add_subject], lines 320-356.  The [INSERT] of the commit binds
    [name], [chapters], [difficulty] and [priority] in column order (a
    failure of either kind raises at the first), and evaluates the
    [created_at] and [updated_at] defaults, in column order; which of the
    two happens first is not observable, since a failure discards the
    readings. *)
Definition add_subject (identity : string) (data : json) : M response :=
  user <- current_user identity ;;
  match user with
  | None => ret (not_found "User not found")
  | Some u =>
      ok <- lift (all_present data required_fields) ;;
      if negb ok then ret (mkresp (JObj [("error", JStr "Missing required fields")]) 400)
      else
        name <- lift (py_index data "name") ;;
        chapters_v <- lift (py_index data "chapters") ;;
        chapters <- lift (py_int chapters_v) ;;
        difficulty <- lift (py_index data "difficulty") ;;
        priority <- lift (py_index data "priority") ;;
        deadline_v <- lift (py_index data "deadline") ;;
        deadline <- lift (parse_deadline deadline_v) ;;
        name_s <- lift (text_column name) ;;
        _ <- lift (bind_ints [chapters]) ;;
        difficulty_s <- lift (text_column difficulty) ;;
        priority_s <- lift (text_column priority) ;;
        created <- utcnow ;;
        updated <- utcnow ;;
        d <- get_db ;;
        let s := Subject.mk (next_id (map Subject.id (subjects d))) (User.id u) name_s chapters 0
                   difficulty_s priority_s deadline 0 0 created updated false None in
        _ <- put_db (insert_subject s d) ;;
        now <- utcnow ;;
        ret (mkresp (JObj [("status", JStr "success"); ("message", JStr "Subject added");
                           ("subject", subject_to_dict isoformat now s)]) 201)
  end.

(** [update_subject], lines 361-395: the integer columns are converted
    when assigned; the commit binds the [SET] clause in column order:
    [completed_chapters], the two text columns, [sessions_completed],
    [total_time_minutes]. *)
Definition update_subject (identity : string) (subject_id : Z) (data : json) : M response :=
  user <- current_user identity ;;
  uid <- lift (attr user User.id "id") ;;
  d <- get_db ;;
  match subject_of d subject_id uid with
  | None => ret (not_found "Subject not found")
  | Some s =>
      c <- lift (opt_field data "completed_chapters" py_int) ;;
      df <- lift (opt_field data "difficulty" Ok) ;;
      pr <- lift (opt_field data "priority" Ok) ;;
      sc <- lift (opt_field data "sessions_completed" py_int) ;;
      tt <- lift (opt_field data "total_time_minutes" py_int) ;;
      now <- utcnow ;;
      _ <- lift (bind_ints (set_ints (Subject.completed_chapters s) c)) ;;
      df_s <- lift (opt_lift text_column df) ;;
      pr_s <- lift (opt_lift text_column pr) ;;
      _ <- lift (bind_ints (set_ints (Subject.sessions_completed s) sc ++
                            set_ints (Subject.total_time_minutes s) tt)) ;;
      let s' := apply_update (mkupdate c df_s pr_s sc tt) now s in
      _ <- put_db (save_subject s' d) ;;
      now2 <- utcnow ;;
      ret (mkresp (JObj [("status", JStr "success"); ("message", JStr "Subject updated");
                         ("subject", subject_to_dict isoformat now2 s')]) 200)
  end.

(** [delete_subject], lines 400-420. *)
Definition delete_subject (identity : string) (subject_id : Z) : M response :=
  user <- current_user identity ;;
  uid <- lift (attr user User.id "id") ;;
  d <- get_db ;;
  match subject_of d subject_id uid with
  | None => ret (not_found "Subject not found")
  | Some s =>
      _ <- put_db (delete_subject_row s d) ;;
      ret (mkresp (JObj [("status", JStr "success"); ("message", JStr "Subject deleted")]) 200)
  end.
End Routes.

(** ** What each route writes *)

Ltac run_simpl :=
  cbn -[user_by_email subject_of save_subject delete_subject_row insert_subject py_contains
        py_index py_int py_get subject_to_dict apply_update opt_field opt_lift next_id
        all_present parse_deadline bind_ints].

Section Outcomes.
Context (isoformat : Z -> string) (fromisoformat : string -> option Z)
  (text_column : json -> pyres string) (clock : nat -> Z) (d : db) (identity : string).

Lemma set_ints_ok old o :
  in_int64 old = true -> forallb in_int64 (set_ints old o) = true -> in_int64 (value_or old o) = true.
Proof.
  destruct o as [z|]; simpl; [|auto]. destruct (Z.eqb_spec old z) as [<-|]; simpl; [auto|].
  now rewrite andb_true_r.
Qed.

(** An update whose [SET] clause binds keeps the integer columns of the
    row 64-bit integers. *)
Lemma apply_update_ints c df pr sc tt now s :
  forallb in_int64 (subject_ints s) = true ->
  forallb in_int64 (set_ints (Subject.completed_chapters s) c) = true ->
  forallb in_int64 (set_ints (Subject.sessions_completed s) sc ++ set_ints (Subject.total_time_minutes s) tt)
    = true ->
  forallb in_int64 (subject_ints (apply_update (mkupdate c df pr sc tt) now s)) = true.
Proof.
  unfold subject_ints. simpl. rewrite forallb_app, !andb_true_iff.
  intros (H1 & H2 & H3 & H4 & _) Hc [Hs Ht].
  now rewrite H1, (set_ints_ok _ c), (set_ints_ok _ sc), (set_ints_ok _ tt).
Qed.

(** Either nothing is written, or the caller's subject [s] is replaced by
    a row with the same id and owner, whose integer columns stay 64-bit
    integers. *)
Lemma update_subject_outcome sid data :
  snd (run_handler (update_subject isoformat text_column identity sid data) clock d) = d \/
  exists u s s', user_by_email d identity = Some u /\ subject_of d sid (User.id u) = Some s /\
    snd (run_handler (update_subject isoformat text_column identity sid data) clock d) =
    save_subject s' d /\
    Subject.id s' = Subject.id s /\ Subject.user_id s' = Subject.user_id s /\
    (forallb in_int64 (subject_ints s) = true -> forallb in_int64 (subject_ints s') = true).
Proof.
  unfold run_handler, update_subject, current_user. run_simpl.
  destruct (user_by_email d identity) as [u|] eqn:Hu; run_simpl; [|now left].
  destruct (subject_of d sid (User.id u)) as [s|] eqn:Hs; run_simpl; [|now left].
  destruct (opt_field data "completed_chapters" py_int); run_simpl; [|now left].
  destruct (opt_field data "difficulty" Ok); run_simpl; [|now left].
  destruct (opt_field data "priority" Ok); run_simpl; [|now left].
  destruct (opt_field data "sessions_completed" py_int); run_simpl; [|now left].
  destruct (opt_field data "total_time_minutes" py_int); run_simpl; [|now left].
  destruct (bind_ints _) as [[]|] eqn:Eb1; run_simpl; [|now left].
  destruct (opt_lift text_column _); run_simpl; [|now left].
  destruct (opt_lift text_column _); run_simpl; [|now left].
  destruct (bind_ints (_ ++ _)) as [[]|] eqn:Eb2; run_simpl; [|now left].
  right. eexists u, s, _. split; [reflexivity|]. split; [first [exact Hs | reflexivity]|].
  split; [reflexivity|]. split; [reflexivity|]. split; [reflexivity|].
  intros H. apply apply_update_ints; [exact H | apply bind_ints_ok, Eb1 | apply bind_ints_ok, Eb2].
Qed.

(** Either nothing is written, or the caller's subject [s] is deleted. *)
Lemma delete_subject_outcome sid :
  snd (run_handler (delete_subject identity sid) clock d) = d \/
  exists u s, user_by_email d identity = Some u /\ subject_of d sid (User.id u) = Some s /\
    snd (run_handler (delete_subject identity sid) clock d) = delete_subject_row s d.
Proof.
  unfold run_handler, delete_subject, current_user. run_simpl.
  destruct (user_by_email d identity) as [u|] eqn:Hu; run_simpl; [|now left].
  destruct (subject_of d sid (User.id u)) as [s|] eqn:Hs; run_simpl; [|now left].
  right. exists u, s. repeat split; first [exact Hs | reflexivity].
Qed.

(** Either nothing is written, or one row is appended: the caller's, with
    the next rowid, the column defaults, and integer columns that bind. *)
Lemma add_subject_outcome data :
  snd (run_handler (add_subject isoformat fromisoformat text_column identity data) clock d) = d \/
  exists u s, user_by_email d identity = Some u /\
    snd (run_handler (add_subject isoformat fromisoformat text_column identity data) clock d) =
    insert_subject s d /\
    Subject.id s = next_id (map Subject.id (subjects d)) /\ Subject.user_id s = User.id u /\
    Subject.completed_chapters s = 0 /\ Subject.is_deleted s = false /\
    forallb in_int64 (subject_ints s) = true.
Proof.
  unfold run_handler, add_subject, current_user. run_simpl.
  destruct (user_by_email d identity) as [u|] eqn:Hu; run_simpl; [|now left].
  destruct (all_present data required_fields) as [[|]|]; run_simpl; try now left.
  destruct (py_index data "name"); run_simpl; [|now left].
  destruct (py_index data "chapters"); run_simpl; [|now left].
  destruct (py_int _) as [chapters|]; run_simpl; [|now left].
  destruct (py_index data "difficulty"); run_simpl; [|now left].
  destruct (py_index data "priority"); run_simpl; [|now left].
  destruct (py_index data "deadline"); run_simpl; [|now left].
  destruct (parse_deadline _ _); run_simpl; [|now left].
  destruct (text_column _); run_simpl; [|now left].
  destruct (bind_ints _) as [[]|] eqn:Eb; run_simpl; [|now left].
  destruct (text_column _); run_simpl; [|now left].
  destruct (text_column _); run_simpl; [|now left].
  right. eexists u, _. split; [reflexivity|]. split; [reflexivity|]. repeat split.
  apply bind_ints_ok in Eb. simpl in Eb |- *. now rewrite Eb.
Qed.
End Outcomes.

(** ** Distinct ids and ownership *)

Lemma subject_of_Some d sid uid s :
  subject_of d sid uid = Some s ->
  In s (subjects d) /\ Subject.id s = sid /\ Subject.user_id s = uid.
Proof.
  unfold subject_of. intros H. apply find_some in H as [Hin H].
  apply andb_true_iff in H as [H1 H2]. apply Z.eqb_eq in H1, H2. auto.
Qed.

Lemma save_subject_ids s' d :
  map Subject.id (subjects (save_subject s' d)) = map Subject.id (subjects d).
Proof.
  unfold save_subject, with_subjects. simpl. rewrite map_map. apply map_ext. intros r.
  destruct (Z.eqb_spec (Subject.id r) (Subject.id s')); congruence.
Qed.

Lemma NoDup_map_filter {A} (f : A -> Z) (p : A -> bool) (l : list A) :
  NoDup (map f l) -> NoDup (map f (filter p l)).
Proof.
  induction l as [|x l IH]; simpl; intros Hnd; [constructor|]. inv Hnd.
  destruct (p x); simpl; auto. constructor; auto.
  intros Hin. apply H1. apply in_map_iff in Hin as [y [Hy Hin]]. apply filter_In in Hin.
  rewrite <- Hy. apply in_map. tauto.
Qed.

(** With distinct ids, a row of another owner has another id. *)
Lemma other_row_stays d s r :
  NoDup (map Subject.id (subjects d)) -> In s (subjects d) -> In r (subjects d) ->
  Subject.user_id r <> Subject.user_id s -> Subject.id r <> Subject.id s.
Proof.
  intros Hnd Hs Hr Hu Hid. apply Hu. f_equal. eapply NoDup_map_same_key; eassumption.
Qed.

Section Ids.
Context (isoformat : Z -> string) (fromisoformat : string -> option Z)
  (text_column : json -> pyres string) (clock : nat -> Z) (d : db) (identity : string).
Hypothesis Hnd : NoDup (map Subject.id (subjects d)).

Lemma add_subject_ids data :
  NoDup (map Subject.id (subjects
    (snd (run_handler (add_subject isoformat fromisoformat text_column identity data) clock d)))).
Proof.
  destruct (add_subject_outcome isoformat fromisoformat text_column clock d identity data)
    as [->|(u & s & _ & -> & Hid & _)]; [exact Hnd|].
  unfold insert_subject, with_subjects. simpl. rewrite map_app. simpl.
  apply NoDup_app; [exact Hnd | repeat constructor; simpl; tauto |].
  intros x Hx [<-|[]]. rewrite Hid in Hx. exact (next_id_fresh _ Hx).
Qed.

Lemma update_subject_ids sid data :
  NoDup (map Subject.id (subjects
    (snd (run_handler (update_subject isoformat text_column identity sid data) clock d)))).
Proof.
  destruct (update_subject_outcome isoformat text_column clock d identity sid data)
    as [->|(u & s & s' & _ & _ & -> & _)]; [exact Hnd|].
  now rewrite save_subject_ids.
Qed.

Lemma delete_subject_ids sid :
  NoDup (map Subject.id (subjects (snd (run_handler (delete_subject identity sid) clock d)))).
Proof.
  destruct (delete_subject_outcome clock d identity sid) as [->|(u & s & _ & _ & ->)]; [exact Hnd|].
  apply NoDup_map_filter, Hnd.
Qed.
End Ids.

Section Ownership.
Context (isoformat : Z -> string) (text_column : json -> pyres string) (clock : nat -> Z)
  (d : db) (identity : string) (sid : Z).
Hypothesis Hnd : NoDup (map Subject.id (subjects d)).

(** C23: [update_subject] and [delete_subject] leave every subject of another
    user where it was, unchanged. *)
Theorem subject_routes_keep_other_users r data :
  In r (subjects d) ->
  (forall u, user_by_email d identity = Some u -> Subject.user_id r <> User.id u) ->
  In r (subjects (snd (run_handler (update_subject isoformat text_column identity sid data) clock d))) /\
  In r (subjects (snd (run_handler (delete_subject identity sid) clock d))).
Proof.
  intros Hr Hother. split.
  - destruct (update_subject_outcome isoformat text_column clock d identity sid data)
      as [->|(u & s & s' & Hu & Hs & -> & Hid & _)]; [exact Hr|].
    apply subject_of_Some in Hs as (Hs & _ & Hsu).
    assert (Hne : Subject.id r <> Subject.id s)
      by (apply (other_row_stays d); auto; rewrite Hsu; auto).
    unfold save_subject, with_subjects. simpl. apply in_map_iff. exists r. split; [|exact Hr].
    destruct (Z.eqb_spec (Subject.id r) (Subject.id s')); [congruence | reflexivity].
  - destruct (delete_subject_outcome clock d identity sid) as [->|(u & s & Hu & Hs & ->)]; [exact Hr|].
    apply subject_of_Some in Hs as (Hs & _ & Hsu).
    assert (Hne : Subject.id r <> Subject.id s)
      by (apply (other_row_stays d); auto; rewrite Hsu; auto).
    unfold delete_subject_row, with_subjects. simpl. apply filter_In. split; [exact Hr|].
    now destruct (Z.eqb_spec (Subject.id r) (Subject.id s)).
Qed.
End Ownership.

(** After the commit of the caller's subject the query by id and owner
    finds the new row. *)
Lemma subject_of_save d sid uid s s' :
  subject_of d sid uid = Some s -> Subject.id s' = sid -> Subject.user_id s' = uid ->
  subject_of (save_subject s' d) sid uid = Some s'.
Proof.
  unfold subject_of, save_subject, with_subjects. simpl. intros Hf Hid Huid.
  induction (subjects d) as [|r rs IH]; simpl in *; [discriminate|].
  destruct (Z.eqb_spec (Subject.id r) (Subject.id s')) as [E|E]; simpl.
  - now rewrite Hid, Huid, !Z.eqb_refl.
  - destruct (Z.eqb (Subject.id r) sid && Z.eqb (Subject.user_id r) uid) eqn:Er; [|auto].
    apply andb_true_iff in Er as [Er _]. apply Z.eqb_eq in Er. congruence.
Qed.

Lemma bind_ints_true zs : forallb in_int64 zs = true -> bind_ints zs = Ok tt.
Proof. unfold bind_ints. now intros ->. Qed.

Section Claims.
Context (isoformat : Z -> string) (fromisoformat : string -> option Z)
  (text_column : json -> pyres string) (clock : nat -> Z) (d : db) (identity : string).

(** C15: [update_subject] on the caller's subject, with fields [int()] and
    the driver accept and a [SET] clause whose integers bind: each field
    present in the body replaces its column, the others stay,
    [updated_at] takes the first clock reading, and the reply is 200 with
    the new row's [to_dict] at the second; the query by id and owner then
    finds the new row. *)
Theorem update_subject_applies u s sid data c df pr sc tt df_s pr_s :
  user_by_email d identity = Some u -> subject_of d sid (User.id u) = Some s ->
  opt_field data "completed_chapters" py_int = Ok c -> opt_field data "difficulty" Ok = Ok df ->
  opt_field data "priority" Ok = Ok pr -> opt_field data "sessions_completed" py_int = Ok sc ->
  opt_field data "total_time_minutes" py_int = Ok tt ->
  opt_lift text_column df = Ok df_s -> opt_lift text_column pr = Ok pr_s ->
  forallb in_int64 (set_ints (Subject.completed_chapters s) c ++ set_ints (Subject.sessions_completed s) sc ++
                    set_ints (Subject.total_time_minutes s) tt) = true ->
  let s' := Subject.mk (Subject.id s) (Subject.user_id s) (Subject.name s) (Subject.chapters s)
              (value_or (Subject.completed_chapters s) c) (value_or (Subject.difficulty s) df_s)
              (value_or (Subject.priority s) pr_s) (Subject.deadline s)
              (value_or (Subject.sessions_completed s) sc) (value_or (Subject.total_time_minutes s) tt)
              (Subject.created_at s) (clock 0%nat) (Subject.is_deleted s) (Subject.deleted_at s) in
  run_handler (update_subject isoformat text_column identity sid data) clock d =
  (mkresp (JObj [("status", JStr "success"); ("message", JStr "Subject updated");
                 ("subject", subject_to_dict isoformat (clock 1%nat) s')]) 200, save_subject s' d) /\
  subject_of (save_subject s' d) sid (User.id u) = Some s'.
Proof.
  intros Hu Hs Hc Hdf Hpr Hsc Htt Hdfs Hprs Hb s'.
  rewrite !forallb_app, !andb_true_iff in Hb. destruct Hb as (Hb1 & Hb2 & Hb3).
  pose proof (subject_of_Some _ _ _ _ Hs) as (_ & Hid & Huid).
  split; [|apply (subject_of_save _ _ _ s); [exact Hs | exact Hid | exact Huid]].
  change s' with (apply_update (mkupdate c df_s pr_s sc tt) (clock 0%nat) s).
  unfold run_handler, update_subject, current_user. run_simpl. rewrite Hu. run_simpl. rewrite Hs.
  run_simpl. rewrite Hc. run_simpl. rewrite Hdf. run_simpl. rewrite Hpr. run_simpl. rewrite Hsc.
  run_simpl. rewrite Htt. run_simpl. rewrite bind_ints_true by exact Hb1. run_simpl. rewrite Hdfs.
  run_simpl. rewrite Hprs. run_simpl. rewrite bind_ints_true by (rewrite forallb_app, Hb2, Hb3; reflexivity).
  reflexivity.
Qed.

(** A request without a truthy value for each of [name], [chapters],
    [difficulty], [deadline], [priority]: 400, nothing written. *)
Theorem add_subject_missing_fields u data :
  user_by_email d identity = Some u -> all_present data required_fields = Ok false ->
  run_handler (add_subject isoformat fromisoformat text_column identity data) clock d =
  (mkresp (JObj [("error", JStr "Missing required fields")]) 400, d).
Proof.
  intros Hu Ha. unfold run_handler, add_subject, current_user.
  cbn -[user_by_email all_present]. rewrite Hu. cbn -[all_present]. now rewrite Ha.
Qed.

(** Subject ids stay distinct through [add_subject], [update_subject]
    and [delete_subject]. *)
Theorem subject_routes_keep_ids_distinct sid data data' :
  NoDup (map Subject.id (subjects d)) ->
  NoDup (map Subject.id (subjects
    (snd (run_handler (add_subject isoformat fromisoformat text_column identity data) clock d)))) /\
  NoDup (map Subject.id (subjects
    (snd (run_handler (update_subject isoformat text_column identity sid data') clock d)))) /\
  NoDup (map Subject.id (subjects (snd (run_handler (delete_subject identity sid) clock d)))).
Proof.
  intros Hnd. split; [|split].
  - now apply add_subject_ids.
  - now apply update_subject_ids.
  - now apply delete_subject_ids.
Qed.

(** C26: Deleting the caller's subject [sid]: 200, and exactly the rows with
    that key leave the table. *)
Theorem delete_subject_removes u s sid :
  user_by_email d identity = Some u -> subject_of d sid (User.id u) = Some s ->
  run_handler (delete_subject identity sid) clock d =
  (mkresp (JObj [("status", JStr "success"); ("message", JStr "Subject deleted")]) 200,
   with_subjects (filter (fun r => negb (Z.eqb (Subject.id r) sid)) (subjects d)) d).
Proof.
  intros Hu Hs. pose proof (subject_of_Some _ _ _ _ Hs) as (_ & Hid & _).
  unfold run_handler, delete_subject, current_user. cbn -[user_by_email subject_of].
  rewrite Hu. cbn -[subject_of]. rewrite Hs. unfold delete_subject_row. now rewrite Hid.
Qed.

(** An identity with no user: [update_subject] and [delete_subject] read
    [user.id] on [None] and answer 500, where the other routes answer 404. *)
Theorem subject_routes_unknown_user sid data :
  user_by_email d identity = None ->
  run_handler (update_subject isoformat text_column identity sid data) clock d =
  (error_response (AttributeError "'NoneType' object has no attribute 'id'"), d) /\
  run_handler (delete_subject identity sid) clock d =
  (error_response (AttributeError "'NoneType' object has no attribute 'id'"), d).
Proof.
  intros Hu. unfold run_handler, update_subject, delete_subject, current_user.
  cbn -[user_by_email]. now rewrite Hu.
Qed.
End Claims.
