(* ===== verification/SubjectsScenarios.v ===== *)
(** The subject routes on concrete data: two users, one subject each, and
    the theorems of [Subjects] applied where their hypotheses hold.  The
    driver stores strings as they are and refuses anything else; dates
    parse to 0. *)

From Stdlib Require Import String ZArith QArith Lia Bool List.
From S2P Require Import Prelude PyRuntime Models Store Subjects.
Import ListNotations.
Local Open Scope Z_scope.
Local Open Scope string_scope.

Definition iso : Z -> string := fun _ => "".
Definition parse_iso : string -> option Z := fun _ => Some 0.
Definition text : json -> pyres string :=
  fun v => match v with JStr s => Ok s | _ => Raise (TypeError "unsupported type") end.
Definition clock0 : nat -> Z := fun _ => 0.

Definition alice : User.t := User.mk 1 "Alice" "alice@example.com" "hash" 0.
Definition bob : User.t := User.mk 2 "Bob" "bob@example.com" "hash" 0.

Definition subject (id uid : Z) (name : string) : Subject.t :=
  Subject.mk id uid name 10 2 "hard" "high" 0 0 0 0 0 false None.

Definition sA : Subject.t := subject 1 1 "Algebra".
Definition sB : Subject.t := subject 2 2 "Biology".

Definition two_users : db := mkdb [alice; bob] [sA; sB] [] [] [] [].

Lemma two_users_ids : NoDup (map Subject.id (subjects two_users)).
Proof. simpl. repeat constructor; simpl; lia. Qed.

Example add_subject_appends :
  subjects (snd (run_handler (add_subject iso parse_iso text "alice@example.com"
    (JObj [("name", JStr "Chemistry"); ("chapters", JStr "12"); ("difficulty", JStr "easy");
           ("deadline", JStr "2025-01-01"); ("priority", JStr "low")])) clock0 two_users)) =
  [sA; sB; Subject.mk 3 1 "Chemistry" 12 0 "easy" "low" 0 0 0 0 0 false None].
Proof. vm_compute. reflexivity. Qed.

(** Alice cannot change Bob's subject: the query finds nothing. *)
Example update_other_user_not_found :
  fst (run_handler (update_subject iso text "alice@example.com" 2 (JObj [("completed_chapters", JInt 9)]))
         clock0 two_users) = not_found "Subject not found".
Proof. vm_compute. reflexivity. Qed.

Lemma subject_routes_keep_other_users_witness :
  NoDup (map Subject.id (subjects two_users)) /\ In sB (subjects two_users) /\
  (forall u, user_by_email two_users "alice@example.com" = Some u -> Subject.user_id sB <> User.id u) /\
  In sB (subjects (snd (run_handler (update_subject iso text "alice@example.com" 2
                                      (JObj [("completed_chapters", JInt 9)])) clock0 two_users))) /\
  In sB (subjects (snd (run_handler (delete_subject "alice@example.com" 2) clock0 two_users))).
Proof.
  assert (Hr : In sB (subjects two_users)) by (simpl; auto).
  assert (Hother : forall u, user_by_email two_users "alice@example.com" = Some u ->
                             Subject.user_id sB <> User.id u)
    by (intros u Hu; vm_compute in Hu; injection Hu as <-; discriminate).
  exact (conj two_users_ids (conj Hr (conj Hother
    (subject_routes_keep_other_users iso text clock0 two_users "alice@example.com" 2
       two_users_ids sB (JObj [("completed_chapters", JInt 9)]) Hr Hother)))).
Defined.

Lemma add_subject_missing_fields_witness :
  user_by_email two_users "alice@example.com" = Some alice /\
  all_present (JObj [("name", JStr "Chemistry")]) required_fields = Ok false /\
  run_handler (add_subject iso parse_iso text "alice@example.com" (JObj [("name", JStr "Chemistry")]))
    clock0 two_users =
  (mkresp (JObj [("error", JStr "Missing required fields")]) 400, two_users).
Proof.
  assert (Hu : user_by_email two_users "alice@example.com" = Some alice) by reflexivity.
  assert (Ha : all_present (JObj [("name", JStr "Chemistry")]) required_fields = Ok false)
    by reflexivity.
  exact (conj Hu (conj Ha (add_subject_missing_fields iso parse_iso text clock0 two_users _ _ _ Hu Ha))).
Defined.

Lemma subject_routes_keep_ids_distinct_witness :
  let data := JObj [("name", JStr "Chemistry"); ("chapters", JInt 12); ("difficulty", JStr "easy");
                    ("deadline", JStr "2025-01-01"); ("priority", JStr "low")] in
  NoDup (map Subject.id (subjects two_users)) /\
  NoDup (map Subject.id (subjects
    (snd (run_handler (add_subject iso parse_iso text "alice@example.com" data) clock0 two_users)))) /\
  NoDup (map Subject.id (subjects
    (snd (run_handler (update_subject iso text "alice@example.com" 1 data) clock0 two_users)))) /\
  NoDup (map Subject.id (subjects
    (snd (run_handler (delete_subject "alice@example.com" 1) clock0 two_users)))).
Proof.
  intros data.
  exact (conj two_users_ids
    (subject_routes_keep_ids_distinct iso parse_iso text clock0 two_users "alice@example.com"
       1 data data two_users_ids)).
Defined.

Lemma delete_subject_removes_witness :
  user_by_email two_users "alice@example.com" = Some alice /\
  subject_of two_users 1 (User.id alice) = Some sA /\
  run_handler (delete_subject "alice@example.com" 1) clock0 two_users =
  (mkresp (JObj [("status", JStr "success"); ("message", JStr "Subject deleted")]) 200,
   with_subjects (filter (fun r => negb (Z.eqb (Subject.id r) 1)) (subjects two_users)) two_users).
Proof.
  assert (Hu : user_by_email two_users "alice@example.com" = Some alice) by reflexivity.
  assert (Hs : subject_of two_users 1 (User.id alice) = Some sA) by reflexivity.
  exact (conj Hu (conj Hs (delete_subject_removes clock0 two_users _ _ _ _ Hu Hs))).
Defined.

Lemma subject_routes_unknown_user_witness :
  user_by_email two_users "carol@example.com" = None /\
  run_handler (update_subject iso text "carol@example.com" 1 (JObj [])) clock0 two_users =
  (error_response (AttributeError "'NoneType' object has no attribute 'id'"), two_users) /\
  run_handler (delete_subject "carol@example.com" 1) clock0 two_users =
  (error_response (AttributeError "'NoneType' object has no attribute 'id'"), two_users).
Proof.
  assert (Hu : user_by_email two_users "carol@example.com" = None) by reflexivity.
  exact (conj Hu (subject_routes_unknown_user iso text clock0 two_users _ 1 (JObj []) Hu)).
Defined.

Definition progress : json :=
  JObj [("completed_chapters", JStr "7"); ("priority", JStr "low"); ("total_time_minutes", JInt 90)].

Lemma update_subject_applies_witness :
  user_by_email two_users "alice@example.com" = Some alice /\
  subject_of two_users 1 (User.id alice) = Some sA /\
  opt_field progress "completed_chapters" py_int = Ok (Some 7) /\
  opt_field progress "difficulty" Ok = Ok None /\
  opt_field progress "priority" Ok = Ok (Some (JStr "low")) /\
  opt_field progress "sessions_completed" py_int = Ok None /\
  opt_field progress "total_time_minutes" py_int = Ok (Some 90) /\
  opt_lift text None = Ok None /\ opt_lift text (Some (JStr "low")) = Ok (Some "low") /\
  forallb in_int64 (set_ints (Subject.completed_chapters sA) (Some 7) ++
                    set_ints (Subject.sessions_completed sA) None ++
                    set_ints (Subject.total_time_minutes sA) (Some 90)) = true /\
  let s' := Subject.mk 1 1 "Algebra" 10 (value_or 2 (Some 7)) (value_or "hard" None) (value_or "high" (Some "low"))
              0 (value_or 0 None) (value_or 0 (Some 90)) 0 (clock0 0%nat) false None in
  run_handler (update_subject iso text "alice@example.com" 1 progress) clock0 two_users =
  (mkresp (JObj [("status", JStr "success"); ("message", JStr "Subject updated");
                 ("subject", subject_to_dict iso (clock0 1%nat) s')]) 200, save_subject s' two_users) /\
  subject_of (save_subject s' two_users) 1 (User.id alice) = Some s'.
Proof.
  assert (Hu : user_by_email two_users "alice@example.com" = Some alice) by reflexivity.
  assert (Hs : subject_of two_users 1 (User.id alice) = Some sA) by reflexivity.
  assert (Hc : opt_field progress "completed_chapters" py_int = Ok (Some 7)) by reflexivity.
  assert (Hdf : opt_field progress "difficulty" Ok = Ok None) by reflexivity.
  assert (Hpr : opt_field progress "priority" Ok = Ok (Some (JStr "low"))) by reflexivity.
  assert (Hsc : opt_field progress "sessions_completed" py_int = Ok None) by reflexivity.
  assert (Htt : opt_field progress "total_time_minutes" py_int = Ok (Some 90)) by reflexivity.
  assert (Hdfs : opt_lift text None = Ok None) by reflexivity.
  assert (Hprs : opt_lift text (Some (JStr "low")) = Ok (Some "low")) by reflexivity.
  assert (Hb : forallb in_int64 (set_ints (Subject.completed_chapters sA) (Some 7) ++
                                 set_ints (Subject.sessions_completed sA) None ++
                                 set_ints (Subject.total_time_minutes sA) (Some 90)) = true)
    by reflexivity.
  exact (conj Hu (conj Hs (conj Hc (conj Hdf (conj Hpr (conj Hsc (conj Htt (conj Hdfs (conj Hprs (conj Hb
    (update_subject_applies iso text clock0 two_users "alice@example.com" alice sA 1 progress
       _ _ _ _ _ _ _ Hu Hs Hc Hdf Hpr Hsc Htt Hdfs Hprs Hb))))))))))).
Defined.

(** The same request seen on the reply: seven chapters of ten done, 70%. *)
Example update_subject_reply :
  fst (run_handler (update_subject iso text "alice@example.com" 1 progress) clock0 two_users) =
  mkresp (JObj [("status", JStr "success"); ("message", JStr "Subject updated");
                ("subject", JObj [("id", JInt 1); ("name", JStr "Algebra"); ("chapters", JInt 10);
                                  ("completed_chapters", JInt 7); ("difficulty", JStr "hard");
                                  ("priority", JStr "low"); ("deadline", JStr "");
                                  ("days_left", JInt 0); ("sessions_completed", JInt 0);
                                  ("total_time_minutes", JInt 90);
                                  ("completion_percentage", JFloat (70 # 1))])]) 200.
Proof. vm_compute. reflexivity. Qed.

(** Seven chapters of ten done. *)
Definition sDone7 : Subject.t := Subject.mk 3 1 "Geometry" 10 7 "easy" "low" 0 0 0 0 0 false None.

Lemma completion_percentage_bounds_witness :
  0 <= Subject.completed_chapters sDone7 <= Subject.chapters sDone7 /\
  exists kvs v, subject_to_dict iso 0 sDone7 = JObj kvs /\
    dict_lookup kvs "completion_percentage" = Some v /\
    (v = JInt 0 \/ exists q, v = JFloat q /\ (0 <= q <= 100)%Q).
Proof.
  assert (Hc : 0 <= Subject.completed_chapters sDone7 <= Subject.chapters sDone7) by (simpl; lia).
  exact (conj Hc (completion_percentage_bounds iso 0 sDone7 Hc)).
Defined.
