(* ===== verification/Sessions.v ===== *)
(** The study-session and reflection routes of [src/app.py] (lines
    588-702): [get_sessions], [record_session], [get_reflections],
    [record_reflection].

    [record_session] inserts a row and adds its duration to the user's
    [Gamification.total_minutes_studied] in the same commit.  The flush
    inserts the session first (its [date] default is the first clock
    reading) and then updates the gamification row, whose [updated_at]
    [onupdate] takes the second; with a duration of 0 the row has no
    change and no [UPDATE] is issued.  SQLAlchemy orders the two tables
    of one flush by their dependencies, and neither depends on the other;
    the order chosen here only decides which of the two readings each
    column gets.  Both statements bind the integers from the request
    ([session_ints], [reflection_ints]); one outside the 64-bit range
    makes the commit raise and the route answer 500.  The law
    [minutes_ok] (every gamification row's total is the sum of the
    durations of its user's sessions) is the invariant it keeps.  The
    listing routes order by [date DESC]; SQL leaves the order of equal
    dates open, and the model puts them in rowid order, through the
    stable sort of [Planner].  The [date] column's default is read from
    the clock when the row is flushed; [subject_id] (and a reflection's
    [reason_text]) is stored as the driver binds the JSON value the
    client sent ([Store.integer_column], [Store.string_column]), which
    raises before the commit for a value it cannot bind. *)

From Stdlib Require Import String ZArith Lia Bool Sorted Permutation List.
From S2P Require Import Prelude PyRuntime Models Store Planner Gamification.
Import ListNotations.
Local Open Scope Z_scope.
Local Open Scope string_scope.
Local Open Scope study_scope.

(** ** Rows and tables *)

Definition with_total_minutes (m : Z) (g : Gamification.t) : Gamification.t :=
  Gamification.mk (Gamification.id g) (Gamification.user_id g) (Gamification.xp g)
    (Gamification.level g) (Gamification.streak g) m (Gamification.last_study_date g)
    (Gamification.badges_earned g) (Gamification.current_mode g) (Gamification.updated_at g).

(** [db.session.add(session)] and the commit. *)
Definition insert_session (s : StudySession.t) (d : db) : db :=
  mkdb (users d) (subjects d) (gamifications d) (study_sessions d ++ [s]) (reflections d)
    (study_moods d).

(** [db.session.add(reflection)] and the commit. *)
Definition insert_reflection (r : Reflection.t) (d : db) : db :=
  mkdb (users d) (subjects d) (gamifications d) (study_sessions d) (reflections d ++ [r])
    (study_moods d).

(** The integer parameters of a session's [INSERT] that come from the
    request, in column order: [subject_id], [duration_minutes],
    [pomodoro_count]. *)
Definition session_ints (s : StudySession.t) : list Z :=
  json_ints (StudySession.subject_id s) ++
  [StudySession.duration_minutes s; StudySession.pomodoro_count s].

(** The same for a reflection: [subject_id], [reason_idx], and
    [reason_text] when the client sent an [int] for it. *)
Definition reflection_ints (r : Reflection.t) : list Z :=
  json_ints (Reflection.subject_id r) ++ [Reflection.reason_idx r] ++ json_ints (Reflection.reason_text r).

(** [StudySession.query.filter_by(user_id=uid).all()]. *)
Definition sessions_of (d : db) (uid : Z) : list StudySession.t :=
  filter (fun s => Z.eqb (StudySession.user_id s) uid) (study_sessions d).

(** [Reflection.query.filter_by(user_id=uid).all()]. *)
Definition reflections_of (d : db) (uid : Z) : list Reflection.t :=
  filter (fun r => Z.eqb (Reflection.user_id r) uid) (reflections d).

(** [.order_by(X.date.desc())], equal dates in rowid order. *)
Definition sessions_by_date_desc (l : list StudySession.t) : list StudySession.t :=
  sort_desc StudySession.date Z.leb l.

Definition reflections_by_date_desc (l : list Reflection.t) : list Reflection.t :=
  sort_desc Reflection.date Z.leb l.

(** [sum(s.duration_minutes for s in sessions)]. *)
Definition total_duration (l : list StudySession.t) : Z :=
  fold_right Z.add 0 (map StudySession.duration_minutes l).

Section Routes.
Context `{SqliteDriver} (isoformat : Z -> string).

(** [get_sessions], lines 590-606. *)
Definition get_sessions (identity : string) : M response :=
  user <- current_user identity ;;
  match user with
  | None => ret (not_found "User not found")
  | Some u =>
      d <- get_db ;;
      let sessions := sessions_by_date_desc (sessions_of d (User.id u)) in
      ret (mkresp (JObj [("sessions", JList (map (session_to_dict isoformat) sessions));
                         ("count", JInt (Z.of_nat (length sessions)))]) 200)
  end.

(** [record_session], lines 611-645: the keyword arguments of
    [StudySession(...)] are evaluated in order, then [user.gamification]
    is read, the session is added and the commit flushes both rows. *)
Definition record_session (identity : string) (data : json) : M response :=
  user <- current_user identity ;;
  match user with
  | None => ret (not_found "User not found")
  | Some u =>
      subject_id <- lift (py_get data "subject_id") ;;
      raw_duration <- lift (py_get_default data "duration_minutes" (JInt 25)) ;;
      duration <- lift (py_int raw_duration) ;;
      raw_count <- lift (py_get_default data "pomodoro_count" (JInt 1)) ;;
      pomodoros <- lift (py_int raw_count) ;;
      d <- get_db ;;
      g <- lift (attr (gamification_of d u) (fun g => g) "total_minutes_studied") ;;
      let g' := with_total_minutes (Gamification.total_minutes_studied g + duration) g in
      now <- utcnow ;;
      sid <- lift (integer_column (value_or JNull subject_id)) ;;
      let s := StudySession.mk (next_id (map StudySession.id (study_sessions d))) (User.id u)
                 sid duration now pomodoros in
      _ <- lift (bind_ints [duration; pomodoros]) ;;
      d' <- commit_gamification g g' d ;;
      _ <- put_db (insert_session s d') ;;
      ret (mkresp (JObj [("status", JStr "success"); ("message", JStr "Session recorded");
                         ("session", session_to_dict isoformat s)]) 201)
  end.

(** [get_reflections], lines 650-666. *)
Definition get_reflections (identity : string) : M response :=
  user <- current_user identity ;;
  match user with
  | None => ret (not_found "User not found")
  | Some u =>
      d <- get_db ;;
      let rs := reflections_by_date_desc (reflections_of d (User.id u)) in
      ret (mkresp (JObj [("reflections", JList (map (reflection_to_dict isoformat) rs));
                         ("count", JInt (Z.of_nat (length rs)))]) 200)
  end.

(** [record_reflection], lines 671-702. *)
Definition record_reflection (identity : string) (data : json) : M response :=
  user <- current_user identity ;;
  match user with
  | None => ret (not_found "User not found")
  | Some u =>
      subject_id <- lift (py_get data "subject_id") ;;
      raw_idx <- lift (py_get_default data "reason_idx" (JInt 0)) ;;
      reason_idx <- lift (py_int raw_idx) ;;
      reason_text <- lift (py_get_default data "reason_text" (JStr "")) ;;
      d <- get_db ;;
      now <- utcnow ;;
      sid <- lift (integer_column (value_or JNull subject_id)) ;;
      _ <- lift (bind_ints [reason_idx]) ;;
      text <- lift (string_column reason_text) ;;
      let r := Reflection.mk (next_id (map Reflection.id (reflections d))) (User.id u)
                 sid reason_idx text now in
      _ <- put_db (insert_reflection r d) ;;
      ret (mkresp (JObj [("status", JStr "success"); ("message", JStr "Reflection recorded");
                         ("reflection", reflection_to_dict isoformat r)]) 201)
  end.
End Routes.

(** ** What [record_session] answers and leaves behind *)

(** The session row [record_session] inserts for user [u] with the
    stored [subject_id], the given duration and pomodoro count, at the
    clock reading [now]. *)
Definition new_session (d : db) (u : User.t) (subject_id : json) (duration pomodoros now : Z)
  : StudySession.t :=
  StudySession.mk (next_id (map StudySession.id (study_sessions d))) (User.id u)
    subject_id duration now pomodoros.

(** The commit of [record_session]: the session row and the new total,
    flushed at [now]. *)
Definition record_session_commit (d : db) (u : User.t) (g : Gamification.t) (s : StudySession.t)
  (now : Z) : db :=
  insert_session s
    (commit_row g
       (with_total_minutes (Gamification.total_minutes_studied g + StudySession.duration_minutes s) g)
       now d).

(** The flush of [record_session] binds: the session's duration and
    pomodoro count, and the new total, when it changed. *)
Definition record_session_binds (g : Gamification.t) (s : StudySession.t) : bool :=
  forallb in_int64 [StudySession.duration_minutes s; StudySession.pomodoro_count s] &&
  commit_ok g (with_total_minutes (Gamification.total_minutes_studied g + StudySession.duration_minutes s) g).

(** The two [int()] conversions of the request. *)
Definition session_fields (data : json) : pyres (option json * Z * Z) :=
  pyres_bind (py_get data "subject_id") (fun sid =>
  pyres_bind (py_get_default data "duration_minutes" (JInt 25)) (fun rd =>
  pyres_bind (py_int rd) (fun duration =>
  pyres_bind (py_get_default data "pomodoro_count" (JInt 1)) (fun rc =>
  pyres_bind (py_int rc) (fun pomodoros => Ok (sid, duration, pomodoros)))))).

(** The request fields of [record_reflection]: [subject_id], the [int()]
    of [reason_idx] (0 when missing), [reason_text] ('' when missing). *)
Definition reflection_fields (data : json) : pyres (option json * Z * json) :=
  pyres_bind (py_get data "subject_id") (fun sid =>
  pyres_bind (py_get_default data "reason_idx" (JInt 0)) (fun ri =>
  pyres_bind (py_int ri) (fun reason_idx =>
  pyres_bind (py_get_default data "reason_text" (JStr "")) (fun text => Ok (sid, reason_idx, text))))).

(** The reflection row [record_reflection] inserts. *)
Definition new_reflection (d : db) (u : User.t) (subject_id : json) (reason_idx : Z) (text : json) (now : Z)
  : Reflection.t :=
  Reflection.mk (next_id (map Reflection.id (reflections d))) (User.id u) subject_id reason_idx text now.

Lemma record_reflection_run `{SqliteDriver} isoformat clock d identity data :
  run_handler (record_reflection isoformat identity data) clock d =
  match user_by_email d identity with
  | None => (not_found "User not found", d)
  | Some u =>
      match reflection_fields data with
      | Raise e => (error_response e, d)
      | Ok (sid, reason_idx, text) =>
          match integer_column (value_or JNull sid), in_int64 reason_idx, string_column text with
          | Raise e, _, _ => (error_response e, d)
          | Ok _, false, _ => (error_response int_overflow, d)
          | Ok _, true, Raise e => (error_response e, d)
          | Ok sid', true, Ok text' =>
              let r := new_reflection d u sid' reason_idx text' (clock 0%nat) in
              (mkresp (JObj [("status", JStr "success"); ("message", JStr "Reflection recorded");
                             ("reflection", reflection_to_dict isoformat r)]) 201,
               insert_reflection r d)
          end
      end
  end.
Proof.
  unfold run_handler, record_reflection, current_user, reflection_fields, bind_ints.
  cbn -[user_by_email py_get py_get_default py_int insert_reflection].
  destruct (user_by_email d identity) as [u|]; [|reflexivity].
  cbn -[py_get py_get_default py_int insert_reflection].
  destruct (py_get data "subject_id") as [sid|e]; [|reflexivity]. simpl.
  destruct (py_get_default data "reason_idx" _) as [ri|e]; [|reflexivity]. simpl.
  destruct (py_int ri) as [idx|e]; [|reflexivity]. simpl.
  destruct (py_get_default data "reason_text" _) as [text|e]; [|reflexivity]. simpl.
  destruct (integer_column _) as [sid'|e]; simpl; [|reflexivity].
  destruct (in_int64 idx); simpl; [|reflexivity].
  now destruct (string_column text).
Qed.

Lemma record_session_run `{SqliteDriver} isoformat clock d identity data :
  run_handler (record_session isoformat identity data) clock d =
  match user_by_email d identity with
  | None => (not_found "User not found", d)
  | Some u =>
      match session_fields data with
      | Raise e => (error_response e, d)
      | Ok (sid, duration, pomodoros) =>
          match gamification_of d u with
          | None => (error_response
                       (AttributeError "'NoneType' object has no attribute 'total_minutes_studied'"), d)
          | Some g =>
              match integer_column (value_or JNull sid) with
              | Raise e => (error_response e, d)
              | Ok sid' =>
                  let s := new_session d u sid' duration pomodoros (clock 0%nat) in
                  if record_session_binds g s then
                    (mkresp (JObj [("status", JStr "success"); ("message", JStr "Session recorded");
                                   ("session", session_to_dict isoformat s)]) 201,
                     record_session_commit d u g s (clock 1%nat))
                  else (error_response int_overflow, d)
              end
          end
      end
  end.
Proof.
  unfold run_handler, record_session, current_user, session_fields.
  cbn -[user_by_email gamification_of commit_gamification py_get py_get_default py_int].
  destruct (user_by_email d identity) as [u|]; [|reflexivity].
  cbn -[gamification_of py_get py_get_default py_int].
  destruct (py_get data "subject_id") as [sid|e]; [|reflexivity]. simpl.
  destruct (py_get_default data "duration_minutes" _) as [rd|e]; [|reflexivity]. simpl.
  destruct (py_int rd) as [duration|e]; [|reflexivity]. simpl.
  destruct (py_get_default data "pomodoro_count" _) as [rc|e]; [|reflexivity]. simpl.
  destruct (py_int rc) as [pomodoros|e]; [|reflexivity]. simpl.
  destruct (gamification_of d u) as [g|]; [|reflexivity]. simpl.
  destruct (integer_column _) as [sid'|e]; simpl; [|reflexivity].
  unfold record_session_binds, bind_ints. cbv zeta.
  destruct (forallb in_int64 _); simpl; [|reflexivity].
  rewrite commit_gamification_run. now destruct (commit_ok _ _).
Qed.

(** ** The minutes law *)

(** The minutes of user [uid]'s sessions. *)
Definition minutes_of (d : db) (uid : Z) : Z := total_duration (sessions_of d uid).

(** Every gamification row's [total_minutes_studied] is the sum of the
    durations of its user's sessions. *)
Definition minutes_ok (d : db) : Prop :=
  Forall (fun g => Gamification.total_minutes_studied g = minutes_of d (Gamification.user_id g))
    (gamifications d).

(** Row ids are distinct, and [user_id] is [unique=True]. *)
Definition gamification_keys (d : db) : Prop :=
  NoDup (map Gamification.id (gamifications d)) /\
  NoDup (map Gamification.user_id (gamifications d)).

Lemma total_duration_app l l' : total_duration (l ++ l') = total_duration l + total_duration l'.
Proof. unfold total_duration. rewrite map_app. induction l as [|x l IH]; simpl; lia. Qed.

Lemma minutes_of_insert s d uid :
  minutes_of (insert_session s d) uid =
  minutes_of d uid + (if Z.eqb (StudySession.user_id s) uid then StudySession.duration_minutes s else 0).
Proof.
  unfold minutes_of, sessions_of, insert_session. simpl. rewrite filter_app, total_duration_app.
  simpl. destruct (Z.eqb _ _); unfold total_duration; simpl; lia.
Qed.

Lemma minutes_of_save g d uid : minutes_of (save_gamification g d) uid = minutes_of d uid.
Proof. reflexivity. Qed.

Lemma gamification_of_spec d u g :
  gamification_of d u = Some g -> In g (gamifications d) /\ Gamification.user_id g = User.id u.
Proof.
  unfold gamification_of. intros H. apply find_some in H as [Hin E]. split; [exact Hin|]. lia.
Qed.

Lemma save_gamification_user_ids g' d g :
  NoDup (map Gamification.id (gamifications d)) -> In g (gamifications d) ->
  Gamification.id g' = Gamification.id g -> Gamification.user_id g' = Gamification.user_id g ->
  map Gamification.user_id (gamifications (save_gamification g' d)) =
  map Gamification.user_id (gamifications d).
Proof.
  intros Hnd Hin Hid Huid. unfold save_gamification. simpl. rewrite map_map. apply map_ext_in.
  intros r Hr. destruct (Z.eqb_spec (Gamification.id r) (Gamification.id g')) as [E|]; [|reflexivity].
  rewrite Huid. f_equal. eapply NoDup_map_same_key; [exact Hnd | exact Hin | exact Hr | congruence].
Qed.

Lemma insert_session_gamifications s d : gamifications (insert_session s d) = gamifications d.
Proof. reflexivity. Qed.

Lemma users_insert_session s d : users (insert_session s d) = users d.
Proof. reflexivity. Qed.

Lemma gamification_of_insert_session s d u : gamification_of (insert_session s d) u = gamification_of d u.
Proof. reflexivity. Qed.

Lemma sessions_of_commit g g' now d uid : sessions_of d uid = sessions_of (commit_row g g' now d) uid.
Proof. unfold sessions_of. now rewrite commit_row_sessions. Qed.

(** The flush of [record_session] writes exactly when the total moved. *)
Lemma row_unchanged_total_minutes t g :
  row_unchanged g (with_total_minutes t g) = Z.eqb (Gamification.total_minutes_studied g) t.
Proof.
  unfold row_unchanged. simpl.
  rewrite !Z.eqb_refl, option_Z_eqb_refl, json_list_same_refl, String.eqb_refl.
  now destruct (Z.eqb _ t).
Qed.

(** A flush of the user's row keeps the owners of the rows. *)
Lemma commit_row_user_ids d g g' now :
  NoDup (map Gamification.id (gamifications d)) -> In g (gamifications d) ->
  Gamification.id g' = Gamification.id g -> Gamification.user_id g' = Gamification.user_id g ->
  map Gamification.user_id (gamifications (commit_row g g' now d)) =
  map Gamification.user_id (gamifications d).
Proof.
  intros Hid Hin Hi Hu. unfold commit_row. destruct (row_unchanged g g'); [reflexivity|].
  apply (save_gamification_user_ids _ _ g); destruct g'; auto.
Qed.

(** A flush of the user's row keeps the keys of the table. *)
Lemma commit_row_keys d g g' now :
  gamification_keys d -> In g (gamifications d) ->
  Gamification.id g' = Gamification.id g -> Gamification.user_id g' = Gamification.user_id g ->
  gamification_keys (commit_row g g' now d).
Proof.
  intros [Hid Huid] Hin Hi Hu. unfold gamification_keys. rewrite commit_row_ids.
  split; [exact Hid|]. now rewrite (commit_row_user_ids _ g).
Qed.

(** The commit of [record_session] keeps the keys of the table. *)
Lemma record_session_commit_keys d u g s now :
  gamification_keys d -> gamification_of d u = Some g ->
  gamification_keys (record_session_commit d u g s now).
Proof.
  intros Hk Hg. apply gamification_of_spec in Hg as [Hin _].
  unfold record_session_commit. now apply commit_row_keys.
Qed.

(** A session of no minutes keeps the minutes law by itself. *)
Lemma insert_session_minutes_zero d s :
  minutes_ok d -> StudySession.duration_minutes s = 0 -> minutes_ok (insert_session s d).
Proof.
  unfold minutes_ok. intros Hm H0. simpl. eapply Forall_impl; [|exact Hm]. intros r Hr.
  rewrite minutes_of_insert, H0, Hr. destruct (Z.eqb _ _); lia.
Qed.

(** Writing the user's row with its total grown by the session's minutes,
    and inserting the session, keeps the minutes law. *)
Lemma save_session_minutes d g g' s :
  gamification_keys d -> minutes_ok d -> In g (gamifications d) ->
  StudySession.user_id s = Gamification.user_id g ->
  Gamification.id g' = Gamification.id g -> Gamification.user_id g' = Gamification.user_id g ->
  Gamification.total_minutes_studied g' =
  Gamification.total_minutes_studied g + StudySession.duration_minutes s ->
  minutes_ok (insert_session s (save_gamification g' d)).
Proof.
  intros [Hid Huid] Hm Hin Hs Hi Hu Ht.
  unfold minutes_ok in *. simpl. apply Forall_map.
  rewrite Forall_forall in *. intros r Hr.
  rewrite minutes_of_insert, minutes_of_save, Hs.
  destruct (Z.eqb_spec (Gamification.id r) (Gamification.id g')) as [E|E]; simpl.
  - assert (r = g) as -> by (eapply NoDup_map_same_key; [exact Hid | exact Hr | exact Hin | congruence]).
    rewrite Hu, Z.eqb_refl, Ht, (Hm g Hin). lia.
  - rewrite (Hm r Hr). destruct (Z.eqb_spec (Gamification.user_id g) (Gamification.user_id r)) as [E'|]; [|lia].
    exfalso. apply E. rewrite Hi. f_equal.
    eapply NoDup_map_same_key; [exact Huid | exact Hr | exact Hin | congruence].
Qed.

(** The commit of [record_session] keeps the minutes law, whether the
    flush updates the row or, for a session of no minutes, does not. *)
Lemma record_session_commit_minutes d u g s now :
  gamification_keys d -> minutes_ok d -> gamification_of d u = Some g ->
  StudySession.user_id s = User.id u -> minutes_ok (record_session_commit d u g s now).
Proof.
  intros Hk Hm Hg Hs. apply gamification_of_spec in Hg as [Hin Hgu].
  unfold record_session_commit, commit_row.
  destruct (row_unchanged g _) eqn:E.
  - apply row_unchanged_total in E. simpl in E. apply insert_session_minutes_zero; [exact Hm|lia].
  - apply (save_session_minutes _ g); try assumption; try reflexivity. congruence.
Qed.

Lemma Zleb_total a b : Z.leb a b = true \/ Z.leb b a = true.
Proof. destruct (Z.leb_spec a b); [left; reflexivity | right; apply Z.leb_le; lia]. Qed.

Lemma Zleb_trans a b c : Z.leb a b = true -> Z.leb b c = true -> Z.leb a c = true.
Proof. rewrite !Z.leb_le. lia. Qed.

Lemma sessions_of_insert s d uid :
  sessions_of (insert_session s d) uid =
  (sessions_of d uid ++ (if Z.eqb (StudySession.user_id s) uid then [s] else []))%list.
Proof. unfold sessions_of, insert_session. simpl. rewrite filter_app. reflexivity. Qed.

(** ** Claims *)

Section Claims.
Context `{SqliteDriver} (isoformat : Z -> string) (clock : nat -> Z) (d : db) (identity : string).

(** C28: [record_session] keeps the minutes law: if every gamification row's
    [total_minutes_studied] is the sum of its user's session durations
    (and the table's keys are distinct), the same holds after the
    request, whatever it answers. *)
Theorem record_session_keeps_minutes data :
  gamification_keys d -> minutes_ok d ->
  gamification_keys (snd (run_handler (record_session isoformat identity data) clock d)) /\
  minutes_ok (snd (run_handler (record_session isoformat identity data) clock d)).
Proof.
  intros Hk Hm. rewrite record_session_run.
  destruct (user_by_email d identity) as [u|]; [|now split].
  destruct (session_fields data) as [[[sid dur] pc]|e]; [|now split].
  destruct (gamification_of d u) as [g|] eqn:Eg; [|now split]. simpl.
  destruct (integer_column _) as [sid'|e]; [|now split].
  destruct (record_session_binds _ _); simpl; [|now split].
  split; [now apply record_session_commit_keys | now apply record_session_commit_minutes].
Qed.

(** C29: A request that [record_session] accepts, whose values bind:
    201, the user's sessions gain exactly the new row (with the
    [subject_id] the driver stores, the requested duration, at the first
    clock reading), the user's total grows by the duration, and no other
    user's sessions change. *)
Theorem record_session_ok data u g sid sid' duration pomodoros :
  user_by_email d identity = Some u -> gamification_of d u = Some g ->
  session_fields data = Ok (sid, duration, pomodoros) ->
  integer_column (value_or JNull sid) = Ok sid' ->
  record_session_binds g (new_session d u sid' duration pomodoros (clock 0%nat)) = true ->
  let '(r, d') := run_handler (record_session isoformat identity data) clock d in
  status r = 201 /\
  sessions_of d' (User.id u) = (sessions_of d (User.id u) ++ [new_session d u sid' duration pomodoros (clock 0%nat)])%list /\
  gamification_of d' u =
  Some (if Z.eqb duration 0 then g
        else with_updated_at (clock 1%nat)
               (with_total_minutes (Gamification.total_minutes_studied g + duration) g)) /\
  (forall uid, uid <> User.id u -> sessions_of d' uid = sessions_of d uid).
Proof.
  intros Hu Hg Hf Hs Hb. rewrite record_session_run, Hu, Hf, Hg, Hs. cbv zeta. rewrite Hb.
  unfold record_session_commit.
  repeat split.
  - rewrite sessions_of_insert, <- sessions_of_commit. simpl. now rewrite Z.eqb_refl.
  - rewrite gamification_of_insert_session, (gamification_of_commit _ _ g) by (assumption || reflexivity).
    unfold committed_row. now rewrite row_unchanged_total_minutes, Zeqb_add_r.
  - intros uid Hne. rewrite sessions_of_insert, <- sessions_of_commit. simpl.
    destruct (Z.eqb_spec (User.id u) uid); [congruence | apply app_nil_r].
Qed.

(** C31: [get_sessions] answers the user's sessions, each once, most recent
    first, with their number as [count]; it writes nothing. *)
Theorem get_sessions_newest_first u :
  user_by_email d identity = Some u ->
  exists l,
    run_handler (get_sessions isoformat identity) clock d =
    (mkresp (JObj [("sessions", JList (map (session_to_dict isoformat) l));
                   ("count", JInt (Z.of_nat (length l)))]) 200, d) /\
    Permutation l (sessions_of d (User.id u)) /\
    Sorted (fun a b => StudySession.date b <= StudySession.date a) l.
Proof.
  intros Hu. exists (sessions_by_date_desc (sessions_of d (User.id u))). split; [|split].
  - unfold run_handler, get_sessions, current_user. cbn -[user_by_email sessions_by_date_desc].
    now rewrite Hu.
  - apply sort_desc_perm.
  - apply (Sorted_impl (desc StudySession.date Z.leb)); [|apply sort_desc_sorted, Zleb_total].
    intros a b Hab. now apply Z.leb_le.
Qed.

(** C34: [get_reflections] answers the user's reflections, each once,
    most recent first, with their number as [count]; it writes nothing. *)
Theorem get_reflections_newest_first u :
  user_by_email d identity = Some u ->
  exists l,
    run_handler (get_reflections isoformat identity) clock d =
    (mkresp (JObj [("reflections", JList (map (reflection_to_dict isoformat) l));
                   ("count", JInt (Z.of_nat (length l)))]) 200, d) /\
    Permutation l (reflections_of d (User.id u)) /\
    Sorted (fun a b => Reflection.date b <= Reflection.date a) l.
Proof.
  intros Hu. exists (reflections_by_date_desc (reflections_of d (User.id u))). split; [|split].
  - unfold run_handler, get_reflections, current_user. cbn -[user_by_email reflections_by_date_desc].
    now rewrite Hu.
  - apply sort_desc_perm.
  - apply (Sorted_impl (desc Reflection.date Z.leb)); [|apply sort_desc_sorted, Zleb_total].
    intros a b Hab. now apply Z.leb_le.
Qed.
End Claims.

(** Either nothing is written, or one reflection row is appended. *)
Lemma record_reflection_outcome `{SqliteDriver} isoformat clock d identity data :
  snd (run_handler (record_reflection isoformat identity data) clock d) = d \/
  exists r, snd (run_handler (record_reflection isoformat identity data) clock d) = insert_reflection r d /\
            forallb in_int64 (reflection_ints r) = true.
Proof.
  rewrite record_reflection_run.
  destruct (user_by_email d identity) as [u|]; [|now left].
  destruct (reflection_fields data) as [[[sid idx] text]|e]; [|now left].
  destruct (integer_column _) as [sid'|e] eqn:Es; [|now left].
  destruct (in_int64 idx) eqn:E; [|now left].
  destruct (string_column text) as [t|e] eqn:Et; [|now left].
  right. eexists. split; [reflexivity|].
  unfold reflection_ints. cbn [new_reflection Reflection.subject_id Reflection.reason_idx Reflection.reason_text].
  rewrite !forallb_app, (integer_column_ints _ _ Es), (string_column_ints _ _ Et). simpl.
  now rewrite E.
Qed.

(** C38: [record_reflection] for a known user, with request fields the
    driver binds (a [subject_id] and a [reason_text] the columns accept,
    a 64-bit [reason_idx]), answers 201 with the new row, which has a
    fresh id, the user's id, the bound values and the first clock
    reading as its date; the user's reflections gain exactly that row at
    the end and every other user's reflections are unchanged. *)
Theorem record_reflection_ok `{SqliteDriver} isoformat clock d identity data u sid idx text sid' text' :
  user_by_email d identity = Some u ->
  reflection_fields data = Ok (sid, idx, text) ->
  integer_column (value_or JNull sid) = Ok sid' -> in_int64 idx = true -> string_column text = Ok text' ->
  let r := new_reflection d u sid' idx text' (clock 0%nat) in
  run_handler (record_reflection isoformat identity data) clock d =
    (mkresp (JObj [("status", JStr "success"); ("message", JStr "Reflection recorded");
                   ("reflection", reflection_to_dict isoformat r)]) 201, insert_reflection r d) /\
  ~ In (Reflection.id r) (map Reflection.id (reflections d)) /\
  reflections_of (insert_reflection r d) (User.id u) = (reflections_of d (User.id u) ++ [r])%list /\
  (forall uid, uid <> User.id u -> reflections_of (insert_reflection r d) uid = reflections_of d uid).
Proof.
  intros Hu Hf Hs Hi Ht r. rewrite record_reflection_run, Hu, Hf, Hs, Hi, Ht.
  split; [reflexivity|]. split; [apply next_id_fresh|].
  unfold reflections_of, insert_reflection. cbn [reflections]. rewrite filter_app. cbn.
  split; [now rewrite Z.eqb_refl|].
  intros uid Hne. rewrite filter_app. cbn. destruct (Z.eqb_spec (User.id u) uid); [congruence | apply app_nil_r].
Qed.

Lemma with_total_minutes_inv m g : gamif_inv g -> gamif_inv (with_total_minutes m g).
Proof. intros (Hl & Hs & Hm & Hb). repeat split; assumption. Qed.
