(* ===== verification/Analytics.v ===== *)
(** The analytics routes of [src/app.py]: [get_analytics_summary] (lines
    705-750) and [get_study_heatmap] (lines 753-786).

    The summary sums chapters and minutes and divides them; its division
    [sum(completed) / sum(chapters)] in the priority breakdown is guarded
    only by the group being non-empty, so a group whose chapters sum to 0
    raises [ZeroDivisionError].  Python's [/] on integers gives a float,
    and every float operation rounds ([Binary64]): the percentages are
    [a / b * 100] rounded twice, and [round(x, 1)] rounds a third time.
    [analytics_summary_run] gives the route on both branches, and the
    outcome theorem says when each is taken and what the breakdown's
    entries hold.

    The heatmap is a dictionary of dictionaries built by one loop over the
    user's sessions.  It is modelled as the code builds it: association
    lists in insertion order with Python's [d[k] = v] ([dict_set]).  The
    texts of [strftime('%Y-%m-%d')] and [strftime('%H')] are the section
    variables [date_key] and [hour_key]; the theorems hold for any such
    functions.  The cells sum to the user's minutes ([heat_sum_build]). *)

From Stdlib Require Import String ZArith QArith Lia Bool List.
From S2P Require Import Prelude Binary64 PyRuntime Models Store Sessions.
Import ListNotations.
Local Open Scope Z_scope.
Local Open Scope string_scope.
Local Open Scope study_scope.

(** ** The summary *)

(** [sum(f(s) for s in l)]. *)
Definition sum_by {A} (f : A -> Z) (l : list A) : Z := fold_right (fun x acc => f x + acc) 0 l.

(** [[s for s in subjects if s.priority == priority]] (line 730). *)
Definition priority_group (subjects : list Subject.t) (priority : string) : list Subject.t :=
  filter (fun s => String.eqb (Subject.priority s) priority) subjects.

(** The entry of one priority in [priority_stats] (lines 729-734). *)
Definition priority_stat (subjects : list Subject.t) (priority : string) : pyres json :=
  let group := priority_group subjects priority in
  match group with
  | [] => Ok (JObj [("count", JInt 0); ("avg_completion", JInt 0)])
  | _ =>
      let completed := sum_by Subject.completed_chapters group in
      let chapters := sum_by Subject.chapters group in
      if Z.eqb chapters 0 then Raise (ZeroDivisionError "division by zero")
      else Ok (JObj [("count", JInt (Z.of_nat (length group)));
                     ("avg_completion", JFloat (percent completed chapters))])
  end.

(** The loop [for priority in ['low', 'medium', 'high']]. *)
Fixpoint priority_stats (subjects : list Subject.t) (priorities : list string)
  : pyres (list (string * json)) :=
  match priorities with
  | [] => Ok []
  | p :: ps =>
      pyres_bind (priority_stat subjects p) (fun stat =>
      pyres_bind (priority_stats subjects ps) (fun rest => Ok ((p, stat) :: rest)))
  end.

Definition priorities : list string := ["low"; "medium"; "high"].

(** [round(x / n, 1) if n > 0 else 0], as [overall_completion_percentage]
    and [avg_session_minutes] compute it. *)
Definition ratio_or_zero (x : Q) (n : Z) : json :=
  if Z.ltb 0 n then JFloat (py_round1 x) else JInt 0.

(** [get_analytics_summary], lines 705-750. *)
Definition get_analytics_summary (identity : string) : M response :=
  user <- current_user identity ;;
  match user with
  | None => ret (not_found "User not found")
  | Some u =>
      d <- get_db ;;
      let subjects := subjects_of d (User.id u) in
      let sessions := sessions_of d (User.id u) in
      let reflections := reflections_of d (User.id u) in
      let total_chapters := sum_by Subject.chapters subjects in
      let completed_chapters := sum_by Subject.completed_chapters subjects in
      let total_study_minutes := total_duration sessions in
      let total_sessions := Z.of_nat (length sessions) in
      stats <- lift (priority_stats subjects priorities) ;;
      ret (mkresp (JObj [("total_subjects", JInt (Z.of_nat (length subjects)));
                         ("total_chapters", JInt total_chapters);
                         ("completed_chapters", JInt completed_chapters);
                         ("overall_completion_percentage",
                           ratio_or_zero (percent completed_chapters total_chapters) total_chapters);
                         ("total_study_minutes", JInt total_study_minutes);
                         ("total_sessions", JInt total_sessions);
                         ("avg_session_minutes",
                           ratio_or_zero (py_truediv total_study_minutes total_sessions) total_sessions);
                         ("total_reflections", JInt (Z.of_nat (length reflections)));
                         ("priority_breakdown", JObj stats)]) 200)
  end.

(** ** The heatmap dictionary *)

(** [d.get(k)] on a dictionary held as an association list. *)
Fixpoint assoc {V} (k : string) (kvs : list (string * V)) : option V :=
  match kvs with
  | [] => None
  | (k', v) :: rest => if String.eqb k' k then Some v else assoc k rest
  end.

(** [d[k] = v]: replace the value of [k] in place, or append [k]. *)
Fixpoint dict_set {V} (k : string) (v : V) (kvs : list (string * V)) : list (string * V) :=
  match kvs with
  | [] => [(k, v)]
  | (k', v') :: rest => if String.eqb k' k then (k', v) :: rest else (k', v') :: dict_set k v rest
  end.

Definition heatmap : Type := list (string * list (string * Z)).

(** [if k not in d: d[k] = v]. *)
Definition ensure {V} (k : string) (v : V) (kvs : list (string * V)) : list (string * V) :=
  match assoc k kvs with Some _ => kvs | None => dict_set k v kvs end.

(** One iteration of the loop (lines 770-779). *)
Definition heat_add (dk hk : string) (minutes : Z) (h : heatmap) : heatmap :=
  let h1 := ensure dk [] h in
  let row := value_or [] (assoc dk h1) in
  let row1 := ensure hk 0 row in
  dict_set dk (dict_set hk (value_or 0 (assoc hk row1) + minutes) row1) h1.

Section Heatmap.
Context (date_key hour_key : Z -> string).

(** The loop [for session in sessions]. *)
Definition build_heatmap (sessions : list StudySession.t) : heatmap :=
  fold_left (fun h s => heat_add (date_key (StudySession.date s)) (hour_key (StudySession.date s))
                          (StudySession.duration_minutes s) h) sessions [].

(** [get_study_heatmap], lines 753-786. *)
Definition get_study_heatmap (identity : string) : M response :=
  user <- current_user identity ;;
  match user with
  | None => ret (not_found "User not found")
  | Some u =>
      d <- get_db ;;
      let sessions := sessions_of d (User.id u) in
      let h := build_heatmap sessions in
      ret (mkresp (JObj [("heatmap", JObj (map (fun '(dk, row) => (dk, JObj (map (fun '(hk, m) => (hk, JInt m)) row))) h));
                         ("total_entries", JInt (Z.of_nat (length sessions)))]) 200)
  end.
End Heatmap.

(** ** Dictionary lemmas *)

Lemma assoc_dict_set_same {V} k (v : V) kvs : assoc k (dict_set k v kvs) = Some v.
Proof.
  induction kvs as [|[k' v'] rest IH]; simpl; [now rewrite String.eqb_refl|].
  destruct (String.eqb_spec k' k) as [->|]; simpl; [now rewrite String.eqb_refl|].
  destruct (String.eqb_spec k' k); [contradiction | exact IH].
Qed.

Lemma assoc_dict_set_other {V} k k' (v : V) kvs :
  k' <> k -> assoc k (dict_set k' v kvs) = assoc k kvs.
Proof.
  intros Hne. induction kvs as [|[k0 v0] rest IH]; simpl.
  - destruct (String.eqb_spec k' k); [contradiction | reflexivity].
  - destruct (String.eqb_spec k0 k') as [->|]; simpl.
    + destruct (String.eqb_spec k' k); [contradiction | reflexivity].
    + destruct (String.eqb k0 k); [reflexivity | exact IH].
Qed.

(** [heatmap[dk][hk]], or [None] when either key is missing. *)
Definition heat_cell (h : heatmap) (dk hk : string) : option Z := assoc hk (value_or [] (assoc dk h)).

(** After the missing-key tests, the row and the cell are there. *)
Lemma assoc_ensure {V} k (v : V) kvs : assoc k (ensure k v kvs) = Some (value_or v (assoc k kvs)).
Proof. unfold ensure. destruct (assoc k kvs) eqn:E; simpl; [exact E | apply assoc_dict_set_same]. Qed.

Lemma assoc_ensure_other {V} k k' (v : V) kvs : k' <> k -> assoc k (ensure k' v kvs) = assoc k kvs.
Proof. unfold ensure. intros Hne. destruct (assoc k' kvs); [reflexivity | now apply assoc_dict_set_other]. Qed.

(** One iteration adds the minutes to its own cell and to no other. *)
Lemma heat_cell_add dk hk m h dk' hk' :
  heat_cell (heat_add dk hk m h) dk' hk' =
  if String.eqb dk dk' && String.eqb hk hk' then Some (value_or 0 (heat_cell h dk hk) + m)
  else heat_cell h dk' hk'.
Proof.
  unfold heat_cell, heat_add. cbv zeta.
  destruct (String.eqb_spec dk dk') as [<-|Hd]; cbn [andb].
  - rewrite assoc_dict_set_same, assoc_ensure. cbn [value_or].
    destruct (String.eqb_spec hk hk') as [<-|Hh].
    + rewrite assoc_dict_set_same, assoc_ensure. reflexivity.
    + rewrite assoc_dict_set_other by exact Hh. rewrite assoc_ensure_other by exact Hh.
      now rewrite assoc_ensure.
  - rewrite assoc_dict_set_other by exact Hd. now rewrite assoc_ensure_other by exact Hd.
Qed.

(** ** The sum of the cells *)

(** [sum(row.values())] and the sum over all rows. *)
Definition row_sum (row : list (string * Z)) : Z := sum_by (fun kv => snd kv) row.
Definition heat_sum (h : heatmap) : Z := sum_by (fun kv => row_sum (snd kv)) h.

Lemma sum_by_cons {A} (f : A -> Z) x l : sum_by f (x :: l) = f x + sum_by f l.
Proof. reflexivity. Qed.

(** [d[k] = v] trades the value [k] had, if any, for [v]. *)
Lemma sum_dict_set {V} (f : V -> Z) k v kvs :
  sum_by (fun kv => f (snd kv)) (dict_set k v kvs) =
  sum_by (fun kv => f (snd kv)) kvs - value_or 0 (option_map f (assoc k kvs)) + f v.
Proof.
  induction kvs as [|[k' v'] rest IH]; cbn [dict_set assoc]; [cbn; lia|].
  destruct (String.eqb k' k); rewrite !sum_by_cons; cbn [snd value_or option_map]; [lia|].
  rewrite IH. lia.
Qed.

Lemma sum_ensure {V} (f : V -> Z) k v kvs :
  sum_by (fun kv => f (snd kv)) (ensure k v kvs) =
  sum_by (fun kv => f (snd kv)) kvs + match assoc k kvs with Some _ => 0 | None => f v end.
Proof.
  unfold ensure. destruct (assoc k kvs) eqn:E; [lia|].
  rewrite sum_dict_set, E. cbn. lia.
Qed.

(** One iteration adds its minutes to the sum of the cells. *)
Lemma heat_sum_add dk hk m h : heat_sum (heat_add dk hk m h) = heat_sum h + m.
Proof.
  unfold heat_sum, heat_add. cbv zeta.
  rewrite (sum_dict_set row_sum), (sum_ensure row_sum), assoc_ensure. cbn [value_or option_map].
  assert (Hr : forall row, row_sum row = sum_by (fun kv => (fun z : Z => z) (snd kv)) row) by reflexivity.
  rewrite !Hr, (sum_dict_set (fun z : Z => z)), (sum_ensure (fun z : Z => z)), assoc_ensure.
  cbn [value_or option_map].
  destruct (assoc dk h) as [row|]; cbn [value_or].
  all: try (destruct (assoc hk row)); cbn in *; unfold row_sum; lia.
Qed.

(** ** Claims *)

Section HeatmapTheorems.
Context (date_key hour_key : Z -> string).

(** Session [s] falls in the cell of date [dk] and hour [hk]. *)
Definition at_cell (dk hk : string) (s : StudySession.t) : bool :=
  String.eqb (date_key (StudySession.date s)) dk && String.eqb (hour_key (StudySession.date s)) hk.

Lemma heat_cell_fold ss h dk hk :
  heat_cell (fold_left (fun h s => heat_add (date_key (StudySession.date s)) (hour_key (StudySession.date s))
                                      (StudySession.duration_minutes s) h) ss h) dk hk =
  match filter (at_cell dk hk) ss with
  | [] => heat_cell h dk hk
  | l => Some (value_or 0 (heat_cell h dk hk) + total_duration l)
  end.
Proof.
  revert h. induction ss as [|s ss IH]; intros h; [reflexivity|]. cbn [fold_left filter].
  rewrite IH, heat_cell_add.
  change (String.eqb (date_key (StudySession.date s)) dk && String.eqb (hour_key (StudySession.date s)) hk)
    with (at_cell dk hk s).
  destruct (at_cell dk hk s) eqn:E; [|reflexivity].
  unfold at_cell in E. apply andb_true_iff in E as [E1 E2]. apply String.eqb_eq in E1, E2. rewrite E1, E2.
  destruct (filter (at_cell dk hk) ss) as [|x l]; cbn [total_duration map fold_right value_or];
    f_equal; lia.
Qed.

Lemma heat_sum_fold ss h :
  heat_sum (fold_left (fun h s => heat_add (date_key (StudySession.date s)) (hour_key (StudySession.date s))
                                    (StudySession.duration_minutes s) h) ss h) =
  heat_sum h + total_duration ss.
Proof.
  revert h. induction ss as [|s ss IH]; intros h; [change (total_duration []) with 0; cbn [fold_left]; lia|]. cbn [fold_left].
  rewrite IH, heat_sum_add.
  change (total_duration (s :: ss)) with (StudySession.duration_minutes s + total_duration ss). lia.
Qed.

(** The cells of the user's heatmap sum to the minutes of the sessions. *)
Lemma heat_sum_build ss : heat_sum (build_heatmap date_key hour_key ss) = total_duration ss.
Proof. unfold build_heatmap. rewrite heat_sum_fold. change (heat_sum []) with 0. lia. Qed.

(** C39: [get_study_heatmap] writes nothing and answers 200 with the heatmap
    of the user's sessions, whose cell for a date and an hour is the sum
    of the durations of the sessions at that date and hour, and is absent
    when there is none; the cells together sum to the user's total
    minutes. *)
Theorem heatmap_cells d identity u clock dk hk :
  user_by_email d identity = Some u ->
  fst (run_handler (get_study_heatmap date_key hour_key identity) clock d) =
    mkresp (JObj [("heatmap", JObj (map (fun '(dk, row) => (dk, JObj (map (fun '(hk, m) => (hk, JInt m)) row)))
                                        (build_heatmap date_key hour_key (sessions_of d (User.id u)))));
                  ("total_entries", JInt (Z.of_nat (length (sessions_of d (User.id u)))))]) 200 /\
  snd (run_handler (get_study_heatmap date_key hour_key identity) clock d) = d /\
  heat_cell (build_heatmap date_key hour_key (sessions_of d (User.id u))) dk hk =
    match filter (at_cell dk hk) (sessions_of d (User.id u)) with
    | [] => None
    | l => Some (total_duration l)
    end /\
  heat_sum (build_heatmap date_key hour_key (sessions_of d (User.id u))) = total_duration (sessions_of d (User.id u)).
Proof.
  intros Hu. unfold run_handler, get_study_heatmap, current_user.
  cbn -[user_by_email build_heatmap sessions_of]. rewrite Hu. split; [reflexivity|]. split; [reflexivity|].
  rewrite heat_sum_build. unfold build_heatmap. rewrite heat_cell_fold. split; [now destruct (filter _ _) | reflexivity].
Qed.
End HeatmapTheorems.

(** What the breakdown holds for priority [p] when its division succeeds:
    the size of the group, and [0] for an empty group or else the float
    percentage of its chapters completed, which lies between 0 and 100
    when the group's completed chapters do not exceed its chapters. *)
Definition entry_ok (subjects : list Subject.t) (pv : string * json) : Prop :=
  let g := priority_group subjects (fst pv) in
  let completed := sum_by Subject.completed_chapters g in
  let chapters := sum_by Subject.chapters g in
  exists a, snd pv = JObj [("count", JInt (Z.of_nat (length g))); ("avg_completion", a)] /\
    (g = [] /\ a = JInt 0 \/
     g <> [] /\ a = JFloat (percent completed chapters) /\
       (0 <= completed <= chapters -> 0 < chapters -> (0 <= percent completed chapters <= 100)%Q)).

(** A group divides by zero. *)
Definition zero_group (subjects : list Subject.t) (p : string) : Prop :=
  priority_group subjects p <> [] /\ sum_by Subject.chapters (priority_group subjects p) = 0.

Lemma priority_stat_entry subjects p v : priority_stat subjects p = Ok v -> entry_ok subjects (p, v).
Proof.
  unfold priority_stat, entry_ok. cbn [fst snd].
  destruct (priority_group subjects p) as [|x l] eqn:Eg; [intros [= <-]; exists (JInt 0); auto|].
  destruct (Z.eqb_spec (sum_by Subject.chapters (x :: l)) 0) as [|Hb]; [discriminate|].
  intros [= <-]. eexists. split; [reflexivity|]. right. split; [discriminate|].
  split; [reflexivity|]. intros Hab Hpos. apply percent_bounds; lia.
Qed.

Lemma priority_stat_cases subjects p :
  zero_group subjects p /\ priority_stat subjects p = Raise (ZeroDivisionError "division by zero") \/
  ~ zero_group subjects p /\ exists v, priority_stat subjects p = Ok v.
Proof.
  unfold zero_group, priority_stat.
  destruct (priority_group subjects p) as [|x l]; [right; split; [intros [[] _]; reflexivity | eauto]|].
  destruct (Z.eqb_spec (sum_by Subject.chapters (x :: l)) 0) as [Hz|Hz].
  - left. split; [split; [discriminate | exact Hz] | reflexivity].
  - right. split; [intros [_ E]; contradiction | eauto].
Qed.

(** The loop over the priorities raises at the first group that divides
    by zero, and otherwise builds one well-formed entry per priority. *)
Lemma priority_stats_cases subjects ps :
  (exists p, In p ps /\ zero_group subjects p) /\
    priority_stats subjects ps = Raise (ZeroDivisionError "division by zero") \/
  (forall p, In p ps -> ~ zero_group subjects p) /\
    exists stats, priority_stats subjects ps = Ok stats /\ map fst stats = ps /\ Forall (entry_ok subjects) stats.
Proof.
  induction ps as [|p ps IH]; [right; split; [intros _ [] | exists []; auto]|]. cbn [priority_stats].
  destruct (priority_stat_cases subjects p) as [[Hz ->]|[Hz [v Hv]]];
    [left; split; [exists p; split; [left|]; auto | reflexivity]|].
  rewrite Hv. cbn [pyres_bind].
  destruct IH as [[[q [Hq Hzq]] ->]|[Hn (stats & -> & Hf & Hall)]].
  - left. split; [exists q; split; [right|]; auto | reflexivity].
  - right. split; [intros q [<-|Hq]; auto|].
    exists ((p, v) :: stats). cbn. rewrite Hf. split; [reflexivity|]. split; [reflexivity|].
    constructor; [now apply priority_stat_entry | exact Hall].
Qed.

(** The summary for a known user: the breakdown decides between 500 and
    200, and nothing is written. *)
Lemma analytics_summary_run d identity u clock :
  user_by_email d identity = Some u ->
  let subjects := subjects_of d (User.id u) in
  let sessions := sessions_of d (User.id u) in
  run_handler (get_analytics_summary identity) clock d =
  match priority_stats subjects priorities with
  | Raise e => (error_response e, d)
  | Ok stats =>
      (mkresp (JObj [("total_subjects", JInt (Z.of_nat (length subjects)));
                     ("total_chapters", JInt (sum_by Subject.chapters subjects));
                     ("completed_chapters", JInt (sum_by Subject.completed_chapters subjects));
                     ("overall_completion_percentage",
                       ratio_or_zero (percent (sum_by Subject.completed_chapters subjects)
                                        (sum_by Subject.chapters subjects))
                         (sum_by Subject.chapters subjects));
                     ("total_study_minutes", JInt (total_duration sessions));
                     ("total_sessions", JInt (Z.of_nat (length sessions)));
                     ("avg_session_minutes",
                       ratio_or_zero (py_truediv (total_duration sessions) (Z.of_nat (length sessions)))
                         (Z.of_nat (length sessions)));
                     ("total_reflections", JInt (Z.of_nat (length (reflections_of d (User.id u)))));
                     ("priority_breakdown", JObj stats)]) 200, d)
  end.
Proof.
  intros Hu subjects sessions. unfold run_handler, get_analytics_summary, current_user.
  cbn -[user_by_email priority_stats subjects_of sessions_of reflections_of]. rewrite Hu.
  cbn -[priority_stats subjects_of sessions_of reflections_of].
  now destruct (priority_stats _ _).
Qed.

(** The [total_study_minutes] of a 200 summary is the user's minutes. *)
Lemma summary_total_minutes d identity u clock kvs :
  user_by_email d identity = Some u ->
  fst (run_handler (get_analytics_summary identity) clock d) = mkresp (JObj kvs) 200 ->
  dict_lookup kvs "total_study_minutes" = Some (JInt (total_duration (sessions_of d (User.id u)))).
Proof.
  intros Hu. rewrite (analytics_summary_run d identity u clock Hu).
  destruct (priority_stats _ _) as [stats|e]; cbn [fst]; [|discriminate].
  intros [= <-]. reflexivity.
Qed.

(** C40: [get_analytics_summary] for a known user writes nothing, and
    either some priority group (low, medium, high) is non-empty with
    chapters summing to 0 and the route answers 500 with Python's
    [ZeroDivisionError], or none is and it answers 200 with the sums and
    counts of the user's subjects, sessions and reflections and a
    breakdown with one entry per priority, in order, giving the group's
    size and its completion percentage (0 for an empty group). *)
Theorem analytics_summary_outcome d identity u clock :
  user_by_email d identity = Some u ->
  let subjects := subjects_of d (User.id u) in
  let sessions := sessions_of d (User.id u) in
  snd (run_handler (get_analytics_summary identity) clock d) = d /\
  ((exists p, In p priorities /\ zero_group subjects p) /\
     fst (run_handler (get_analytics_summary identity) clock d) = error_response (ZeroDivisionError "division by zero") \/
   (forall p, In p priorities -> ~ zero_group subjects p) /\
   exists stats,
     fst (run_handler (get_analytics_summary identity) clock d) =
       mkresp (JObj [("total_subjects", JInt (Z.of_nat (length subjects)));
                     ("total_chapters", JInt (sum_by Subject.chapters subjects));
                     ("completed_chapters", JInt (sum_by Subject.completed_chapters subjects));
                     ("overall_completion_percentage",
                       ratio_or_zero (percent (sum_by Subject.completed_chapters subjects)
                                        (sum_by Subject.chapters subjects))
                         (sum_by Subject.chapters subjects));
                     ("total_study_minutes", JInt (total_duration sessions));
                     ("total_sessions", JInt (Z.of_nat (length sessions)));
                     ("avg_session_minutes",
                       ratio_or_zero (py_truediv (total_duration sessions) (Z.of_nat (length sessions)))
                         (Z.of_nat (length sessions)));
                     ("total_reflections", JInt (Z.of_nat (length (reflections_of d (User.id u)))));
                     ("priority_breakdown", JObj stats)]) 200 /\
     map fst stats = priorities /\ Forall (entry_ok subjects) stats).
Proof.
  intros Hu subjects sessions. rewrite (analytics_summary_run d identity u clock Hu).
  destruct (priority_stats_cases (subjects_of d (User.id u)) priorities)
    as [[Hz ->]|[Hn (stats & -> & Hf & Hall)]]; cbn [fst snd].
  - split; [reflexivity|]. left. split; [exact Hz | reflexivity].
  - split; [reflexivity|]. right. split; [exact Hn|]. exists stats. auto.
Qed.

(** A subject is in the breakdown when its priority is one of the three. *)
Definition listed_priority (s : Subject.t) : bool := existsb (String.eqb (Subject.priority s)) priorities.

(** The groups of the breakdown and the subjects of any other priority
    partition the user's subjects: [add_subject] and [update_subject]
    store any text as the priority, and such a subject counts in
    [total_subjects] and in no group. *)
Lemma breakdown_counts subjects :
  sum_by (fun p => Z.of_nat (length (priority_group subjects p))) priorities +
  Z.of_nat (length (filter (fun s => negb (listed_priority s)) subjects)) =
  Z.of_nat (length subjects).
Proof.
  induction subjects as [|s ss IH]; [reflexivity|].
  unfold priority_group in *. cbn [sum_by fold_right priorities filter length] in *.
  destruct (String.eqb_spec (Subject.priority s) "low") as [E|N1];
    [|destruct (String.eqb_spec (Subject.priority s) "medium") as [E|N2];
      [|destruct (String.eqb_spec (Subject.priority s) "high") as [E|N3]]].
  1-3: assert (L : listed_priority s = true) by (unfold listed_priority; now rewrite E);
       rewrite L, ?E; cbn -[Z.of_nat filter listed_priority]; lia.
  assert (L : listed_priority s = false) by (unfold listed_priority; cbn; apply String.eqb_neq in N1, N2, N3; now rewrite N1, N2, N3).
  rewrite L. cbn -[Z.of_nat filter listed_priority]. lia.
Qed.
