(* ===== verification/HeatmapMap.v ===== *)
(** The heatmap of [get_study_heatmap] (lines 765-779) against a finite
    map.  The loop builds a dictionary of dictionaries, date to hour to
    minutes, by [if k not in d: d[k] = ...] and [d[k] += ...]; [Analytics]
    models it as the code builds it, with association lists.  Here the
    reference is one flat stdpp [gmap] from (date, hour) to minutes, each
    session adding its duration to its cell, and the nested dictionary is
    shown to be that map: the same cells with the same minutes, with
    distinct date keys and distinct hour keys in every row (so the JSON
    object it serialises to has no repeated key). *)

From stdpp Require Import base gmap strings list.
From Stdlib Require Import ZArith Lia.
From S2P Require Import PyRuntime Models Store Sessions Analytics.
Local Open Scope Z_scope.
Local Set Warnings "-clear-no-such-hyp".

Section Reference.
Context (date_key hour_key : Z -> string).

(** A session's cell. *)
Definition cell_of (s : StudySession.t) : string * string :=
  (date_key (StudySession.date s), hour_key (StudySession.date s)).

(** The minutes per cell, as one flat map. *)
Definition heat_ref (ss : list StudySession.t) : gmap (string * string) Z :=
  foldl (fun m s => <[cell_of s := default 0 (m !! cell_of s) + StudySession.duration_minutes s]> m) ∅ ss.

(** A dictionary whose keys are distinct. *)
Definition dict_wf {V} (kvs : list (string * V)) : Prop := NoDup (map fst kvs).

(** The heatmap is a well-formed dictionary of well-formed dictionaries. *)
Definition heatmap_wf (h : heatmap) : Prop := dict_wf h /\ Forall (fun kv => dict_wf kv.2) h.

(** [h] and [m] have the same cells with the same minutes. *)
Definition same_cells (h : heatmap) (m : gmap (string * string) Z) : Prop :=
  forall dk hk, heat_cell h dk hk = m !! (dk, hk).
End Reference.

(** ** Dictionaries *)

Lemma dict_set_keys {V} k (v : V) kvs :
  map fst (dict_set k v kvs) = if bool_decide (k ∈ map fst kvs) then map fst kvs else map fst kvs ++ [k].
Proof.
  induction kvs as [|[k' v'] rest IH]; simpl; [done|].
  destruct (String.eqb_spec k' k) as [->|Hne]; simpl.
  - rewrite bool_decide_true; [done|]. set_solver.
  - rewrite IH. case_bool_decide as H1; case_bool_decide as H2; set_solver.
Qed.

Lemma dict_set_wf {V} k (v : V) kvs : dict_wf kvs -> dict_wf (dict_set k v kvs).
Proof.
  unfold dict_wf. intros Hnd. rewrite dict_set_keys. case_bool_decide as Hin; [done|].
  apply NoDup_app. repeat split; [done| |by apply NoDup_singleton]. set_solver.
Qed.

Lemma dict_set_values {V} (P : V -> Prop) k (v : V) kvs :
  Forall (fun kv => P kv.2) kvs -> P v -> Forall (fun kv => P kv.2) (dict_set k v kvs).
Proof.
  intros Hall Hv. induction Hall as [|[k' v'] rest Hkv Hrest IH]; simpl; [by constructor|].
  destruct (String.eqb k' k); constructor; done.
Qed.

Lemma ensure_wf {V} k (v : V) kvs : dict_wf kvs -> dict_wf (ensure k v kvs).
Proof. unfold ensure. destruct (assoc k kvs); [done|apply dict_set_wf]. Qed.

Lemma ensure_values {V} (P : V -> Prop) k (v : V) kvs :
  Forall (fun kv => P kv.2) kvs -> P v -> Forall (fun kv => P kv.2) (ensure k v kvs).
Proof. unfold ensure. destruct (assoc k kvs); [done|apply dict_set_values]. Qed.

Lemma assoc_values {V} (P : V -> Prop) k kvs v :
  Forall (fun kv => P kv.2) kvs -> assoc k kvs = Some v -> P v.
Proof.
  induction 1 as [|[k' v'] rest Hkv Hrest IH]; simpl; [done|].
  destruct (String.eqb k' k); [by intros [= <-]|done].
Qed.

(** One iteration keeps the heatmap well formed. *)
Lemma heat_add_wf dk hk m h : heatmap_wf h -> heatmap_wf (heat_add dk hk m h).
Proof.
  intros [Hd Hr]. unfold heat_add. cbv zeta.
  assert (Hr1 : Forall (fun kv => dict_wf kv.2) (ensure dk [] h))
    by (apply ensure_values; [done|apply NoDup_nil_2]).
  split.
  - apply dict_set_wf, ensure_wf, Hd.
  - apply dict_set_values; [done|]. apply dict_set_wf, ensure_wf.
    destruct (assoc dk (ensure dk [] h)) as [row|] eqn:E; simpl; [|apply NoDup_nil_2].
    exact (assoc_values _ _ _ _ Hr1 E).
Qed.

(** One iteration on both sides: the cell of the session grows by its
    duration on both. *)
Lemma heat_add_cells dk hk dur h m :
  same_cells h m ->
  same_cells (heat_add dk hk dur h) (<[(dk, hk) := default 0 (m !! (dk, hk)) + dur]> m).
Proof.
  intros Hs dk' hk'. rewrite heat_cell_add, lookup_insert.
  destruct (String.eqb_spec dk dk') as [<-|Hd]; destruct (String.eqb_spec hk hk') as [<-|Hh]; simpl.
  - rewrite decide_True by done. by rewrite Hs.
  - rewrite decide_False by congruence. apply Hs.
  - rewrite decide_False by congruence. apply Hs.
  - rewrite decide_False by congruence. apply Hs.
Qed.

Section Claims.
Context (date_key hour_key : Z -> string).

Lemma heat_fold_cells ss h m :
  heatmap_wf h -> same_cells h m ->
  heatmap_wf (fold_left (fun h s => heat_add (date_key (StudySession.date s)) (hour_key (StudySession.date s))
                                      (StudySession.duration_minutes s) h) ss h) /\
  same_cells (fold_left (fun h s => heat_add (date_key (StudySession.date s)) (hour_key (StudySession.date s))
                                      (StudySession.duration_minutes s) h) ss h)
    (foldl (fun m s => <[cell_of date_key hour_key s :=
                           default 0 (m !! cell_of date_key hour_key s) + StudySession.duration_minutes s]> m) m ss).
Proof.
  revert h m. induction ss as [|s ss IH]; intros h m Hw Hs; [done|]. simpl.
  apply IH; [by apply heat_add_wf | by apply heat_add_cells].
Qed.

(** C25: The dictionary of dictionaries the heatmap loop builds is the
    flat map from (date, hour) to the summed minutes of the sessions in
    that cell: the same cells with the same values; its date keys are
    distinct and so are the hour keys of each row. *)
Theorem heatmap_is_cell_map ss :
  heatmap_wf (build_heatmap date_key hour_key ss) /\
  same_cells (build_heatmap date_key hour_key ss) (heat_ref date_key hour_key ss).
Proof.
  apply heat_fold_cells; [split; constructor|]. intros dk hk. unfold heat_cell. simpl. by rewrite lookup_empty.
Qed.
End Claims.
