(* ===== verification/AnalyticsScenarios.v ===== *)
(** The analytics routes on concrete data: three sessions of one user over
    two dates and two hours, and a subject added with no chapter, which
    makes the summary divide by zero. *)

From Stdlib Require Import String ZArith QArith Lia Bool List.
From S2P Require Import Prelude Binary64 PyRuntime Models Store Sessions Analytics.
Import ListNotations.
Local Open Scope Z_scope.
Local Open Scope string_scope.

Definition clock_at (t : Z) : nat -> Z := fun _ => t.

(** [strftime] on the three timestamps below. *)
Definition date_text (t : Z) : string := if Z.ltb t 1000 then "2024-10-04" else "2024-10-05".
Definition hour_text (t : Z) : string := if Z.ltb t 500 then "09" else "21".

Definition alice : User.t := User.mk 1 "Alice" "alice@example.com" "hash" 0.

Definition sessions3 : list StudySession.t :=
  [StudySession.mk 1 1 JNull 30 100 1; StudySession.mk 2 1 JNull 45 900 2;
   StudySession.mk 3 1 JNull 25 200 1; StudySession.mk 4 2 JNull 60 100 1].

Definition empty_subject : Subject.t :=
  Subject.mk 1 1 "Reading" 0 0 "easy" "high" 0 0 0 0 0 false None.

Definition d : db := mkdb [alice] [empty_subject] [] sessions3 [] [].

(** Two sessions at 09 on the first date add up; Bob's session is not
    counted. *)
Example heatmap_example :
  build_heatmap date_text hour_text (sessions_of d 1) =
  [("2024-10-04", [("09", 55); ("21", 45)])].
Proof. vm_compute. reflexivity. Qed.

(** Without the empty subject the summary answers 200. *)
Example summary_without_empty_subject :
  status (fst (run_handler (get_analytics_summary "alice@example.com") (clock_at 0)
                 (mkdb [alice] [] [] sessions3 [] []))) = 200.
Proof. vm_compute. reflexivity. Qed.

Lemma heatmap_cells_witness :
  user_by_email d "alice@example.com" = Some alice /\
  fst (run_handler (get_study_heatmap date_text hour_text "alice@example.com") (clock_at 0) d) =
    mkresp (JObj [("heatmap", JObj (map (fun '(dk, row) => (dk, JObj (map (fun '(hk, m) => (hk, JInt m)) row)))
                                        (build_heatmap date_text hour_text (sessions_of d (User.id alice)))));
                  ("total_entries", JInt (Z.of_nat (length (sessions_of d (User.id alice)))))]) 200 /\
  snd (run_handler (get_study_heatmap date_text hour_text "alice@example.com") (clock_at 0) d) = d /\
  heat_cell (build_heatmap date_text hour_text (sessions_of d (User.id alice))) "2024-10-04" "09" =
    match filter (at_cell date_text hour_text "2024-10-04" "09") (sessions_of d (User.id alice)) with
    | [] => None
    | l => Some (total_duration l)
    end /\
  heat_sum (build_heatmap date_text hour_text (sessions_of d (User.id alice))) =
    total_duration (sessions_of d (User.id alice)).
Proof.
  assert (Hu : user_by_email d "alice@example.com" = Some alice) by reflexivity.
  exact (conj Hu (heatmap_cells date_text hour_text d _ alice (clock_at 0) "2024-10-04" "09" Hu)).
Defined.

Lemma analytics_summary_outcome_witness :
  user_by_email d "alice@example.com" = Some alice /\
  snd (run_handler (get_analytics_summary "alice@example.com") (clock_at 0) d) = d /\
  ((exists p, In p priorities /\ zero_group (subjects_of d (User.id alice)) p) /\
     fst (run_handler (get_analytics_summary "alice@example.com") (clock_at 0) d) =
       error_response (ZeroDivisionError "division by zero") \/
   (forall p, In p priorities -> ~ zero_group (subjects_of d (User.id alice)) p) /\
   exists stats,
     fst (run_handler (get_analytics_summary "alice@example.com") (clock_at 0) d) =
       mkresp (JObj [("total_subjects", JInt (Z.of_nat (length (subjects_of d (User.id alice)))));
                     ("total_chapters", JInt (sum_by Subject.chapters (subjects_of d (User.id alice))));
                     ("completed_chapters", JInt (sum_by Subject.completed_chapters (subjects_of d (User.id alice))));
                     ("overall_completion_percentage",
                       ratio_or_zero (percent (sum_by Subject.completed_chapters (subjects_of d (User.id alice)))
                                        (sum_by Subject.chapters (subjects_of d (User.id alice))))
                         (sum_by Subject.chapters (subjects_of d (User.id alice))));
                     ("total_study_minutes", JInt (total_duration (sessions_of d (User.id alice))));
                     ("total_sessions", JInt (Z.of_nat (length (sessions_of d (User.id alice)))));
                     ("avg_session_minutes",
                       ratio_or_zero (py_truediv (total_duration (sessions_of d (User.id alice)))
                                        (Z.of_nat (length (sessions_of d (User.id alice)))))
                         (Z.of_nat (length (sessions_of d (User.id alice)))));
                     ("total_reflections", JInt (Z.of_nat (length (reflections_of d (User.id alice)))));
                     ("priority_breakdown", JObj stats)]) 200 /\
     map fst stats = priorities /\ Forall (entry_ok (subjects_of d (User.id alice))) stats).
Proof.
  assert (Hu : user_by_email d "alice@example.com" = Some alice) by reflexivity.
  exact (conj Hu (analytics_summary_outcome d _ alice (clock_at 0) Hu)).
Defined.

(** The user of the scenario has a "high" group of one subject with 0
    chapters: the 500 branch. *)
Example analytics_summary_zero_group :
  zero_group (subjects_of d (User.id alice)) "high".
Proof. split; [discriminate | reflexivity]. Qed.

(** A subject stored with the priority ["urgent"] (no route checks the
    value): it counts in [total_subjects] and in no group of the
    breakdown. *)
Definition urgent_subject : Subject.t :=
  Subject.mk 2 1 "Physics" 10 4 "hard" "urgent" 0 0 0 0 0 false None.

Example analytics_summary_unlisted_priority :
  fst (run_handler (get_analytics_summary "alice@example.com") (clock_at 0)
         (mkdb [alice] [urgent_subject] [] [] [] [])) =
  mkresp (JObj [("total_subjects", JInt 1); ("total_chapters", JInt 10); ("completed_chapters", JInt 4);
                ("overall_completion_percentage", JFloat (40 # 1));
                ("total_study_minutes", JInt 0); ("total_sessions", JInt 0);
                ("avg_session_minutes", JInt 0); ("total_reflections", JInt 0);
                ("priority_breakdown", JObj [
                   ("low", JObj [("count", JInt 0); ("avg_completion", JInt 0)]);
                   ("medium", JObj [("count", JInt 0); ("avg_completion", JInt 0)]);
                   ("high", JObj [("count", JInt 0); ("avg_completion", JInt 0)])])]) 200.
Proof. vm_compute. reflexivity. Qed.

(** [round(21 / 20, 1)]: the float nearest 1.05 is 1.0500000000000000444,
    above the tie, so the average session length of 21 minutes over 20
    sessions is reported as the float 1.1. *)
Definition short_sessions : list StudySession.t :=
  StudySession.mk 100 1 JNull 2 100 1 :: map (fun k => StudySession.mk (Z.of_nat k) 1 JNull 1 100 1) (seq 101 19).

Example avg_session_rounds_up :
  ratio_or_zero (py_truediv (total_duration short_sessions) (Z.of_nat (length short_sessions)))
    (Z.of_nat (length short_sessions)) = JFloat (py_truediv 11 10).
Proof. vm_compute. reflexivity. Qed.
