(* ===== verification/Moods.v ===== *)
(** The mood routes of [src/app.py] (lines 791-850): [record_mood] and
    [get_moods].

    [record_mood] validates the mood against the three allowed values
    before it reads [user.id], so an identity with no user gets 400 for a
    bad mood and 500 for a good one.  [get_moods] reads [?days=] from the
    query string (werkzeug's [args.get(..., type=int)] falls back to the
    default when [int()] refuses the text) and subtracts
    [timedelta(days=days)] from the clock: [datetime] arithmetic is
    bounded, [timedelta] to 999 999 999 days and [datetime] to the years
    1 to 9999, and the model keeps both bounds, so a large [days] raises
    [OverflowError] and the route answers 500.  The [INSERT] of
    [record_mood] stores the integers the client sent as the driver
    binds them ([Store.integer_column]). *)

From Stdlib Require Import String ZArith Lia Bool Sorted Permutation List.
From S2P Require Import Prelude PyRuntime Models Store Planner Sessions.
Import ListNotations.
Local Open Scope Z_scope.
Local Open Scope string_scope.
Local Open Scope study_scope.

(** ** [datetime] bounds *)

Definition timedelta_max_days : Z := 999999999.

(** [datetime.min] and [datetime.max] in microseconds since the epoch. *)
Definition datetime_min : Z := -62135596800000000.
Definition datetime_max : Z := 253402300799999999.

(** [t - timedelta(days=days)]. *)
Definition sub_days (t days : Z) : pyres Z :=
  if Z.ltb timedelta_max_days (Z.abs days) then
    Raise (OverflowError ("days=" ++ str_of_Z days ++ "; must have magnitude <= 999999999"))
  else
    let r := t - days * usec_per_day in
    if Z.ltb r datetime_min || Z.ltb datetime_max r then Raise (OverflowError "date value out of range")
    else Ok r.

(** ** Query strings *)

(** [request.args]: the pairs of the query string in order. *)
Definition query : Type := list (string * string).

(** [request.args.get(k, default, type=int)]: the first value of [k],
    converted by [int()], or [default] when it is missing or refused. *)
Definition args_get_int (args : query) (k : string) (default : Z) : Z :=
  match find (fun kv => String.eqb (fst kv) k) args with
  | Some (_, v) => value_or default (parse_int v)
  | None => default
  end.

(** ** Routes *)

Definition moods : list string := ["tired"; "normal"; "energetic"].

(** [db.session.add(mood)] and the commit. *)
Definition insert_mood (m : StudyMood.t) (d : db) : db :=
  mkdb (users d) (subjects d) (gamifications d) (study_sessions d) (reflections d) (study_moods d ++ [m]).

(** The integer parameters of a mood's [INSERT] that come from the
    request, in column order: [duration_minutes], [effectiveness],
    [session_id], each when the client sent an [int]. *)
Definition mood_ints (m : StudyMood.t) : list Z :=
  json_ints (StudyMood.duration_minutes m) ++ json_ints (StudyMood.effectiveness m) ++
  json_ints (StudyMood.session_id m).

(** [StudyMood.query.filter(user_id == uid, time >= cutoff)]. *)
Definition moods_since (d : db) (uid cutoff : Z) : list StudyMood.t :=
  filter (fun m => Z.eqb (StudyMood.user_id m) uid && Z.leb cutoff (StudyMood.time m)) (study_moods d).

Definition mood_entry (isoformat : Z -> string) (m : StudyMood.t) : json :=
  JObj [("id", JInt (StudyMood.id m)); ("mood", JStr (StudyMood.mood m));
        ("effectiveness", StudyMood.effectiveness m); ("time", JStr (isoformat (StudyMood.time m)));
        ("duration_minutes", StudyMood.duration_minutes m)].

Section Routes.
Context `{SqliteDriver} (isoformat : Z -> string).

(** [record_mood], lines 791-823.  The [or] of line 801 short-circuits;
    the mood that passes it is one of three strings, so [data['mood']]
    is a [JStr]. *)
Definition record_mood (identity : string) (data : json) : M response :=
  user <- current_user identity ;;
  mood1 <- lift (py_get data "mood") ;;
  if negb (truthy_opt mood1) then ret (mkresp (JObj [("error", JStr "Invalid mood value")]) 400) else
  mood2 <- lift (py_get data "mood") ;;
  if negb (py_in (value_or JNull mood2) (map JStr moods)) then
    ret (mkresp (JObj [("error", JStr "Invalid mood value")]) 400)
  else
    u <- lift (attr user (fun u => u) "id") ;;
    mood_v <- lift (py_index data "mood") ;;
    duration <- lift (py_get_default data "duration_minutes" (JInt 0)) ;;
    effectiveness <- lift (py_get_default data "effectiveness" (JInt 3)) ;;
    session_id <- lift (py_get data "session_id") ;;
    d <- get_db ;;
    now <- utcnow ;;
    dur <- lift (integer_column duration) ;;
    eff <- lift (integer_column effectiveness) ;;
    sid <- lift (integer_column (value_or JNull session_id)) ;;
    let m := StudyMood.mk (next_id (map StudyMood.id (study_moods d))) (User.id u)
               (match mood_v with JStr s => s | _ => "" end) now dur eff sid in
    _ <- put_db (insert_mood m d) ;;
    ret (mkresp (JObj [("status", JStr "success"); ("message", JStr "Mood recorded");
                       ("mood_id", JInt (StudyMood.id m))]) 201).

(** [get_moods], lines 826-850. *)
Definition get_moods (identity : string) (args : query) : M response :=
  user <- current_user identity ;;
  let days := args_get_int args "days" 7 in
  now <- utcnow ;;
  cutoff <- lift (sub_days now days) ;;
  u <- lift (attr user (fun u => u) "id") ;;
  d <- get_db ;;
  let ms := sort_desc StudyMood.time Z.leb (moods_since d (User.id u) cutoff) in
  ret (mkresp (JObj [("moods", JList (map (mood_entry isoformat) ms));
                     ("total_count", JInt (Z.of_nat (length ms)))]) 200).
End Routes.

(** ** Lemmas *)

(** What [sub_days] returns is a [datetime]: within the years 1 to 9999. *)
Lemma sub_days_spec t days r :
  sub_days t days = Ok r ->
  Z.abs days <= timedelta_max_days /\ r = t - days * usec_per_day /\ datetime_min <= r <= datetime_max.
Proof.
  unfold sub_days. destruct (Z.ltb_spec timedelta_max_days (Z.abs days)); [discriminate|].
  destruct (Z.ltb_spec (t - days * usec_per_day) datetime_min); [discriminate|].
  destruct (Z.ltb_spec datetime_max (t - days * usec_per_day)); [discriminate|].
  intros E. inv E. lia.
Qed.

Lemma sub_days_ok t days :
  Z.abs days <= timedelta_max_days -> datetime_min <= t - days * usec_per_day <= datetime_max ->
  sub_days t days = Ok (t - days * usec_per_day).
Proof.
  intros Hd Hr. unfold sub_days.
  destruct (Z.ltb_spec timedelta_max_days (Z.abs days)); [lia|].
  destruct (Z.ltb_spec (t - days * usec_per_day) datetime_min); [lia|].
  destruct (Z.ltb_spec datetime_max (t - days * usec_per_day)); [lia | reflexivity].
Qed.

Lemma sub_days_raise t days e : sub_days t days = Raise e -> exists msg, e = OverflowError msg.
Proof.
  unfold sub_days. destruct (Z.ltb _ _); [intros E; inv E; eauto|].
  destruct (Z.ltb _ _ || Z.ltb _ _); intros E; inv E; eauto.
Qed.

Lemma get_moods_run isoformat clock d identity u args :
  user_by_email d identity = Some u ->
  run_handler (get_moods isoformat identity args) clock d =
  match sub_days (clock 0%nat) (args_get_int args "days" 7) with
  | Raise e => (error_response e, d)
  | Ok cutoff =>
      let ms := sort_desc StudyMood.time Z.leb (moods_since d (User.id u) cutoff) in
      (mkresp (JObj [("moods", JList (map (mood_entry isoformat) ms));
                     ("total_count", JInt (Z.of_nat (length ms)))]) 200, d)
  end.
Proof.
  intros Hu. unfold run_handler, get_moods, current_user.
  cbn -[user_by_email sub_days args_get_int moods_since sort_desc]. rewrite Hu.
  cbn -[sub_days args_get_int moods_since sort_desc].
  destruct (sub_days _ _); reflexivity.
Qed.

(** Either nothing is written, or one mood row is appended. *)
Lemma record_mood_outcome `{SqliteDriver} clock d identity data :
  snd (run_handler (record_mood identity data) clock d) = d \/
  exists m, snd (run_handler (record_mood identity data) clock d) = insert_mood m d /\
            forallb in_int64 (mood_ints m) = true.
Proof.
  unfold run_handler, record_mood, current_user, bind_ints.
  cbn -[user_by_email py_get py_get_default py_index py_in insert_mood].
  destruct (py_get data "mood") as [m1|]; [|now left]. simpl.
  destruct (truthy_opt m1); [|now left]. simpl.
  match goal with |- context [if ?c then _ else _] => destruct c end; [now left|]. simpl.
  destruct (user_by_email d identity); [|now left]. simpl.
  destruct (py_index data "mood"); [|now left]. simpl.
  destruct (py_get_default data "duration_minutes" _) as [dv|]; [|now left]. simpl.
  destruct (py_get_default data "effectiveness" _) as [ev|]; [|now left]. simpl.
  destruct (py_get data "session_id") as [sv|]; [|now left]. simpl.
  destruct (integer_column dv) as [dur|] eqn:E1; simpl; [|now left].
  destruct (integer_column ev) as [eff|] eqn:E2; simpl; [|now left].
  destruct (integer_column (value_or JNull sv)) as [sid|] eqn:E3; simpl; [|now left].
  right. eexists. split; [reflexivity|].
  unfold mood_ints. cbn [StudyMood.duration_minutes StudyMood.effectiveness StudyMood.session_id].
  now rewrite !forallb_app, (integer_column_ints _ _ E1), (integer_column_ints _ _ E2),
    (integer_column_ints _ _ E3).
Qed.

Lemma get_moods_reads_only isoformat identity args : reads_only (get_moods isoformat identity args).
Proof. unfold get_moods, current_user. reads_only_tac. Qed.

(** ** Claims *)

(** C30: [get_moods] with [?days=n] (7 when missing or not an integer): when
    [n] is within [timedelta]'s bound and the cutoff [utcnow() - n days]
    within [datetime]'s range, 200 with the user's moods at or after the
    cutoff, each once, newest first; otherwise 500 with an
    [OverflowError]; nothing is written either way. *)
Theorem get_moods_days_bounds isoformat clock d identity u args :
  user_by_email d identity = Some u ->
  let days := args_get_int args "days" 7 in
  let cutoff := clock 0%nat - days * usec_per_day in
  (Z.abs days <= timedelta_max_days -> datetime_min <= cutoff <= datetime_max ->
   exists ms,
     run_handler (get_moods isoformat identity args) clock d =
     (mkresp (JObj [("moods", JList (map (mood_entry isoformat) ms));
                    ("total_count", JInt (Z.of_nat (length ms)))]) 200, d) /\
     Permutation ms (moods_since d (User.id u) cutoff) /\
     Sorted (fun a b => StudyMood.time b <= StudyMood.time a) ms) /\
  (timedelta_max_days < Z.abs days \/ cutoff < datetime_min \/ datetime_max < cutoff ->
   exists msg, run_handler (get_moods isoformat identity args) clock d = (error_response (OverflowError msg), d)).
Proof.
  intros Hu days cutoff. rewrite (get_moods_run isoformat clock d identity u args Hu). split.
  - intros Hd Hc. rewrite sub_days_ok by assumption. eexists. split; [reflexivity|]. split.
    + apply sort_desc_perm.
    + apply (Sorted_impl (desc StudyMood.time Z.leb)); [|apply sort_desc_sorted, Zleb_total].
      intros a b H. now apply Z.leb_le.
  - intros Hout. destruct (sub_days _ _) as [r|e] eqn:E.
    + apply sub_days_spec in E. lia.
    + destruct (sub_days_raise _ _ _ E) as [msg ->]. eauto.
Qed.
