(* ===== verification/MoodsScenarios.v ===== *)
(** The mood routes on concrete data: the mood validation, the [?days=]
    values that overflow [timedelta] and [datetime], and the theorem of
    [Moods] applied to a user with three moods. *)

From Stdlib Require Import String ZArith Lia Bool Sorted Permutation List.
From S2P Require Import Prelude PyRuntime Models Store Moods Instances.
Import ListNotations.
Local Open Scope Z_scope.
Local Open Scope string_scope.

Definition iso : Z -> string := fun _ => "".
Definition day (n : Z) : Z := n * usec_per_day.
Definition clock_at (t : Z) : nat -> Z := fun _ => t.

Definition alice : User.t := User.mk 1 "Alice" "alice@example.com" "hash" 0.

Definition m1 : StudyMood.t := StudyMood.mk 1 1 "tired" (day 19990) (JInt 30) (JInt 2) JNull.
Definition m2 : StudyMood.t := StudyMood.mk 2 1 "energetic" (day 19998) (JInt 50) (JInt 5) JNull.
Definition m3 : StudyMood.t := StudyMood.mk 3 1 "normal" (day 19999) (JInt 20) (JInt 3) JNull.
Definition moods3 : list StudyMood.t := [m1; m2; m3].

Definition d : db := mkdb [alice] [] [] [] [] moods3.

(** A mood outside the three values: 400. *)
Example record_mood_invalid :
  run_handler (record_mood "alice@example.com" (JObj [("mood", JStr "bored")])) (clock_at 0) d =
  (mkresp (JObj [("error", JStr "Invalid mood value")]) 400, d).
Proof. vm_compute. reflexivity. Qed.

(** A valid mood from an identity with no user: [user.id] raises. *)
Example record_mood_unknown_user :
  fst (run_handler (record_mood "carol@example.com" (JObj [("mood", JStr "tired")])) (clock_at 0) d) =
  error_response (AttributeError "'NoneType' object has no attribute 'id'").
Proof. vm_compute. reflexivity. Qed.

(** [?days=1000000000] is beyond [timedelta]'s bound. *)
Example get_moods_days_too_large :
  fst (run_handler (get_moods iso "alice@example.com" [("days", "1000000000")]) (clock_at (day 20000)) d) =
  error_response (OverflowError "days=1000000000; must have magnitude <= 999999999").
Proof. vm_compute. reflexivity. Qed.

(** [?days=800000] goes back before the year 1. *)
Example get_moods_before_year_one :
  fst (run_handler (get_moods iso "alice@example.com" [("days", "800000")]) (clock_at (day 20000)) d) =
  error_response (OverflowError "date value out of range").
Proof. vm_compute. reflexivity. Qed.

(** [?days=week] is not an integer: the default 7 days, two moods. *)
Example get_moods_default_days :
  fst (run_handler (get_moods iso "alice@example.com" [("days", "week")]) (clock_at (day 20000)) d) =
  mkresp (JObj [("moods", JList (map (mood_entry iso) [m3; m2]));
                ("total_count", JInt 2)]) 200.
Proof. vm_compute. reflexivity. Qed.

Lemma get_moods_days_bounds_witness :
  let args := [("days", "3")] in
  let days := args_get_int args "days" 7 in
  let cutoff := clock_at (day 20000) 0%nat - days * usec_per_day in
  user_by_email d "alice@example.com" = Some alice /\
  Z.abs days <= timedelta_max_days /\ datetime_min <= cutoff <= datetime_max /\
  ((Z.abs days <= timedelta_max_days -> datetime_min <= cutoff <= datetime_max ->
    exists ms,
      run_handler (get_moods iso "alice@example.com" args) (clock_at (day 20000)) d =
      (mkresp (JObj [("moods", JList (map (mood_entry iso) ms));
                     ("total_count", JInt (Z.of_nat (length ms)))]) 200, d) /\
      Permutation ms (moods_since d (User.id alice) cutoff) /\
      Sorted (fun a b => StudyMood.time b <= StudyMood.time a) ms) /\
   (timedelta_max_days < Z.abs days \/ cutoff < datetime_min \/ datetime_max < cutoff ->
    exists msg, run_handler (get_moods iso "alice@example.com" args) (clock_at (day 20000)) d =
                (error_response (OverflowError msg), d))).
Proof.
  intros args days cutoff.
  assert (Hu : user_by_email d "alice@example.com" = Some alice) by reflexivity.
  assert (Hd : Z.abs days <= timedelta_max_days) by (vm_compute; discriminate).
  assert (Hc : datetime_min <= cutoff <= datetime_max) by (vm_compute; split; discriminate).
  exact (conj Hu (conj Hd (conj Hc
    (get_moods_days_bounds iso (clock_at (day 20000)) d "alice@example.com" alice args Hu)))).
Defined.
