(* ===== verification/OtherRoutes.v ===== *)
(** The remaining routes of [src/app.py]: [get_failure_analytics] (lines
    853-914), [get_sync_status] (lines 985-1003) and [api_info] (lines
    1008-1028).

    [get_failure_analytics] builds its first query from
    [Reflection.subject_idx], a column the [Reflection] model does not
    have (its columns are [reason_idx], [reason_text] and [date]): the
    lookup of that name among the names the class declares
    ([class_attr] over [reflection_attrs]) raises [AttributeError]
    before any SQL runs;
    before that, the cutoff [utcnow() - timedelta(days=days)] may
    overflow as in [get_moods].  Either way the route answers 500.  The
    rest of the route (three aggregate queries) is never reached and is
    not modelled. *)

From Stdlib Require Import String ZArith Lia Bool List.
From S2P Require Import Prelude PyRuntime Models Store Moods.
Import ListNotations.
Local Open Scope Z_scope.
Local Open Scope string_scope.
Local Open Scope study_scope.

(** The names the [Reflection] class declares (lines 164-181): its table
    name, its six columns and [to_dict].  What [db.Model] adds
    ([query], [metadata], ...) has no name the routes ask for. *)
Definition reflection_attrs : list string :=
  ["__tablename__"; "id"; "user_id"; "subject_id"; "reason_idx"; "reason_text"; "date"; "to_dict"].

(** [cls.name] on a model class with the declared names [attrs]. *)
Definition class_attr (cls : string) (attrs : list string) (name : string) : pyres unit :=
  if existsb (String.eqb name) attrs then Ok tt
  else Raise (AttributeError ("type object '" ++ cls ++ "' has no attribute '" ++ name ++ "'")).

(** [Reflection.subject_idx], the first argument of the first query. *)
Definition reflection_subject_idx : pyres unit := class_attr "Reflection" reflection_attrs "subject_idx".

(** [get_failure_analytics], lines 853-914, up to the first query. *)
Definition get_failure_analytics (identity : string) (args : query) : M response :=
  _ <- current_user identity ;;
  let days := args_get_int args "days" 30 in
  now <- utcnow ;;
  _ <- lift (sub_days now days) ;;
  _ <- lift reflection_subject_idx ;;
  ret (mkresp (JObj []) 200).

Section Routes.
Context (isoformat : Z -> string).

(** [get_sync_status], lines 985-1003: nothing in its [try] raises. *)
Definition get_sync_status (identity : string) : M response :=
  now <- utcnow ;;
  ret (mkresp (JObj [("status", JStr "synced"); ("timestamp", JStr (isoformat now));
                     ("message", JStr "All data synced")]) 200).
End Routes.

(** [api_info], lines 1008-1028. *)
Definition api_info : M response :=
  ret (mkresp (JObj [("version", JStr "1.0.0");
                     ("features", JList (map JStr ["Subject management"; "Study sessions with mood tracking";
                                                   "Gamification with achievements"; "Reflections and analytics";
                                                   "Failure analysis"; "Weekly auto-planner"; "Offline-first sync"]));
                     ("rate_limits", JObj [("global", JStr "200 per day, 50 per hour");
                                           ("moods", JStr "10 per hour");
                                           ("analytics", JStr "20 per hour");
                                           ("planner", JStr "5 per hour")])]) 200).

(** ** Lemmas *)

Lemma get_failure_analytics_reads_only identity args : reads_only (get_failure_analytics identity args).
Proof. unfold get_failure_analytics, current_user. reads_only_tac. Qed.

Lemma get_sync_status_reads_only isoformat identity : reads_only (get_sync_status isoformat identity).
Proof. unfold get_sync_status. reads_only_tac. Qed.

Lemma api_info_reads_only : reads_only api_info.
Proof. unfold api_info. reads_only_tac. Qed.

(** [get_failure_analytics] never succeeds: whatever the identity, the
    query string, the clock and the tables, it answers 500 (an
    [AttributeError] on [Reflection.subject_idx], or an [OverflowError]
    of the cutoff) and writes nothing. *)
Lemma failure_analytics_always_fails identity args clock d :
  exists e, run_handler (get_failure_analytics identity args) clock d = (error_response e, d) /\
            (e = AttributeError "type object 'Reflection' has no attribute 'subject_idx'" \/
             exists msg, e = OverflowError msg).
Proof.
  unfold run_handler, get_failure_analytics, current_user. cbn -[sub_days args_get_int].
  destruct (sub_days (clock 0%nat) (args_get_int args "days" 30)) as [cutoff|e] eqn:E; simpl.
  - eexists. split; [reflexivity | now left].
  - exists e. split; [reflexivity|]. right. exact (sub_days_raise _ _ _ E).
Qed.
