(* ===== verification/SessionsScenarios.v ===== *)
(** The session routes on concrete data: one user with the gamification
    row [register] gives her, the theorems of [Sessions] applied where
    their hypotheses hold, and a request with an empty body, which records
    the default 25 minutes. *)

From Stdlib Require Import String ZArith Lia Bool Sorted Permutation List.
From S2P Require Import Prelude PyRuntime Models Store Gamification Sessions Instances.
Import ListNotations.
Local Open Scope Z_scope.
Local Open Scope string_scope.

Definition iso : Z -> string := fun _ => "".
Definition clock_at (t : Z) : nat -> Z := fun _ => t.

Definition alice : User.t := User.mk 1 "Alice" "alice@example.com" "hash" 0.

Definition row : Gamification.t := new_gamification 1 1 0.

Definition d0 : db := mkdb [alice] [] [row] [] [] [].

Definition morning : StudySession.t := StudySession.mk 1 1 JNull 30 100 1.
Definition evening : StudySession.t := StudySession.mk 2 1 (JInt 4) 45 900 2.
Definition d2 : db := mkdb [alice] [] [with_total_minutes 75 row] [morning; evening] [] [].

Lemma d0_keys : gamification_keys d0.
Proof. split; repeat constructor; simpl; tauto. Qed.

Lemma d0_minutes : minutes_ok d0.
Proof. repeat constructor. Qed.

(** An empty body records 25 minutes, one pomodoro, no subject. *)
Example record_session_defaults :
  snd (run_handler (record_session iso "alice@example.com" (JObj [])) (clock_at 7) d0) =
  mkdb [alice] [] [with_updated_at 7 (with_total_minutes 25 row)] [StudySession.mk 1 1 JNull 25 7 1] [] [].
Proof. vm_compute. reflexivity. Qed.

(** A session of 0 minutes is inserted, and the gamification row, whose
    total does not move, is not updated: its [updated_at] stays. *)
Example record_session_zero_minutes :
  snd (run_handler (record_session iso "alice@example.com" (JObj [("duration_minutes", JInt 0)])) (clock_at 7) d0) =
  mkdb [alice] [] [row] [StudySession.mk 1 1 JNull 0 7 1] [] [].
Proof. vm_compute. reflexivity. Qed.

(** A negative duration is accepted and lowers the user's total. *)
Example record_session_negative_duration :
  gamifications (snd (run_handler (record_session iso "alice@example.com"
                                     (JObj [("duration_minutes", JInt (-30))])) (clock_at 7) d0)) =
  [with_updated_at 7 (with_total_minutes (-30) row)].
Proof. vm_compute. reflexivity. Qed.

(** The [subject_id] is stored as sent: no check that the subject exists
    or belongs to the user. *)
Example record_session_foreign_subject :
  map StudySession.subject_id
    (study_sessions (snd (run_handler (record_session iso "alice@example.com"
                                         (JObj [("subject_id", JInt 999)])) (clock_at 7) d0))) =
  [JInt 999].
Proof. vm_compute. reflexivity. Qed.

(** A duration of [2 ** 63] minutes: [int()] takes it, the [INSERT]
    cannot bind it, 500 and nothing written. *)
Example record_session_duration_overflow :
  run_handler (record_session iso "alice@example.com" (JObj [("duration_minutes", JInt (2 ^ 63))]))
    (clock_at 0) d0 =
  (mkresp (JObj [("error", JStr "Python int too large to convert to SQLite INTEGER")]) 500, d0).
Proof. vm_compute. reflexivity. Qed.

(** A [subject_id] sent as a list: the driver cannot bind it, the route
    answers 500 and writes nothing. *)
Example record_session_list_subject :
  run_handler (record_session iso "alice@example.com"
                 (JObj [("duration_minutes", JInt 25); ("subject_id", JList [JInt 3])]))
    (clock_at 0) d0 =
  (mkresp (JObj [("error", JStr "Error binding parameter - probably unsupported type.")]) 500, d0).
Proof. vm_compute. reflexivity. Qed.

(** A [subject_id] sent as [true] is stored as the integer 1. *)
Example record_session_bool_subject :
  last (map StudySession.subject_id
    (study_sessions (snd (run_handler (record_session iso "alice@example.com"
       (JObj [("duration_minutes", JInt 25); ("subject_id", JBool true)])) (clock_at 0) d0)))) JNull =
  JInt 1.
Proof. vm_compute. reflexivity. Qed.

(** A duration [int()] refuses: 500, nothing written. *)
Example record_session_bad_duration :
  run_handler (record_session iso "alice@example.com" (JObj [("duration_minutes", JStr "long")])) (clock_at 0) d0 =
  (error_response (ValueError "invalid literal for int() with base 10: 'long'"), d0).
Proof. vm_compute. reflexivity. Qed.

(** The most recent session comes first. *)
Example get_sessions_order :
  fst (run_handler (get_sessions iso "alice@example.com") (clock_at 0) d2) =
  mkresp (JObj [("sessions", JList [session_to_dict iso evening; session_to_dict iso morning]);
                ("count", JInt 2)]) 200.
Proof. vm_compute. reflexivity. Qed.

Lemma record_session_keeps_minutes_witness :
  let data := JObj [("duration_minutes", JInt 50)] in
  gamification_keys d0 /\ minutes_ok d0 /\
  gamification_keys (snd (run_handler (record_session iso "alice@example.com" data) (clock_at 0) d0)) /\
  minutes_ok (snd (run_handler (record_session iso "alice@example.com" data) (clock_at 0) d0)).
Proof.
  intros data.
  exact (conj d0_keys (conj d0_minutes
    (record_session_keeps_minutes iso (clock_at 0) d0 "alice@example.com" data d0_keys d0_minutes))).
Defined.

Lemma record_session_ok_witness :
  let data := JObj [("duration_minutes", JInt 50); ("subject_id", JInt 3)] in
  user_by_email d0 "alice@example.com" = Some alice /\ gamification_of d0 alice = Some row /\
  session_fields data = Ok (Some (JInt 3), 50, 1) /\
  integer_column (value_or JNull (Some (JInt 3))) = Ok (JInt 3) /\
  record_session_binds row (new_session d0 alice (JInt 3) 50 1 (clock_at 0 0%nat)) = true /\
  let '(r, d') := run_handler (record_session iso "alice@example.com" data) (clock_at 0) d0 in
  status r = 201 /\
  sessions_of d' (User.id alice) =
    (sessions_of d0 (User.id alice) ++ [new_session d0 alice (JInt 3) 50 1 (clock_at 0 0%nat)])%list /\
  gamification_of d' alice =
  Some (if Z.eqb 50 0 then row
        else with_updated_at (clock_at 0 1%nat) (with_total_minutes (Gamification.total_minutes_studied row + 50) row)) /\
  (forall uid, uid <> User.id alice -> sessions_of d' uid = sessions_of d0 uid).
Proof.
  intros data.
  assert (Hu : user_by_email d0 "alice@example.com" = Some alice) by reflexivity.
  assert (Hg : gamification_of d0 alice = Some row) by reflexivity.
  assert (Hf : session_fields data = Ok (Some (JInt 3), 50, 1)) by reflexivity.
  assert (Hs : integer_column (value_or JNull (Some (JInt 3))) = Ok (JInt 3)) by reflexivity.
  assert (Hb : record_session_binds row (new_session d0 alice (JInt 3) 50 1 (clock_at 0 0%nat)) = true)
    by reflexivity.
  exact (conj Hu (conj Hg (conj Hf (conj Hs (conj Hb
    (record_session_ok iso (clock_at 0) d0 "alice@example.com" data alice row _ _ _ _ Hu Hg Hf Hs Hb)))))).
Defined.

Lemma get_sessions_newest_first_witness :
  user_by_email d2 "alice@example.com" = Some alice /\
  exists l,
    run_handler (get_sessions iso "alice@example.com") (clock_at 0) d2 =
    (mkresp (JObj [("sessions", JList (map (session_to_dict iso) l));
                   ("count", JInt (Z.of_nat (length l)))]) 200, d2) /\
    Permutation l (sessions_of d2 (User.id alice)) /\
    Sorted (fun a b => StudySession.date b <= StudySession.date a) l.
Proof.
  assert (Hu : user_by_email d2 "alice@example.com" = Some alice) by reflexivity.
  exact (conj Hu (get_sessions_newest_first iso (clock_at 0) d2 _ alice Hu)).
Defined.

Lemma record_reflection_ok_witness :
  let data := JObj [("subject_id", JInt 3); ("reason_idx", JStr "4"); ("reason_text", JStr "skipped")] in
  user_by_email d0 "alice@example.com" = Some alice /\
  reflection_fields data = Ok (Some (JInt 3), 4, JStr "skipped") /\
  integer_column (value_or JNull (Some (JInt 3))) = Ok (JInt 3) /\ in_int64 4 = true /\
  string_column (JStr "skipped") = Ok (JStr "skipped") /\
  let r := new_reflection d0 alice (JInt 3) 4 (JStr "skipped") (clock_at 7 0%nat) in
  run_handler (record_reflection iso "alice@example.com" data) (clock_at 7) d0 =
    (mkresp (JObj [("status", JStr "success"); ("message", JStr "Reflection recorded");
                   ("reflection", reflection_to_dict iso r)]) 201, insert_reflection r d0) /\
  ~ In (Reflection.id r) (map Reflection.id (reflections d0)) /\
  reflections_of (insert_reflection r d0) (User.id alice) = (reflections_of d0 (User.id alice) ++ [r])%list /\
  (forall uid, uid <> User.id alice -> reflections_of (insert_reflection r d0) uid = reflections_of d0 uid).
Proof.
  intros data.
  assert (Hu : user_by_email d0 "alice@example.com" = Some alice) by reflexivity.
  assert (Hf : reflection_fields data = Ok (Some (JInt 3), 4, JStr "skipped")) by (vm_compute; reflexivity).
  assert (Hs : integer_column (value_or JNull (Some (JInt 3))) = Ok (JInt 3)) by reflexivity.
  assert (Hi : in_int64 4 = true) by reflexivity.
  assert (Ht : string_column (JStr "skipped") = Ok (JStr "skipped")) by reflexivity.
  exact (conj Hu (conj Hf (conj Hs (conj Hi (conj Ht
    (record_reflection_ok iso (clock_at 7) d0 "alice@example.com" data alice _ _ _ _ _ Hu Hf Hs Hi Ht)))))).
Defined.

(** Two reflections of Alice, recorded in date order, listed newest first. *)
Definition refl1 : Reflection.t := Reflection.mk 1 1 JNull 4 (JStr "skipped") 100.
Definition refl2 : Reflection.t := Reflection.mk 2 1 JNull 0 (JStr "tired") 200.
Definition d_refl : db := mkdb [alice] [] [row] [] [refl1; refl2] [].

Lemma get_reflections_newest_first_witness :
  user_by_email d_refl "alice@example.com" = Some alice /\
  exists l,
    run_handler (get_reflections iso "alice@example.com") (clock_at 0) d_refl =
    (mkresp (JObj [("reflections", JList (map (reflection_to_dict iso) l));
                   ("count", JInt (Z.of_nat (length l)))]) 200, d_refl) /\
    Permutation l (reflections_of d_refl (User.id alice)) /\
    Sorted (fun a b => Reflection.date b <= Reflection.date a) l.
Proof.
  assert (Hu : user_by_email d_refl "alice@example.com" = Some alice) by reflexivity.
  exact (conj Hu (get_reflections_newest_first iso (clock_at 0) d_refl _ alice Hu)).
Defined.

Example get_reflections_order :
  fst (run_handler (get_reflections iso "alice@example.com") (clock_at 0) d_refl) =
  mkresp (JObj [("reflections", JList (map (reflection_to_dict iso) [refl2; refl1]));
                ("count", JInt 2)]) 200.
Proof. vm_compute. reflexivity. Qed.
