(* ===== verification/Server.v ===== *)
(** The application as a whole: every route of [src/app.py] behind one
    dispatcher, as Flask's URL map routes requests to the view
    functions, and the databases reachable from an empty one by any
    sequence of requests, each run in its own transaction.

    [server_inv] gathers what holds of every reachable database: e-mails
    and user ids are distinct; the gamification table has one row per
    user, in the users' order; its rows satisfy [gamif_inv]; every
    [total_minutes_studied] is the sum of its user's session durations;
    every session belongs to a user; subject ids are distinct.  It is
    proved by rule induction over [reachable], one preservation lemma per
    route, each built from the route's run or outcome lemma. *)

From Stdlib Require Import String ZArith Lia Bool List.
From S2P Require Import Prelude PyRuntime Models Store Planner Gamification Subjects Sessions Analytics Moods OtherRoutes Auth.
Import ListNotations.
Local Open Scope Z_scope.
Local Open Scope string_scope.
Local Open Scope study_scope.

(** ** Requests *)

(** The routes behind [@jwt_required()], with their URL, query and body
    arguments. *)
Inductive protected_request : Type :=
| GetUser
| GetSubjects
| AddSubject (data : json)
| UpdateSubject (subject_id : Z) (data : json)
| DeleteSubject (subject_id : Z)
| GetGamification
| AddXp (data : json)
| UpdateStreak
| AwardBadge (data : json)
| SetMode (data : json)
| GetSessions
| RecordSession (data : json)
| GetReflections
| RecordReflection (data : json)
| GetAnalyticsSummary
| GetStudyHeatmap
| RecordMood (data : json)
| GetMoods (args : query)
| GetFailureAnalytics (args : query)
| GenerateWeeklyPlan
| GetSyncStatus.

Inductive request : Type :=
| Register (salt : string) (data : json)
| Login (data : json)
| ApiInfo
| Protected (token : string) (r : protected_request).

Section Server.
Context `{PasswordHasher} `{TokenIssuer} `{SqliteDriver} (isoformat : Z -> string)
  (fromisoformat : string -> option Z) (text_column : json -> pyres string)
  (py_str : json -> string) (date_key hour_key : Z -> string).

(** The view function of a protected route, given the token's identity. *)
Definition route (r : protected_request) (identity : string) : M response :=
  match r with
  | GetUser => get_user isoformat identity
  | GetSubjects => get_subjects isoformat identity
  | AddSubject data => add_subject isoformat fromisoformat text_column identity data
  | UpdateSubject sid data => update_subject isoformat text_column identity sid data
  | DeleteSubject sid => delete_subject identity sid
  | GetGamification => get_gamification isoformat identity
  | AddXp data => add_xp identity data
  | UpdateStreak => update_streak py_str identity
  | AwardBadge data => award_badge py_str identity data
  | SetMode data => set_mode identity data
  | GetSessions => get_sessions isoformat identity
  | RecordSession data => record_session isoformat identity data
  | GetReflections => get_reflections isoformat identity
  | RecordReflection data => record_reflection isoformat identity data
  | GetAnalyticsSummary => get_analytics_summary identity
  | GetStudyHeatmap => get_study_heatmap date_key hour_key identity
  | RecordMood data => record_mood identity data
  | GetMoods args => get_moods isoformat identity args
  | GetFailureAnalytics args => get_failure_analytics identity args
  | GenerateWeeklyPlan => generate_weekly_plan isoformat identity
  | GetSyncStatus => get_sync_status isoformat identity
  end.

(** A request that arrives at [now] ([now] is when [@jwt_required()]
    checks the token). *)
Definition handle (now : Z) (q : request) : M response :=
  match q with
  | Register salt data => register isoformat text_column salt data
  | Login data => login isoformat text_column data
  | ApiInfo => api_info
  | Protected token r => with_token now token (route r)
  end.

(** The databases a sequence of requests produces from an empty one; each
    request reads its own clock. *)
Inductive reachable : db -> Prop :=
| reachable_empty : reachable empty_db
| reachable_step d q now clock :
    reachable d -> reachable (snd (run_handler (handle now q) clock d)).

(** [P] can be reached from [d]: it holds now, or after some request. *)
Inductive eventually (P : db -> Prop) : db -> Prop :=
| eventually_now d : P d -> eventually P d
| eventually_step d q now clock :
    eventually P (snd (run_handler (handle now q) clock d)) -> eventually P d.
End Server.

(** ** The invariant *)

Record server_inv (d : db) : Prop := {
  emails_distinct : NoDup (map User.email (users d));
  user_ids_distinct : NoDup (map User.id (users d));
  rows_of_users : user_rows d;
  row_ids_distinct : NoDup (map Gamification.id (gamifications d));
  rows_ok : db_inv d;
  minutes_law : minutes_ok d;
  sessions_owned : Forall (fun s => In (StudySession.user_id s) (map User.id (users d))) (study_sessions d);
  subject_ids_distinct : NoDup (map Subject.id (subjects d))
}.

Lemma empty_inv : server_inv empty_db.
Proof. repeat split; constructor. Qed.

(** ** Frame lemmas *)

(** A write that leaves users, gamification rows and sessions alone and
    keeps subject ids distinct keeps the invariant. *)
Lemma frame_inv d d' :
  server_inv d -> users d' = users d -> gamifications d' = gamifications d ->
  study_sessions d' = study_sessions d -> NoDup (map Subject.id (subjects d')) -> server_inv d'.
Proof.
  intros [He Hi Hr Hg Hok Hm Hs _] Eu Eg Es Hsub.
  unfold user_rows, db_inv, minutes_ok, minutes_of, sessions_of in *.
  constructor; unfold user_rows, db_inv, minutes_ok, minutes_of, sessions_of;
    rewrite ?Eu, ?Eg, ?Es; assumption.
Qed.

Lemma reads_inv d d' : server_inv d -> d' = d -> server_inv d'.
Proof. now intros Hd ->. Qed.

(** Writing back a gamification row with the same id, owner and minutes. *)
Definition same_row (g g' : Gamification.t) : Prop :=
  Gamification.id g' = Gamification.id g /\ Gamification.user_id g' = Gamification.user_id g /\
  Gamification.total_minutes_studied g' = Gamification.total_minutes_studied g.

Lemma save_row_inv d g g' :
  server_inv d -> In g (gamifications d) -> same_row g g' -> db_inv (save_gamification g' d) ->
  server_inv (save_gamification g' d).
Proof.
  intros [He Hi Hr Hg Hok Hm Hs Hsub] Hin (Hid & Huid & Htot) Hok'.
  constructor; try assumption.
  - unfold user_rows in *. change (users (save_gamification g' d)) with (users d).
    rewrite <- Hr. eapply save_gamification_user_ids; eassumption.
  - now rewrite save_gamification_ids.
  - unfold minutes_ok in *. simpl. apply Forall_map. rewrite Forall_forall in *. intros r Hr'.
    rewrite minutes_of_save.
    destruct (Z.eqb_spec (Gamification.id r) (Gamification.id g')) as [E|E]; [|now apply Hm].
    assert (r = g) as -> by (eapply NoDup_map_same_key; [exact Hg | exact Hr' | exact Hin | congruence]).
    rewrite Htot, Huid. now apply Hm.
Qed.

(** The same through a flush, which may write nothing. *)
Lemma commit_row_server_inv d g g' now :
  server_inv d -> In g (gamifications d) -> same_row g g' -> db_inv (commit_row g g' now d) ->
  server_inv (commit_row g g' now d).
Proof.
  intros Hd Hin Hs. unfold commit_row. destruct (row_unchanged g g'); [now intros|].
  intros Hok. apply (save_row_inv _ g); [exact Hd | exact Hin | destruct g'; exact Hs | exact Hok].
Qed.

Lemma user_by_email_In d email u : user_by_email d email = Some u -> In u (users d).
Proof. unfold user_by_email. intros H. now apply find_some in H. Qed.

Lemma user_by_email_None d email : user_by_email d email = None -> ~ In email (map User.email (users d)).
Proof.
  unfold user_by_email. intros H Hin. apply in_map_iff in Hin as (u & Hu & Hin).
  pose proof (find_none _ _ H u Hin) as E. simpl in E. rewrite Hu, String.eqb_refl in E. discriminate.
Qed.

(** The gamification table's owners are distinct when it follows the
    users table. *)
Lemma inv_gamification_keys d : server_inv d -> gamification_keys d.
Proof. intros [_ Hi Hr Hg _ _ _ _]. split; [exact Hg|]. unfold user_rows in Hr. now rewrite Hr. Qed.

Lemma run_with_token `{TokenIssuer} now token h clock d :
  run_handler (with_token now token h) clock d =
  match decode_token token now with
  | inl reply => (reply, d)
  | inr identity => run_handler (h identity) clock d
  end.
Proof. unfold with_token. now destruct (decode_token token now). Qed.

(** ** Each route keeps the invariant *)

Section Preservation.
Context `{PasswordHasher} `{TokenIssuer} `{SqliteDriver} (isoformat : Z -> string)
  (fromisoformat : string -> option Z) (text_column : json -> pyres string)
  (py_str : json -> string) (clock : nat -> Z) (d : db).
Hypothesis Hd : server_inv d.

Ltac row_saved :=
  match goal with
  | Hg : gamification_of _ _ = Some ?g |- _ =>
      apply (commit_row_server_inv _ g); [exact Hd | eapply gamification_of_In; exact Hg | | assumption];
      unfold same_row; simpl; auto
  end.

Lemma add_xp_inv identity data : server_inv (snd (run_handler (add_xp identity data) clock d)).
Proof.
  assert (Hok : db_inv (snd (run_handler (add_xp identity data) clock d)))
    by (apply add_xp_preserves, rows_ok, Hd).
  revert Hok. rewrite add_xp_run.
  destruct (user_by_email d identity) as [u|]; [|intros; exact Hd].
  destruct (gamification_of d u) as [g|] eqn:Hg; [|intros; exact Hd].
  destruct (bind _ _) as [x|e]; [|intros; exact Hd]. simpl. destruct (commit_ok _ _); simpl; [intros Hok|intros; exact Hd]. row_saved.
Qed.

Lemma update_streak_inv identity : server_inv (snd (run_handler (update_streak py_str identity) clock d)).
Proof.
  assert (Hok : db_inv (snd (run_handler (update_streak py_str identity) clock d)))
    by (apply update_streak_preserves, rows_ok, Hd).
  revert Hok. rewrite update_streak_run.
  destruct (user_by_email d identity) as [u|]; [|intros; exact Hd].
  destruct (gamification_of d u) as [g|] eqn:Hg; [|intros; exact Hd].
  destruct (streak_next _ g); [|intros; exact Hd]. simpl. destruct (commit_ok _ _); simpl; [intros Hok|intros; exact Hd]. row_saved.
Qed.

Lemma add_badge_total b g :
  Gamification.total_minutes_studied (add_badge b g) = Gamification.total_minutes_studied g.
Proof. unfold add_badge. now destruct (negb _). Qed.

Lemma award_badge_inv identity data :
  server_inv (snd (run_handler (award_badge py_str identity data) clock d)).
Proof.
  assert (Hok : db_inv (snd (run_handler (award_badge py_str identity data) clock d)))
    by (apply award_badge_preserves, rows_ok, Hd).
  revert Hok. rewrite award_badge_run.
  destruct (user_by_email d identity) as [u|]; [|intros; exact Hd].
  destruct (gamification_of d u) as [g|] eqn:Hg; [|intros; exact Hd].
  destruct (py_get data "badge_id") as [[b|]|e]; try (intros; exact Hd).
  destruct (truthy b); [|intros; exact Hd]. simpl. destruct (commit_ok _ _); simpl; [intros Hok|intros; exact Hd].
  apply (commit_row_server_inv _ g); [exact Hd | eapply gamification_of_In; exact Hg | | assumption].
  destruct (add_badge_keys b g). unfold same_row. auto using add_badge_total.
Qed.

Lemma set_mode_inv identity data : server_inv (snd (run_handler (set_mode identity data) clock d)).
Proof.
  assert (Hok : db_inv (snd (run_handler (set_mode identity data) clock d)))
    by (apply set_mode_preserves, rows_ok, Hd).
  revert Hok. rewrite set_mode_run.
  destruct (user_by_email d identity) as [u|]; [|intros; exact Hd].
  destruct (gamification_of d u) as [g|] eqn:Hg; [|intros; exact Hd].
  destruct (py_get_default _ _ _) as [mode|e]; [|intros; exact Hd].
  destruct (valid_mode mode); [|intros; exact Hd]. simpl. destruct (commit_ok _ _); simpl; [intros Hok|intros; exact Hd]. row_saved.
Qed.
End Preservation.

(** The commit of [register] keeps the invariant: a fresh e-mail, the
    next user id, and the default gamification row under the next row id. *)
Lemma add_user_inv d u now :
  server_inv d -> ~ In (User.email u) (map User.email (users d)) ->
  User.id u = next_id (map User.id (users d)) ->
  server_inv (add_user_rows u (new_gamification (next_id (map Gamification.id (gamifications d)))
                                 (User.id u) now) d).
Proof.
  intros [He Hi Hr Hg Hok Hm Hs Hsub] Hfresh Hid.
  unfold add_user_rows. constructor; simpl.
  - rewrite map_app. now apply NoDup_snoc.
  - rewrite map_app. apply NoDup_snoc; [exact Hi|]. rewrite Hid. apply next_id_fresh.
  - unfold user_rows in *. simpl. rewrite !map_app, Hr. reflexivity.
  - rewrite map_app. apply NoDup_snoc; [exact Hg | apply next_id_fresh].
  - unfold db_inv. simpl. apply Forall_app. split; [exact Hok|]. repeat constructor.
  - unfold minutes_ok in *. simpl. apply Forall_app. split; [exact Hm|]. constructor; [|constructor].
    simpl. unfold minutes_of, sessions_of. simpl. rewrite filter_none; [reflexivity|].
    intros s Hin. rewrite Forall_forall in Hs. apply Z.eqb_neq. intros E.
    pose proof (next_id_gt _ _ (Hs s Hin)). lia.
  - eapply Forall_impl; [|exact Hs]. intros s Hin. simpl. rewrite map_app. apply in_or_app. now left.
  - exact Hsub.
Qed.

Section Preservation2.
Context `{PasswordHasher} `{TokenIssuer} `{SqliteDriver} (isoformat : Z -> string)
  (fromisoformat : string -> option Z) (text_column : json -> pyres string)
  (clock : nat -> Z) (d : db).
Hypothesis Hd : server_inv d.

Lemma register_inv salt data :
  server_inv (snd (run_handler (register isoformat text_column salt data) clock d)).
Proof.
  rewrite register_run.
  destruct (all_present _ _) as [[|]|]; try exact Hd.
  destruct (pyres_bind _ text_column) as [email|]; [|exact Hd].
  destruct (user_by_email d email) eqn:Hu; [exact Hd|].
  destruct (register_row text_column data) as [[name pw]|]; [|exact Hd]. simpl.
  apply add_user_inv; [exact Hd | now apply user_by_email_None | reflexivity].
Qed.

Lemma record_session_inv identity data :
  server_inv (snd (run_handler (record_session isoformat identity data) clock d)).
Proof.
  rewrite record_session_run.
  destruct (user_by_email d identity) as [u|] eqn:Hu; [|exact Hd].
  destruct (session_fields data) as [[[sid dur] pc]|e]; [|exact Hd].
  destruct (gamification_of d u) as [g|] eqn:Hg; [|exact Hd].
  destruct (integer_column (value_or JNull sid)) as [sid'|e]; simpl; [|exact Hd].
  set (s := new_session d u sid' dur pc (clock 0%nat)).
  destruct (record_session_binds g s); simpl; [|exact Hd].
  pose proof (gamification_of_In _ _ _ Hg) as Hin.
  assert (Hm' : minutes_ok (record_session_commit d u g s (clock 1%nat)))
    by (apply record_session_commit_minutes; [apply inv_gamification_keys| apply Hd | |]; auto).
  destruct Hd as [He Hi Hr Hgid Hok Hm Hs Hsub].
  unfold record_session_commit in *. unfold user_rows, db_inv in *.
  constructor; unfold user_rows, db_inv;
    rewrite ?users_insert_session, ?insert_session_gamifications, ?commit_row_users, ?commit_row_ids;
    try assumption.
  - rewrite <- Hr. now apply (commit_row_user_ids _ g).
  - apply commit_row_inv; [exact Hok|]. apply with_total_minutes_inv.
    rewrite Forall_forall in Hok. now apply Hok.
  - simpl. apply Forall_app. split; [rewrite commit_row_sessions; exact Hs|]. constructor; [|constructor].
    simpl. apply in_map. eapply user_by_email_In; exact Hu.
  - exact (eq_ind_r (fun l => NoDup (map Subject.id l)) Hsub (commit_row_subjects _ _ _ _)).
Qed.

Lemma record_reflection_inv identity data :
  server_inv (snd (run_handler (record_reflection isoformat identity data) clock d)).
Proof.
  destruct (record_reflection_outcome isoformat clock d identity data) as [->|(r & -> & _)]; [exact Hd|].
  apply (frame_inv d); try reflexivity; [exact Hd | apply Hd].
Qed.

Lemma add_subject_inv identity data :
  server_inv (snd (run_handler (add_subject isoformat fromisoformat text_column identity data) clock d)).
Proof.
  assert (Hnd : NoDup (map Subject.id (subjects
    (snd (run_handler (add_subject isoformat fromisoformat text_column identity data) clock d)))))
    by (apply add_subject_ids, Hd).
  destruct (add_subject_outcome isoformat fromisoformat text_column clock d identity data)
    as [E|(u & s & _ & E & _)]; rewrite E in *; [exact Hd|].
  apply (frame_inv d); try reflexivity; assumption.
Qed.

Lemma update_subject_inv identity sid data :
  server_inv (snd (run_handler (update_subject isoformat text_column identity sid data) clock d)).
Proof.
  assert (Hnd : NoDup (map Subject.id (subjects
    (snd (run_handler (update_subject isoformat text_column identity sid data) clock d)))))
    by (apply update_subject_ids, Hd).
  destruct (update_subject_outcome isoformat text_column clock d identity sid data)
    as [E|(u & s & s' & _ & _ & E & _)]; rewrite E in *; [exact Hd|].
  apply (frame_inv d); try reflexivity; assumption.
Qed.

Lemma delete_subject_inv identity sid :
  server_inv (snd (run_handler (delete_subject identity sid) clock d)).
Proof.
  assert (Hnd : NoDup (map Subject.id (subjects (snd (run_handler (delete_subject identity sid) clock d)))))
    by (apply delete_subject_ids, Hd).
  destruct (delete_subject_outcome clock d identity sid) as [E|(u & s & _ & _ & E)]; rewrite E in *;
    [exact Hd|].
  apply (frame_inv d); try reflexivity; assumption.
Qed.
End Preservation2.

Section ReadRoutes.
Context (isoformat : Z -> string).

Lemma get_subjects_reads_only identity : reads_only (get_subjects isoformat identity).
Proof. unfold get_subjects, current_user. reads_only_tac. Qed.

Lemma get_gamification_reads_only identity : reads_only (get_gamification isoformat identity).
Proof. unfold get_gamification, with_gamification, current_user. reads_only_tac. Qed.

Lemma get_sessions_reads_only identity : reads_only (get_sessions isoformat identity).
Proof. unfold get_sessions, current_user. reads_only_tac. Qed.

Lemma get_reflections_reads_only identity : reads_only (get_reflections isoformat identity).
Proof. unfold get_reflections, current_user. reads_only_tac. Qed.

Lemma get_analytics_summary_reads_only identity : reads_only (get_analytics_summary identity).
Proof. unfold get_analytics_summary, current_user. reads_only_tac. Qed.

Lemma get_study_heatmap_reads_only date_key hour_key identity :
  reads_only (get_study_heatmap date_key hour_key identity).
Proof. unfold get_study_heatmap, current_user. reads_only_tac. Qed.
End ReadRoutes.

#[export] Hint Resolve get_subjects_reads_only get_gamification_reads_only get_sessions_reads_only
  get_reflections_reads_only get_user_reads_only login_reads_only generate_weekly_plan_reads_only : study.

Lemma record_mood_inv `{SqliteDriver} clock d identity data :
  server_inv d -> server_inv (snd (run_handler (record_mood identity data) clock d)).
Proof.
  intros Hd. destruct (record_mood_outcome clock d identity data) as [->|(m & -> & _)]; [exact Hd|].
  apply (frame_inv d); try reflexivity; [exact Hd | apply Hd].
Qed.

Section Step.
Context `{PasswordHasher} `{TokenIssuer} `{SqliteDriver} (isoformat : Z -> string)
  (fromisoformat : string -> option Z) (text_column : json -> pyres string)
  (py_str : json -> string) (date_key hour_key : Z -> string).

Lemma read_route_inv (h : M response) clock d :
  reads_only h -> server_inv d -> server_inv (snd (run_handler h clock d)).
Proof. intros Hh Hd. now rewrite run_handler_reads_only. Qed.

(** One request of any kind keeps the invariant. *)
Lemma handle_inv now q clock d :
  server_inv d ->
  server_inv (snd (run_handler (handle isoformat fromisoformat text_column py_str date_key hour_key now q) clock d)).
Proof.
  intros Hd. destruct q as [salt data | data | | token r]; cbn [handle].
  - now apply register_inv.
  - apply read_route_inv; [apply login_reads_only | exact Hd].
  - apply read_route_inv; [apply api_info_reads_only | exact Hd].
  - rewrite run_with_token. destruct (decode_token token now) as [reply|identity]; [exact Hd|].
    destruct r; cbn [route].
    + apply read_route_inv; [apply get_user_reads_only | exact Hd].
    + apply read_route_inv; [apply get_subjects_reads_only | exact Hd].
    + now apply add_subject_inv.
    + now apply update_subject_inv.
    + now apply delete_subject_inv.
    + apply read_route_inv; [apply get_gamification_reads_only | exact Hd].
    + now apply add_xp_inv.
    + now apply update_streak_inv.
    + now apply award_badge_inv.
    + now apply set_mode_inv.
    + apply read_route_inv; [apply get_sessions_reads_only | exact Hd].
    + now apply record_session_inv.
    + apply read_route_inv; [apply get_reflections_reads_only | exact Hd].
    + now apply record_reflection_inv.
    + apply read_route_inv; [apply get_analytics_summary_reads_only | exact Hd].
    + apply read_route_inv; [apply get_study_heatmap_reads_only | exact Hd].
    + now apply record_mood_inv.
    + apply read_route_inv; [apply get_moods_reads_only | exact Hd].
    + apply read_route_inv; [apply get_failure_analytics_reads_only | exact Hd].
    + apply read_route_inv; [apply generate_weekly_plan_reads_only | exact Hd].
    + apply read_route_inv; [apply get_sync_status_reads_only | exact Hd].
Qed.
End Step.

(** ** Claims *)

Section Claims.
Context `{PasswordHasher} `{TokenIssuer} `{SqliteDriver} (isoformat : Z -> string)
  (fromisoformat : string -> option Z) (text_column : json -> pyres string)
  (py_str : json -> string) (date_key hour_key : Z -> string).

Lemma reachable_inv d : reachable isoformat fromisoformat text_column py_str date_key hour_key d -> server_inv d.
Proof. induction 1; [exact empty_inv | now apply handle_inv]. Qed.

(** C36: Every database a sequence of requests can produce from an empty one
    satisfies the invariant: distinct e-mails and user ids, one
    gamification row per user in the users' order, every row well formed
    (level, streak, mode, badges), every [total_minutes_studied] equal to
    the sum of its user's session durations, every session owned by a
    user, distinct subject ids. *)
Theorem reachable_server_inv d : reachable isoformat fromisoformat text_column py_str date_key hour_key d -> server_inv d.
Proof. induction 1; [exact empty_inv | now apply handle_inv]. Qed.

(** A registered user of a reachable database has a gamification row
    that counts the user's minutes. *)
Lemma reachable_user_row d email u :
  reachable isoformat fromisoformat text_column py_str date_key hour_key d -> user_by_email d email = Some u ->
  exists g, gamification_of d u = Some g /\
            Gamification.total_minutes_studied g = minutes_of d (User.id u).
Proof.
  intros Hr Hu. destruct (reachable_inv d Hr) as [_ _ Hrows _ _ Hm _ _].
  assert (Hin : In (User.id u) (map Gamification.user_id (gamifications d)))
    by (rewrite Hrows; apply in_map; eapply user_by_email_In; exact Hu).
  apply in_map_iff in Hin as (g0 & Hg0 & Hin).
  destruct (find_In_Some (fun g => Z.eqb (Gamification.user_id g) (User.id u)) (gamifications d) g0 Hin)
    as [g Hg]; [now apply Z.eqb_eq|].
  exists g. split; [exact Hg|]. apply gamification_of_spec in Hg as [Hing Hgu].
  unfold minutes_ok in Hm. rewrite Forall_forall in Hm. rewrite <- Hgu. now apply Hm.
Qed.

(** C37: In every reachable database the three views of a registered
    user's study minutes agree: the user has a gamification row (so the
    [user.gamification] read of [record_session] never fails), its
    [total_minutes_studied] is the sum of the user's session durations,
    the cells of [get_study_heatmap] sum to the same number, and so does
    the [total_study_minutes] of [get_analytics_summary] whenever it
    answers 200. *)
Theorem study_minutes_agree d email u :
  reachable isoformat fromisoformat text_column py_str date_key hour_key d -> user_by_email d email = Some u ->
  exists g, gamification_of d u = Some g /\
    Gamification.total_minutes_studied g = minutes_of d (User.id u) /\
    heat_sum (build_heatmap date_key hour_key (sessions_of d (User.id u))) = Gamification.total_minutes_studied g /\
    (forall clock kvs, fst (run_handler (get_analytics_summary email) clock d) = mkresp (JObj kvs) 200 ->
       dict_lookup kvs "total_study_minutes" = Some (JInt (Gamification.total_minutes_studied g))).
Proof.
  intros Hr Hu. destruct (reachable_user_row d email u Hr Hu) as (g & Hg & Hm).
  exists g. split; [exact Hg|]. split; [exact Hm|]. rewrite Hm. unfold minutes_of.
  split; [apply heat_sum_build|]. intros clock kvs. now apply summary_total_minutes.
Qed.

(** In a reachable database the token identity of a user finds that
    user: [User.query.filter_by(email=...).first()] returns the one row
    with the e-mail, never an earlier namesake. *)
Lemma email_identifies_user d u :
  reachable isoformat fromisoformat text_column py_str date_key hour_key d -> In u (users d) -> user_by_email d (User.email u) = Some u.
Proof.
  intros Hr Hin. destruct (reachable_inv d Hr) as [He _ _ _ _ _ _ _].
  destruct (find_In_Some (fun v => String.eqb (User.email v) (User.email u)) (users d) u Hin)
    as [v Hv]; [apply String.eqb_refl|].
  unfold user_by_email. rewrite Hv. f_equal.
  apply find_some in Hv as [Hv E]. apply String.eqb_eq in E.
  eapply NoDup_map_same_key; [exact He | exact Hv | exact Hin | exact E].
Qed.

(** ** Progress *)

Lemma jwt_expires_pos : 0 < jwt_access_token_expires.
Proof. unfold jwt_access_token_expires, usec_per_day. lia. Qed.

(** [POST /api/gamification/xp] with [{"xp": x}], a token issued now. *)
Definition xp_request (email : string) (now x : Z) : request :=
  Protected (create_access_token email now) (AddXp (JObj [("xp", JInt x)])).

(** The row after one such request whose new xp is a 64-bit integer. *)
Lemma xp_request_step d email u g now clock x :
  user_by_email d email = Some u -> gamification_of d u = Some g ->
  in_int64 (Gamification.xp g + x) = true ->
  let xp := Gamification.xp g + x in
  let d' := snd (run_handler (handle isoformat fromisoformat text_column py_str date_key hour_key now
                                (xp_request email now x)) clock d) in
  user_by_email d' email = Some u /\
  gamification_of d' u = Some (committed_row g (with_xp_level xp (xp / 100 + 1) g) (clock 0%nat)).
Proof.
  intros Hu Hg Hr xp d'. subst d'. cbn [handle xp_request]. rewrite run_with_token.
  rewrite decode_token_create by (pose proof jwt_expires_pos; lia). cbn [route].
  rewrite add_xp_run, Hu, Hg. simpl. rewrite commit_ok_xp_level by exact Hr. simpl.
  rewrite user_by_email_commit. split; [exact Hu|].
  apply (gamification_of_commit _ _ g); [exact Hg | reflexivity | reflexivity].
Qed.

(** C27: Every registered user of a reachable database can reach any level
    [L] whose xp threshold [100 * (L - 1)] is a 64-bit integer: from
    there, one [POST /api/gamification/xp] request with a fresh token and
    the missing xp leads to a database whose row for the user has level
    [L]. *)
Theorem registered_user_reaches_level d email u L :
  reachable isoformat fromisoformat text_column py_str date_key hour_key d -> user_by_email d email = Some u ->
  in_int64 (100 * (L - 1)) = true ->
  eventually isoformat fromisoformat text_column py_str date_key hour_key
    (fun d' => exists g, gamification_of d' u = Some g /\ Gamification.level g = L) d.
Proof.
  intros Hr Hu HL. destruct (reachable_user_row d email u Hr Hu) as (g & Hg & _).
  set (x := 100 * (L - 1) - Gamification.xp g).
  replace (100 * (L - 1)) with (Gamification.xp g + x) in HL by (unfold x; ring).
  apply (eventually_step _ _ _ _ _ _ _ d (xp_request email 0 x) 0 (fun _ => 0)).
  destruct (xp_request_step d email u g 0 (fun _ => 0) x Hu Hg HL) as [_ Hg'].
  apply eventually_now. eexists. split; [exact Hg'|].
  rewrite committed_row_level. simpl. unfold x.
  replace (Gamification.xp g + (100 * (L - 1) - Gamification.xp g)) with ((L - 1) * 100) by ring.
  rewrite Z.div_mul by lia. ring.
Qed.
End Claims.
