(* ===== verification/Width.v ===== *)
(** The width of the integer columns.  Every [INSERT] and [UPDATE] of the
    routes binds the integers that come from the request, and [sqlite3]
    raises [OverflowError] for one outside the 64-bit range
    ([Store.bind_ints], [Store.commit_ok]); the handler then answers 500
    and rolls back.  So in every database the application reaches each
    such column holds a 64-bit integer ([db_ints]), and with the row
    invariant of [Gamification] no level exceeds
    [int64_max / 100 + 1]: the bound [Server.registered_user_reaches_level]
    shows every user can reach. *)

From Stdlib Require Import String ZArith Lia Bool List.
From S2P Require Import Prelude PyRuntime Models Store Planner Gamification Subjects Sessions Analytics Moods OtherRoutes Auth Server.
Import ListNotations.
Local Open Scope Z_scope.

(** ** The invariant *)

Definition ints_ok (zs : list Z) : Prop := forallb in_int64 zs = true.

(** The integer columns of a gamification row that requests change. *)
Definition gamification_ints (g : Gamification.t) : list Z :=
  [Gamification.xp g; Gamification.level g; Gamification.streak g; Gamification.total_minutes_studied g].

Record db_ints (d : db) : Prop := {
  gamification_ints_ok : Forall (fun g => ints_ok (gamification_ints g)) (gamifications d);
  subject_ints_ok : Forall (fun s => ints_ok (subject_ints s)) (subjects d);
  session_ints_ok : Forall (fun s => ints_ok (session_ints s)) (study_sessions d);
  reflection_ints_ok : Forall (fun r => ints_ok (reflection_ints r)) (reflections d);
  mood_ints_ok : Forall (fun m => ints_ok (mood_ints m)) (study_moods d)
}.

Lemma empty_ints : db_ints empty_db.
Proof. repeat constructor. Qed.

(** ** Writes *)

Lemma Forall_map_if {A} (P : A -> Prop) (c : A -> bool) x l :
  Forall P l -> P x -> Forall P (map (fun r => if c r then x else r) l).
Proof. intros Hl Hx. apply Forall_map. eapply Forall_impl; [|exact Hl]. intros r Hr. now destruct (c r). Qed.

Lemma Forall_snoc {A} (P : A -> Prop) l x : Forall P l -> P x -> Forall P (l ++ [x]).
Proof. intros Hl Hx. apply Forall_app. auto. Qed.

(** A column kept from a 64-bit row, or bound by the [SET] clause. *)
Lemma keep_or_bound a b :
  in_int64 a = true -> forallb in_int64 (if Z.eqb a b then [] else [b]) = true -> in_int64 b = true.
Proof. destruct (Z.eqb_spec a b) as [<-|]; simpl; [auto|]. now rewrite andb_true_r. Qed.

Lemma changed_ints_ok g g' :
  ints_ok (gamification_ints g) -> forallb in_int64 (changed_ints g g') = true ->
  ints_ok (gamification_ints g').
Proof.
  unfold ints_ok, gamification_ints, changed_ints. simpl. rewrite !forallb_app, !andb_true_iff.
  intros (Hx & Hl & Hs & Ht & _) (Cx & Cl & Cs & Ct).
  now rewrite (keep_or_bound _ _ Hx Cx), (keep_or_bound _ _ Hl Cl), (keep_or_bound _ _ Hs Cs),
    (keep_or_bound _ _ Ht Ct).
Qed.

(** The flush of a row loaded from the table. *)
Lemma commit_row_ints d g g' now :
  db_ints d -> In g (gamifications d) -> commit_ok g g' = true -> db_ints (commit_row g g' now d).
Proof.
  intros [Hg Hs Hss Hr Hm] Hin Hc. unfold commit_row, commit_ok in *.
  destruct (row_unchanged g g'); [now constructor|]. simpl in Hc.
  constructor; try assumption. apply Forall_map_if; [exact Hg|].
  rewrite Forall_forall in Hg. destruct g'. exact (changed_ints_ok _ _ (Hg g Hin) Hc).
Qed.

Lemma insert_session_ints d s : db_ints d -> ints_ok (session_ints s) -> db_ints (insert_session s d).
Proof. intros [] Hs. constructor; try assumption. now apply Forall_snoc. Qed.

Lemma insert_reflection_ints d r :
  db_ints d -> ints_ok (reflection_ints r) -> db_ints (insert_reflection r d).
Proof. intros [] Hr. constructor; try assumption. now apply Forall_snoc. Qed.

Lemma insert_mood_ints d m : db_ints d -> ints_ok (mood_ints m) -> db_ints (insert_mood m d).
Proof. intros [] Hm. constructor; try assumption. now apply Forall_snoc. Qed.

Lemma insert_subject_ints d s : db_ints d -> ints_ok (subject_ints s) -> db_ints (insert_subject s d).
Proof. intros [] Hs. constructor; try assumption. now apply Forall_snoc. Qed.

Lemma save_subject_ints d s : db_ints d -> ints_ok (subject_ints s) -> db_ints (save_subject s d).
Proof. intros [] Hs. constructor; try assumption. now apply Forall_map_if. Qed.

Lemma delete_subject_row_ints d s : db_ints d -> db_ints (delete_subject_row s d).
Proof.
  intros [Hg Hs Hss Hr Hm]. constructor; try assumption. simpl.
  apply Forall_forall. intros r Hin. apply filter_In in Hin as [Hin _]. rewrite Forall_forall in Hs. auto.
Qed.

Lemma add_user_rows_ints d u id uid now :
  db_ints d -> db_ints (add_user_rows u (new_gamification id uid now) d).
Proof. intros []. constructor; try assumption. now apply Forall_snoc. Qed.

(** ** Each route keeps the invariant *)

Section Routes.
Context `{PasswordHasher} `{TokenIssuer} `{SqliteDriver} (isoformat : Z -> string)
  (fromisoformat : string -> option Z) (text_column : json -> pyres string)
  (py_str : json -> string) (clock : nat -> Z) (d : db).
Hypothesis Hd : db_ints d.

(** The flush of the user's row, after the run lemma of the route. *)
Ltac flush_row :=
  match goal with
  | Hg : gamification_of _ _ = Some ?g |- _ =>
      simpl; destruct (commit_ok _ _) eqn:Ec; simpl; [|exact Hd];
      apply commit_row_ints; [exact Hd | exact (gamification_of_In _ _ _ Hg) | exact Ec]
  end.

Lemma add_xp_ints identity data : db_ints (snd (run_handler (add_xp identity data) clock d)).
Proof.
  rewrite add_xp_run. destruct (user_by_email d identity) as [u|]; [|exact Hd].
  destruct (gamification_of d u) as [g|] eqn:Hg; [|exact Hd].
  destruct (bind _ _) as [x|e]; [flush_row | exact Hd].
Qed.

Lemma update_streak_ints identity : db_ints (snd (run_handler (update_streak py_str identity) clock d)).
Proof.
  rewrite update_streak_run. destruct (user_by_email d identity) as [u|]; [|exact Hd].
  destruct (gamification_of d u) as [g|] eqn:Hg; [|exact Hd].
  destruct (streak_next _ g); [flush_row | exact Hd].
Qed.

Lemma award_badge_ints identity data :
  db_ints (snd (run_handler (award_badge py_str identity data) clock d)).
Proof.
  rewrite award_badge_run. destruct (user_by_email d identity) as [u|]; [|exact Hd].
  destruct (gamification_of d u) as [g|] eqn:Hg; [|exact Hd].
  destruct (py_get data "badge_id") as [[b|]|e]; try exact Hd.
  destruct (truthy b); [flush_row | exact Hd].
Qed.

Lemma set_mode_ints identity data : db_ints (snd (run_handler (set_mode identity data) clock d)).
Proof.
  rewrite set_mode_run. destruct (user_by_email d identity) as [u|]; [|exact Hd].
  destruct (gamification_of d u) as [g|] eqn:Hg; [|exact Hd].
  destruct (py_get_default _ _ _) as [mode|e]; [|exact Hd].
  destruct (valid_mode mode); [flush_row | exact Hd].
Qed.

Lemma record_session_ints identity data :
  db_ints (snd (run_handler (record_session isoformat identity data) clock d)).
Proof.
  rewrite record_session_run. destruct (user_by_email d identity) as [u|]; [|exact Hd].
  destruct (session_fields data) as [[[sid dur] pc]|e]; [|exact Hd].
  destruct (gamification_of d u) as [g|] eqn:Hg; [|exact Hd].
  destruct (integer_column (value_or JNull sid)) as [sid'|e] eqn:Hsid; [|exact Hd]. cbv zeta.
  destruct (record_session_binds _ _) eqn:Eb; simpl; [|exact Hd].
  apply andb_true_iff in Eb as [Hs Hc]. unfold record_session_commit.
  apply insert_session_ints.
  2:{ unfold ints_ok, session_ints. rewrite forallb_app.
      apply andb_true_intro. split; [exact (integer_column_ints _ _ Hsid) | exact Hs]. }
  apply commit_row_ints; [exact Hd | exact (gamification_of_In _ _ _ Hg) | exact Hc].
Qed.

Lemma record_reflection_ints identity data :
  db_ints (snd (run_handler (record_reflection isoformat identity data) clock d)).
Proof.
  destruct (record_reflection_outcome isoformat clock d identity data) as [->|(r & -> & Hr)]; [exact Hd|].
  now apply insert_reflection_ints.
Qed.

Lemma record_mood_ints identity data : db_ints (snd (run_handler (record_mood identity data) clock d)).
Proof.
  destruct (record_mood_outcome clock d identity data) as [->|(m & -> & Hm)]; [exact Hd|].
  now apply insert_mood_ints.
Qed.

Lemma add_subject_ints identity data :
  db_ints (snd (run_handler (add_subject isoformat fromisoformat text_column identity data) clock d)).
Proof.
  destruct (add_subject_outcome isoformat fromisoformat text_column clock d identity data)
    as [->|(u & s & _ & -> & _ & _ & _ & _ & Hs)]; [exact Hd|].
  now apply insert_subject_ints.
Qed.

Lemma update_subject_ints identity sid data :
  db_ints (snd (run_handler (update_subject isoformat text_column identity sid data) clock d)).
Proof.
  destruct (update_subject_outcome isoformat text_column clock d identity sid data)
    as [->|(u & s & s' & _ & Hs & -> & _ & _ & Hs')]; [exact Hd|].
  apply save_subject_ints; [exact Hd|]. apply Hs'.
  apply subject_of_Some in Hs as [Hin _]. pose proof (subject_ints_ok d Hd) as Hall.
  rewrite Forall_forall in Hall. exact (Hall s Hin).
Qed.

Lemma delete_subject_ints identity sid :
  db_ints (snd (run_handler (delete_subject identity sid) clock d)).
Proof.
  destruct (delete_subject_outcome clock d identity sid) as [->|(u & s & _ & _ & ->)]; [exact Hd|].
  now apply delete_subject_row_ints.
Qed.

Lemma register_ints salt data :
  db_ints (snd (run_handler (register isoformat text_column salt data) clock d)).
Proof.
  rewrite register_run.
  destruct (all_present _ _) as [[|]|]; try exact Hd.
  destruct (pyres_bind _ text_column) as [email|]; [|exact Hd].
  destruct (user_by_email d email); [exact Hd|].
  destruct (register_row text_column data) as [[name pw]|]; [|exact Hd].
  now apply add_user_rows_ints.
Qed.
End Routes.

Section Step.
Context `{PasswordHasher} `{TokenIssuer} `{SqliteDriver} (isoformat : Z -> string)
  (fromisoformat : string -> option Z) (text_column : json -> pyres string)
  (py_str : json -> string) (date_key hour_key : Z -> string).

Lemma read_route_ints (h : M response) clock d :
  reads_only h -> db_ints d -> db_ints (snd (run_handler h clock d)).
Proof. intros Hh Hd. now rewrite run_handler_reads_only. Qed.

(** One request of any kind keeps the invariant. *)
Lemma handle_ints now q clock d :
  db_ints d ->
  db_ints (snd (run_handler (handle isoformat fromisoformat text_column py_str date_key hour_key now q) clock d)).
Proof.
  intros Hd. destruct q as [salt data | data | | token r]; cbn [handle].
  - now apply register_ints.
  - apply read_route_ints; [apply login_reads_only | exact Hd].
  - apply read_route_ints; [apply api_info_reads_only | exact Hd].
  - rewrite run_with_token. destruct (decode_token token now) as [reply|identity]; [exact Hd|].
    destruct r; cbn [route].
    + apply read_route_ints; [apply get_user_reads_only | exact Hd].
    + apply read_route_ints; [apply get_subjects_reads_only | exact Hd].
    + now apply add_subject_ints.
    + now apply update_subject_ints.
    + now apply delete_subject_ints.
    + apply read_route_ints; [apply get_gamification_reads_only | exact Hd].
    + now apply add_xp_ints.
    + now apply update_streak_ints.
    + now apply award_badge_ints.
    + now apply set_mode_ints.
    + apply read_route_ints; [apply get_sessions_reads_only | exact Hd].
    + now apply record_session_ints.
    + apply read_route_ints; [apply get_reflections_reads_only | exact Hd].
    + now apply record_reflection_ints.
    + apply read_route_ints; [apply get_analytics_summary_reads_only | exact Hd].
    + apply read_route_ints; [apply get_study_heatmap_reads_only | exact Hd].
    + now apply record_mood_ints.
    + apply read_route_ints; [apply get_moods_reads_only | exact Hd].
    + apply read_route_ints; [apply get_failure_analytics_reads_only | exact Hd].
    + apply read_route_ints; [apply generate_weekly_plan_reads_only | exact Hd].
    + apply read_route_ints; [apply get_sync_status_reads_only | exact Hd].
Qed.

(** A level computed from a 64-bit xp is at most [int64_max / 100 + 1]. *)
Lemma level_ok_bound g :
  level_ok g -> ints_ok (gamification_ints g) -> Gamification.level g <= int64_max / 100 + 1.
Proof.
  unfold level_ok, ints_ok, gamification_ints. cbn [forallb]. rewrite andb_true_iff. intros -> [Hx _].
  apply in_int64_spec in Hx. pose proof (Z.div_le_mono _ _ 100 ltac:(lia) (proj2 Hx)). lia.
Qed.
End Step.

Section Claims.
Context `{PasswordHasher} `{TokenIssuer} `{SqliteDriver} (isoformat : Z -> string)
  (fromisoformat : string -> option Z) (text_column : json -> pyres string)
  (py_str : json -> string) (date_key hour_key : Z -> string).

(** C18: In every database a sequence of requests produces from an empty
    one, every integer column a request fills is a 64-bit integer (xp,
    level, streak and total minutes of the gamification rows; chapters
    and counters of subjects; the integers of sessions, reflections and
    moods), and no level exceeds [int64_max / 100 + 1]. *)
Theorem reachable_ints_bounded d :
  reachable isoformat fromisoformat text_column py_str date_key hour_key d ->
  db_ints d /\ Forall (fun g => Gamification.level g <= int64_max / 100 + 1) (gamifications d).
Proof.
  intros Hr.
  assert (Hi : db_ints d) by (induction Hr; [exact empty_ints | now apply handle_ints]).
  split; [exact Hi|].
  pose proof (rows_ok d (reachable_inv isoformat fromisoformat text_column py_str date_key hour_key d Hr))
    as Hok.
  pose proof (gamification_ints_ok d Hi) as Hw. unfold db_inv in Hok. rewrite Forall_forall in *.
  intros g Hg. apply level_ok_bound; [apply (Hok g Hg) | apply (Hw g Hg)].
Qed.
End Claims.
