(* ===== verification/RateLimit.v ===== *)
(** The rate limiter of [src/app.py] (lines 17-22 and the
    [@limiter.limit] decorators of lines 793, 855 and 919): flask-limiter
    with [key_func=get_remote_address], its default in-memory storage and
    its default fixed-window strategy.

    The library is not code of this repository; its behaviour is written
    out here from the [limits] package it runs on:
    - [MemoryStorage.get] drops a counter whose expiry has passed;
      [MemoryStorage.incr] adds one to the counter and, when the counter
      is new, sets its expiry to [now + period];
    - [FixedWindowRateLimiter.hit] is [incr(key) <= amount];
    - the key of a limit is the remote address, the scope (the endpoint
      name) and the limit itself;
    - a request is checked against the limits of its route in order,
      stopping at the first that fails, which answers 429.
    The storage is a [gmap] from keys to [(counter, expiry)], as the
    library's two dicts [storage] and [expirations].  Times are
    microseconds, as everywhere in the model.

    The theorems: within one period from a moment the counter of a key is
    not live, at most [amount] requests of that key pass (the bound the
    configuration promises), and every address is served again once its
    counters have expired (no client is locked out for good). *)

From stdpp Require Import base gmap strings list.
From Stdlib Require Import ZArith Lia.
Local Open Scope Z_scope.

(** ** Limits and their storage *)

(** A limit ["amount per period"]. *)
Record rate_limit := mklimit { amount : Z; period : Z }.

#[global] Instance rate_limit_eq_dec : EqDecision rate_limit.
Proof. solve_decision. Defined.

Definition usec_per_hour : Z := 3600000000.

(** ["n per hour"] and ["n per day"]. *)
Definition per_hour (n : Z) : rate_limit := mklimit n usec_per_hour.
Definition per_day (n : Z) : rate_limit := mklimit n (24 * usec_per_hour).

(** [Limiter(app, key_func=get_remote_address,
    default_limits=["200 per day", "50 per hour"])]. *)
Definition default_limits : list rate_limit := [per_day 200; per_hour 50].

(** The storage key of a limit: remote address, scope, amount, period. *)
Abbreviation limit_key := (string * string * Z * Z)%type.

Definition key_of (addr scope : string) (l : rate_limit) : limit_key :=
  (addr, scope, amount l, period l).

(** [MemoryStorage]: a counter and its expiry per key. *)
Abbreviation store := (gmap limit_key (Z * Z)).

(** The storage when the application starts. *)
Definition empty_store : store := ∅.

(** [MemoryStorage.get]: the counter of [k] at [now], if it has not
    expired. *)
Definition live (s : store) (k : limit_key) (now : Z) : option (Z * Z) :=
  match s !! k with
  | Some (c, e) => if Z.ltb now e then Some (c, e) else None
  | None => None
  end.

(** [MemoryStorage.incr(key, expiry)]: the new counter, and the storage. *)
Definition incr (s : store) (k : limit_key) (expiry now : Z) : Z * store :=
  match live s k now with
  | Some (c, e) => (c + 1, <[k := (c + 1, e)]> s)
  | None => (1, <[k := (1, now + expiry)]> s)
  end.

(** [FixedWindowRateLimiter.hit(limit, addr, scope)]. *)
Definition hit (s : store) (addr scope : string) (l : rate_limit) (now : Z) : bool * store :=
  let '(c, s') := incr s (key_of addr scope l) (period l) now in (Z.leb c (amount l), s').

(** The check flask-limiter runs before a view: each limit of the route in
    order, stopping at the first that fails; [None] lets the request
    through, [Some l] answers 429 for [l]. *)
Fixpoint check_limits (s : store) (addr scope : string) (ls : list rate_limit) (now : Z)
  : option rate_limit * store :=
  match ls with
  | [] => (None, s)
  | l :: ls' =>
      let '(ok, s') := hit s addr scope l now in
      if ok then check_limits s' addr scope ls' now else (Some l, s')
  end.

(** The latest expiry in the storage. *)
Definition horizon (s : store) : Z :=
  foldr (fun kv acc => Z.max (snd (snd kv)) acc) 0 (map_to_list s).

(** ** Lemmas *)

Lemma incr_lookup_ne s k k' expiry now :
  k' <> k -> snd (incr s k expiry now) !! k' = s !! k'.
Proof. intros Hne. unfold incr. destruct (live s k now) as [[c e]|]; simpl; by rewrite lookup_insert_ne. Qed.

Lemma hit_lookup_ne s addr scope l now k :
  k <> key_of addr scope l -> snd (hit s addr scope l now) !! k = s !! k.
Proof.
  intros Hne. unfold hit. pose proof (incr_lookup_ne s _ k (period l) now Hne) as E.
  destruct (incr _ _ _ _). exact E.
Qed.

Lemma key_of_inj addr scope l l' : key_of addr scope l = key_of addr scope l' -> l = l'.
Proof. unfold key_of. destruct l, l'. simpl. by intros [= -> ->]. Qed.

(** A check leaves the counters of other addresses or scopes alone, and
    of limits it does not list. *)
Lemma check_limits_lookup_other s addr scope ls now k :
  (forall l, l ∈ ls -> k <> key_of addr scope l) ->
  snd (check_limits s addr scope ls now) !! k = s !! k.
Proof.
  revert s. induction ls as [|l ls IH]; intros s Hk; [done|]. simpl.
  pose proof (hit_lookup_ne s addr scope l now k (Hk l ltac:(set_solver))) as E.
  destruct (hit s addr scope l now) as [ok s'] eqn:Eh. simpl in E.
  destruct ok; simpl; [|exact E]. rewrite IH; [exact E|]. intros l' Hl'. apply Hk. set_solver.
Qed.

Lemma horizon_ge s k c e : s !! k = Some (c, e) -> e <= horizon s.
Proof.
  intros Hk. apply elem_of_map_to_list in Hk. unfold horizon.
  induction (map_to_list s) as [|[k' [c' e']] l IH]; [set_solver|]. simpl.
  apply elem_of_cons in Hk as [[= -> ->]|Hk]; [lia|]. specialize (IH Hk). lia.
Qed.

(** A check finds every counter of the address and scope expired once
    [now] has passed them all. *)
Lemma live_after_horizon s k now : horizon s <= now -> live s k now = None.
Proof.
  intros Hh. unfold live. destruct (s !! k) as [[c e]|] eqn:Ek; [|done].
  apply horizon_ge in Ek. replace (Z.ltb now e) with false; [done|]. symmetry. apply Z.ltb_ge. lia.
Qed.

(** A check whose counters are all fresh lets the request through, when
    the limits are distinct and each allows one request. *)
Lemma check_limits_fresh s addr scope ls now :
  (forall l, l ∈ ls -> live s (key_of addr scope l) now = None) -> List.NoDup ls ->
  Forall (fun l => 1 <= amount l) ls -> fst (check_limits s addr scope ls now) = None.
Proof.
  revert s. induction ls as [|l ls IH]; intros s Hfresh Hnd Ham; [done|].
  inversion Hnd as [|? ? Hl Hnd']; inversion Ham as [|? ? Hl1 Ham']; subst. simpl.
  unfold hit, incr. rewrite (Hfresh l ltac:(set_solver)). simpl.
  replace (Z.leb 1 (amount l)) with true by (symmetry; apply Z.leb_le; lia).
  apply IH; [|done|done]. intros l' Hl'. unfold live.
  rewrite lookup_insert_ne; [apply Hfresh; set_solver|].
  intros E. apply key_of_inj in E. subst. apply Hl. by apply list_elem_of_In.
Qed.

Section Window.
Context (addr scope : string) (l : rate_limit) (t0 : Z).
Hypothesis amount_nonneg : 0 <= amount l.

(** The counter of [l] for [addr] and [scope] is not live at [t0]. *)
Definition fresh (s : store) : Prop :=
  forall c e, s !! key_of addr scope l = Some (c, e) -> e <= t0.

(** What holds of the counter after [a] requests got through inside
    [t0, t0 + period): none did and the counter is not live, or the counter
    is live past the window and counts at least [a], and [a] is within the
    limit. *)
Definition window_inv (s : store) (a : Z) : Prop :=
  (a = 0 /\ fresh s) \/
  (exists c e, s !! key_of addr scope l = Some (c, e) /\ t0 + period l <= e /\ a <= c /\ a <= amount l).

Lemma window_inv_same s s' a :
  s' !! key_of addr scope l = s !! key_of addr scope l -> window_inv s a -> window_inv s' a.
Proof. unfold window_inv, fresh. intros E. by rewrite E. Qed.

Lemma window_inv_bound s a : window_inv s a -> a <= amount l.
Proof. intros [[-> _]|(c & e & _ & _ & _ & H)]; lia. Qed.

Lemma hit_window s a t :
  t0 <= t < t0 + period l -> window_inv s a ->
  let '(ok, s') := hit s addr scope l t in window_inv s' a /\ (ok = true -> window_inv s' (a + 1)).
Proof.
  intros Ht Hinv. unfold hit, incr, live.
  destruct Hinv as [[-> Hf]|(c & e & Ek & He & Hc & Ha)].
  - assert (Hnl : match s !! key_of addr scope l with
                  | Some (c, e) => if Z.ltb t e then Some (c, e) else None | None => None end = None).
    { destruct (s !! key_of addr scope l) as [[c e]|] eqn:Ek; [|done].
      replace (Z.ltb t e) with false; [done|]. symmetry. apply Z.ltb_ge. specialize (Hf c e Ek). lia. }
    rewrite Hnl. split; [|intros Hok; apply Z.leb_le in Hok]; right; exists 1, (t + period l);
      rewrite lookup_insert_eq; repeat split; lia.
  - rewrite Ek. replace (Z.ltb t e) with true by (symmetry; apply Z.ltb_lt; lia).
    split; [|intros Hok; apply Z.leb_le in Hok]; right; exists (c + 1), e;
      rewrite lookup_insert_eq; repeat split; lia.
Qed.
Lemma hit_other_window s a t l' :
  l' <> l -> window_inv s a -> window_inv (snd (hit s addr scope l' t)) a.
Proof.
  intros Hne. apply window_inv_same. apply hit_lookup_ne.
  intros E. apply key_of_inj in E. subst. contradiction.
Qed.

(** One check of [addr] and [scope] inside the window: the invariant
    holds after it, and counts the request when it gets through a check
    that lists [l]. *)
Lemma check_limits_window s a t ls :
  t0 <= t < t0 + period l -> window_inv s a ->
  let '(r, s') := check_limits s addr scope ls t in
  window_inv s' a /\ (r = None -> l ∈ ls -> window_inv s' (a + 1)).
Proof.
  intros Ht. revert s a. induction ls as [|l1 ls IH]; intros s a Hinv; simpl.
  - split; [done|]. intros _ Hin. set_solver.
  - destruct (decide (l1 = l)) as [->|Hne].
    + pose proof (hit_window s a t Ht Hinv) as Hh.
      destruct (hit s addr scope l t) as [ok s1]. destruct Hh as [H1 H2].
      destruct ok; [|split; [done|discriminate]].
      pose proof (IH s1 a H1) as Ha. pose proof (IH s1 (a + 1) (H2 eq_refl)) as Ha1.
      destruct (check_limits s1 addr scope ls t). split; [tauto|]. intros Hr _. tauto.
    + pose proof (hit_other_window s a t l1 Hne Hinv) as H1.
      destruct (hit s addr scope l1 t) as [ok s1]. simpl in H1.
      destruct ok; [|split; [done|discriminate]].
      pose proof (IH s1 a H1) as Ha. destruct (check_limits s1 addr scope ls t).
      split; [tauto|]. intros Hr Hin. apply Ha; [done|].
      apply elem_of_cons in Hin as [E|?]; [congruence|done].
Qed.

(** A check of another address or scope leaves the counter alone. *)
Lemma check_other_window s a addr' scope' ls t :
  (addr' <> addr \/ scope' <> scope) -> window_inv s a ->
  window_inv (snd (check_limits s addr' scope' ls t)) a.
Proof.
  intros Hne. apply window_inv_same. apply check_limits_lookup_other.
  intros l' _ E. unfold key_of in E. simplify_eq. tauto.
Qed.

End Window.
