(* ===== verification/Http.v ===== *)
(** The HTTP front of [src/app.py]: what Flask and its extensions do with
    a request before and after a view function runs.

    - Flask's URL map (the [@app.route] decorators, lines 208-1009) with
      werkzeug's matching: the first rule whose path matches and whose
      methods include the request's serves it; a path some rule matches
      under other methods only is answered 405; a path no rule matches
      goes to the [not_found] error handler (lines 1033-1035), 404 with a
      JSON body.  The [<int:subject_id>] converter takes a run of ASCII
      digits.
    - flask-limiter ([RateLimit]): before the view, the request's counters
      are hit with the route's limits ([default_limits] unless the route
      has a [@limiter.limit]); the first that fails answers 429.  Requests
      that match no rule are not counted.
    - flask_jwt_extended's [@jwt_required()]: the [Authorization] header
      must read [Bearer <token>], its first word equal to [Bearer] (the
      exact comparison of version 4; a value with commas, which version 4
      splits into several, is not modelled); then [Auth.with_token]
      decodes the token
      at the request's arrival time (tokens expire after
      [JWT_ACCESS_TOKEN_EXPIRES], line 28).
    - flask-cors ([CORS(app)], line 15, with its defaults): every
      response carries [Access-Control-Allow-Origin], the request's
      [Origin] when it has one (with [Vary: Origin]), [*] otherwise.

    The 405 and 429 answers come from werkzeug's default error pages
    (HTML), the others are JSON.  The [internal_error] handler (lines
    1038-1041) never runs: every view catches [Exception] itself (see
    [Store.run_handler]).  HEAD and OPTIONS requests, which Flask answers
    on its own, are not modelled. *)

From Stdlib Require Import String Ascii ZArith Lia Bool List.
From S2P Require Import Prelude PyRuntime Numerals Models Store Planner Gamification Subjects Sessions Analytics Moods OtherRoutes Auth Server RateLimit.
Import ListNotations.
Local Open Scope Z_scope.
Local Open Scope string_scope.

(** ** Requests and responses *)

Inductive http_method : Type := GET | POST | PUT | PATCH | DELETE.

Definition method_eqb (m m' : http_method) : bool :=
  match m, m' with
  | GET, GET | POST, POST | PUT, PUT | PATCH, PATCH | DELETE, DELETE => true
  | _, _ => false
  end.

(** What the application reads of a request: the method and path, the
    client address ([get_remote_address]), the [Authorization] and
    [Origin] headers, the JSON body, the query string, and the random
    salt [generate_password_hash] would draw. *)
Record http_request := mkhttp {
  method : http_method;
  path : string;
  remote_addr : string;
  authorization : option string;
  origin : option string;
  json_body : json;
  args : query;
  salt : string
}.

Inductive http_body : Type :=
| BodyJson (v : json)
| BodyHtml (title : string).

Record http_response := mkhttpresp { hstatus : Z; hbody : http_body; headers : list (string * string) }.

(** ** The URL map *)

(** The view functions, by their Flask endpoint names. *)
Inductive endpoint : Type :=
| ep_register | ep_login | ep_get_user | ep_get_subjects | ep_add_subject
| ep_update_subject | ep_delete_subject | ep_get_gamification | ep_add_xp
| ep_update_streak | ep_award_badge | ep_set_mode | ep_get_sessions
| ep_record_session | ep_get_reflections | ep_record_reflection
| ep_get_analytics_summary | ep_get_study_heatmap | ep_record_mood | ep_get_moods
| ep_get_failure_analytics | ep_generate_weekly_plan | ep_get_sync_status | ep_api_info.

Definition endpoint_name (ep : endpoint) : string :=
  match ep with
  | ep_register => "register" | ep_login => "login" | ep_get_user => "get_user"
  | ep_get_subjects => "get_subjects" | ep_add_subject => "add_subject"
  | ep_update_subject => "update_subject" | ep_delete_subject => "delete_subject"
  | ep_get_gamification => "get_gamification" | ep_add_xp => "add_xp"
  | ep_update_streak => "update_streak" | ep_award_badge => "award_badge"
  | ep_set_mode => "set_mode" | ep_get_sessions => "get_sessions"
  | ep_record_session => "record_session" | ep_get_reflections => "get_reflections"
  | ep_record_reflection => "record_reflection"
  | ep_get_analytics_summary => "get_analytics_summary"
  | ep_get_study_heatmap => "get_study_heatmap" | ep_record_mood => "record_mood"
  | ep_get_moods => "get_moods" | ep_get_failure_analytics => "get_failure_analytics"
  | ep_generate_weekly_plan => "generate_weekly_plan" | ep_get_sync_status => "get_sync_status"
  | ep_api_info => "api_info"
  end.

(** A rule's path, split at [/]: literal parts and [<int:...>]. *)
Inductive segment : Type := Lit (s : string) | IntArg.

(** The [@app.route] decorators, in the order of the file. *)
Definition url_map : list (list segment * http_method * endpoint) :=
  [([Lit "api"; Lit "register"], POST, ep_register);
   ([Lit "api"; Lit "login"], POST, ep_login);
   ([Lit "api"; Lit "user"], GET, ep_get_user);
   ([Lit "api"; Lit "subjects"], GET, ep_get_subjects);
   ([Lit "api"; Lit "subjects"], POST, ep_add_subject);
   ([Lit "api"; Lit "subjects"; IntArg], PUT, ep_update_subject);
   ([Lit "api"; Lit "subjects"; IntArg], DELETE, ep_delete_subject);
   ([Lit "api"; Lit "gamification"], GET, ep_get_gamification);
   ([Lit "api"; Lit "gamification"; Lit "xp"], POST, ep_add_xp);
   ([Lit "api"; Lit "gamification"; Lit "streak"], POST, ep_update_streak);
   ([Lit "api"; Lit "gamification"; Lit "badges"], POST, ep_award_badge);
   ([Lit "api"; Lit "gamification"; Lit "mode"], POST, ep_set_mode);
   ([Lit "api"; Lit "sessions"], GET, ep_get_sessions);
   ([Lit "api"; Lit "sessions"], POST, ep_record_session);
   ([Lit "api"; Lit "reflections"], GET, ep_get_reflections);
   ([Lit "api"; Lit "reflections"], POST, ep_record_reflection);
   ([Lit "api"; Lit "analytics"; Lit "summary"], GET, ep_get_analytics_summary);
   ([Lit "api"; Lit "analytics"; Lit "heatmap"], GET, ep_get_study_heatmap);
   ([Lit "api"; Lit "v1"; Lit "moods"], POST, ep_record_mood);
   ([Lit "api"; Lit "v1"; Lit "moods"], GET, ep_get_moods);
   ([Lit "api"; Lit "v1"; Lit "analytics"; Lit "failure"], GET, ep_get_failure_analytics);
   ([Lit "api"; Lit "v1"; Lit "planner"; Lit "generate"], POST, ep_generate_weekly_plan);
   ([Lit "api"; Lit "v1"; Lit "sync"; Lit "status"], GET, ep_get_sync_status);
   ([Lit "api"; Lit "v1"; Lit "info"], GET, ep_api_info)].

(** The path after its leading [/], split at every [/]. *)
Fixpoint split_slash (s : string) : list string :=
  match s with
  | EmptyString => [EmptyString]
  | String c s' =>
      if Ascii.eqb c "/" then EmptyString :: split_slash s'
      else match split_slash s' with
           | w :: ws => String c w :: ws
           | [] => [String c EmptyString]
           end
  end.

Definition path_parts (p : string) : option (list string) :=
  match p with
  | String c rest => if Ascii.eqb c "/" then Some (split_slash rest) else None
  | EmptyString => None
  end.

(** werkzeug's [IntegerConverter]: [\d+], then [int()]. *)
Definition url_int (p : string) : option Z :=
  let l := list_ascii_of_string p in
  match l with
  | [] => None
  | _ => if forallb is_digit l then Some (fold_left (fun a c => a * 10 + digit_value c) l 0) else None
  end.

Fixpoint match_segments (pat : list segment) (parts : list string) : option (list Z) :=
  match pat, parts with
  | [], [] => Some []
  | Lit s :: pat', p :: parts' => if String.eqb s p then match_segments pat' parts' else None
  | IntArg :: pat', p :: parts' =>
      match url_int p with
      | Some n => option_map (cons n) (match_segments pat' parts')
      | None => None
      end
  | _, _ => None
  end.

Inductive route_match : Type :=
| Matched (ep : endpoint) (url_args : list Z)
| MethodNotAllowed
| NoRoute.

(** [MapAdapter.match]: [allowed] records that an earlier rule matched
    the path under another method. *)
Fixpoint match_rules (rules : list (list segment * http_method * endpoint)) (m : http_method)
    (parts : list string) (allowed : bool) : route_match :=
  match rules with
  | [] => if allowed then MethodNotAllowed else NoRoute
  | (pat, m', ep) :: rules' =>
      match match_segments pat parts with
      | Some url_args => if method_eqb m m' then Matched ep url_args else match_rules rules' m parts true
      | None => match_rules rules' m parts allowed
      end
  end.

Definition dispatch (m : http_method) (p : string) : route_match :=
  match path_parts p with
  | Some parts => match_rules url_map m parts false
  | None => NoRoute
  end.

(** ** Rate limits *)

(** The limits of a route: its [@limiter.limit] (lines 793, 855, 919), or
    the application's [default_limits]. *)
Definition route_limits (ep : endpoint) : list rate_limit :=
  match ep with
  | ep_record_mood => [per_hour 10]
  | ep_get_failure_analytics => [per_hour 20]
  | ep_generate_weekly_plan => [per_hour 5]
  | _ => default_limits
  end.

(** werkzeug's [TooManyRequests] page. *)
Definition too_many_requests : http_body := BodyHtml "429 Too Many Requests".

(** ** [@jwt_required()] *)

(** [str.split()]: the words of a string between runs of white space. *)
Fixpoint py_split_aux (l : list ascii) (cur : list ascii) : list string :=
  match l with
  | [] => match cur with [] => [] | _ => [string_of_list_ascii (rev cur)] end
  | c :: l' =>
      if is_space c then
        match cur with
        | [] => py_split_aux l' []
        | _ => string_of_list_ascii (rev cur) :: py_split_aux l' []
        end
      else py_split_aux l' (c :: cur)
  end.

Definition py_split (s : string) : list string := py_split_aux (list_ascii_of_string s) [].

Definition missing_authorization : response :=
  mkresp (JObj [("msg", JStr "Missing Authorization Header")]) 401.

Definition missing_bearer : response :=
  mkresp (JObj [("msg", JStr "Missing 'Bearer' type in 'Authorization' header. Expected 'Authorization: Bearer <JWT>'")]) 401.

Definition bad_authorization : response :=
  mkresp (JObj [("msg", JStr "Bad Authorization header. Expected 'Authorization: Bearer <JWT>'")]) 422.

(** The token of the [Authorization] header, or the library's reply. *)
Definition bearer_token (h : option string) : response + string :=
  match option_map py_split h with
  | None | Some [] => inl missing_authorization
  | Some (w :: ws) =>
      if String.eqb w "Bearer" then
        match ws with
        | [token] => inr token
        | _ => inl bad_authorization
        end
      else inl missing_bearer
  end.

(** ** The view a matched request runs *)

(** The request of a route behind [@jwt_required()]: its URL argument,
    body or query string. *)
Definition protected_of (ep : endpoint) (url_args : list Z) (rq : http_request) : option protected_request :=
  match ep, url_args with
  | ep_get_user, [] => Some GetUser
  | ep_get_subjects, [] => Some GetSubjects
  | ep_add_subject, [] => Some (AddSubject (json_body rq))
  | ep_update_subject, [sid] => Some (UpdateSubject sid (json_body rq))
  | ep_delete_subject, [sid] => Some (DeleteSubject sid)
  | ep_get_gamification, [] => Some GetGamification
  | ep_add_xp, [] => Some (AddXp (json_body rq))
  | ep_update_streak, [] => Some UpdateStreak
  | ep_award_badge, [] => Some (AwardBadge (json_body rq))
  | ep_set_mode, [] => Some (SetMode (json_body rq))
  | ep_get_sessions, [] => Some GetSessions
  | ep_record_session, [] => Some (RecordSession (json_body rq))
  | ep_get_reflections, [] => Some GetReflections
  | ep_record_reflection, [] => Some (RecordReflection (json_body rq))
  | ep_get_analytics_summary, [] => Some GetAnalyticsSummary
  | ep_get_study_heatmap, [] => Some GetStudyHeatmap
  | ep_record_mood, [] => Some (RecordMood (json_body rq))
  | ep_get_moods, [] => Some (GetMoods (args rq))
  | ep_get_failure_analytics, [] => Some (GetFailureAnalytics (args rq))
  | ep_generate_weekly_plan, [] => Some GenerateWeeklyPlan
  | ep_get_sync_status, [] => Some GetSyncStatus
  | _, _ => None
  end.

(** The request [Server.handle] gets, or the reply of [@jwt_required()]
    to a bad header. *)
Definition view_request (ep : endpoint) (url_args : list Z) (rq : http_request) : option (response + request) :=
  match ep with
  | ep_register => Some (inr (Register (salt rq) (json_body rq)))
  | ep_login => Some (inr (Login (json_body rq)))
  | ep_api_info => Some (inr ApiInfo)
  | _ =>
      option_map (fun r => match bearer_token (authorization rq) with
                           | inl reply => inl reply
                           | inr token => inr (Protected token r)
                           end) (protected_of ep url_args rq)
  end.

(** ** CORS and the error handlers *)

(** flask-cors's [after_request] with [origins='*']. *)
Definition cors_headers (o : option string) : list (string * string) :=
  match o with
  | Some org => [("Access-Control-Allow-Origin", org); ("Vary", "Origin")]
  | None => [("Access-Control-Allow-Origin", "*")]
  end.

(** [not_found], lines 1033-1035. *)
Definition not_found_handler : response := mkresp (JObj [("error", JStr "Endpoint not found")]) 404.

Definition json_reply (o : option string) (r : response) : http_response :=
  mkhttpresp (status r) (BodyJson (body r)) (cors_headers o).

(** ** The application *)

(** The state behind the application: the database and the limiter's
    storage. *)
Record app_state := mkapp { app_db : db; app_limits : store }.

Definition app_start : app_state := mkapp empty_db empty_store.

Section App.
Context `{PasswordHasher} `{TokenIssuer} `{SqliteDriver} (isoformat : Z -> string)
  (fromisoformat : string -> option Z) (text_column : json -> pyres string)
  (py_str : json -> string) (date_key hour_key : Z -> string).

(** A request past the limiter: [@jwt_required()], then the view. *)
Definition run_view (ep : endpoint) (url_args : list Z) (rq : http_request) (now : Z)
    (clock : nat -> Z) (d : db) (lim : store) : http_response * app_state :=
  let reply := json_reply (origin rq) in
  match view_request ep url_args rq with
  | None => (reply not_found_handler, mkapp d lim)
  | Some (inl r) => (reply r, mkapp d lim)
  | Some (inr q) =>
      let '(r, d') :=
        run_handler (handle isoformat fromisoformat text_column py_str date_key hour_key now q) clock d in
      (reply r, mkapp d' lim)
  end.

(** One request arriving at [now], its view reading [clock]. *)
Definition app_step (rq : http_request) (now : Z) (clock : nat -> Z) (st : app_state)
  : http_response * app_state :=
  match dispatch (method rq) (path rq) with
  | NoRoute => (json_reply (origin rq) not_found_handler, st)
  | MethodNotAllowed =>
      (mkhttpresp 405 (BodyHtml "405 Method Not Allowed") (cors_headers (origin rq)), st)
  | Matched ep url_args =>
      let '(refused, lim) :=
        check_limits (app_limits st) (remote_addr rq) (endpoint_name ep) (route_limits ep) now in
      match refused with
      | Some _ => (mkhttpresp 429 too_many_requests (cors_headers (origin rq)), mkapp (app_db st) lim)
      | None => run_view ep url_args rq now clock (app_db st) lim
      end
  end.

(** A sequence of requests, each with its arrival time and clock. *)
Fixpoint app_run (st : app_state) (reqs : list (http_request * Z * (nat -> Z)))
  : list http_response * app_state :=
  match reqs with
  | [] => ([], st)
  | (rq, now, clock) :: reqs' =>
      let '(r, st1) := app_step rq now clock st in
      let '(rs, st2) := app_run st1 reqs' in (r :: rs, st2)
  end.

(** The states the application can reach from its start. *)
Inductive app_reachable : app_state -> Prop :=
| app_reachable_start : app_reachable app_start
| app_reachable_step st rq now clock :
    app_reachable st -> app_reachable (snd (app_step rq now clock st)).
End App.

(** ** Lemmas *)

Section Steps.
Context `{PasswordHasher} `{TokenIssuer} `{SqliteDriver} (isoformat : Z -> string)
  (fromisoformat : string -> option Z) (text_column : json -> pyres string)
  (py_str : json -> string) (date_key hour_key : Z -> string).

(** A request leaves the database alone, or runs one request of
    [Server.handle] on it. *)
Lemma app_step_db rq now clock st :
  app_db (snd (app_step isoformat fromisoformat text_column py_str date_key hour_key rq now clock st)) = app_db st \/
  exists q, app_db (snd (app_step isoformat fromisoformat text_column py_str date_key hour_key rq now clock st)) =
            snd (run_handler (handle isoformat fromisoformat text_column py_str date_key hour_key now q) clock (app_db st)).
Proof.
  unfold app_step. destruct (dispatch _ _) as [ep url_args| |]; [|now left|now left].
  destruct (check_limits _ _ _ _ _) as [[l|] lim]; [now left|]. unfold run_view.
  destruct (view_request ep url_args rq) as [[r|q]|]; [now left| |now left].
  right. exists q. now destruct (run_handler _ _ _).
Qed.

(** The limiter's storage after a request: untouched when no rule
    matches, else the check of the route's limits. *)
Lemma app_step_limits rq now clock st :
  app_limits (snd (app_step isoformat fromisoformat text_column py_str date_key hour_key rq now clock st)) =
  match dispatch (method rq) (path rq) with
  | Matched ep _ => snd (check_limits (app_limits st) (remote_addr rq) (endpoint_name ep) (route_limits ep) now)
  | _ => app_limits st
  end.
Proof.
  unfold app_step. destruct (dispatch _ _) as [ep url_args| |]; [|reflexivity|reflexivity].
  destruct (check_limits _ _ _ _ _) as [[l|] lim]; [reflexivity|]. unfold run_view.
  destruct (view_request ep url_args rq) as [[r|q]|]; [reflexivity| |reflexivity].
  now destruct (run_handler _ _ _).
Qed.

(** A request the limiter refuses is answered 429. *)
Lemma app_step_refused rq now clock st ep url_args l :
  dispatch (method rq) (path rq) = Matched ep url_args ->
  fst (check_limits (app_limits st) (remote_addr rq) (endpoint_name ep) (route_limits ep) now) = Some l ->
  hstatus (fst (app_step isoformat fromisoformat text_column py_str date_key hour_key rq now clock st)) = 429.
Proof.
  intros Hd Hc. unfold app_step. rewrite Hd.
  destruct (check_limits _ _ _ _ _) as [r lim]. simpl in Hc. now subst.
Qed.

(** A request the limiter lets through runs its view. *)
Lemma app_step_served rq now clock st ep url_args lim :
  dispatch (method rq) (path rq) = Matched ep url_args ->
  check_limits (app_limits st) (remote_addr rq) (endpoint_name ep) (route_limits ep) now = (None, lim) ->
  app_step isoformat fromisoformat text_column py_str date_key hour_key rq now clock st =
  run_view isoformat fromisoformat text_column py_str date_key hour_key ep url_args rq now clock (app_db st) lim.
Proof. intros Hd Hc. unfold app_step. now rewrite Hd, Hc. Qed.
End Steps.

(** The scope (endpoint name) of the route a request matches. *)
Definition scope_of (rq : http_request) : option string :=
  match dispatch (method rq) (path rq) with
  | Matched ep _ => Some (endpoint_name ep)
  | _ => None
  end.

(** The requests of [addr] to the route named [scope]. *)
Definition to_route (addr scope : string) (rq : http_request) : bool :=
  String.eqb (remote_addr rq) addr &&
  match scope_of rq with Some s => String.eqb s scope | None => false end.

Lemma endpoint_name_record_mood ep : endpoint_name ep = "record_mood" -> ep = ep_record_mood.
Proof. destruct ep; simpl; congruence. Qed.

Section Window.
Context `{PasswordHasher} `{TokenIssuer} `{SqliteDriver} (isoformat : Z -> string)
  (fromisoformat : string -> option Z) (text_column : json -> pyres string)
  (py_str : json -> string) (date_key hour_key : Z -> string) (addr : string) (t0 : Z).

Definition mood_limit : rate_limit := per_hour 10.

(** The [record_mood] requests of [addr], and those answered 429. *)
Definition mood_requests (reqs : list (http_request * Z * (nat -> Z))) : nat :=
  length (filter (fun r => to_route addr "record_mood" (fst (fst r))) reqs).

Definition mood_refused (reqs : list (http_request * Z * (nat -> Z))) (resps : list http_response) : nat :=
  length (filter (fun p => to_route addr "record_mood" (fst (fst (fst p))) && Z.eqb (hstatus (snd p)) 429)
            (combine reqs resps)).

Definition mood_in_window (r : http_request * Z * (nat -> Z)) : Prop :=
  to_route addr "record_mood" (fst (fst r)) = true -> t0 <= snd (fst r) < t0 + usec_per_hour.

(** A request other than a [record_mood] of [addr] leaves its counter
    alone. *)
Lemma app_step_other_window rq now clock st a :
  to_route addr "record_mood" rq = false ->
  window_inv addr "record_mood" mood_limit t0 (app_limits st) a ->
  window_inv addr "record_mood" mood_limit t0
    (app_limits (snd (app_step isoformat fromisoformat text_column py_str date_key hour_key rq now clock st))) a.
Proof.
  intros Hr Hinv. rewrite app_step_limits. unfold to_route, scope_of in Hr.
  destruct (dispatch (method rq) (path rq)) as [ep url_args| |]; try exact Hinv.
  apply check_other_window; [|exact Hinv].
  destruct (String.eqb_spec (remote_addr rq) addr) as [Ea|Ea]; [right|now left].
  simpl in Hr. now apply String.eqb_neq.
Qed.

(** Through a sequence of requests from a state where the invariant
    holds with [a] requests let through. *)
Lemma app_run_window reqs st a :
  window_inv addr "record_mood" mood_limit t0 (app_limits st) a -> Forall mood_in_window reqs ->
  (Z.of_nat (mood_requests reqs) + a <=
   10 + Z.of_nat (mood_refused reqs (fst (app_run isoformat fromisoformat text_column py_str date_key hour_key st reqs))))%Z.
Proof.
  revert st a. induction reqs as [|[[rq now] clock] reqs IH]; intros st a Hinv Hw.
  - apply window_inv_bound in Hinv; [|unfold mood_limit, per_hour; simpl; lia].
    unfold mood_requests, mood_refused. simpl. unfold mood_limit in Hinv. simpl in Hinv. lia.
  - inversion Hw as [|? ? Hr Hw']; subst. unfold mood_requests, mood_refused in *. simpl.
    destruct (to_route addr "record_mood" rq) eqn:Er.
    + specialize (Hr Er). simpl in Hr. pose proof Er as Er'. unfold to_route, scope_of in Er.
      destruct (dispatch (method rq) (path rq)) as [ep url_args| |] eqn:Ed; [|now rewrite andb_false_r in Er..].
      apply andb_prop in Er as [Ea Es]. apply String.eqb_eq in Ea, Es. apply endpoint_name_record_mood in Es. subst ep.
      pose proof (check_limits_window addr "record_mood" mood_limit t0 ltac:(unfold mood_limit, per_hour; simpl; lia) (app_limits st) a now
                    [per_hour 10] Hr Hinv) as Hc.
      pose proof (app_step_limits isoformat fromisoformat text_column py_str date_key hour_key rq now clock st) as El.
      rewrite Ed in El. cbn [route_limits endpoint_name] in El. rewrite Ea in El.
      destruct (check_limits (app_limits st) addr "record_mood" [per_hour 10] now) as [[l|] lim] eqn:Ec;
        simpl in Hc; destruct Hc as [Hc1 Hc2].
      * pose proof (app_step_refused isoformat fromisoformat text_column py_str date_key hour_key rq now clock st
                      ep_record_mood url_args l Ed) as H429.
        cbn [route_limits endpoint_name] in H429. rewrite Ea, Ec in H429. specialize (H429 eq_refl).
        destruct (app_step _ _ _ _ _ _ _ _ _ _) as [r st1] eqn:Es. simpl in El, H429. subst lim.
        pose proof (IH st1 a Hc1 Hw') as IHa.
        destruct (app_run _ _ _ _ _ _ _ _) as [rs st2]. cbn [fst] in IHa. simpl.
        rewrite Er'. simpl. rewrite H429. simpl.
        rewrite Nat2Z.inj_succ. lia.
      * specialize (Hc2 eq_refl ltac:(now left)).
        destruct (app_step _ _ _ _ _ _ _ _ _ _) as [r st1] eqn:Es. simpl in El. subst lim.
        pose proof (IH st1 (a + 1) Hc2 Hw') as IHa.
        destruct (app_run _ _ _ _ _ _ _ _) as [rs st2]. cbn [fst] in IHa. simpl.
        rewrite Er'. simpl.
        destruct (Z.eqb (hstatus r) 429); simpl; rewrite ?Nat2Z.inj_succ; lia.
    + pose proof (app_step_other_window rq now clock st a Er Hinv) as Hc1.
      destruct (app_step _ _ _ _ _ _ _ _ _ _) as [r st1] eqn:Es. simpl in Hc1.
      pose proof (IH st1 a Hc1 Hw') as IHa.
      destruct (app_run _ _ _ _ _ _ _ _) as [rs st2]. cbn [fst] in IHa. simpl. rewrite Er. exact IHa.
Qed.
End Window.

(** ** Clients *)

(** The method and URL a client sends for a request of a protected route,
    as [url_for] builds it. *)
Definition url_for (r : protected_request) : http_method * string :=
  match r with
  | GetUser => (GET, "/api/user")
  | GetSubjects => (GET, "/api/subjects")
  | AddSubject _ => (POST, "/api/subjects")
  | UpdateSubject sid _ => (PUT, "/api/subjects/" ++ str_of_Z sid)
  | DeleteSubject sid => (DELETE, "/api/subjects/" ++ str_of_Z sid)
  | GetGamification => (GET, "/api/gamification")
  | AddXp _ => (POST, "/api/gamification/xp")
  | UpdateStreak => (POST, "/api/gamification/streak")
  | AwardBadge _ => (POST, "/api/gamification/badges")
  | SetMode _ => (POST, "/api/gamification/mode")
  | GetSessions => (GET, "/api/sessions")
  | RecordSession _ => (POST, "/api/sessions")
  | GetReflections => (GET, "/api/reflections")
  | RecordReflection _ => (POST, "/api/reflections")
  | GetAnalyticsSummary => (GET, "/api/analytics/summary")
  | GetStudyHeatmap => (GET, "/api/analytics/heatmap")
  | RecordMood _ => (POST, "/api/v1/moods")
  | GetMoods _ => (GET, "/api/v1/moods")
  | GetFailureAnalytics _ => (GET, "/api/v1/analytics/failure")
  | GenerateWeeklyPlan => (POST, "/api/v1/planner/generate")
  | GetSyncStatus => (GET, "/api/v1/sync/status")
  end.

Definition request_body (r : protected_request) : json :=
  match r with
  | AddSubject data | UpdateSubject _ data | AddXp data | AwardBadge data | SetMode data
  | RecordSession data | RecordReflection data | RecordMood data => data
  | _ => JNull
  end.

Definition request_args (r : protected_request) : query :=
  match r with GetMoods a | GetFailureAnalytics a => a | _ => [] end.

(** The HTTP request of a client holding [token]. *)
Definition client_request (r : protected_request) (token addr : string) (o : option string) : http_request :=
  mkhttp (fst (url_for r)) (snd (url_for r)) addr (Some ("Bearer " ++ token)) o
    (request_body r) (request_args r) "".

Lemma py_split_word l cur :
  Forall (fun c => is_space c = false) l -> (l <> [] \/ cur <> []) ->
  py_split_aux l cur = [string_of_list_ascii (rev cur ++ l)].
Proof.
  revert cur. induction l as [|c l IH]; intros cur Hl Hne; simpl.
  - destruct cur as [|c cur]; [now destruct Hne|]. now rewrite app_nil_r.
  - inversion Hl as [|? ? Hc Hl']; subst. rewrite Hc, IH by (auto; right; discriminate).
    simpl. now rewrite <- app_assoc.
Qed.

(** [Authorization: Bearer <token>] gives the token back. *)
Lemma bearer_token_header token :
  token <> "" -> Forall (fun c => is_space c = false) (list_ascii_of_string token) ->
  bearer_token (Some ("Bearer " ++ token)) = inr token.
Proof.
  intros Hne Hs. unfold bearer_token, py_split. simpl.
  rewrite py_split_word; [|exact Hs|left; destruct token; [contradiction|discriminate]].
  simpl. now rewrite string_of_list_ascii_of_string.
Qed.

Lemma split_slash_word s :
  Forall (fun c => Ascii.eqb c "/" = false) (list_ascii_of_string s) -> split_slash s = [s].
Proof.
  induction s as [|c s IH]; intros Hs; [reflexivity|]. inversion Hs as [|? ? Hc Hs']; subst.
  simpl. now rewrite Hc, IH.
Qed.

Lemma numeral_digits n :
  0 <= n -> Forall (fun c => is_digit c = true) (list_ascii_of_string (str_of_Z n)).
Proof.
  intros Hn. rewrite str_of_Z_wf. unfold str_wf.
  replace (Z.ltb n 0) with false by (symmetry; apply Z.ltb_ge; lia).
  rewrite numeral_chars by exact Hn. apply digit_list_digits.
Qed.

(** The [<int:subject_id>] converter reads back what [str] printed. *)
Lemma url_int_str_of_Z n : 0 <= n -> url_int (str_of_Z n) = Some n.
Proof.
  intros Hn. unfold url_int. pose proof (numeral_digits n Hn) as Hd.
  rewrite str_of_Z_wf in *. unfold str_wf in *.
  replace (Z.ltb n 0) with false in * by (symmetry; apply Z.ltb_ge; lia).
  rewrite numeral_chars in * by exact Hn. destruct (digit_list_cons n) as (c & l & E). rewrite E.
  replace (forallb is_digit (c :: l)) with true.
  - rewrite <- E. now rewrite digit_list_value.
  - symmetry. apply forallb_forall. intros x Hx. rewrite <- E in Hx.
    rewrite Forall_forall in Hd. now apply Hd.
Qed.

Lemma subject_url_parts n :
  0 <= n -> path_parts ("/api/subjects/" ++ str_of_Z n) = Some ["api"; "subjects"; str_of_Z n].
Proof.
  intros Hn. pose proof (numeral_digits n Hn) as Hd. remember (str_of_Z n) as s eqn:Es.
  simpl. rewrite split_slash_word; [reflexivity|].
  eapply Forall_impl; [|exact Hd]. intros c Hc. apply Ascii.eqb_neq. intros ->. discriminate.
Qed.

(** The requests a matched route hands to [Server.handle]. *)
Lemma view_request_cases ep url_args rq q :
  view_request ep url_args rq = Some (inr q) ->
  (ep = ep_register /\ q = Register (salt rq) (json_body rq)) \/
  (ep = ep_login /\ q = Login (json_body rq)) \/
  (ep = ep_api_info /\ q = ApiInfo) \/
  exists token r, bearer_token (authorization rq) = inr token /\ q = Protected token r.
Proof.
  destruct ep; unfold view_request; intros Hv; try (injection Hv as <-; tauto);
    (destruct (protected_of _ url_args rq) as [r|]; [|discriminate]); simpl in Hv;
    (destruct (bearer_token (authorization rq)) as [reply|token]; [discriminate|]);
    injection Hv as <-; right; right; right; eauto.
Qed.

(** Each route's limits are distinct and allow at least one request. *)
Lemma route_limits_ok ep :
  NoDup (route_limits ep) /\ Forall (fun l => 1 <= amount l) (route_limits ep).
Proof.
  destruct ep; simpl; (split; [repeat constructor; simpl; intuition discriminate | repeat constructor; simpl; lia]).
Qed.

(** ** Claims *)

Section Claims.
Context `{PasswordHasher} `{TokenIssuer} `{SqliteDriver} (isoformat : Z -> string)
  (fromisoformat : string -> option Z) (text_column : json -> pyres string)
  (py_str : json -> string) (date_key hour_key : Z -> string).

(** The HTTP application refines the server: every database the
    application can reach (through the URL map, the limiter, the JWT
    check and the views, from an empty database and storage) is one
    [Server.handle] can reach, so it satisfies [server_inv]. *)
Lemma app_refines_server st :
  app_reachable isoformat fromisoformat text_column py_str date_key hour_key st ->
  reachable isoformat fromisoformat text_column py_str date_key hour_key (app_db st) /\ server_inv (app_db st).
Proof.
  intros Hr. assert (Hs : reachable isoformat fromisoformat text_column py_str date_key hour_key (app_db st)).
  { induction Hr as [|st rq now clock Hr IH]; [constructor|].
    destruct (app_step_db isoformat fromisoformat text_column py_str date_key hour_key rq now clock st)
      as [E|(q & E)]; rewrite E; [exact IH | now constructor]. }
  split; [exact Hs | now apply reachable_inv in Hs].
Qed.

(** C11: Only a request that matches a route, passes the rate limiter
    and is a registration or carries an [Authorization: Bearer] token
    that decodes at its arrival can change the database: a request that
    matches no route, is refused by the limiter (429), has no or a
    malformed header, or carries an expired or invalid token, writes
    nothing. *)
Theorem writes_need_token rq now clock st :
  app_db (snd (app_step isoformat fromisoformat text_column py_str date_key hour_key rq now clock st)) <> app_db st ->
  exists ep url_args,
    dispatch (method rq) (path rq) = Matched ep url_args /\
    fst (check_limits (app_limits st) (remote_addr rq) (endpoint_name ep) (route_limits ep) now) = None /\
    (ep = ep_register \/
     exists token identity, bearer_token (authorization rq) = inr token /\ decode_token token now = inr identity).
Proof.
  unfold app_step. destruct (dispatch _ _) as [ep url_args| |] eqn:Ed; [|tauto|tauto].
  destruct (check_limits _ _ _ _ _) as [[l|] lim] eqn:Ec; [simpl; tauto|]. unfold run_view. intros Hw.
  exists ep, url_args. split; [reflexivity|]. split; [now rewrite Ec|].
  destruct (view_request ep url_args rq) as [[reply|q]|] eqn:Ev; [simpl in Hw; tauto| |simpl in Hw; tauto].
  rewrite (surjective_pairing (run_handler _ _ _)) in Hw. simpl in Hw.
  destruct (view_request_cases ep url_args rq q Ev) as [[-> ->]|[[-> ->]|[[-> ->]|(token & r & Eb & ->)]]].
  - now left.
  - exfalso. apply Hw, run_handler_reads_only, login_reads_only.
  - exfalso. apply Hw, run_handler_reads_only, api_info_reads_only.
  - right. unfold handle in Hw. rewrite run_with_token in Hw. destruct (decode_token token now) as [reply|identity] eqn:Et; [tauto|].
    now exists token, identity.
Qed.

(** C12: A client holding a token reaches the view it means: the request
    [url_for] and an [Authorization: Bearer <token>] header build for any
    protected request (with a non-negative subject id, as the
    [<int:subject_id>] converter takes only digits) matches its route,
    and [@jwt_required()] hands [Server.handle] that very request with
    that token. *)
Theorem client_request_roundtrip r token addr o :
  token <> "" -> Forall (fun c => is_space c = false) (list_ascii_of_string token) ->
  (forall sid data, r = UpdateSubject sid data \/ r = DeleteSubject sid -> 0 <= sid) ->
  exists ep url_args,
    dispatch (method (client_request r token addr o)) (path (client_request r token addr o)) = Matched ep url_args /\
    view_request ep url_args (client_request r token addr o) = Some (inr (Protected token r)).
Proof.
  intros Hne Hs Hsid. unfold view_request.
  destruct r; try (eexists _, _; split; [reflexivity|]; simpl; now rewrite bearer_token_header).
  - assert (Hn : 0 <= subject_id) by (eapply Hsid; left; reflexivity).
    exists ep_update_subject, [subject_id]. unfold dispatch. cbn [client_request url_for fst snd method path].
    rewrite subject_url_parts by exact Hn. simpl. rewrite url_int_str_of_Z by exact Hn.
    split; [reflexivity|]. simpl. now rewrite bearer_token_header.
  - assert (Hn : 0 <= subject_id) by (eapply (Hsid _ JNull); right; reflexivity).
    exists ep_delete_subject, [subject_id]. unfold dispatch. cbn [client_request url_for fst snd method path].
    rewrite subject_url_parts by exact Hn. simpl. rewrite url_int_str_of_Z by exact Hn.
    split; [reflexivity|]. simpl. now rewrite bearer_token_header.
Qed.


(** C24: No client is locked out for good: for any state of the
    application and any request that matches a route, there is a time
    from which that request, whenever it arrives, passes the limiter and
    runs its view (the [@jwt_required()] check and the view function). *)
Theorem served_eventually st rq ep url_args :
  dispatch (method rq) (path rq) = Matched ep url_args ->
  exists T, forall now clock, T <= now ->
    exists lim, app_step isoformat fromisoformat text_column py_str date_key hour_key rq now clock st =
                run_view isoformat fromisoformat text_column py_str date_key hour_key ep url_args rq now clock
                  (app_db st) lim.
Proof.
  intros Hd. exists (horizon (app_limits st)). intros now clock Hnow.
  destruct (route_limits_ok ep) as [Hnd Ham].
  pose proof (check_limits_fresh (app_limits st) (remote_addr rq) (endpoint_name ep) (route_limits ep) now
                (fun l _ => live_after_horizon _ _ _ Hnow) Hnd Ham) as Hc.
  destruct (check_limits _ _ _ _ _) as [r lim] eqn:Ec. simpl in Hc. subst r.
  exists lim. now apply app_step_served.
Qed.
End Claims.
