(* ===== verification/ServerScenarios.v ===== *)
(** The whole application on a concrete run: from the empty database,
    Bob registers, records a session and earns xp; the theorems of
    [Server] applied to the database this leaves. *)

From Stdlib Require Import String ZArith Lia Bool List.
From S2P Require Import Prelude PyRuntime Models Store Gamification Sessions Analytics Auth Instances Server Width.
Import ListNotations.
Local Open Scope Z_scope.
Local Open Scope string_scope.

Definition iso : Z -> string := fun _ => "".
Definition parse_iso : string -> option Z := fun _ => Some 0.
Definition text : json -> pyres string :=
  fun v => match v with JStr s => Ok s | _ => Raise (TypeError "unsupported type") end.
Definition show : json -> string := fun _ => "".
Definition clock_at (t : Z) : nat -> Z := fun _ => t.
Definition date_text : Z -> string := fun _ => "2024-10-04".
Definition hour_text : Z -> string := fun _ => "09".

Definition run (q : request) (t : Z) (d : db) : db :=
  snd (run_handler (handle iso parse_iso text show date_text hour_text t q) (clock_at t) d).

Definition bob_email : string := "bob@example.com".

Definition after_register : db :=
  run (Register "salt" (JObj [("name", JStr "Bob"); ("email", JStr bob_email); ("password", JStr "pw")]))
    10 empty_db.

Definition after_session : db :=
  run (Protected (create_access_token bob_email 10) (RecordSession (JObj [("duration_minutes", JInt 40)]))) 20 after_register.

Definition after_xp : db :=
  run (Protected (create_access_token bob_email 10) (AddXp (JObj [("xp", JInt 120)]))) 30 after_session.

Definition bob : User.t := User.mk 1 "Bob" bob_email "pw" 10.

Lemma after_xp_reachable : reachable iso parse_iso text show date_text hour_text after_xp.
Proof. repeat constructor. Qed.

(** After the run Bob has 40 minutes and level 2; each of the two
    requests that changed his row stamped [updated_at], the last at 30. *)
Example run_rows :
  gamifications after_session = [Gamification.mk 1 1 0 1 0 40 None [] "normal" 20] /\
  gamifications after_xp = [Gamification.mk 1 1 120 2 0 40 None [] "normal" 30].
Proof. split; vm_compute; reflexivity. Qed.

Lemma reachable_server_inv_witness :
  reachable iso parse_iso text show date_text hour_text after_xp /\ server_inv after_xp.
Proof. exact (conj after_xp_reachable (reachable_server_inv iso parse_iso text show date_text hour_text after_xp after_xp_reachable)). Defined.

Lemma study_minutes_agree_witness :
  reachable iso parse_iso text show date_text hour_text after_xp /\ user_by_email after_xp bob_email = Some bob /\
  exists g, gamification_of after_xp bob = Some g /\
    Gamification.total_minutes_studied g = minutes_of after_xp (User.id bob) /\
    heat_sum (build_heatmap date_text hour_text (sessions_of after_xp (User.id bob))) =
      Gamification.total_minutes_studied g /\
    (forall clock kvs, fst (run_handler (get_analytics_summary bob_email) clock after_xp) = mkresp (JObj kvs) 200 ->
       dict_lookup kvs "total_study_minutes" = Some (JInt (Gamification.total_minutes_studied g))).
Proof.
  assert (Hu : user_by_email after_xp bob_email = Some bob) by (vm_compute; reflexivity).
  exact (conj after_xp_reachable (conj Hu
    (study_minutes_agree iso parse_iso text show date_text hour_text after_xp bob_email bob after_xp_reachable Hu))).
Defined.

Lemma registered_user_reaches_level_witness :
  reachable iso parse_iso text show date_text hour_text after_xp /\ user_by_email after_xp bob_email = Some bob /\
  in_int64 (100 * (5 - 1)) = true /\
  eventually iso parse_iso text show date_text hour_text
    (fun d' => exists g, gamification_of d' bob = Some g /\ Gamification.level g = 5) after_xp.
Proof.
  assert (Hu : user_by_email after_xp bob_email = Some bob) by (vm_compute; reflexivity).
  assert (HL : in_int64 (100 * (5 - 1)) = true) by reflexivity.
  exact (conj after_xp_reachable (conj Hu (conj HL
    (registered_user_reaches_level iso parse_iso text show date_text hour_text after_xp bob_email bob 5
       after_xp_reachable Hu HL)))).
Defined.

Lemma reachable_ints_bounded_witness :
  reachable iso parse_iso text show date_text hour_text after_xp /\
  db_ints after_xp /\ Forall (fun g => Gamification.level g <= int64_max / 100 + 1) (gamifications after_xp).
Proof.
  exact (conj after_xp_reachable
    (reachable_ints_bounded iso parse_iso text show date_text hour_text after_xp after_xp_reachable)).
Defined.
