(* ===== verification/HttpScenarios.v ===== *)
(** The HTTP front on concrete requests: routing, the error pages, token
    expiry, the [record_mood] limit across a window boundary, and the
    theorems of [Http] and [Server] applied to concrete runs. *)

From Stdlib Require Import String Ascii ZArith Lia Bool List.
From S2P Require Import Prelude PyRuntime Numerals Models Store Gamification Auth Instances Server RateLimit Http ServerScenarios.
Import ListNotations.
Local Open Scope Z_scope.
Local Open Scope string_scope.

Definition step (rq : http_request) (now : Z) (st : app_state) : http_response * app_state :=
  app_step iso parse_iso text show date_text hour_text rq now (clock_at now) st.

Definition second : Z := 1000000.

Definition get (p : string) (auth : option string) : http_request :=
  mkhttp GET p "10.0.0.1" auth None JNull [] "".

Definition registration_request : http_request :=
  mkhttp POST "/api/register" "10.0.0.1" None (Some "https://planner.example")
    (JObj [("name", JStr "Bob"); ("email", JStr bob_email); ("password", JStr "pw")]) [] "salt".

Definition registered_state : app_state := snd (step registration_request 10 app_start).

(** A path no rule matches: the [not_found] handler's JSON, nothing
    stored. *)
Example unknown_endpoint :
  step (get "/api/unknown" None) 10 app_start =
  (mkhttpresp 404 (BodyJson (JObj [("error", JStr "Endpoint not found")]))
     [("Access-Control-Allow-Origin", "*")], app_start).
Proof. vm_compute. reflexivity. Qed.

(** A route under another method: werkzeug's HTML 405 page. *)
Example wrong_method :
  fst (step (mkhttp DELETE "/api/register" "10.0.0.1" None None JNull [] "") 10 app_start) =
  mkhttpresp 405 (BodyHtml "405 Method Not Allowed") [("Access-Control-Allow-Origin", "*")].
Proof. vm_compute. reflexivity. Qed.

(** Registering echoes the request's [Origin] in the CORS headers. *)
Example register_cors :
  headers (fst (step registration_request 10 app_start)) =
  [("Access-Control-Allow-Origin", "https://planner.example"); ("Vary", "Origin")].
Proof. vm_compute. reflexivity. Qed.

(** A subject id that is not a run of digits matches no rule. *)
Example negative_subject_id :
  hstatus (fst (step (mkhttp DELETE "/api/subjects/-1" "10.0.0.1" None None JNull [] "") 10 app_start)) = 404.
Proof. vm_compute. reflexivity. Qed.

(** Without an [Authorization] header: 401 from [@jwt_required()]. *)
Example missing_header :
  fst (step (get "/api/user" None) 20 registered_state) =
  mkhttpresp 401 (BodyJson (JObj [("msg", JStr "Missing Authorization Header")]))
    [("Access-Control-Allow-Origin", "*")].
Proof. vm_compute. reflexivity. Qed.

(** The registration token still works 29 days later, and is refused
    after 30. *)
Example token_expiry :
  hstatus (fst (step (get "/api/user" (Some ("Bearer " ++ create_access_token bob_email 10)))
                  (10 + 29 * usec_per_day) registered_state)) = 200 /\
  fst (step (get "/api/user" (Some ("Bearer " ++ create_access_token bob_email 10)))
         (10 + 30 * usec_per_day) registered_state) =
  mkhttpresp 401 (BodyJson (JObj [("msg", JStr "Token has expired")])) [("Access-Control-Allow-Origin", "*")].
Proof. split; vm_compute; reflexivity. Qed.

(** [POST /api/v1/moods] from one address with Bob's token. *)
Definition mood_post (now : Z) : http_request * Z * (nat -> Z) :=
  (mkhttp POST "/api/v1/moods" "10.0.0.1" (Some ("Bearer " ++ create_access_token bob_email 10)) None
     (JObj [("mood", JStr "tired")]) [] "", now, clock_at now).

Definition moods_run (times : list Z) : list http_response * app_state :=
  app_run iso parse_iso text show date_text hour_text registered_state (map mood_post times).

(** One mood at [t = 20], nine just before the window it opened closes,
    ten right after: nineteen requests in two seconds all get through,
    as the fixed window restarts its count at [20 + 1 hour]. *)
Definition burst : list Z :=
  20 :: repeat (20 + usec_per_hour - second) 9 ++ repeat (20 + usec_per_hour + second) 10.

Example moods_burst :
  mood_requests "10.0.0.1" (map mood_post burst) = 20%nat /\
  mood_refused "10.0.0.1" (map mood_post burst) (fst (moods_run burst)) = 0%nat.
Proof. split; vm_compute; reflexivity. Qed.

(** Twelve moods within one window: the last two are answered 429. *)
Example moods_limited :
  map hstatus (fst (moods_run (map (fun k => 20 + k * second) (map Z.of_nat (seq 0 12))))) =
  [201; 201; 201; 201; 201; 201; 201; 201; 201; 201; 429; 429].
Proof. vm_compute. reflexivity. Qed.

(** ** The theorems on these runs *)

Lemma registered_state_reachable : app_reachable iso parse_iso text show date_text hour_text registered_state.
Proof.
  exact (app_reachable_step iso parse_iso text show date_text hour_text app_start registration_request 10
           (clock_at 10) (app_reachable_start _ _ _ _ _ _)).
Qed.

Lemma writes_need_token_witness :
  app_db (snd (step registration_request 10 app_start)) <> app_db app_start /\
  exists ep url_args,
    dispatch (method registration_request) (path registration_request) = Matched ep url_args /\
    fst (check_limits (app_limits app_start) (remote_addr registration_request) (endpoint_name ep)
           (route_limits ep) 10) = None /\
    (ep = ep_register \/
     exists token identity, bearer_token (authorization registration_request) = inr token /\
                            decode_token token 10 = inr identity).
Proof.
  assert (Hw : app_db (snd (step registration_request 10 app_start)) <> app_db app_start)
    by (vm_compute; discriminate).
  exact (conj Hw (writes_need_token iso parse_iso text show date_text hour_text registration_request 10
                    (clock_at 10) app_start Hw)).
Defined.

Definition edit_subject : protected_request := UpdateSubject 7 (JObj [("name", JStr "Algebra")]).

Lemma client_request_roundtrip_witness :
  "tok" <> "" /\ Forall (fun c => is_space c = false) (list_ascii_of_string "tok") /\
  (forall sid data, edit_subject = UpdateSubject sid data \/ edit_subject = DeleteSubject sid -> 0 <= sid) /\
  exists ep url_args,
    dispatch (method (client_request edit_subject "tok" "10.0.0.1" None))
      (path (client_request edit_subject "tok" "10.0.0.1" None)) = Matched ep url_args /\
    view_request ep url_args (client_request edit_subject "tok" "10.0.0.1" None) =
    Some (inr (Protected "tok" edit_subject)).
Proof.
  assert (Hne : "tok" <> "") by discriminate.
  assert (Hs : Forall (fun c => is_space c = false) (list_ascii_of_string "tok")) by repeat constructor.
  assert (Hid : forall sid data, edit_subject = UpdateSubject sid data \/ edit_subject = DeleteSubject sid -> 0 <= sid)
    by (intros sid data [E|E]; inversion E; lia).
  exact (conj Hne (conj Hs (conj Hid (client_request_roundtrip edit_subject "tok" "10.0.0.1" None Hne Hs Hid)))).
Defined.

Definition twelve : list Z := map (fun k => 20 + k * second) (map Z.of_nat (seq 0 12)).


Lemma served_eventually_witness :
  dispatch (method (get "/api/user" None)) (path (get "/api/user" None)) = Matched ep_get_user [] /\
  exists T, forall now clock, T <= now ->
    exists lim, app_step iso parse_iso text show date_text hour_text (get "/api/user" None) now clock registered_state =
                run_view iso parse_iso text show date_text hour_text ep_get_user [] (get "/api/user" None) now clock
                  (app_db registered_state) lim.
Proof.
  assert (Hd : dispatch (method (get "/api/user" None)) (path (get "/api/user" None)) = Matched ep_get_user [])
    by reflexivity.
  exact (conj Hd (served_eventually iso parse_iso text show date_text hour_text registered_state
                    (get "/api/user" None) ep_get_user [] Hd)).
Defined.
